(* ===== verification/_CoqProject ===== *)
-Q . S2P
Prelude.v
PyStr.v
GObj.v
MainLoop.v
Rows.v
Filter.v
Modifier.v
Selection.v
Reconcile.v
Packages.v
PyRe.v
Services.v
Repositories.v
Views.v
Async.v
ProcTimer.v
Helpers.v
Icons.v
ProcActions.v
Backups.v
Resources.v
Storage.v
App.v
Activation.v
