(* ===== verification/Prelude.v ===== *)
(** * System Manager: a verification development of
      draftysumo/System-Manager-WIP

    ** The program

    The repository is a GTK 4 desktop console (src/main.py, src/app.py,
    src/pages/*.py, src/utils/*.py) with one page per kind of host state.
    Every page keeps a [Gtk.ListStore], fills it from a command or a
    library ([psutil], [dpkg-query], [apt], [systemctl], [flatpak], the
    files of [/etc/apt]) and runs privileged commands through [pkexec].

    - The process page (src/pages/processes.py, [ProcessesPage]): a
      twelve-column store whose column 0 is a check box, a
      [Gtk.TreeModelFilter] driven by the search entry
      ([proc_visible_func]), a two-second timer that reconciles the store
      with a fresh [psutil] sample in place ([refresh_process_list]), the
      toggle and shift-click handlers that check single rows and ranges,
      and the kill, force-kill, suspend and resume buttons.
    - The package page (src/pages/packages.py, [PackagesPage]): the same
      selection machinery over a six-column store refilled from
      [dpkg-query] or [apt list --upgradable], a status bar, and the apt
      actions, confirmed in the dialog of src/utils/apt.py and run by
      src/utils/async_ops.py.
    - The services page (src/pages/services.py): [systemctl list-units]
      output in a store, and [pkexec systemctl ACTION UNIT] on the
      selected row.
    - The repositories page (src/pages/repositories.py): the APT sources
      read from [/etc/apt], the Flatpak remotes, and
      [pkexec flatpak remote-delete].
    - The resources page (src/pages/resources.py): a one-second timer
      appends the CPU, per-core, RAM, root-disk and network readings of
      [psutil] to per-metric histories trimmed to 120 values, relabels
      the summary cards and redraws the line charts.
    - The backups page (src/pages/backups.py): [rsync -a] of a source
      directory into a timestamped directory of a destination, the list
      of those directories (time and [du -sh] size), rename and delete.
    - The storage page (src/pages/storage.py): each time its tab is shown
      a thread checks with [pgrep] whether the disk analyzer runs and
      starts it if not, reporting through GLib idle callbacks.
    - The application object (src/app.py, [SystemManager]) builds the
      sidebar and the page stack, and owns the only
      state two pages share: the shift-key flags written by the window's
      key handlers and read by both click handlers.
    - Helpers: [human_readable_size] (src/utils/helpers.py) for the
      process I/O columns, and the desktop icon map (src/utils/icons.py)
      for the process icons.

    Each page owns its store, its anchor and suppression flag (the two
    selectable pages), its status label and its dialogs; the pages
    interact only through the shift state of [Modifier].

    ** The library (in dependency order, as _CoqProject lists it)

    - [Prelude]: this header, [range(a, b)] as [a ..< b] in [sm_scope],
      the development's tactics ([invc], [case_if], [sm_simpl],
      [vm_decide]), the hint databases [sm] and [sm_rw], and the generic
      lemmas on lists, [alter], index ranges and options.
    - [PyStr]: the Python string built-ins the code calls: [str.lower],
      [in], [startswith], [endswith], [split] (with a separator, on
      whitespace, with [maxsplit]), [splitlines], text-mode file lines,
      [strip], [int()], [str()] of integers, [capitalize].
    - [GObj]: what PyGObject and GTK do with the stores and tree views:
      the GTypes of [Gtk.ListStore] columns, the conversion of Python
      values when a row is written (with the [OverflowError] of a 32-bit
      [int] column), [Gtk.TreeViewColumn]'s attribute bindings (dropped
      when the renderer has no such property), GLib's value transforms,
      and which models sort on a header click.
    - [MainLoop]: the GLib main loop as explicit state: a clock, idle
      and timeout sources with their priorities, one
      [g_main_context_iteration], and the removal of callbacks that
      return a false value; a Section over the client's callbacks.
    - [Rows]: the typeclasses [Selectable] and [Identified] (what a row
      type promises to the selection controller and to the reconciler)
      and the row types [ProcRow] and [PkgRow] with their instances; the
      equivalence "same rows up to the check boxes" with its [PreOrder]
      instances.
    - [Filter]: the search predicates and the filtered view of a store as
      the list of store indices it shows.
    - [Modifier]: [ShiftState], the key handlers of app.py as a step
      relation, and the [is_shift] test of the click handlers.
    - [Selection]: the selection controller, a Section over any
      [Selectable] row type and visibility predicate ([on_toggled],
      [on_tree_click], the range loop [range_set]), instantiated as the
      four handlers of the two pages.
    - [Reconcile]: [refresh_process_list] and the abstract record-store
      contract it refines.
    - [Packages]: [refresh_packages], [show_upgradeable_packages], the
      selection actions, the install dialog (and how its buttons and
      Enter answer it) and the apt confirmation.
    - [PyRe]: a backtracking matcher for the part of Python's [re] the
      code uses (classes, greedy and lazy stars, groups).
    - [Services]: the services page as a step function over its events.
    - [Repositories]: the repositories page as a step function over its
      events, with the two [re.match] patterns of [_parse_apt_line].
    - [Views]: the store declarations and tree-view columns of the
      process, package, service and repository pages, and the lists of
      values their rows are written as.
    - [Async]: [run_async_cmd] as a thread that attaches its callback to
      the main loop, and [AptWorld], which composes the package page, the
      modal dialog of [run_apt_command], the main loop and the runner
      threads.
    - [ProcTimer]: the process page's two-second timer on the main loop,
      composed with [Reconcile], and [refresh_process_list] with its
      exception path ([refresh_checked]): a store write of a value
      outside [gint] raises [OverflowError] after the columns before it
      are written, and the exception removes the timer.
    - [Helpers]: [human_readable_size], with [float()] and [.2f]
      rounding modelled exactly.
    - [Icons]: [build_desktop_icon_map] and [icon_for_process].
    - [ProcActions]: the per-process sample built from [psutil]'s info,
      and the kill and signal actions.
    - [Backups]: the backups page: [os.path.expanduser], [os.path.join],
      [time.strftime] and [time.strptime] (the regular expression of
      CPython's [_strptime], run by [PyRe]) for the formats the page
      uses, and its handlers over a [BackupsState] record, with the file
      system, the clock and the outcome of each command as inputs; the
      folder chooser's start folder and the labels of the rename and
      delete dialogs.
    - [Resources]: the resources page: its state record, [update_resources]
      with the readings of one tick as input, the timer as a reachability
      relation over (state, timer kept), and the geometry of the charts.
    - [Storage]: the storage page with its idle queue and its launcher
      threads as explicit atomic steps; [storage_reachable] is every
      interleaving, [serial_reachable] the schedules without overlap.
    - [App]: the sidebar buttons ui/sidebar.py builds
      ([create_sidebar_button], [sidebar_widgets]), whose clicked handler
      shows its page, the stack and [AppState], which composes the visible
      page, the storage page (shown pages are mapped) and the shift state
      of [Modifier].
    - [Activation]: [on_activate] as the main loop it leaves (the idle
      loaders and timers the page constructors attach, in page order,
      [activation_loop]) and [app.run] in main.py iterating it with the
      pages' own callbacks ([activation_run]): [update_resources] of
      [Resources] and [refresh_process_list] of [ProcTimer], over the two
      pages' states.

    ** What the theorems show

    - Reconciler ([Reconcile]): a refresh keeps the check box of every
      process still present; on distinct pids it refines the spec's
      upsert-then-evict contract; the resulting pid order is "old pids
      still sampled, in old order, then new pids in sample order"; a
      sample repeating a new pid yields two rows.
    - Selection ([Selection], [Modifier], [Filter]): a shift-click paints
      exactly the store interval between anchor and target (hidden rows
      included) with the anchor row's value; a toggle flips one row; the
      toggle GTK delivers after a handled shift-click is swallowed; the
      handlers change only column 0; a repeated shift-click changes
      nothing more; on every reachable key state [is_shift] is
      [shift_pressed], so the 0.6 s grace window is dead and a click
      after the key-up is never a range.
    - Packages: a [dpkg-query] listing printed in its tab format is parsed
      back into the rows of the installed entries; a refresh always ends
      on "Ready.", keeps the stale anchor (and a later shift-click paints
      from it); the apt commands carry exactly the checked names; a
      declined apt action leaves the spinner running; the error row can
      be passed to apt; a size that overflows the [int] column cuts the
      list at that entry with an error row.
    - Async ([Async]): the flow through the runner thread and the main
      loop refines the one-step [apt_dialog_response]; for every apt
      button and every outcome of the command (failure and exception
      included) the page shows the success message for 100 ms, then
      "Ready." over a fresh list, with the main loop left empty; two apt
      commands can run at once.
    - Types and timers ([Views], [ProcTimer], [Activation]): every row
      the process refresh writes converts to the store's column types,
      when pids and thread counts fit a [gint]; while they fit, the
      process timer stays attached and the store is the successive
      reconciliation of the samples, and the first value outside [gint]
      removes the timer for good; after activation, for any number of
      two-second periods with readable network counters and fitting
      samples, the main loop runs the three loaders once, in page order,
      then every period the resources tick twice and the process tick
      once, both timers staying attached, the resources page's state
      being [res_run] over every reading and the process store the
      reconciliation of the even seconds' samples.  The APT check boxes
      are bound to nothing; the process view's headers do not sort; the
      Size (KB) column shows MiB.
    - Services: a [systemctl] line yields (status, unit, first word of
      the description); the legend and unit count become rows; the failed
      unit mark becomes the unit name (and [systemctl stop *]); on every
      reachable state an action targets a row of the store; failures
      other than a non-zero exit leave the in-progress label.
    - Repositories: a plain [deb] line is parsed through the two regular
      expressions into "URI (SUITE)" and its components; on every
      reachable state every APT row's Enabled column holds [True], so the
      toggle handler always names the action "disable"; deb822 [.sources]
      files become one "[Unparsed]" row per field; the toggle branch for
      [sources.list.d] rows is dead; two-column [flatpak] output yields no
      remote.
    - Helpers and actions: a size of k whole units prints as "k.00 UNIT";
      "Kill Selected" after a filtered range-select signals the hidden
      checked processes.
    - Backups: the name given to a new backup is parsed back by the list
      into the backup's own local time (the [strftime]/[strptime] round
      trip); with the default entries the backup is written inside the
      directory it copies; the list is every directory, newest first;
      every job ends with the page idle; a failed rsync is reported but
      a failed rm is not (the handler raises on [e.stderr] = [None]); a
      rename to an absolute name leaves the destination.
    - Resources: on every reachable state each history holds at most 120
      values; while the network counters are readable the timer is never
      removed and the RAM history is the window of the last 120 readings;
      the sent-speed history sums to the bytes sent since the page opened;
      without network interfaces the first tick raises and stops the
      timer after a partial update; the network chart's scale lies above
      every value; the core widgets take distinct grid cells in three
      columns.
    - Storage and shell: without overlapping threads the page never
      starts an analyzer while one runs; a sidebar click shows the page
      its button's handler names and maps Storage exactly when it
      switches to it; the sidebar alone (Storage, Packages, Storage)
      reaches two running analyzers; the emoji test of
      [create_sidebar_button] is a substring test, so two emoji and a
      name starting with '-' are the only text icons.
    - Dialogs: the rename dialog confirmed unedited answers "Name not
      changed."; the delete confirmation puts the backup's name into
      Pango markup unescaped.

    ** Bounds and fuel

    - [py_split_go] (whitespace split) runs on fuel [S (String.length s)]:
      each round consumes a character, and [PyStr.py_split_go_fuel] shows
      any larger fuel gives the same result.
    - A star of [PyRe] iterates on fuel [S (String.length s)] and each
      iteration must consume a character, so the fuel is never the reason
      a match fails.
    - [hrs_loop] runs on 8 rounds, the bound [i < len(units) - 1] of the
      code's own loop.
    - [digits_of_pos_go] ([str()] of a natural) runs on [log2 n + 1]
      rounds, one per binary digit, more than the decimal digits.
    - The network total of [Resources] is stated for runs of at most 120
      ticks, the length of the window; the RAM window holds for any run.
    - A tick of the process timer advances the clock by its 2000 ms
      ([timeout_add_seconds(2, ...)]) and runs one main-loop iteration;
      [ProcTimer.proc_timer_live] holds for any number of ticks.
    - [Activation.activation_run] iterates the loop once at activation
      and then once a second: once the idle loaders are gone only the
      two timers are attached, due on whole seconds, so no source is
      ready between two seconds; [activation_schedule] holds for any
      number of two-second periods.
    - The [strftime]/[strptime] round trip is proved for four-digit years
      ([Backups.dt_valid]), where [%Y] is four digits as [_strptime]'s
      [\d\d\d\d] requires; [time.localtime] gives such years on any
      clock set after 999.

    ** Modelling choices

    - Indices of stores and of the filtered view are [nat]; out-of-range
      writes are no-ops, as the code's [try/except] blocks make them.
    - Process ids, key values and byte counts are [Z]; times are [Z]
      milliseconds; percentages and speeds are [Q]: the float operations
      the theorems rely on (differences of byte counters below 2^53,
      division by 1024) are exact on doubles, and the others (a CPU
      average, the factor 1.2, chart coordinates) are modelled by their
      exact values.
    - Strings are Stdlib [string]s of 8-bit characters, read as Latin-1:
      [str.lower] (ASCII and U+00C0-U+00DE letters), [isspace] and the
      line boundaries agree with Python's on these characters; text
      outside Latin-1 is not modelled, nor the title case of the three
      Latin-1 letters whose title case is not Latin-1 (U+00DF, U+00FF,
      U+00B5), which [capitalize] never meets on the page names.
    - Commands, files and libraries are inputs (a sample, an output, an
      exception); the commands a page asks to run are outputs.  Idle
      callbacks scheduled by worker threads are applied in the order they
      are scheduled, which GLib guarantees for sources of one priority;
      [MainLoop] makes that order explicit where a page's flow depends
      on it (the apt actions and the process timer).
    - A column's [int] is GLib's 32-bit [gint]: values outside
      [-2^31, 2^31 - 1] make PyGObject raise [OverflowError]; psutil's
      pids (at most [pid_max], 2^22) and thread counts fit in practice;
      the process refresh's exception path for those that would not is
      modelled ([ProcTimer.refresh_checked]).

    ** Not modelled (see PROJECT.json for the list of components)

    The cairo calls of the resources page (only the points and labels
    they draw are modelled), the CSS, window sizes and icon widgets of
    the shell (main.py only creates the application and runs it,
    modelled as the main-loop iterations of [activation_run]): widget code
    whose behaviour the pages only display, and the remaining widget
    construction of the page constructors (margins, boxes, tooltips),
    which holds no state the handlers read.  The storage page keeps its
    own model of its idle queue ([storage_reachable]) rather than
    [MainLoop]'s; the resources timer has its own reachability relation
    ([res_reachable]) and is run on [MainLoop] in [Activation].
    The text GLib's transforms give a number shown in a text column
    ([%f] for floats) is not modelled, only that the transform exists. *)

From stdpp Require Import base list.
From Stdlib Require Import ZArith Lia.

(** [length] is the length of lists in every file of the development, even
    where [Stdlib.Strings.String] (whose [length] is that of strings) is
    imported before this file. *)
Abbreviation length := Datatypes.length.

Declare Scope sm_scope.
Delimit Scope sm_scope with sm.
Open Scope sm_scope.

(** Python's [range(a, b)] as a list of naturals. *)
Definition py_range (a b : nat) : list nat := seq a (b - a).

(** [range(a, b)], written [a ..< b]. *)
Notation "a ..< b" := (py_range a b) (at level 35, no associativity) : sm_scope.

Create HintDb sm discriminated.
Create Rewrite HintDb sm_rw.

(** ** Tactics *)

Ltac invc H := inversion H; subst; clear H.

(** Case on a boolean or decidable test in the goal, naming the equation. *)
Ltac case_if :=
  match goal with
  | |- context [if decide ?P then _ else _] => destruct (decide P)
  | |- context [if ?b then _ else _] =>
      let E := fresh "E" in destruct b eqn:E
  end.

Ltac sm_simpl := repeat (simpl in *; simplify_eq; try case_if).

(** Close a decidable goal about concrete data by evaluating its decision
    procedure. *)
Ltac vm_decide := apply (bool_decide_unpack _); vm_compute; exact I.

(** ** Generic list lemmas *)

Section ListFacts.
Context {A : Type}.

Lemma alter_out_of_range (f : A -> A) (l : list A) (i : nat) :
  length l <= i -> alter f i l = l.
Proof.
  revert i; induction l as [|x l IH]; intros [|i] Hi; simpl in *;
    try done; try lia. f_equal. apply IH. lia.
Qed.

Lemma alter_lookup_None (f : A -> A) (l : list A) (i : nat) :
  l !! i = None -> alter f i l = l.
Proof. intros H. apply alter_out_of_range. by apply lookup_ge_None. Qed.

Lemma lookup_alter_same (f : A -> A) (l : list A) (i : nat) :
  alter f i l !! i = f <$> l !! i.
Proof. rewrite list_lookup_alter. by case_decide. Qed.

Lemma py_range_spec (a b i : nat) : i ∈ a ..< b <-> a <= i < b.
Proof. unfold py_range. rewrite list_elem_of_In, in_seq. lia. Qed.

Lemma py_range_split (a b : nat) :
  a <= b -> a ..< S b = a ..< b ++ [b].
Proof.
  intros H. unfold py_range. replace (S b - a) with ((b - a) + 1) by lia.
  rewrite seq_app. simpl. do 3 f_equal. lia.
Qed.
Lemma omap_cons_eq {B : Type} (f : A -> option B) (x : A) (l : list A) :
  omap f (x :: l) = match f x with Some y => y :: omap f l | None => omap f l end.
Proof. reflexivity. Qed.
End ListFacts.

#[export] Hint Resolve alter_out_of_range alter_lookup_None : sm.
#[export] Hint Rewrite @length_alter @lookup_alter_same : sm_rw.
