(* ===== verification/PyStr.v ===== *)
(** * PyStr: the Python string operations the pages call

    Strings are Stdlib [string]s read as Latin-1 text.  [py_lower] is
    [str.lower] on Latin-1 text; [py_in n h] is [n in h] (true for the
    empty needle); [py_startswith], [py_endswith]; [py_split_char] is
    [str.split(sep)] for a one-character [sep]; [py_split] and
    [py_split_max] are [str.split()] and [str.split(maxsplit=n)] on
    whitespace ([py_isspace] is [str.isspace] on one character);
    [py_splitlines] is [str.splitlines()]; [file_lines] the lines of a
    text-mode file; [py_strip]; [py_int] is [int()] on a string ([None]
    for its [ValueError]); [py_str_N] and [py_str_Z] are [str()] of an
    integer; [py_capitalize] is [str.capitalize()].

    The lemmas are the round trips the pages rely on ([int(str(n)) = n],
    splitting what was joined), the fuel bound of the whitespace split
    ([py_split_go_fuel]), and the facts on prefixes, suffixes and stripping used by the
    parsers of the pages. *)

From stdpp Require Import base list.
From Stdlib Require Import String Ascii ZArith NArith Lia.
From S2P Require Import Prelude.

Local Open Scope string_scope.

(** [str.lower] on one Latin-1 character: "A"-"Z" and the upper-case
    letters U+00C0-U+00DE other than U+00D7 (the multiplication sign)
    move up by 32; every other Latin-1 character is its own lower case. *)
Definition ascii_lower (c : ascii) : ascii :=
  let n := nat_of_ascii c in
  if (((65 <=? n) && (n <=? 90)) || ((192 <=? n) && (n <=? 222) && negb (n =? 215)))%nat
  then ascii_of_nat (n + 32) else c.

Fixpoint py_lower (s : string) : string :=
  match s with
  | EmptyString => EmptyString
  | String c t => String (ascii_lower c) (py_lower t)
  end.

(** [str.startswith]: [p] is a prefix of [s]. *)
Fixpoint py_startswith (s p : string) {struct p} : bool :=
  match p with
  | EmptyString => true
  | String c p' =>
      match s with
      | String d s' => Ascii.eqb c d && py_startswith s' p'
      | EmptyString => false
      end
  end.

(** [needle in hay]: some suffix of [hay] starts with [needle]. *)
Fixpoint py_in (needle hay : string) : bool :=
  py_startswith hay needle ||
  match hay with
  | EmptyString => false
  | String _ t => py_in needle t
  end.

Definition py_endswith (s p : string) : bool :=
  (String.length p <=? String.length s)%nat &&
  String.eqb (substring (String.length s - String.length p) (String.length p) s) p.

(** [s.split(sep)] for a one-character separator: consecutive separators
    yield empty fields and the result is never empty. *)
Fixpoint py_split_char (sep : ascii) (s : string) : list string :=
  match s with
  | EmptyString => [EmptyString]
  | String c t =>
      match py_split_char sep t with
      | [] => [EmptyString]
      | f :: fs => if Ascii.eqb c sep then EmptyString :: f :: fs
                   else String c f :: fs
      end
  end.

(** [str.isspace] on one character: the ASCII and Latin-1 code points
    Python treats as whitespace (tab, newline, vertical tab, form feed,
    carriage return, the separators 28-31, space, NEL 133, NBSP 160). *)
Definition py_isspace (c : ascii) : bool :=
  let n := nat_of_ascii c in
  ((9 <=? n) && (n <=? 13))%nat || ((28 <=? n) && (n <=? 32))%nat ||
  (n =? 133)%nat || (n =? 160)%nat.

(** The line boundaries of [str.splitlines] among code points 0-255. *)
Definition py_is_linebreak (c : ascii) : bool :=
  let n := nat_of_ascii c in
  ((10 <=? n) && (n <=? 13))%nat || ((28 <=? n) && (n <=? 30))%nat || (n =? 133)%nat.

Fixpoint py_lstrip (s : string) : string :=
  match s with
  | EmptyString => EmptyString
  | String c t => if py_isspace c then py_lstrip t else s
  end.

Fixpoint py_rstrip (s : string) : string :=
  match s with
  | EmptyString => EmptyString
  | String c t =>
      let t' := py_rstrip t in
      if String.eqb t' "" && py_isspace c then EmptyString else String c t'
  end.

(** [s.rstrip(c)] for one character [c]. *)
Fixpoint py_rstrip_char (c : ascii) (s : string) : string :=
  match s with
  | EmptyString => EmptyString
  | String d t =>
      let t' := py_rstrip_char c t in
      if String.eqb t' "" && Ascii.eqb d c then EmptyString else String d t'
  end.

(** [str.strip()]. *)
Definition py_strip (s : string) : string := py_rstrip (py_lstrip s).

(** The first word of a string that starts with a non-space, and the rest
    from the first whitespace character on. *)
Fixpoint take_word (s : string) : string * string :=
  match s with
  | EmptyString => (EmptyString, EmptyString)
  | String c t =>
      if py_isspace c then (EmptyString, s)
      else let (w, r) := take_word t in (String c w, r)
  end.

(** CPython's whitespace split with a split budget ([None] for no limit):
    skip whitespace, stop at the end; with the budget spent, the rest of
    the string (leading whitespace skipped) is the last field.  Each round
    consumes a character, so [String.length s + 1] rounds are enough. *)
Fixpoint py_split_go (fuel : nat) (maxcount : option nat) (s : string) : list string :=
  match fuel with
  | O => []
  | S fuel' =>
      match py_lstrip s with
      | EmptyString => []
      | s' =>
          match maxcount with
          | Some O => [s']
          | _ => let (w, rest) := take_word s' in
                 w :: py_split_go fuel' (option_map pred maxcount) rest
          end
      end
  end.

(** [s.split()]. *)
Definition py_split (s : string) : list string :=
  py_split_go (S (String.length s)) None s.

(** [s.split(maxsplit=n)]. *)
Definition py_split_max (n : nat) (s : string) : list string :=
  py_split_go (S (String.length s)) (Some n) s.

(** [s.splitlines()]: [cur] is the line being read; "\r\n" is one
    boundary; a final line with no boundary after it counts only if it is
    not empty. *)
Fixpoint splitlines_go (cur : string) (s : string) : list string :=
  match s with
  | EmptyString => if String.eqb cur "" then [] else [cur]
  | String c t =>
      if py_is_linebreak c then
        match t with
        | String d t' =>
            if Ascii.eqb c "013"%char && Ascii.eqb d "010"%char
            then cur :: splitlines_go "" t'
            else cur :: splitlines_go "" t
        | EmptyString => [cur]
        end
      else splitlines_go (cur ++ String c "") t
  end.

Definition py_splitlines (s : string) : list string := splitlines_go "" s.

Definition is_digit (c : ascii) : bool :=
  let n := nat_of_ascii c in ((48 <=? n) && (n <=? 57))%nat.

Definition digit_value (c : ascii) : Z := Z.of_nat (nat_of_ascii c - 48).

(** The digits of a base-10 integer literal as [int()] accepts them: one
    underscore at most between two digits. *)
Fixpoint digits_go (acc : Z) (prev_us : bool) (s : string) : option Z :=
  match s with
  | EmptyString => if prev_us then None else Some acc
  | String c t =>
      if is_digit c then digits_go (acc * 10 + digit_value c)%Z false t
      else if Ascii.eqb c "_"%char && negb prev_us then digits_go acc true t
      else None
  end.

Definition parse_digits (s : string) : option Z :=
  match s with
  | String c t => if is_digit c then digits_go (digit_value c) false t else None
  | EmptyString => None
  end.

(** [int(s)] for a string: surrounding whitespace, an optional sign, base-10
    digits; [None] where Python raises [ValueError]. *)
Definition py_int (s : string) : option Z :=
  match py_strip s with
  | String c t =>
      if Ascii.eqb c "-"%char then option_map Z.opp (parse_digits t)
      else if Ascii.eqb c "+"%char then parse_digits t
      else parse_digits (String c t)
  | EmptyString => None
  end.

(** [str(n)] for a natural number: its decimal digits, no leading zero. *)
Fixpoint digits_of_pos_go (fuel : nat) (n : N) (acc : string) : string :=
  match fuel with
  | O => acc
  | S fuel' =>
      let d := N.modulo n 10 in
      let acc' := String (ascii_of_N (48 + d)) acc in
      if (n <? 10)%N then acc' else digits_of_pos_go fuel' (N.div n 10) acc'
  end.

Definition py_str_N (n : N) : string := digits_of_pos_go (S (N.to_nat (N.log2 n))) n "".

(** Lines joined by "\n", each one terminated, as a command prints them. *)
Fixpoint join_lines (ls : list string) : string :=
  match ls with
  | [] => EmptyString
  | l :: ls' => l ++ String "010" (join_lines ls')
  end.

(** Fields joined by one separator character. *)
Fixpoint join_fields (sep : ascii) (fs : list string) : string :=
  match fs with
  | [] => EmptyString
  | [f] => f
  | f :: fs' => f ++ String sep (join_fields sep fs')
  end.

(** The value of a string of digits read left to right from [acc]. *)
Fixpoint str_fold (acc : Z) (s : string) : Z :=
  match s with
  | EmptyString => acc
  | String c t => str_fold (acc * 10 + digit_value c)%Z t
  end.

(** No character of [s] satisfies [p]. *)
Definition str_avoids (p : ascii -> bool) (s : string) : bool :=
  forallb (fun c => negb (p c)) (list_ascii_of_string s).

(** [str(n)] for a Python [int]. *)
Definition py_str_Z (n : Z) : string :=
  if (n <? 0)%Z then "-" ++ py_str_N (Z.to_N (- n)) else py_str_N (Z.to_N n).

(** The title case of one Latin-1 character, for the characters whose
    title case is Latin-1: "a"-"z" and U+00E0-U+00FE other than U+00F7
    move down by 32.  Python gives U+00DF "Ss", U+00FF U+0178 and U+00B5
    U+039C, which are not Latin-1 characters; they are left as they are. *)
Definition ascii_upper (c : ascii) : ascii :=
  let n := nat_of_ascii c in
  if (((97 <=? n) && (n <=? 122)) || ((224 <=? n) && (n <=? 254) && negb (n =? 247)))%nat
  then ascii_of_nat (n - 32) else c.

(** [str.capitalize()]: the first character in title case, the others
    lower-cased (the page names it is applied to are ASCII). *)
Definition py_capitalize (s : string) : string :=
  match s with
  | EmptyString => EmptyString
  | String c t => String (ascii_upper c) (py_lower t)
  end.

(** A word of a whitespace-separated line: not empty, no whitespace. *)
Definition word_ok (w : string) : bool :=
  negb (String.eqb w "") && str_avoids py_isspace w.

(** What may follow a word: nothing, or whitespace first. *)
Definition tail_ok (t : string) : bool :=
  match t with
  | EmptyString => true
  | String c _ => py_isspace c
  end.

(** [for line in f] on a file opened in text mode: universal newlines,
    "\n", "\r" and "\r\n" end a line; the lines without their ends. *)
Fixpoint file_lines_go (cur : string) (s : string) : list string :=
  match s with
  | EmptyString => if String.eqb cur "" then [] else [cur]
  | String c t =>
      if Ascii.eqb c "010"%char then cur :: file_lines_go "" t
      else if Ascii.eqb c "013"%char then
        match t with
        | String d t' => if Ascii.eqb d "010"%char then cur :: file_lines_go "" t'
                         else cur :: file_lines_go "" t
        | EmptyString => [cur]
        end
      else file_lines_go (cur ++ String c "") t
  end.

Definition file_lines (s : string) : list string := file_lines_go "" s.

(** ** Lemmas *)

Lemma py_startswith_append (s p : string) : py_startswith (p ++ s) p = true.
Proof. induction p; simpl; [done|]. by rewrite Ascii.eqb_refl, IHp. Qed.

Lemma py_in_startswith (n h : string) : py_startswith h n = true -> py_in n h = true.
Proof. intros H. destruct h; cbn [py_in]; by rewrite H. Qed.

(** [n in h] holds exactly when [h = a ++ n ++ b] for some [a], [b]. *)
Lemma py_in_spec (n h : string) :
  py_in n h = true <-> exists a b, h = a ++ n ++ b.
Proof.
  assert (Hsw : forall s p, py_startswith s p = true <-> exists b, s = p ++ b).
  { intros s p. revert s; induction p as [|c p IH]; intros [|d s]; simpl.
    - split; eauto.
    - split; eauto.
    - split; [done|]. by intros [b ?].
    - rewrite andb_true_iff, IH, Ascii.eqb_eq. split.
      + intros [-> [b ->]]. eauto.
      + intros [b Hb]. injection Hb as -> ->. eauto. }
  induction h as [|c h IH]; simpl; rewrite orb_true_iff, Hsw.
  - split.
    + intros [[b Hb]|Hf]; [|discriminate]. exists "", b. exact Hb.
    + intros [a [b Hb]]. destruct a; simpl in Hb; [left; eauto | discriminate].
  - rewrite IH. split.
    + intros [[b Hb]|[a [b ->]]].
      * exists "", b. done.
      * exists (String c a), b. done.
    + intros [[|d a] [b Hb]]; simpl in Hb.
      * left. eauto.
      * injection Hb as -> ->. right. eauto.
Qed.

Lemma py_in_empty (h : string) : py_in "" h = true.
Proof. destruct h; reflexivity. Qed.

Lemma py_split_char_nonempty (sep : ascii) (s : string) : py_split_char sep s <> [].
Proof. destruct s; simpl; [done|]. destruct (py_split_char sep s); [done|]. by case_if. Qed.

#[export] Hint Resolve py_startswith_append py_in_startswith py_in_empty : sm.

(** ** Splitting what was joined *)

Lemma str_app_nil_r (s : string) : (s ++ "")%string = s.
Proof. induction s as [|c s IH]; simpl; [done|]. by rewrite IH. Qed.

Lemma str_length_app (a b : string) :
  String.length (a ++ b) = String.length a + String.length b.
Proof. induction a as [|c a IH]; simpl; [done|]. by rewrite IH. Qed.

Lemma str_app_assoc (a b c : string) : ((a ++ b) ++ c)%string = (a ++ (b ++ c))%string.
Proof. induction a as [|x a IH]; simpl; [done|]. by rewrite IH. Qed.

Lemma str_avoids_cons p c s :
  str_avoids p (String c s) = negb (p c) && str_avoids p s.
Proof. done. Qed.

Lemma splitlines_go_line (cur l rest : string) :
  str_avoids py_is_linebreak l = true ->
  splitlines_go cur (l ++ String "010" rest) = (cur ++ l) :: splitlines_go "" rest.
Proof.
  revert cur; induction l as [|c l IH]; intros cur Hl; simpl.
  - rewrite str_app_nil_r. destruct rest; done.
  - rewrite str_avoids_cons, andb_true_iff, negb_true_iff in Hl. destruct Hl as [Hc Hl].
    rewrite Hc, IH by done. by rewrite str_app_assoc.
Qed.

Lemma splitlines_join (ls : list string) :
  Forall (fun l => str_avoids py_is_linebreak l = true) ls ->
  py_splitlines (join_lines ls) = ls.
Proof.
  unfold py_splitlines. induction 1 as [|l ls Hl _ IH]; simpl; [done|].
  by rewrite splitlines_go_line, IH.
Qed.

Lemma split_char_single (sep : ascii) (a : string) :
  str_avoids (fun c => Ascii.eqb c sep) a = true -> py_split_char sep a = [a].
Proof.
  induction a as [|c a IH]; simpl; [done|].
  rewrite str_avoids_cons, andb_true_iff, negb_true_iff. intros [Hc Ha]. by rewrite IH, Hc.
Qed.

Lemma split_char_app (sep : ascii) (a rest : string) :
  str_avoids (fun c => Ascii.eqb c sep) a = true ->
  py_split_char sep (a ++ String sep rest) = a :: py_split_char sep rest.
Proof.
  induction a as [|c a IH]; simpl.
  - intros _. destruct (py_split_char sep rest) eqn:E.
    + by apply py_split_char_nonempty in E.
    + by rewrite Ascii.eqb_refl.
  - rewrite str_avoids_cons, andb_true_iff, negb_true_iff. intros [Hc Ha]. by rewrite IH, Hc.
Qed.

Lemma split_char_join (sep : ascii) (fs : list string) :
  fs <> [] -> Forall (fun f => str_avoids (fun c => Ascii.eqb c sep) f = true) fs ->
  py_split_char sep (join_fields sep fs) = fs.
Proof.
  intros Hne Hfs. induction Hfs as [|f fs Hf Hfs IH]; [done|].
  destruct fs as [|f' fs].
  - simpl. by apply split_char_single.
  - change (join_fields sep (f :: f' :: fs)) with (f ++ String sep (join_fields sep (f' :: fs))).
    rewrite split_char_app by done. f_equal. by apply IH.
Qed.

(** ** [int(str(n)) == n] *)

Lemma nat_of_ascii_of_N (m : N) : (m < 256)%N -> nat_of_ascii (ascii_of_N m) = N.to_nat m.
Proof. intros Hm. unfold nat_of_ascii. by rewrite N_ascii_embedding. Qed.

Lemma digit_value_of (d : N) : (d < 10)%N -> digit_value (ascii_of_N (48 + d)) = Z.of_N d.
Proof.
  intros Hd. unfold digit_value. rewrite nat_of_ascii_of_N by lia. lia.
Qed.

Lemma is_digit_of (d : N) : (d < 10)%N -> is_digit (ascii_of_N (48 + d)) = true.
Proof.
  intros Hd. unfold is_digit. rewrite nat_of_ascii_of_N by lia.
  apply andb_true_iff. rewrite !Nat.leb_le. lia.
Qed.

Lemma is_digit_not_space (c : ascii) : is_digit c = true -> py_isspace c = false.
Proof.
  unfold is_digit, py_isspace. rewrite andb_true_iff, !Nat.leb_le. intros [H1 H2].
  repeat (apply orb_false_iff; split); apply andb_false_iff || apply Nat.eqb_neq;
    try (rewrite !Nat.leb_gt); lia.
Qed.

Lemma list_ascii_app (s t : string) :
  list_ascii_of_string (s ++ t) = (list_ascii_of_string s ++ list_ascii_of_string t)%list.
Proof. induction s as [|c s IH]; simpl; [done|]. by rewrite IH. Qed.

Lemma str_fold_app (a : Z) (s t : string) : str_fold a (s ++ t) = str_fold (str_fold a s) t.
Proof. revert a; induction s as [|c s IH]; intros a; simpl; [done | apply IH]. Qed.

Lemma digits_go_all (acc : Z) (s : string) :
  forallb is_digit (list_ascii_of_string s) = true -> digits_go acc false s = Some (str_fold acc s).
Proof.
  revert acc; induction s as [|c s IH]; intros acc Hs; simpl in *; [done|].
  apply andb_true_iff in Hs as [Hc Hs]. rewrite Hc. by apply IH.
Qed.

Lemma digits_of_pos_go_spec (fuel : nat) (n : N) (acc : string) :
  (0 < fuel)%nat -> (n < 10 ^ N.of_nat fuel)%N ->
  exists s, digits_of_pos_go fuel n acc = (s ++ acc)%string /\ s <> ""%string /\
    forallb is_digit (list_ascii_of_string s) = true /\ str_fold 0 s = Z.of_N n.
Proof.
  revert n acc; induction fuel as [|f IH]; intros n acc Hf Hn; [lia|]. simpl.
  assert (Hd : (n mod 10 < 10)%N) by (apply N.mod_lt; lia).
  destruct (N.ltb_spec n 10) as [Hlt|Hge].
  - exists (String (ascii_of_N (48 + n mod 10)) ""). split_and!; [done|done| |].
    + simpl. by rewrite is_digit_of.
    + simpl. rewrite digit_value_of by done. rewrite N.mod_small by done. lia.
  - assert (Hf' : (0 < f)%nat).
    { destruct f; [|lia]. simpl in Hn. lia. }
    assert (Hn' : (n / 10 < 10 ^ N.of_nat f)%N).
    { apply N.Div0.div_lt_upper_bound. rewrite Nat2N.inj_succ, N.pow_succ_r' in Hn. lia. }
    destruct (IH (n / 10)%N (String (ascii_of_N (48 + n mod 10)) acc) Hf' Hn')
      as [s [Hs [Hne [Hdig Hval]]]].
    exists (s ++ String (ascii_of_N (48 + n mod 10)) "")%string. split_and!.
    + rewrite Hs, str_app_assoc. done.
    + by destruct s.
    + rewrite list_ascii_app, forallb_app, Hdig. simpl. by rewrite is_digit_of.
    + rewrite str_fold_app, Hval. simpl. rewrite digit_value_of by done.
      rewrite (N.div_mod n 10) at 3 by lia. lia.
Qed.

Lemma py_str_N_spec (n : N) :
  exists s, py_str_N n = s /\ s <> ""%string /\
    forallb is_digit (list_ascii_of_string s) = true /\ str_fold 0 s = Z.of_N n.
Proof.
  unfold py_str_N.
  destruct (digits_of_pos_go_spec (S (N.to_nat (N.log2 n))) n "") as [s [Hs Hrest]]; [lia| |].
  - destruct (N.eq_dec n 0) as [->|Hn0]; [simpl; lia|].
    rewrite Nat2N.inj_succ, N2Nat.id.
    apply N.lt_le_trans with (2 ^ N.succ (N.log2 n))%N.
    + apply N.log2_spec. lia.
    + apply N.pow_le_mono_l. lia.
  - exists s. rewrite Hs, str_app_nil_r. auto.
Qed.

Lemma strip_no_space (s : string) :
  forallb (fun c => negb (py_isspace c)) (list_ascii_of_string s) = true -> py_strip s = s.
Proof.
  intros Hs. unfold py_strip.
  assert (Hl : py_lstrip s = s).
  { destruct s as [|c t]; [done|]. simpl in *. apply andb_true_iff in Hs as [Hc _].
    apply negb_true_iff in Hc. by rewrite Hc. }
  rewrite Hl. clear Hl. induction s as [|c t IH]; [done|].
  simpl in *. apply andb_true_iff in Hs as [Hc Ht]. apply negb_true_iff in Hc.
  rewrite IH by done. by rewrite Hc, andb_false_r.
Qed.

(** Python's [int] reads back [str] of a natural number. *)
Lemma py_int_str_N (n : N) : py_int (py_str_N n) = Some (Z.of_N n).
Proof.
  destruct (py_str_N_spec n) as [s [-> [Hne [Hdig Hval]]]].
  unfold py_int. rewrite strip_no_space.
  2: { clear -Hdig. induction (list_ascii_of_string s) as [|c l IH]; [done|].
       simpl in *. apply andb_true_iff in Hdig as [Hc Hl].
       by rewrite is_digit_not_space, IH. }
  destruct s as [|c t]; [done|]. simpl in Hdig. apply andb_true_iff in Hdig as [Hc Ht].
  assert (Hm : Ascii.eqb c "-"%char = false).
  { apply Ascii.eqb_neq. intros ->. discriminate. }
  assert (Hp : Ascii.eqb c "+"%char = false).
  { apply Ascii.eqb_neq. intros ->. discriminate. }
  rewrite Hm, Hp. simpl. rewrite Hc, digits_go_all by done. rewrite <- Hval. done.
Qed.

Lemma str_avoids_app (p : ascii -> bool) (a b : string) :
  str_avoids p (a ++ b) = str_avoids p a && str_avoids p b.
Proof. unfold str_avoids. by rewrite list_ascii_app, forallb_app. Qed.

Lemma join_fields_avoids (p : ascii -> bool) (sep : ascii) (fs : list string) :
  p sep = false -> Forall (fun f => str_avoids p f = true) fs ->
  str_avoids p (join_fields sep fs) = true.
Proof.
  intros Hsep. induction 1 as [|f fs Hf Hfs IH]; [done|].
  destruct fs as [|f' fs]; [done|].
  change (join_fields sep (f :: f' :: fs)) with (f ++ String sep (join_fields sep (f' :: fs))).
  rewrite str_avoids_app, Hf, str_avoids_cons, Hsep. simpl. by apply IH.
Qed.

Lemma py_str_N_avoids (p : ascii -> bool) (n : N) :
  (forall c, is_digit c = true -> p c = false) -> str_avoids p (py_str_N n) = true.
Proof.
  intros Hp. destruct (py_str_N_spec n) as [s [-> [_ [Hdig _]]]].
  unfold str_avoids. clear -Hp Hdig. induction (list_ascii_of_string s) as [|c l IH]; [done|].
  simpl in *. apply andb_true_iff in Hdig as [Hc Hl]. by rewrite Hp, IH.
Qed.

Lemma py_str_N_nonempty (n : N) : py_str_N n <> ""%string.
Proof. by destruct (py_str_N_spec n) as [s [-> [Hne _]]]. Qed.

(** ** Whitespace splitting *)

Lemma py_lstrip_length (s : string) : String.length (py_lstrip s) <= String.length s.
Proof. induction s as [|c t IH]; simpl; [lia|]. case_if; simpl; lia. Qed.

Lemma take_word_length (s : string) :
  String.length (snd (take_word s)) <= String.length s.
Proof.
  induction s as [|c t IH]; simpl; [lia|]. case_if; simpl; [lia|].
  destruct (take_word t) as [w r]. simpl in *. lia.
Qed.

(** A round of [py_split_go] on a string that does not start with
    whitespace consumes at least one character. *)
Lemma take_word_shorter (c : ascii) (t : string) :
  py_isspace c = false -> String.length (snd (take_word (String c t))) < String.length (String c t).
Proof.
  intros Hc. simpl. rewrite Hc. pose proof (take_word_length t).
  destruct (take_word t) as [w r]. simpl in *. lia.
Qed.

Lemma py_lstrip_head (s : string) :
  py_lstrip s = "" \/ exists c t, py_lstrip s = String c t /\ py_isspace c = false.
Proof.
  induction s as [|c t IH]; simpl; [by left|].
  destruct (py_isspace c) eqn:Hc; [exact IH | right; eauto].
Qed.

(** Any fuel above the string's length gives the same split: the bound
    [S (String.length s)] of [py_split] is never the reason it stops. *)
Lemma py_split_go_fuel (f1 f2 : nat) (m : option nat) (s : string) :
  String.length s < f1 -> String.length s < f2 -> py_split_go f1 m s = py_split_go f2 m s.
Proof.
  revert f2 m s. induction f1 as [|f1 IH]; intros [|f2] m s H1 H2; try lia. cbn [py_split_go].
  pose proof (py_lstrip_length s) as Hl.
  destruct (py_lstrip_head s) as [->|[c [t [Hs Hc]]]]; [done|]. rewrite Hs in Hl |- *.
  destruct m as [[|k]|]; [done| |];
  pose proof (take_word_shorter c t Hc) as Hw; destruct (take_word (String c t)) as [w r];
  simpl in Hw, Hl; f_equal; apply IH; lia.
Qed.

Lemma take_word_app (w t : string) :
  str_avoids py_isspace w = true -> tail_ok t = true -> take_word (w ++ t) = (w, t).
Proof.
  intros Hw Ht. induction w as [|c w IH]; simpl.
  - destruct t as [|c t]; simpl in *; [done|]. by rewrite Ht.
  - rewrite str_avoids_cons in Hw. apply andb_true_iff in Hw as [Hc Hw].
    apply negb_true_iff in Hc. rewrite Hc, IH by done. done.
Qed.

(** One round of the split on a line that starts with a word. *)
Lemma py_split_go_word (fuel : nat) (m : option nat) (w t : string) :
  word_ok w = true -> tail_ok t = true -> m <> Some 0 ->
  py_split_go (S fuel) m (w ++ t) = w :: py_split_go fuel (option_map pred m) t.
Proof.
  unfold word_ok. intros [Hne Hw]%andb_true_iff Ht Hm.
  destruct w as [|c w']; [done|].
  pose proof Hw as Hc. rewrite str_avoids_cons in Hc. apply andb_true_iff in Hc as [Hc _].
  apply negb_true_iff in Hc. cbn [py_split_go String.append py_lstrip]. rewrite Hc.
  change (take_word (String c (w' ++ t))) with (take_word (String c w' ++ t)).
  rewrite take_word_app by done. by destruct m as [[|k]|].
Qed.

Lemma py_split_go_space (fuel : nat) (m : option nat) (c : ascii) (t : string) :
  py_isspace c = true -> py_split_go fuel m (String c t) = py_split_go fuel m t.
Proof. intros Hc. destruct fuel; [done|]. cbn [py_split_go py_lstrip]. by rewrite Hc. Qed.

(** A word and a separating space. *)
Lemma py_split_go_word_sp (fuel : nat) (m : option nat) (w t : string) :
  word_ok w = true -> m <> Some 0 ->
  py_split_go (S fuel) m (w ++ " " ++ t) = w :: py_split_go fuel (option_map pred m) t.
Proof.
  intros Hw Hm. rewrite py_split_go_word by done. f_equal. by apply py_split_go_space.
Qed.

#[export] Hint Resolve py_lstrip_length take_word_length : sm.

(** ** Suffixes *)

Lemma substring_app (w t : string) : substring 0 (String.length w) (w ++ t)%string = w.
Proof. induction w as [|c w IH]; simpl; [by destruct t|]. by rewrite IH. Qed.

Lemma substring_full (s : string) : substring 0 (String.length s) s = s.
Proof. pose proof (substring_app s "") as H. by rewrite str_app_nil_r in H. Qed.

Lemma substring_app_r (p s : string) (n m : nat) :
  substring (String.length p + n) m (p ++ s)%string = substring n m s.
Proof. induction p as [|c p IH]; simpl; [done|exact IH]. Qed.

Lemma get_app_r (p s : string) (n : nat) : String.get (String.length p + n) (p ++ s)%string = String.get n s.
Proof. rewrite Nat.add_comm. symmetry. apply append_correct2. Qed.

Lemma substring_split (s : string) (m n : nat) :
  m + n = String.length s -> s = (substring 0 m s ++ substring m n s)%string.
Proof.
  revert m. induction s as [|c s IH]; intros m H.
  - simpl in H. assert (m = 0 /\ n = 0) as [-> ->] by lia. done.
  - destruct m as [|m]; simpl in H |- *.
    + pose proof (substring_app (String c s) "") as Hs. rewrite str_app_nil_r in Hs.
      simpl in Hs. replace n with (S (String.length s)) by lia. by rewrite Hs.
    + rewrite <- IH by lia. done.
Qed.

(** A string that ends with [p] is something followed by [p]. *)
Lemma py_endswith_app (s p : string) :
  py_endswith s p = true -> s = (substring 0 (String.length s - String.length p) s ++ p)%string.
Proof.
  unfold py_endswith. intros [Hle Heq]%andb_true_iff.
  apply Nat.leb_le in Hle. apply String.eqb_eq in Heq.
  rewrite <- Heq at 2. apply substring_split. lia.
Qed.

(** Two suffixes of one string with different last characters cannot
    both be suffixes. *)
Lemma py_endswith_last (s p q : string) (n m : nat) :
  py_endswith s p = true -> py_endswith s q = true ->
  String.length p = S n -> String.length q = S m -> String.get n p = String.get m q.
Proof.
  intros Hp Hq Hlp Hlq.
  pose proof (py_endswith_app s p Hp) as Ep. pose proof (py_endswith_app s q Hq) as Eq.
  set (a := substring 0 _ s) in Ep. set (b := substring 0 _ s) in Eq.
  rewrite (append_correct2 a p n), (append_correct2 b q m), <- Ep, <- Eq.
  f_equal. assert (Hl : String.length s = String.length a + String.length p).
  { rewrite Ep at 1. apply str_length_app. }
  assert (Hl' : String.length s = String.length b + String.length q).
  { rewrite Eq at 1. apply str_length_app. }
  lia.
Qed.

(** ** Stripping *)

Lemma py_rstrip_length (s : string) : String.length (py_rstrip s) <= String.length s.
Proof.
  induction s as [|c t IH]; simpl; [lia|].
  destruct (String.eqb (py_rstrip t) "" && py_isspace c); simpl; lia.
Qed.

Lemma py_lstrip_same_length (s : string) :
  String.length (py_lstrip s) = String.length s -> py_lstrip s = s.
Proof.
  destruct s as [|c t]; simpl; [done|]. destruct (py_isspace c); [|done].
  pose proof (py_lstrip_length t). lia.
Qed.

(** A stripped string has no whitespace at either end. *)
Lemma py_strip_fixed (s : string) :
  py_strip s = s -> py_lstrip s = s /\ py_rstrip s = s.
Proof.
  unfold py_strip. intros H.
  assert (Hl : py_lstrip s = s).
  { apply py_lstrip_same_length. pose proof (py_rstrip_length (py_lstrip s)) as H1.
    rewrite H in H1. pose proof (py_lstrip_length s). lia. }
  split; [done|]. by rewrite Hl in H.
Qed.

Lemma py_rstrip_app (a b : string) :
  py_rstrip b <> "" -> py_rstrip (a ++ b) = (a ++ py_rstrip b)%string.
Proof.
  intros Hb. induction a as [|c a IH]; [done|]. simpl. rewrite IH.
  destruct (String.eqb_spec (a ++ py_rstrip b) "") as [He|]; [|done].
  destruct a; simpl in He; [done|discriminate].
Qed.

Lemma py_lstrip_word (w t : string) : word_ok w = true -> py_lstrip (w ++ t) = (w ++ t)%string.
Proof.
  unfold word_ok. intros [Hne Hw]%andb_true_iff. destruct w as [|c w]; [done|].
  rewrite str_avoids_cons in Hw. apply andb_true_iff in Hw as [Hc _]. apply negb_true_iff in Hc.
  simpl. by rewrite Hc.
Qed.

Lemma word_ok_avoids (w : string) (q : ascii -> bool) :
  word_ok w = true -> (forall c, q c = true -> py_isspace c = true) ->
  str_avoids (fun c => py_isspace c || q c) w = true.
Proof.
  unfold word_ok, str_avoids. intros [_ Hw]%andb_true_iff Hq.
  apply forallb_forall. intros c Hc. eapply forallb_forall in Hw; [|exact Hc].
  apply negb_true_iff in Hw. apply negb_true_iff. rewrite Hw. simpl.
  destruct (q c) eqn:E; [|done]. rewrite (Hq c E) in Hw. discriminate.
Qed.

Lemma take_word_fst_ok (c : ascii) (t : string) :
  py_isspace c = false -> word_ok (fst (take_word (String c t))) = true.
Proof.
  intros Hc. unfold word_ok. cbn [take_word]. rewrite Hc.
  assert (H : str_avoids py_isspace (fst (take_word t)) = true).
  { induction t as [|d t IH]; [done|]. cbn [take_word].
    destruct (py_isspace d) eqn:Hd; [done|]. destruct (take_word t) as [w r].
    simpl in *. rewrite str_avoids_cons, Hd. exact IH. }
  destruct (take_word t) as [w r]. simpl in *. by rewrite str_avoids_cons, Hc, H.
Qed.

Lemma py_split_go_words (fuel : nat) (s : string) :
  Forall (fun w => word_ok w = true) (py_split_go fuel None s).
Proof.
  revert s. induction fuel as [|f IH]; intros s; [constructor|]. cbn [py_split_go].
  destruct (py_lstrip_head s) as [->|[c [t [-> Hc]]]]; [constructor|].
  pose proof (take_word_fst_ok c t Hc) as Hw. destruct (take_word (String c t)) as [w r].
  constructor; [exact Hw | apply IH].
Qed.

(** ** Decimal digits of small numbers *)

(** The character of a decimal digit. *)
Definition dig (d : N) : ascii := ascii_of_N (48 + d).

Lemma digits_of_pos_go_small (f : nat) (n : N) (acc : string) :
  (n < 10)%N -> digits_of_pos_go (S f) n acc = String (dig n) acc.
Proof.
  intros Hn. cbn [digits_of_pos_go]. rewrite N.mod_small by done.
  by replace (n <? 10)%N with true by (symmetry; apply N.ltb_lt; lia).
Qed.

Lemma digits_of_pos_go_big (f : nat) (n : N) (acc : string) :
  (10 <= n)%N -> digits_of_pos_go (S f) n acc = digits_of_pos_go f (n / 10) (String (dig (n mod 10)) acc).
Proof.
  intros Hn. cbn [digits_of_pos_go].
  by replace (n <? 10)%N with false by (symmetry; apply N.ltb_ge; lia).
Qed.

Lemma py_str_N_one (n : N) : (n < 10)%N -> py_str_N n = String (dig n) "".
Proof. intros Hn. unfold py_str_N. by apply digits_of_pos_go_small. Qed.

Lemma log2_fuel (n : N) (k : nat) : (2 ^ N.of_nat k <= n)%N -> (k <= N.to_nat (N.log2 n))%nat.
Proof.
  intros H. apply N.log2_le_mono in H. rewrite N.log2_pow2 in H by lia. lia.
Qed.

Lemma py_str_N_two (n : N) :
  (10 <= n < 100)%N -> py_str_N n = String (dig (n / 10)) (String (dig (n mod 10)) "").
Proof.
  intros Hn. unfold py_str_N.
  assert (Hf : (3 <= N.to_nat (N.log2 n))%nat) by (apply log2_fuel; simpl; lia).
  destruct (N.to_nat (N.log2 n)) as [|f] eqn:E; [lia|].
  rewrite digits_of_pos_go_big by lia. apply digits_of_pos_go_small.
  apply N.Div0.div_lt_upper_bound; lia.
Qed.

Lemma py_str_N_four (n : N) :
  (1000 <= n < 10000)%N ->
  py_str_N n = String (dig (n / 1000)) (String (dig (n / 100 mod 10))
                 (String (dig (n / 10 mod 10)) (String (dig (n mod 10)) ""))).
Proof.
  intros Hn. unfold py_str_N.
  assert (Hf : (9 <= N.to_nat (N.log2 n))%nat) by (apply log2_fuel; simpl; lia).
  destruct (N.to_nat (N.log2 n)) as [|[|[|f]]] eqn:E; try lia.
  rewrite digits_of_pos_go_big by lia.
  rewrite digits_of_pos_go_big by (apply N.div_le_lower_bound; lia).
  rewrite digits_of_pos_go_big by (rewrite N.Div0.div_div; apply N.div_le_lower_bound; lia).
  rewrite digits_of_pos_go_small.
  2: { rewrite !N.Div0.div_div. apply N.Div0.div_lt_upper_bound; lia. }
  rewrite !N.Div0.div_div. reflexivity.
Qed.
