(* ===== verification/GObj.v ===== *)
(** * GObj: GObject values, list-store columns and tree-view cells

    The pages keep their rows in [Gtk.ListStore]s declared with Python
    types and show them through [Gtk.TreeViewColumn]s whose cell renderer
    properties are bound to store columns.  This file models the part of
    PyGObject and GTK those declarations rely on:

    - [Gtk.ListStore(bool, int, float, str)] declares the GTypes
      [gboolean], [gint], [gdouble] and [gchararray] ([GType]);
    - [store.append(row)] and [store[i][col] = v] convert each Python
      value with [GObject.Value(column_type, v)]; a Python [int] outside
      the 32-bit range of [gint] makes PyGObject's [pygi_gint_from_py]
      raise [OverflowError("<n> not in range -2147483648 to
      2147483647")] ([first_overflow], [append_error]);
    - [Gtk.TreeViewColumn(title, renderer, **attributes)] (PyGObject's
      override) calls [add_attribute(renderer, name, value)] for each
      keyword; GTK's [gtk_cell_area_attribute_connect] drops, with a
      warning, an attribute the renderer has no property for
      ([connected_attrs]); when a row is drawn, each connected property
      receives the row's value, transformed by [g_value_transform] when
      the types differ ([transformable]);
    - a column header with a sort column id sorts only when the view's
      model implements [GtkTreeSortable]: a [Gtk.ListStore] does, a
      [Gtk.TreeModelFilter] does not ([header_sorts]). *)

From stdpp Require Import base list.
From Stdlib Require Import ZArith String Lia.
From Stdlib Require QArith_base.
From S2P Require Import Prelude PyStr.

Local Open Scope string_scope.

(** The column types of a store: Python's [bool], [int], [float], [str]. *)
Inductive GType := TBool | TInt | TDouble | TString.

#[export] Instance GType_eq_dec : EqDecision GType.
Proof. solve_decision. Defined.

(** A Python value as a store row holds it. *)
Inductive GValue :=
| VBool (b : bool)
| VInt (z : Z)
| VDouble (q : QArith_base.Q)
| VString (s : string).

Definition typeof (v : GValue) : GType :=
  match v with
  | VBool _ => TBool
  | VInt _ => TInt
  | VDouble _ => TDouble
  | VString _ => TString
  end.

Definition G_MININT : Z := (- 2 ^ 31)%Z.
Definition G_MAXINT : Z := (2 ^ 31 - 1)%Z.

Definition gint_fits (z : Z) : bool := Z.leb G_MININT z && Z.leb z G_MAXINT.

(** The first value of a row whose conversion to [gint] overflows. *)
Fixpoint first_overflow (vs : list GValue) : option Z :=
  match vs with
  | [] => None
  | VInt z :: vs => if gint_fits z then first_overflow vs else Some z
  | _ :: vs => first_overflow vs
  end.

(** The text of the [OverflowError] that [pygi_gint_from_py] raises. *)
Definition overflow_message (z : Z) : string :=
  py_str_Z z ++ " not in range -2147483648 to 2147483647".

(** [store.append(vs)]: [None] when the row is stored, the text of the
    exception otherwise. *)
Definition append_error (vs : list GValue) : option string :=
  option_map overflow_message (first_overflow vs).

(** A row the store accepts: one value per column, each of the declared
    type, each [int] within [gint]. *)
Definition row_typed (ts : list GType) (vs : list GValue) : bool :=
  bool_decide (map typeof vs = ts) && bool_decide (first_overflow vs = None).

(** The renderers the pages use. *)
Inductive Renderer := RToggle | RPixbuf | RText.

(** The properties of the renderers that this code binds or sets, with
    their types: [GtkCellRenderer]'s own and each subclass's. *)
Definition renderer_prop (r : Renderer) (p : string) : option GType :=
  if existsb (String.eqb p) ["visible"; "sensitive"] then Some TBool else
  match r with
  | RToggle => if existsb (String.eqb p) ["active"; "activatable"; "inconsistent"; "radio"]
               then Some TBool else None
  | RPixbuf => if String.eqb p "icon-name" then Some TString else None
  | RText => if existsb (String.eqb p) ["text"; "markup"] then Some TString
             else if String.eqb p "editable" then Some TBool else None
  end.

(** [g_value_type_transformable]: equal types, any of these types to a
    string, [int] to and from [float], [int] to [bool] and [bool] to
    [int]. *)
Definition transformable (src dst : GType) : bool :=
  match src, dst with
  | _, TString => true
  | TBool, TBool | TInt, TInt | TDouble, TDouble => true
  | TInt, TDouble | TDouble, TInt | TInt, TBool | TBool, TInt => true
  | _, _ => false
  end.

(** A cell data function set with [set_cell_data_func]. *)
Inductive CellFunc := NoCellFunc | RenderIconCell.

(** A tree-view column as the page builds it: its title, its renderer,
    the attributes passed to it in order, its sort column id, whether it
    expands, and its cell data function. *)
Record TreeColumn := mkColumn {
  col_title : string;
  col_renderer : Renderer;
  col_attrs : list (string * nat);
  col_sort : option nat;
  col_expand : bool;
  col_func : CellFunc
}.

#[export] Instance TreeColumn_inhabited : Inhabited TreeColumn :=
  populate (mkColumn "" RText [] None false NoCellFunc).

(** The model a tree view shows. *)
Inductive ViewModel := MStore | MFilter.

(** [gtk_cell_area_attribute_connect]: the attributes that name a
    property of the renderer. *)
Definition connected_attrs (c : TreeColumn) : list (string * nat) :=
  List.filter (fun a => bool_decide (is_Some (renderer_prop (col_renderer c) a.1))) (col_attrs c).

(** An attribute that is connected, names a column of the store, and
    whose column type GLib can transform into the property's type. *)
Definition attr_ok (ts : list GType) (r : Renderer) (a : string * nat) : bool :=
  match renderer_prop r a.1, ts !! a.2 with
  | Some pt, Some ct => transformable ct pt
  | _, _ => false
  end.

(** A column every attribute of which is connected and well typed, and
    whose sort column id names a column of the store. *)
Definition column_ok (ts : list GType) (c : TreeColumn) : bool :=
  forallb (attr_ok ts (col_renderer c)) (col_attrs c) &&
  match col_sort c with Some i => bool_decide (i < length ts) | None => true end.

(** The value a row gives to property [p] of the column's renderer when
    it is drawn: the bound column's value, or [None] for the renderer's
    default. *)
Definition cell_value (c : TreeColumn) (row : list GValue) (p : string) : option GValue :=
  match List.find (fun a => String.eqb a.1 p) (connected_attrs c) with
  | Some a => row !! a.2
  | None => None
  end.

(** Whether a click on the column's header sorts the view. *)
Definition header_sorts (m : ViewModel) (c : TreeColumn) : bool :=
  match m with
  | MStore => bool_decide (is_Some (col_sort c))
  | MFilter => false
  end.

(** ** Lemmas *)

Lemma row_typed_spec (ts : list GType) (vs : list GValue) :
  row_typed ts vs = true <-> map typeof vs = ts /\ first_overflow vs = None.
Proof. unfold row_typed. by rewrite andb_true_iff, !bool_decide_eq_true. Qed.

Lemma append_error_None (vs : list GValue) :
  append_error vs = None <-> first_overflow vs = None.
Proof. unfold append_error. by destruct (first_overflow vs). Qed.

Lemma first_overflow_app (vs ws : list GValue) :
  first_overflow (vs ++ ws) =
    match first_overflow vs with Some z => Some z | None => first_overflow ws end.
Proof. induction vs as [|[] vs IH]; simpl; try done. by destruct (gint_fits z). Qed.

Lemma gint_fits_spec (z : Z) : gint_fits z = true <-> (G_MININT <= z <= G_MAXINT)%Z.
Proof. unfold gint_fits. rewrite andb_true_iff, !Z.leb_le. done. Qed.

Lemma cell_value_unconnected (c : TreeColumn) (row : list GValue) (p : string) :
  Forall (fun a => a.1 <> p) (connected_attrs c) -> cell_value c row p = None.
Proof.
  unfold cell_value. intros H. destruct (List.find _ _) as [a|] eqn:E; [|done].
  apply find_some in E as [Ha Hp]. apply String.eqb_eq in Hp.
  rewrite Forall_forall in H. destruct (H a); [by apply list_elem_of_In|done].
Qed.

Lemma find_attr_in (c : TreeColumn) (p : string) (a : string * nat) :
  List.find (fun a => String.eqb a.1 p) (connected_attrs c) = Some a -> a ∈ col_attrs c /\ a.1 = p.
Proof.
  intros H. apply find_some in H as [H Hp]. unfold connected_attrs in H.
  apply filter_In in H as [H _]. split; [by apply list_elem_of_In | by apply String.eqb_eq].
Qed.

(** Soundness of [column_ok]: in a checked column, a row of the store's
    types gives every property it binds a value GLib can transform into
    the property's type. *)
Lemma cell_value_typed (ts : list GType) (c : TreeColumn) (row : list GValue) (p : string)
      (v : GValue) (pt : GType) :
  column_ok ts c = true -> map typeof row = ts ->
  renderer_prop (col_renderer c) p = Some pt ->
  cell_value c row p = Some v -> transformable (typeof v) pt = true.
Proof.
  unfold column_ok, cell_value. rewrite andb_true_iff, forallb_forall. intros [Hok _] Hts Hp.
  destruct (List.find _ _) as [a|] eqn:E; [|done]. intros Hv.
  apply find_attr_in in E as [Ha <-]. apply list_elem_of_In, Hok in Ha.
  unfold attr_ok in Ha. rewrite Hp, <- Hts, list_lookup_fmap, Hv in Ha. exact Ha.
Qed.

#[export] Hint Rewrite first_overflow_app : sm_rw.
