(* ===== verification/MainLoop.v ===== *)
(** * MainLoop: the GLib main loop the pages schedule their work on

    Every page hands work to the GLib main loop: [GLib.idle_add(cb)]
    (storage.py, services.py, repositories.py, backups.py, async_ops.py
    line 16), [GLib.timeout_add(ms, cb)] (packages.py line 176) and
    [GLib.timeout_add_seconds(s, cb)] (processes.py line 82, resources.py
    line 102).  This file models the main loop as explicit state: a clock
    in milliseconds and the attached sources in the order they were
    attached, each with its callback, its kind and the time it is next
    ready.

    One iteration ([iterate]) does what [g_main_context_iteration] does:
    it collects the ready sources (an idle source is always ready, a
    timeout when its time has come), keeps those of the highest priority
    (a timeout's [G_PRIORITY_DEFAULT], 0, before an idle source's
    [G_PRIORITY_DEFAULT_IDLE], 200), and dispatches them in order.  A
    callback that returns a false value, [None] included, or raises (the
    PyGObject marshaller prints the exception and returns [FALSE]) is
    removed; a timeout that returns a true value is next ready one
    interval after its dispatch.

    The callbacks are a type of the client ([Cb]) and their effect a
    function [run] of the client, given in the [Section]: it returns the
    client's new state, whether the source is kept, and the sources the
    callback attached. *)

From stdpp Require Import base list.
From Stdlib Require Import Lia.
From S2P Require Import Prelude.

(** How a source was attached. *)
Inductive Timing := Idle | Timeout (ms : nat).

#[export] Instance Timing_eq_dec : EqDecision Timing.
Proof. solve_decision. Defined.

(** [G_PRIORITY_DEFAULT] and [G_PRIORITY_DEFAULT_IDLE]. *)
Definition priority (t : Timing) : nat :=
  match t with Idle => 200 | Timeout _ => 0 end.

Record Source (Cb : Type) := mkSource {
  src_id : nat;
  src_timing : Timing;
  src_cb : Cb;
  src_due : nat
}.
Arguments mkSource {Cb}.
Arguments src_id {Cb}.
Arguments src_timing {Cb}.
Arguments src_cb {Cb}.
Arguments src_due {Cb}.

Record Loop (Cb : Type) := mkLoop {
  now : nat;
  next_id : nat;
  sources : list (Source Cb)
}.
Arguments mkLoop {Cb}.
Arguments now {Cb}.
Arguments next_id {Cb}.
Arguments sources {Cb}.

(** What a callback did. *)
Record CbResult (S Cb : Type) := mkResult {
  cb_state : S;
  cb_keep : bool;
  cb_adds : list (Timing * Cb)
}.
Arguments mkResult {S Cb}.
Arguments cb_state {S Cb}.
Arguments cb_keep {S Cb}.
Arguments cb_adds {S Cb}.

Section Loop.
Context {Cb : Type}.

(** A loop with no source at time 0. *)
Definition loop_empty : Loop Cb := mkLoop 0 0 [].

(** [GLib.idle_add(cb)] and [GLib.timeout_add(ms, cb)]. *)
Definition add_source (l : Loop Cb) (t : Timing) (cb : Cb) : Loop Cb :=
  let due := match t with Idle => now l | Timeout ms => now l + ms end in
  mkLoop (now l) (S (next_id l)) (sources l ++ [mkSource (next_id l) t cb due]).

Definition add_sources (l : Loop Cb) (adds : list (Timing * Cb)) : Loop Cb :=
  fold_left (fun l a => add_source l a.1 a.2) adds l.

Definition is_ready (l : Loop Cb) (s : Source Cb) : bool :=
  match src_timing s with Idle => true | Timeout _ => src_due s <=? now l end.

(** The sources one iteration dispatches, in order. *)
Definition batch (l : Loop Cb) : list (Source Cb) :=
  let ready := List.filter (is_ready l) (sources l) in
  let top := fold_left Nat.min (map (fun s => priority (src_timing s)) ready) 200 in
  List.filter (fun s => Nat.eqb (priority (src_timing s)) top) ready.

(** After a dispatch of source [i]: removed, or a timeout rescheduled one
    interval after now. *)
Definition after_dispatch (l : Loop Cb) (i : nat) (keep : bool) : Loop Cb :=
  mkLoop (now l) (next_id l)
    (if keep
     then map (fun s => if Nat.eqb (src_id s) i
                        then match src_timing s with
                             | Timeout ms => mkSource (src_id s) (src_timing s) (src_cb s) (now l + ms)
                             | Idle => s
                             end
                        else s) (sources l)
     else List.filter (fun s => negb (Nat.eqb (src_id s) i)) (sources l)).

(** Let the clock run for [d] milliseconds. *)
Definition advance (d : nat) (l : Loop Cb) : Loop Cb := mkLoop (now l + d) (next_id l) (sources l).

Variable S Env : Type.
Variable run : Env -> Cb -> S -> CbResult S Cb.

Definition dispatch (env : Env) (w : S * Loop Cb) (s : Source Cb) : S * Loop Cb :=
  let r := run env (src_cb s) w.1 in
  (cb_state r, add_sources (after_dispatch w.2 (src_id s) (cb_keep r)) (cb_adds r)).

(** One [g_main_context_iteration]. *)
Definition iterate (env : Env) (w : S * Loop Cb) : S * Loop Cb :=
  fold_left (dispatch env) (batch w.2) w.

End Loop.

Arguments iterate {Cb S Env} run env w.
Arguments dispatch {Cb S Env} run env w s.

(** ** Lemmas *)

Section LoopFacts.
Context {Cb : Type}.

Lemma add_source_sources (l : Loop Cb) t cb :
  sources (add_source l t cb) = sources l ++ [mkSource (next_id l) t cb
                                                (match t with Idle => now l | Timeout ms => now l + ms end)].
Proof. done. Qed.

Lemma add_sources_nil (l : Loop Cb) : add_sources l [] = l.
Proof. done. Qed.

Lemma advance_sources (d : nat) (l : Loop Cb) : sources (advance d l) = sources l.
Proof. done. Qed.

Lemma after_dispatch_removes (l : Loop Cb) (i : nat) :
  Forall (fun s => src_id s <> i) (sources (after_dispatch l i false)).
Proof.
  simpl. apply Forall_forall. intros s Hs. apply list_elem_of_In, filter_In in Hs as [_ Hs].
  apply negb_true_iff, Nat.eqb_neq in Hs. done.
Qed.

(** A kept source stays attached with its callback and timing. *)
Lemma after_dispatch_keeps (l : Loop Cb) (i : nat) (s : Source Cb) :
  s ∈ sources l ->
  exists s', s' ∈ sources (after_dispatch l i true) /\ src_id s' = src_id s /\
             src_cb s' = src_cb s /\ src_timing s' = src_timing s.
Proof.
  intros Hs. simpl. eexists. split; [apply list_elem_of_fmap_2, Hs|].
  destruct (Nat.eqb (src_id s) i), (src_timing s) eqn:E; simpl; rewrite ?E; done.
Qed.

Lemma add_sources_keeps (l : Loop Cb) (adds : list (Timing * Cb)) (s : Source Cb) :
  s ∈ sources l -> s ∈ sources (add_sources l adds).
Proof.
  revert l. induction adds as [|a adds IH]; intros l Hs; [done|].
  apply IH. rewrite add_source_sources. apply elem_of_app. by left.
Qed.

End LoopFacts.

#[export] Hint Rewrite @add_source_sources @advance_sources : sm_rw.
(** Settle every [Nat.leb] on the clock by arithmetic. *)
Ltac leb_cases :=
  repeat (simpl; match goal with
          | |- context [Nat.leb ?a ?b] =>
              let H := fresh in destruct (Nat.leb_spec a b) as [H|H]; try (exfalso; lia)
          end); simpl.


