(* ===== verification/Rows.v ===== *)
(** * Rows: the rows of the two selectable stores and their interface

    [ProcRow] is one row of [process_store] (src/pages/processes.py,
    line 31: [Gtk.ListStore(bool, int, str, str, float, float, int, str,
    str, str, str, str)]); [PkgRow] is one row of [pkg_store]
    (src/pages/packages.py, line 84: [Gtk.ListStore(bool, str, str, str,
    int, int)]).  Column 0 of both is the check box.

    The selection controller reads and writes column 0 only; the class
    [Selectable] is what it needs of a row type, with the laws of a
    get/put pair.  [Identified] adds the identity column the actions read
    (column 1: the pid, the package name). *)

From stdpp Require Import base list.
From Stdlib Require Import ZArith String.
From Stdlib Require QArith_base.
From S2P Require Import Prelude.

Class Selectable (R : Type) := {
  sel : R -> bool;
  set_sel : bool -> R -> R;
  sel_set_sel : forall b r, sel (set_sel b r) = b;
  set_sel_sel : forall r, set_sel (sel r) r = r;
  set_sel_twice : forall a b r, set_sel a (set_sel b r) = set_sel a r
}.

Class Identified (R K : Type) `{Selectable R} := {
  row_id : R -> K;
  row_id_set_sel : forall b r, row_id (set_sel b r) = row_id r
}.

#[export] Hint Rewrite @sel_set_sel @set_sel_sel @set_sel_twice @row_id_set_sel : sm_rw.

(** ** The process row (processes.py, lines 29-31, 134-136) *)

Record ProcRow := mkProcRow {
  p_active : bool;      (** column 0 *)
  p_pid : Z;            (** column 1 *)
  p_icon : string;      (** column 2 *)
  p_name : string;      (** column 3 *)
  p_cpu : QArith_base.Q;  (** column 4 *)
  p_mem : QArith_base.Q;  (** column 5 *)
  p_threads : Z;        (** column 6 *)
  p_status : string;    (** column 7 *)
  p_user : string;      (** column 8 *)
  p_cmd : string;       (** column 9 *)
  p_read : string;      (** column 10 *)
  p_write : string      (** column 11 *)
}.

Definition proc_set_active (b : bool) (r : ProcRow) : ProcRow :=
  {| p_active := b; p_pid := p_pid r; p_icon := p_icon r; p_name := p_name r;
     p_cpu := p_cpu r; p_mem := p_mem r; p_threads := p_threads r;
     p_status := p_status r; p_user := p_user r; p_cmd := p_cmd r;
     p_read := p_read r; p_write := p_write r |}.

(** A process row with the given pid, check box and name, the other
    columns empty or zero: the rows of the worked examples. *)
Definition example_proc (pid : Z) (active : bool) (name : string) : ProcRow :=
  mkProcRow active pid "" name (QArith_base.inject_Z 0) (QArith_base.inject_Z 0) 0 "" "" "" "" "".

#[export] Program Instance ProcRow_selectable : Selectable ProcRow :=
  {| sel := p_active; set_sel := proc_set_active |}.
Solve All Obligations with by intros; try destruct r.

#[export] Program Instance ProcRow_identified : Identified ProcRow Z :=
  {| row_id := p_pid |}.
Solve All Obligations with by intros; try destruct r.

(** ** The package row (packages.py, lines 84, 213) *)

Record PkgRow := mkPkgRow {
  k_active : bool;      (** column 0 *)
  k_name : string;      (** column 1 *)
  k_icon : string;      (** column 2 *)
  k_version : string;   (** column 3 *)
  k_size : Z;           (** column 4 *)
  k_extra : Z           (** column 5 *)
}.

Definition pkg_set_active (b : bool) (r : PkgRow) : PkgRow :=
  {| k_active := b; k_name := k_name r; k_icon := k_icon r;
     k_version := k_version r; k_size := k_size r; k_extra := k_extra r |}.

#[export] Program Instance PkgRow_selectable : Selectable PkgRow :=
  {| sel := k_active; set_sel := pkg_set_active |}.
Solve All Obligations with by intros; try destruct r.

#[export] Program Instance PkgRow_identified : Identified PkgRow string :=
  {| row_id := k_name |}.
Solve All Obligations with by intros; try destruct r.

(** ** Rows that differ at most in column 0 *)

(** [r'] is [r] with column 0 possibly rewritten. *)
Definition same_but_sel `{Selectable R} (r r' : R) : Prop := set_sel (sel r') r = r'.

(** A store whose rows differ from another's at most in column 0. *)
Definition same_rows `{Selectable R} (l l' : list R) : Prop := Forall2 same_but_sel l l'.

#[export] Instance same_but_sel_preorder `{Selectable R} : PreOrder (@same_but_sel R _).
Proof.
  split.
  - intros r. apply set_sel_sel.
  - intros r1 r2 r3 H1 H2. unfold same_but_sel in *.
    rewrite <- H2 at 2. rewrite <- H1. by rewrite set_sel_twice.
Qed.

#[export] Instance same_rows_preorder `{Selectable R} : PreOrder (@same_rows R _).
Proof. unfold same_rows. apply (PreOrder_instance_1 same_but_sel), same_but_sel_preorder. Qed.

Section SameButSel.
Context `{Selectable R}.

Lemma same_but_sel_set b r : same_but_sel r (set_sel b r).
Proof. unfold same_but_sel. by rewrite sel_set_sel. Qed.

Lemma same_rows_alter l i b : same_rows l (alter (set_sel b) i l).
Proof.
  revert i; induction l as [|r l IH]; intros [|i]; simpl; try constructor.
  - apply same_but_sel_set.
  - reflexivity.
  - reflexivity.
  - apply IH.
Qed.

Lemma same_rows_length l l' : same_rows l l' -> length l = length l'.
Proof. apply Forall2_length. Qed.

Lemma same_rows_ids `{!Identified R K} l l' :
  same_rows l l' -> map row_id l = map row_id l'.
Proof.
  induction 1 as [|r r' l l' Hr _ IH]; simpl; [done|].
  unfold same_but_sel in Hr. by rewrite <- Hr, row_id_set_sel, IH.
Qed.
End SameButSel.

#[export] Hint Resolve same_but_sel_set same_rows_alter : sm.
