(* ===== verification/Filter.v ===== *)
(** * Filter: the search predicates and the filtered view

    Each page shows its store through a [Gtk.TreeModelFilter] whose
    visible function reads the search entry (processes.py, lines 32-33,
    100-109; packages.py, lines 85-86, 185-193).  The filter is re-derived
    from the store and the query text: [refilter] runs on every change of
    the entry, and GTK re-evaluates a row when the store changes it.  The
    model represents the filter by the list of store indices it shows, in
    store order ([filter_view]); a path of the view is an index into that
    list, and [convert_path_to_child_path] reads it (None for a path past
    the end). *)

From stdpp Require Import base list.
From Stdlib Require Import String Lia Sorted.
From S2P Require Import Prelude PyStr Rows.

(** processes.py, [proc_visible_func]: an empty query shows every row;
    otherwise the lower-cased query must occur in the lower-cased name or
    command.  The [or ""] of the source is the identity here: both columns
    always hold strings. *)
Definition proc_visible_func (query : string) (r : ProcRow) : bool :=
  let text := py_lower query in
  if String.eqb text ""%string then true
  else
    let name := p_name r in
    let cmd := p_cmd r in
    py_in text (py_lower name) || py_in text (py_lower cmd).

(** packages.py, [pkg_visible_func]: the query against the name only. *)
Definition pkg_visible_func (query : string) (r : PkgRow) : bool :=
  let text := py_lower query in
  if String.eqb text ""%string then true
  else
    let name := k_name r in
    py_in text (py_lower name).

Section View.
Context {R : Type} (visible : R -> bool).

Fixpoint filter_view_from (i : nat) (l : list R) : list nat :=
  match l with
  | [] => []
  | r :: l' => if visible r then i :: filter_view_from (S i) l'
               else filter_view_from (S i) l'
  end.

(** The rows the view shows, as store indices in store order. *)
Definition filter_view (store : list R) : list nat := filter_view_from 0 store.

(** [filter.convert_path_to_child_path(path)]: the store index behind a
    view path, None when the path does not exist. *)
Definition convert_path_to_child_path (store : list R) (path : nat) : option nat :=
  filter_view store !! path.

Lemma filter_view_from_elem (n : nat) (l : list R) (i : nat) :
  i ∈ filter_view_from n l <->
  n <= i /\ exists r, l !! (i - n) = Some r /\ visible r = true.
Proof.
  revert n; induction l as [|r l IH]; intros n; simpl.
  - split; [intros Hi; by apply elem_of_nil in Hi | intros [_ [? [? _]]]; done].
  - destruct (visible r) eqn:Hv; rewrite ?elem_of_cons, IH; split.
    + intros [->|[Hle [r' [Hl Hv']]]].
      * split; [lia|]. rewrite Nat.sub_diag. eauto.
      * split; [lia|]. replace (i - n) with (S (i - S n)) by lia. eauto.
    + intros [Hle [r' [Hl Hv']]]. destruct (decide (i = n)) as [->|Hne]; [by left|].
      right. split; [lia|]. replace (i - n) with (S (i - S n)) in Hl by lia. eauto.
    + intros [Hle [r' [Hl Hv']]].
      split; [lia|]. replace (i - n) with (S (i - S n)) by lia. eauto.
    + intros [Hle [r' [Hl Hv']]]. destruct (decide (i = n)) as [->|Hne].
      * rewrite Nat.sub_diag in Hl. simpl in Hl. congruence.
      * split; [lia|]. replace (i - n) with (S (i - S n)) in Hl by lia. eauto.
Qed.

Lemma filter_view_from_bounds (n : nat) (l : list R) :
  Forall (fun i => n <= i < n + length l) (filter_view_from n l).
Proof.
  apply Forall_forall. intros i Hi%filter_view_from_elem.
  destruct Hi as [Hle [r [Hl _]]]. apply lookup_lt_Some in Hl. lia.
Qed.

Lemma filter_view_from_sorted (n : nat) (l : list R) :
  StronglySorted lt (filter_view_from n l).
Proof.
  revert n; induction l as [|r l IH]; intros n; simpl; [constructor|].
  destruct (visible r); [|apply IH]. constructor; [apply IH|].
  eapply Forall_impl; [apply filter_view_from_bounds|]. simpl. lia.
Qed.

Lemma filter_view_elem (l : list R) (i : nat) :
  i ∈ filter_view l <-> exists r, l !! i = Some r /\ visible r = true.
Proof. unfold filter_view. rewrite filter_view_from_elem, Nat.sub_0_r.
  split; [intros [_ H]; exact H | intros H; split; [lia | exact H]].
Qed.
End View.

(** The view depends on the rows only through the visibility predicate. *)
Lemma filter_view_ext {R : Type} (v v' : R -> bool) (l l' : list R) :
  Forall2 (fun r r' => v r = v' r') l l' -> filter_view v l = filter_view v' l'.
Proof.
  unfold filter_view. generalize 0 as n.
  intros n H; revert n; induction H as [|r r' l l' Hr _ IH]; intros n; simpl; [done|].
  by rewrite Hr, IH.
Qed.

(** [proc_visible_func] shows a row iff the query is empty after
    lower-casing or it occurs, ignoring Latin-1 case, in the row's name or
    command. *)
Theorem proc_visible_func_spec (query : string) (r : ProcRow) :
  proc_visible_func query r = true <->
  py_lower query = ""%string \/
  (exists a b, py_lower (p_name r) = (a ++ py_lower query ++ b)%string) \/
  (exists a b, py_lower (p_cmd r) = (a ++ py_lower query ++ b)%string).
Proof.
  unfold proc_visible_func. destruct (String.eqb_spec (py_lower query) ""%string) as [He|Hne].
  - split; [by left | done].
  - rewrite orb_true_iff, !py_in_spec. split.
    + intros [H|H]; right; [left|right]; exact H.
    + intros [H|[H|H]]; [done | left | right]; exact H.
Qed.
