(* ===== verification/Modifier.v ===== *)
(** * Modifier: the application's shift-key state

    src/app.py keeps two attributes on the application object,
    [shift_pressed] and [shift_last_active] (lines 23-25), written by the
    window's key controller ([on_key_pressed], [on_key_released], lines
    147-164) and read by both pages' click handlers (processes.py line
    263, packages.py line 369) through [is_shift].

    Times are integer milliseconds ([time.time()] is float seconds; the
    grace window [< 0.6] is [< 600]).  [shift_last_active] is [None] or a
    time, and the code tests it for truthiness, so a stamp of [0] counts
    as absent, as in Python.

    The theorems: every state the key handlers can reach satisfies
    "a stamp is present only while the key is held" ([shift_inv]), so the
    grace window of [is_shift] never decides anything: on reachable states
    [is_shift] is exactly [shift_pressed]; after a shift release no click,
    however soon, is a range gesture. *)

From stdpp Require Import base list.
From Stdlib Require Import ZArith Lia.
From S2P Require Import Prelude.

Local Open Scope Z_scope.

Record ShiftState := mkShift {
  shift_pressed : bool;
  shift_last_active : option Z
}.

(** app.py, lines 23-25. *)
Definition shift_init : ShiftState :=
  {| shift_pressed := false; shift_last_active := None |}.

(** [Gdk.KEY_Shift_L] and [Gdk.KEY_Shift_R]. *)
Definition KEY_Shift_L : Z := 65505.
Definition KEY_Shift_R : Z := 65506.

Definition is_shift_key (keyval : Z) : bool :=
  (keyval =? KEY_Shift_L) || (keyval =? KEY_Shift_R).

(** app.py, [on_key_pressed]: the new state and the handler's result. *)
Definition on_key_pressed (s : ShiftState) (keyval now : Z) : ShiftState * bool :=
  if is_shift_key keyval
  then ({| shift_pressed := true; shift_last_active := Some now |}, false)
  else (s, false).

(** app.py, [on_key_released]. *)
Definition on_key_released (s : ShiftState) (keyval : Z) : ShiftState * bool :=
  if is_shift_key keyval
  then ({| shift_pressed := false; shift_last_active := None |}, false)
  else (s, false).

(** processes.py line 263 (and packages.py line 369):
    [self.app.shift_pressed or (self.app.shift_last_active and
    (time.time() - self.app.shift_last_active) < 0.6)]. *)
Definition is_shift (s : ShiftState) (now : Z) : bool :=
  shift_pressed s ||
  match shift_last_active s with
  | Some t => negb (t =? 0) && (now - t <? 600)
  | None => false
  end.

(** The events of the key controller. *)
Inductive KeyEvent :=
| KeyPressed (keyval now : Z)
| KeyReleased (keyval : Z).

Definition key_step (s : ShiftState) (e : KeyEvent) : ShiftState :=
  match e with
  | KeyPressed kv now => fst (on_key_pressed s kv now)
  | KeyReleased kv => fst (on_key_released s kv)
  end.

(** The states the key controller can reach from the initial state. *)
Inductive shift_reachable : ShiftState -> Prop :=
| shift_reach_init : shift_reachable shift_init
| shift_reach_step s e : shift_reachable s -> shift_reachable (key_step s e).

(** The invariant: a stamp is present only while the key is held. *)
Definition shift_inv (s : ShiftState) : Prop :=
  shift_last_active s <> None -> shift_pressed s = true.

Lemma shift_inv_init : shift_inv shift_init.
Proof. by unfold shift_inv. Qed.

Lemma shift_inv_step s e : shift_inv s -> shift_inv (key_step s e).
Proof.
  unfold shift_inv, key_step, on_key_pressed, on_key_released.
  destruct e; destruct (is_shift_key _); simpl; auto.
Qed.

Lemma shift_inv_reachable s : shift_reachable s -> shift_inv s.
Proof.
  induction 1; [apply shift_inv_init | by apply shift_inv_step].
Qed.

Lemma is_shift_inv s now : shift_inv s -> is_shift s now = shift_pressed s.
Proof.
  unfold shift_inv, is_shift. destruct (shift_pressed s), (shift_last_active s); auto.
  intros H. specialize (H ltac:(done)). discriminate.
Qed.

#[export] Hint Resolve shift_inv_init shift_inv_step shift_inv_reachable : sm.

(** C7: on every state the key handlers can reach, the click handlers'
    shift test is exactly [shift_pressed]: the 0.6 s grace window never
    changes the answer, because a stamp is only present while the key is
    held. *)
Theorem is_shift_reachable (s : ShiftState) (now : Z) :
  shift_reachable s -> is_shift s now = shift_pressed s.
Proof. intros Hr. apply is_shift_inv, shift_inv_reachable, Hr. Qed.

(** C7 witness: shift pressed at 500 ms, queried at 5 s. *)
Lemma is_shift_reachable_witness :
  shift_reachable (key_step shift_init (KeyPressed KEY_Shift_L 500)) /\
  is_shift (key_step shift_init (KeyPressed KEY_Shift_L 500)) 5000 = true.
Proof.
  assert (H : shift_reachable (key_step shift_init (KeyPressed KEY_Shift_L 500)))
    by (apply shift_reach_step, shift_reach_init).
  split; [exact H|]. rewrite (is_shift_reachable _ 5000 H). reflexivity.
Defined.

(** C8: once a shift key is released, no click is a range gesture, however
    soon it comes: [on_key_released] clears the stamp the grace window
    reads.  Spec sections 4.5 and 8 say a click 0.3 s after the key-up is
    still a range gesture. *)
Theorem release_ends_range_gesture (s : ShiftState) (keyval now : Z) :
  is_shift_key keyval = true -> is_shift (fst (on_key_released s keyval)) now = false.
Proof. intros Hk. unfold on_key_released. by rewrite Hk. Qed.

(** C8 witness: the spec's scenario, key-up at t = 0 and a click at
    t = 300 ms. *)
Lemma release_ends_range_gesture_witness :
  is_shift_key KEY_Shift_L = true /\
  is_shift (fst (on_key_released (mkShift true (Some 1)) KEY_Shift_L)) 300 = false.
Proof. split; [reflexivity | apply release_ends_range_gesture; reflexivity]. Defined.
