(* ===== verification/Selection.v ===== *)
(** * Selection: the check-box selection controller of a page

    The process page and the package page carry the same selection code
    twice (processes.py lines 17-18, 226-299; packages.py lines 12-13,
    330-406).  It is modelled once, in the Section [Controller], over any
    row type with a [Selectable] instance and any visibility predicate,
    and instantiated for each page at the end of the file.

    The state of a page ([SelState]) is its store, its anchor
    ([last_proc_toggled_idx]), its one-shot flag
    ([_suppress_proc_toggle]) and the text of its search entry, which
    determines the filtered view the handlers' paths refer to.

    - [on_toggled] is the check box's [toggled] handler: it consumes the
      flag if set; otherwise it maps the view path to a store index, flips
      column 0 there and moves the anchor.
    - [on_tree_click] is the tree's [pressed] gesture handler: on a click
      in column 0 while the shift test holds and an anchor exists, it
      paints the closed store-index interval between anchor and target
      with the anchor row's current value ([True] when the anchor row is
      gone), sets the flag, moves the anchor and reports the click
      handled.
    - [range_set] is its [for i in range(a, b + 1)] loop.

    The theorems state each handler's behaviour on every branch, that a
    repeated shift-click changes nothing, and that the handlers never
    touch anything but column 0. *)

From stdpp Require Import base list.
From Stdlib Require Import ZArith String Lia.
From S2P Require Import Prelude Rows Filter Modifier.

Record SelState (R : Type) := mkSel {
  store : list R;
  anchor : option nat;
  suppress : bool;
  query : string
}.
Arguments mkSel {R}.
Arguments store {R}.
Arguments anchor {R}.
Arguments suppress {R}.
Arguments query {R}.

Section Controller.
Context {R : Type} `{Selectable R}.
Variable visible : string -> R -> bool.

(** The store index behind a path of the page's current view. *)
Definition child_index (st : SelState R) (path : nat) : option nat :=
  convert_path_to_child_path (visible (query st)) (store st) path.

(** [for i in range(a, b + 1): store[i][0] = new_state], each write a
    no-op out of range (the nested [try/except]). *)
Definition range_set (a b : nat) (new_state : bool) (l : list R) : list R :=
  fold_left (fun acc i => alter (set_sel new_state) i acc) (a ..< S b) l.

(** The [toggled] handler (processes.py, [on_process_toggled]). *)
Definition on_toggled (st : SelState R) (path : nat) : SelState R :=
  if suppress st then mkSel (store st) (anchor st) false (query st)
  else
    match child_index st path with
    | None => st
    | Some idx =>
        let cur := default false (sel <$> store st !! idx) in
        let new_state := negb cur in
        mkSel (alter (set_sel new_state) idx (store st)) (Some idx)
              (suppress st) (query st)
    end.

(** The [pressed] handler (processes.py, [on_process_tree_click]).
    [hit] is [tree.get_path_at_pos(x, y)]: the view path and the index
    of the column under the pointer, column 0 being the check box. *)
Definition on_tree_click (st : SelState R) (sh : ShiftState) (now : Z)
           (hit : option (nat * nat)) : SelState R * bool :=
  match hit with
  | None => (st, false)
  | Some (path, column) =>
      if negb (column =? 0)%nat then (st, false)
      else
        let shift := is_shift sh now in
        match child_index st path with
        | None => (st, false)
        | Some idx =>
            match anchor st with
            | Some a =>
                if shift then
                  let anchor_state := default true (sel <$> store st !! a) in
                  let new_state := anchor_state in
                  let lo := Nat.min a idx in
                  let hi := Nat.max a idx in
                  (mkSel (range_set lo hi new_state (store st)) (Some idx) true (query st), true)
                else (st, false)
            | None => (st, false)
            end
        end
  end.

(** The search entry's [changed] signal: the new text, then [refilter]. *)
Definition set_query (st : SelState R) (text : string) : SelState R :=
  mkSel (store st) (anchor st) (suppress st) text.

(** The anchor, when set, names a row of the store. *)
Definition anchor_ok (st : SelState R) : Prop :=
  match anchor st with Some a => a < length (store st) | None => True end.

End Controller.

(** ** The two pages *)

(** processes.py: the page state is [process_store],
    [last_proc_toggled_idx], [_suppress_proc_toggle] and the text of
    [process_search]. *)
Definition ProcPage := SelState ProcRow.

(** processes.py, lines 15-18 and 31: an empty store, no anchor, no
    pending suppression, an empty search entry. *)
Definition proc_page_init : ProcPage := mkSel [] None false "".

Definition on_process_toggled : ProcPage -> nat -> ProcPage :=
  on_toggled proc_visible_func.
Definition on_process_tree_click :
  ProcPage -> ShiftState -> Z -> option (nat * nat) -> ProcPage * bool :=
  on_tree_click proc_visible_func.
Definition filter_processes : ProcPage -> string -> ProcPage := set_query.

(** packages.py: [pkg_store], [last_pkg_toggled_idx],
    [_suppress_pkg_toggle] and the text of [package_search]. *)
Definition PkgPage := SelState PkgRow.

Definition pkg_page_init : PkgPage := mkSel [] None false "".

Definition on_package_toggled : PkgPage -> nat -> PkgPage :=
  on_toggled pkg_visible_func.
Definition on_packages_tree_click :
  PkgPage -> ShiftState -> Z -> option (nat * nat) -> PkgPage * bool :=
  on_tree_click pkg_visible_func.
Definition filter_packages : PkgPage -> string -> PkgPage := set_query.

(** ** Worked examples *)

(** The spec's selection scenario (section 8): pids 1-4, none checked, no
    anchor, an empty search entry. *)
Definition scenario_page : ProcPage :=
  mkSel [example_proc 1 false ""; example_proc 2 false ""; example_proc 3 false "";
         example_proc 4 false ""] None false "".

(** A shift key held since t = 1000 ms. *)
Definition shift_held : ShiftState := mkShift true (Some 1000%Z).

(** No modifier. *)
Definition shift_up : ShiftState := shift_init.

(** Three processes, the middle one hidden by the query "BASH" (the
    filter is case-insensitive); the first one checked and anchored. *)
Definition hidden_row_page : ProcPage :=
  mkSel [example_proc 10 true "bash"; example_proc 11 false "zsh";
         example_proc 12 false "bash"] (Some 0) false "BASH".

(** The pids whose check box is set, in store order. *)
Definition checked_pids (st : ProcPage) : list Z :=
  map p_pid (List.filter p_active (store st)).

Section ControllerFacts.
Context {R : Type} `{Selectable R}.
Variable visible : string -> R -> bool.

Local Abbreviation child_index := (child_index visible).
Local Abbreviation on_toggled := (on_toggled visible).
Local Abbreviation on_tree_click := (on_tree_click visible).

(** ** Helper lemmas *)

Lemma child_index_Some st path idx :
  child_index st path = Some idx ->
  exists r, store st !! idx = Some r /\ visible (query st) r = true.
Proof.
  unfold child_index, convert_path_to_child_path. intros Hp.
  apply filter_view_elem. by eapply list_elem_of_lookup_2.
Qed.

Lemma fold_alter_lookup (idxs : list nat) (v : bool) (l : list R) (j : nat) :
  fold_left (fun acc i => alter (set_sel v) i acc) idxs l !! j =
  if decide (j ∈ idxs) then set_sel v <$> l !! j else l !! j.
Proof.
  revert l; induction idxs as [|i idxs IH]; intros l; cbn [fold_left].
  - rewrite decide_False; [done | apply not_elem_of_nil].
  - rewrite IH, list_lookup_alter.
    repeat case_decide; subst; rewrite ?elem_of_cons in *; try tauto.
    + destruct (l !! j); simpl; [by rewrite set_sel_twice | done].
    + exfalso. naive_solver.
Qed.

Lemma range_set_lookup a b v l j :
  range_set a b v l !! j =
  if (a <=? j) && (j <=? b) then set_sel v <$> l !! j else l !! j.
Proof.
  unfold range_set. rewrite fold_alter_lookup.
  case_decide as Hj; rewrite py_range_spec in Hj;
    destruct (a <=? j) eqn:Ha, (j <=? b) eqn:Hb; simpl;
    rewrite ?Nat.leb_le, ?Nat.leb_gt in *; try done; lia.
Qed.

Lemma range_set_length a b v l : length (range_set a b v l) = length l.
Proof.
  unfold range_set. generalize (a ..< S b) as idxs.
  intros idxs; revert l; induction idxs; intros l; simpl; [done|].
  by rewrite IHidxs, length_alter.
Qed.

Lemma range_set_same_rows a b v l : same_rows l (range_set a b v l).
Proof.
  unfold range_set. generalize (a ..< S b) as idxs.
  intros idxs; revert l; induction idxs as [|i idxs IH]; intros l; simpl; [reflexivity|].
  etrans; [apply (same_rows_alter l i v) | apply IH].
Qed.

Lemma on_toggled_suppressed st path :
  suppress st = true -> on_toggled st path = mkSel (store st) (anchor st) false (query st).
Proof. intros Hs. unfold Selection.on_toggled. by rewrite Hs. Qed.

Lemma on_toggled_stale st path :
  suppress st = false -> child_index st path = None -> on_toggled st path = st.
Proof. intros Hs Hc. unfold Selection.on_toggled. by rewrite Hs, Hc. Qed.

Lemma on_toggled_flips st path idx :
  suppress st = false -> child_index st path = Some idx ->
  exists r, store st !! idx = Some r /\
    store (on_toggled st path) !! idx = Some (set_sel (negb (sel r)) r) /\
    (forall j, j <> idx -> store (on_toggled st path) !! j = store st !! j) /\
    anchor (on_toggled st path) = Some idx /\
    suppress (on_toggled st path) = false.
Proof.
  intros Hs Hc. destruct (child_index_Some _ _ _ Hc) as [r [Hr _]].
  exists r. unfold Selection.on_toggled. rewrite Hs, Hc; simpl. rewrite Hr; simpl.
  split_and!; try done.
  - by rewrite lookup_alter_same, Hr.
  - intros j Hj. by apply list_lookup_alter_ne.
Qed.

Lemma on_tree_click_range st sh now path idx a :
  child_index st path = Some idx -> anchor st = Some a -> is_shift sh now = true ->
  on_tree_click st sh now (Some (path, 0)) =
    (mkSel (range_set (Nat.min a idx) (Nat.max a idx) (default true (sel <$> store st !! a)) (store st))
           (Some idx) true (query st), true).
Proof.
  intros Hc Ha Hsh. unfold Selection.on_tree_click. simpl. by rewrite Hsh, Hc, Ha.
Qed.

Lemma on_tree_click_unhandled st sh now hit :
  snd (on_tree_click st sh now hit) = false -> fst (on_tree_click st sh now hit) = st.
Proof.
  unfold Selection.on_tree_click.
  destruct hit as [[path col]|]; simpl; [|done].
  destruct (negb _); [done|]. destruct (child_index st path); [|done].
  destruct (anchor st); [|done]. by destruct (is_shift sh now).
Qed.

Lemma on_tree_click_handled st sh now hit st' :
  on_tree_click st sh now hit = (st', true) ->
  suppress st' = true /\ exists idx, anchor st' = Some idx /\ idx < length (store st') /\
    query st' = query st.
Proof.
  unfold Selection.on_tree_click.
  destruct hit as [[path col]|]; simpl; [|done].
  destruct (negb _); [done|]. destruct (child_index st path) as [idx|] eqn:Hc; [|done].
  destruct (anchor st); [|done]. destruct (is_shift sh now); [|done].
  intros [= <-]. simpl. split; [done|]. exists idx. rewrite range_set_length.
  destruct (child_index_Some _ _ _ Hc) as [r [Hr _]].
  split_and!; [done | by eapply lookup_lt_Some | done].
Qed.

Lemma on_toggled_same_rows st path : same_rows (store st) (store (on_toggled st path)).
Proof.
  unfold Selection.on_toggled. destruct (suppress st); [reflexivity|].
  destruct (child_index st path); [apply same_rows_alter | reflexivity].
Qed.

Lemma on_tree_click_same_rows st sh now hit :
  same_rows (store st) (store (fst (on_tree_click st sh now hit))).
Proof.
  destruct (snd (on_tree_click st sh now hit)) eqn:Hh.
  - destruct (on_tree_click st sh now hit) as [st' b] eqn:E. simpl in *. subst b.
    revert E. unfold Selection.on_tree_click.
    destruct hit as [[path col]|]; simpl; [|done].
    destruct (negb _); [done|]. destruct (child_index st path); [|done].
    destruct (anchor st); [|done]. destruct (is_shift sh now); [|done].
    intros [= <-]. apply range_set_same_rows.
  - rewrite on_tree_click_unhandled by done. reflexivity.
Qed.

Lemma on_toggled_anchor_ok st path : anchor_ok st -> anchor_ok (on_toggled st path).
Proof.
  unfold anchor_ok, Selection.on_toggled. destruct (suppress st); [done|].
  destruct (child_index st path) as [idx|] eqn:Hc; [|done]. simpl.
  intros _. rewrite length_alter.
  destruct (child_index_Some _ _ _ Hc) as [r [Hr _]]. by eapply lookup_lt_Some.
Qed.

Lemma on_tree_click_anchor_ok st sh now hit :
  anchor_ok st -> anchor_ok (fst (on_tree_click st sh now hit)).
Proof.
  destruct (on_tree_click st sh now hit) as [st' []] eqn:E; simpl.
  - destruct (on_tree_click_handled _ _ _ _ _ E) as [_ [idx [Ha [Hl _]]]].
    intros _. unfold anchor_ok. by rewrite Ha.
  - pose proof (on_tree_click_unhandled st sh now hit) as Hu.
    rewrite E in Hu. simpl in Hu. by rewrite (Hu eq_refl).
Qed.

Section VisibleIgnoresSel.
(** Both pages' search predicates ignore column 0. *)
Hypothesis visible_sel : forall q b r, visible q (set_sel b r) = visible q r.

Lemma child_index_same_rows st st' path :
  same_rows (store st) (store st') -> query st = query st' ->
  child_index st path = child_index st' path.
Proof.
  intros Hs Hq. unfold Selection.child_index, convert_path_to_child_path.
  rewrite <- Hq. f_equal. apply filter_view_ext.
  eapply Forall2_impl; [apply Hs|]. intros r r' Hr. simpl.
  unfold same_but_sel in Hr. by rewrite <- Hr, visible_sel.
Qed.

Lemma on_tree_click_idem st sh now hit :
  store (fst (on_tree_click (fst (on_tree_click st sh now hit)) sh now hit)) =
  store (fst (on_tree_click st sh now hit)).
Proof.
  destruct (on_tree_click st sh now hit) as [st1 []] eqn:E; simpl.
  - pose proof E as E'. revert E'. unfold Selection.on_tree_click at 1.
    destruct hit as [[path [|col]]|]; simpl; [|done|done].
    destruct (child_index st path) as [idx|] eqn:Hc; [|done].
    destruct (anchor st) as [a|]; [|done]. destruct (is_shift sh now) eqn:Hsh; [|done].
    intros [= <-].
    destruct (child_index_Some _ _ _ Hc) as [r [Hr _]].
    assert (Hc1 : child_index (mkSel (range_set (Nat.min a idx) (Nat.max a idx)
                     (default true (sel <$> store st !! a)) (store st)) (Some idx) true (query st)) path = Some idx).
    { rewrite <- Hc. symmetry. apply child_index_same_rows; [apply range_set_same_rows | done]. }
    unfold Selection.on_tree_click. cbn [fst snd negb Nat.eqb]. rewrite Hc1.
    cbn [store anchor suppress query fst].
    apply list_eq. intros j. rewrite !range_set_lookup.
    destruct (decide (j = idx)) as [->|Hne].
    + rewrite Nat.min_id, Nat.max_id, Nat.leb_refl. simpl.
      assert (Hin : (Nat.min a idx <=? idx) && (idx <=? Nat.max a idx) = true).
      { apply andb_true_iff. rewrite !Nat.leb_le. lia. }
      rewrite Hin, Hr. simpl. by rewrite sel_set_sel, set_sel_twice.
    + assert (Hout : (Nat.min idx idx <=? j) && (j <=? Nat.max idx idx) = false).
      { rewrite Nat.min_id, Nat.max_id. apply andb_false_iff.
        destruct (Nat.lt_total j idx) as [Hl|[Hl|Hl]]; [left|congruence|right];
          apply Nat.leb_gt; lia. }
      by rewrite Hout.
  - pose proof (on_tree_click_unhandled st sh now hit) as Hu.
    rewrite E in Hu. simpl in Hu. specialize (Hu eq_refl). subst st1. by rewrite E.
Qed.
End VisibleIgnoresSel.
End ControllerFacts.

Lemma proc_visible_sel q b r : proc_visible_func q (set_sel b r) = proc_visible_func q r.
Proof. by destruct r. Qed.

Lemma pkg_visible_sel q b r : pkg_visible_func q (set_sel b r) = pkg_visible_func q r.
Proof. by destruct r. Qed.

(** ** The process page *)

(** C4: a click in the check-box column on a row of the view, while the
    shift test holds and an anchor is set, is handled: every row whose
    store index lies between the anchor and the clicked row's store index
    (inclusive, in store order, hidden rows included) gets the anchor
    row's current check-box value ([True] if the anchor row is gone),
    every other row is unchanged, the anchor moves to the clicked row and
    the next toggle is suppressed. *)
Theorem process_shift_click_paints (st : ProcPage) (sh : ShiftState) (now : Z) path idx a :
  child_index proc_visible_func st path = Some idx -> anchor st = Some a ->
  is_shift sh now = true ->
  let res := on_process_tree_click st sh now (Some (path, 0)) in
  let v := default true (sel <$> store st !! a) in
  snd res = true /\ anchor (fst res) = Some idx /\ suppress (fst res) = true /\
  forall j, store (fst res) !! j =
    if (Nat.min a idx <=? j) && (j <=? Nat.max a idx) then set_sel v <$> store st !! j
    else store st !! j.
Proof.
  intros Hc Ha Hsh res v. subst res v. unfold on_process_tree_click.
  rewrite (on_tree_click_range _ st sh now path idx a Hc Ha Hsh).
  cbn [fst snd anchor suppress store].
  split_and!; try done. intros j. apply range_set_lookup.
Qed.

(** C4 witness: the row hidden between anchor and target is painted. *)
Lemma process_shift_click_paints_witness :
  child_index proc_visible_func hidden_row_page 1 = Some 2 /\
  anchor hidden_row_page = Some 0 /\ is_shift shift_held 1100 = true /\
  checked_pids (fst (on_process_tree_click hidden_row_page shift_held 1100 (Some (1, 0)))) =
    [10; 11; 12]%Z /\
  (let res := on_process_tree_click hidden_row_page shift_held 1100 (Some (1, 0)) in
   let v := default true (sel <$> store hidden_row_page !! 0) in
   snd res = true /\ anchor (fst res) = Some 2 /\ suppress (fst res) = true /\
   forall j, store (fst res) !! j =
     if (Nat.min 0 2 <=? j) && (j <=? Nat.max 0 2) then set_sel v <$> store hidden_row_page !! j
     else store hidden_row_page !! j).
Proof.
  split_and!; [reflexivity | reflexivity | reflexivity | vm_compute; reflexivity |].
  apply process_shift_click_paints; reflexivity.
Defined.

(** C5: a toggle delivered with no suppression pending, on a row of the
    view, flips that row's check box in the store, leaves every other row
    unchanged and makes that row the anchor. *)
Theorem process_toggle_flips (st : ProcPage) path idx :
  suppress st = false -> child_index proc_visible_func st path = Some idx ->
  exists r, store st !! idx = Some r /\
    store (on_process_toggled st path) !! idx = Some (set_sel (negb (sel r)) r) /\
    (forall j, j <> idx -> store (on_process_toggled st path) !! j = store st !! j) /\
    anchor (on_process_toggled st path) = Some idx /\
    suppress (on_process_toggled st path) = false.
Proof. apply on_toggled_flips. Qed.

(** C5 witness: the first step of the spec's scenario checks pid 2. *)
Lemma process_toggle_flips_witness :
  suppress scenario_page = false /\ child_index proc_visible_func scenario_page 1 = Some 1 /\
  checked_pids (on_process_toggled scenario_page 1) = [2%Z] /\
  exists r, store scenario_page !! 1 = Some r /\
    store (on_process_toggled scenario_page 1) !! 1 = Some (set_sel (negb (sel r)) r) /\
    (forall j, j <> 1 -> store (on_process_toggled scenario_page 1) !! j = store scenario_page !! j) /\
    anchor (on_process_toggled scenario_page 1) = Some 1 /\
    suppress (on_process_toggled scenario_page 1) = false.
Proof.
  split_and!; [reflexivity | reflexivity | vm_compute; reflexivity |].
  apply process_toggle_flips; reflexivity.
Defined.

(** C6: the toggle that the platform delivers after a handled shift-click
    is consumed: it changes neither the store nor the anchor, and clears
    the flag, so one shift-click gesture paints exactly once. *)
Theorem process_shift_gesture (st : ProcPage) sh now path st1 :
  on_process_tree_click st sh now (Some (path, 0)) = (st1, true) ->
  let st2 := on_process_toggled st1 path in
  store st2 = store st1 /\ anchor st2 = anchor st1 /\ suppress st2 = false.
Proof.
  intros Hc st2. subst st2. unfold on_process_toggled.
  destruct (on_tree_click_handled _ _ _ _ _ _ Hc) as [Hs _].
  by rewrite on_toggled_suppressed.
Qed.

(** C6 witness. *)
Lemma process_shift_gesture_witness :
  on_process_tree_click hidden_row_page shift_held 1100 (Some (1, 0)) =
    (fst (on_process_tree_click hidden_row_page shift_held 1100 (Some (1, 0))), true) /\
  (let st1 := fst (on_process_tree_click hidden_row_page shift_held 1100 (Some (1, 0))) in
   let st2 := on_process_toggled st1 1 in
   store st2 = store st1 /\ anchor st2 = anchor st1 /\ suppress st2 = false).
Proof.
  split; [reflexivity|].
  apply (process_shift_gesture hidden_row_page shift_held 1100 1). reflexivity.
Defined.

(** C9: repeating a shift-click on the same row (no other event between)
    changes nothing more: the second click paints the clicked row with
    its own value. *)
Theorem process_shift_click_idempotent (st : ProcPage) sh now hit :
  store (fst (on_process_tree_click (fst (on_process_tree_click st sh now hit)) sh now hit)) =
  store (fst (on_process_tree_click st sh now hit)).
Proof. apply on_tree_click_idem, proc_visible_sel. Qed.

(** C10: the selection handlers of the process page change nothing but
    column 0: the store keeps its length, its pids in order, and every
    other column of every row. *)
Theorem process_handlers_keep_rows (st : ProcPage) sh now hit path :
  same_rows (store st) (store (on_process_toggled st path)) /\
  same_rows (store st) (store (fst (on_process_tree_click st sh now hit))) /\
  map p_pid (store (on_process_toggled st path)) = map p_pid (store st) /\
  map p_pid (store (fst (on_process_tree_click st sh now hit))) = map p_pid (store st).
Proof.
  pose proof (on_toggled_same_rows proc_visible_func st path) as H1.
  pose proof (on_tree_click_same_rows proc_visible_func st sh now hit) as H2.
  split_and!; [exact H1 | exact H2 | |]; symmetry.
  - exact (same_rows_ids (K:=Z) _ _ H1).
  - exact (same_rows_ids (K:=Z) _ _ H2).
Qed.

(** The spec's selection scenario (section 8): toggling view row 1
    checks pid 2 and anchors index 1; a shift-click on view row 3 then
    checks pids 2, 3 and 4 and anchors index 3; pid 1 is untouched. *)
Example process_spec_scenario :
  let st1 := on_process_toggled scenario_page 1 in
  let st2 := fst (on_process_tree_click st1 shift_held 1100 (Some (3, 0))) in
  checked_pids st1 = [2%Z] /\ anchor st1 = Some 1 /\
  checked_pids st2 = [2; 3; 4]%Z /\ anchor st2 = Some 3.
Proof. vm_compute. split_and!; reflexivity. Qed.

(** The range is an interval of store indices between the anchor and
    the target.  Spec section 8 says that with A at index 0 (hidden), B at
    1 and C at 2, anchoring B and shift-clicking C also flips A; the code
    paints [1, 2] only, and A keeps its value. *)
Example process_range_excludes_outside :
  let st := mkSel [example_proc 1 false "zsh"; example_proc 2 true "bash";
                   example_proc 3 false "bash"] (Some 1) false "bash" in
  checked_pids (fst (on_process_tree_click st shift_held 1100 (Some (1, 0)))) = [2; 3]%Z.
Proof. vm_compute. reflexivity. Qed.

(** The suppression flag assumes the gesture handler runs before the
    check box's [toggled] handler.  If the toggle is delivered first, the
    shift-click degenerates to the clicked row alone and leaves the flag
    set, and the user's next plain toggle (row 0 here) is swallowed. *)
Example process_toggle_before_click :
  let st1 := on_process_toggled scenario_page 1 in
  let st2 := on_process_toggled st1 3 in
  let st3 := fst (on_process_tree_click st2 shift_held 1100 (Some (3, 0))) in
  let st4 := fst (on_process_tree_click st3 shift_up 2000 (Some (0, 0))) in
  let st5 := on_process_toggled st4 0 in
  checked_pids st3 = [2; 4]%Z /\ suppress st3 = true /\
  checked_pids st5 = [2; 4]%Z /\ suppress st5 = false.
Proof. vm_compute. split_and!; reflexivity. Qed.
