(* ===== verification/Reconcile.v ===== *)
(** * Reconcile: the process page's in-place refresh

    [refresh_process_list] (src/pages/processes.py, lines 111-156) runs
    every two seconds.  It

    + snapshots the pids whose check box is set ([selected_pids], line 112);
    + builds one row per sampled process, its check box set iff the pid is
      in the snapshot ([new_data], lines 113-138);
    + indexes the current store by pid ([existing], line 140: a dict
      comprehension, so a later index wins for a repeated pid);
    + overwrites the row of a known pid in place and appends a row for an
      unknown one (lines 141-150);
    + lists the indices of rows whose pid is not in the sample and deletes
      them from the highest down (lines 153-155).

    A sampled process enters the model as a [ProcSample]: the eleven
    columns other than the check box, as lines 117-133 compute them from
    [psutil].

    The abstract contract of spec sections 4.1-4.2 is stated from the spec:
    [upsert_spec] (replace the fields of a known identity keeping its
    check box, append an unknown one unchecked), [evict_absent] and
    [reconcile_spec] (every upsert, then one eviction).  The theorems show
    that the code implements that contract when the store and the sample
    each have distinct pids, that a persisting pid keeps its check box,
    that the deletion loop equals a filter, and what the code does with a
    sample that repeats a pid. *)

From stdpp Require Import base list gmap sets.
From Stdlib Require Import ZArith String Lia.
From Stdlib Require QArith_base.
From S2P Require Import Prelude Rows.

(** The columns 1-11 of a row built from one [psutil] sample. *)
Record ProcSample := mkSample {
  s_pid : Z;
  s_icon : string;
  s_name : string;
  s_cpu : QArith_base.Q;
  s_mem : QArith_base.Q;
  s_threads : Z;
  s_status : string;
  s_user : string;
  s_cmd : string;
  s_read : string;
  s_write : string
}.

(** Lines 134-136: [[pid in selected_pids, pid, icon_name_for_store, ...]]. *)
Definition proc_row (active : bool) (s : ProcSample) : ProcRow :=
  mkProcRow active (s_pid s) (s_icon s) (s_name s) (s_cpu s) (s_mem s)
            (s_threads s) (s_status s) (s_user s) (s_cmd s) (s_read s) (s_write s).

(** Line 112: [{r[1] for r in self.process_store if r[0]}]. *)
Definition selected_pids (store : list ProcRow) : gset Z :=
  list_to_set (map p_pid (List.filter p_active store)).

(** Lines 113-138: the rows of the new sample. *)
Definition new_data (selected : gset Z) (sample : list ProcSample) : list ProcRow :=
  map (fun s => proc_row (bool_decide (s_pid s ∈ selected)) s) sample.

(** Line 140: [{self.process_store[i][1]: i for i in range(len(...))}]. *)
Definition existing_index (store : list ProcRow) : gmap Z nat :=
  fold_left (fun m i => match store !! i with
                        | Some r => <[p_pid r := i]> m
                        | None => m
                        end)
            (0 ..< length store) ∅.

(** Lines 142-150, one iteration: overwrite every column of the known
    row, or append. *)
Definition update_or_append (existing : gmap Z nat) (st : list ProcRow) (row : ProcRow)
  : list ProcRow :=
  match existing !! p_pid row with
  | Some path => <[path := row]> st
  | None => st ++ [row]
  end.

(** Line 153: the indices whose pid is not among the new rows' pids. *)
Definition to_remove (new_pids : gset Z) (st : list ProcRow) : list nat :=
  List.filter (fun i => match st !! i with
                        | Some r => negb (bool_decide (p_pid r ∈ new_pids))
                        | None => false
                        end)
              (0 ..< length st).

(** Lines 154-155: [for i in reversed(to_remove): del store[i]]. *)
Definition delete_rows (idxs : list nat) (st : list ProcRow) : list ProcRow :=
  fold_left (fun acc i => delete i acc) (rev idxs) st.

(** [refresh_process_list]: the store after one refresh. *)
Definition refresh_process_list (store : list ProcRow) (sample : list ProcSample)
  : list ProcRow :=
  let selected := selected_pids store in
  let rows := new_data selected sample in
  let existing := existing_index store in
  let st1 := fold_left (update_or_append existing) rows store in
  let new_pids : gset Z := list_to_set (map p_pid rows) in
  delete_rows (to_remove new_pids st1) st1.

(** ** The abstract record-store contract (spec sections 4.1 and 4.2) *)

Definition pids (store : list ProcRow) : list Z := map p_pid store.

(** [upsert(identity, fields)]: a known identity gets the new fields and
    keeps its check box; an unknown one is appended unchecked. *)
Definition upsert_spec (store : list ProcRow) (s : ProcSample) : list ProcRow :=
  if bool_decide (s_pid s ∈ pids store)
  then map (fun r => if bool_decide (p_pid r = s_pid s) then proc_row (p_active r) s else r) store
  else store ++ [proc_row false s].

(** [evict_absent(present)]: keep the rows whose identity is present. *)
Definition evict_absent (present : list Z) (store : list ProcRow) : list ProcRow :=
  List.filter (fun r => bool_decide (p_pid r ∈ present)) store.

(** Upsert every sampled pair, then evict on the sample's identities. *)
Definition reconcile_spec (store : list ProcRow) (sample : list ProcSample) : list ProcRow :=
  evict_absent (map s_pid sample) (fold_left upsert_spec sample store).

(** ** The closed form both definitions reach *)

(** The sampled process with pid [p], if any. *)
Definition find_sample (sample : list ProcSample) (p : Z) : option ProcSample :=
  List.find (fun s => bool_decide (s_pid s = p)) sample.

(** A known row with the fields of its sampled process, check box kept. *)
Definition closed_upd (sample : list ProcSample) (r : ProcRow) : ProcRow :=
  match find_sample sample (p_pid r) with
  | Some s => proc_row (p_active r) s
  | None => r
  end.

(** The sampled processes whose pid the store does not have. *)
Definition closed_news (store : list ProcRow) (sample : list ProcSample) : list ProcSample :=
  List.filter (fun s => negb (bool_decide (s_pid s ∈ pids store))) sample.

(** Known rows updated in place (check box kept), then the unknown
    sampled processes in sample order, unchecked. *)
Definition reconcile_closed (store : list ProcRow) (sample : list ProcSample) : list ProcRow :=
  map (closed_upd sample) store ++ map (proc_row false) (closed_news store sample).

(** ** Worked examples *)

(** A sampled process with the given pid and empty or zero fields. *)
Definition example_sample (pid : Z) : ProcSample :=
  mkSample pid "" "" (QArith_base.inject_Z 0) (QArith_base.inject_Z 0) 0 "" "" "" "" "".

(** The store of the spec's reconciliation scenario (section 8): pids
    1-4, only pid 2 checked. *)
Definition scenario_store : list ProcRow :=
  [example_proc 1 false ""; example_proc 2 true ""; example_proc 3 false "";
   example_proc 4 false ""].

(** ** The deletion loop *)

Lemma fold_delete_S (idxs : list nat) (x : ProcRow) (l : list ProcRow) :
  fold_left (fun acc i => delete i acc) (map S idxs) (x :: l) =
  x :: fold_left (fun acc i => delete i acc) idxs l.
Proof. revert l; induction idxs as [|i idxs IH]; intros l; simpl; [done | apply IH]. Qed.

Lemma filter_map_S (f : nat -> bool) (xs : list nat) :
  List.filter f (map S xs) = map S (List.filter (fun i => f (S i)) xs).
Proof. induction xs as [|x xs IH]; simpl; [done|]. by destruct (f (S x)); rewrite IH. Qed.

Lemma to_remove_cons (keep : gset Z) (x : ProcRow) (l : list ProcRow) :
  to_remove keep (x :: l) =
  (if bool_decide (p_pid x ∈ keep) then [] else [0]) ++ map S (to_remove keep l).
Proof.
  unfold to_remove, py_range. rewrite !Nat.sub_0_r. simpl.
  rewrite <- seq_shift, filter_map_S. simpl.
  by destruct (bool_decide (p_pid x ∈ keep)).
Qed.

(** Deleting the listed indices from the highest down keeps exactly the
    rows whose pid is in the set. *)
Lemma delete_rows_filter (keep : gset Z) (l : list ProcRow) :
  delete_rows (to_remove keep l) l = List.filter (fun r => bool_decide (p_pid r ∈ keep)) l.
Proof.
  unfold delete_rows. induction l as [|x l IH]; [done|].
  rewrite to_remove_cons, rev_app_distr, <- map_rev, fold_left_app, fold_delete_S, IH. simpl.
  by destruct (bool_decide (p_pid x ∈ keep)).
Qed.

(** ** The [existing] index and the selection snapshot *)

Section Index.
Variable store : list ProcRow.

Let step (m : gmap Z nat) (i : nat) : gmap Z nat :=
  match store !! i with Some r => <[p_pid r := i]> m | None => m end.

Lemma index_fold_sound (idxs : list nat) (m : gmap Z nat) :
  (forall p i, m !! p = Some i -> exists r, store !! i = Some r /\ p_pid r = p) ->
  forall p i, fold_left step idxs m !! p = Some i ->
    exists r, store !! i = Some r /\ p_pid r = p.
Proof.
  revert m; induction idxs as [|j idxs IH]; intros m Hm; simpl; [done|].
  apply IH. intros p i. unfold step. destruct (store !! j) as [r|] eqn:Hj; [|apply Hm].
  rewrite lookup_insert. case_decide as Hp; [intros [= <-]; eauto | apply Hm].
Qed.

Lemma index_fold_complete (idxs : list nat) (m : gmap Z nat) (p : Z) :
  (is_Some (m !! p) \/ exists i r, i ∈ idxs /\ store !! i = Some r /\ p_pid r = p) ->
  is_Some (fold_left step idxs m !! p).
Proof.
  revert m; induction idxs as [|j idxs IH]; intros m Hm; simpl.
  - destruct Hm as [Hm|[i [r [Hi _]]]]; [done | by apply elem_of_nil in Hi].
  - apply IH. destruct Hm as [Hm|[i [r [Hi [Hr Hp]]]]].
    + left. unfold step. destruct (store !! j); [|done].
      rewrite lookup_insert. case_decide; [done | done].
    + apply elem_of_cons in Hi as [->|Hi].
      * left. unfold step. rewrite Hr. subst p. by rewrite lookup_insert_eq.
      * right. eauto.
Qed.
End Index.

Lemma existing_index_sound (store : list ProcRow) p i :
  existing_index store !! p = Some i -> exists r, store !! i = Some r /\ p_pid r = p.
Proof. apply index_fold_sound. intros ??. by rewrite lookup_empty. Qed.

Lemma existing_index_complete (store : list ProcRow) p :
  p ∈ pids store -> is_Some (existing_index store !! p).
Proof.
  intros Hp. apply index_fold_complete. right.
  unfold pids in Hp. apply list_elem_of_lookup in Hp as [i Hi].
  rewrite list_lookup_fmap in Hi. destruct (store !! i) as [r|] eqn:Hr; [|done].
  injection Hi as <-. exists i, r. split_and!; [|done|done].
  apply py_range_spec. apply lookup_lt_Some in Hr. lia.
Qed.

(** With distinct pids, two rows with the same pid are the same row. *)
Lemma pids_unique (store : list ProcRow) i j r r' :
  NoDup (pids store) -> store !! i = Some r -> store !! j = Some r' ->
  p_pid r = p_pid r' -> i = j.
Proof.
  intros Hnd Hi Hj Hp. eapply NoDup_lookup; [apply Hnd| |];
    unfold pids; rewrite list_lookup_fmap; [rewrite Hi | rewrite Hj]; simpl; [done|].
  by rewrite Hp.
Qed.

Lemma selected_pids_spec (store : list ProcRow) i r :
  NoDup (pids store) -> store !! i = Some r ->
  bool_decide (p_pid r ∈ selected_pids store) = p_active r.
Proof.
  intros Hnd Hr. unfold selected_pids.
  destruct (p_active r) eqn:Ha.
  - apply bool_decide_eq_true_2, elem_of_list_to_set, list_elem_of_fmap.
    exists r. split; [done|]. apply list_elem_of_In, filter_In.
    split; [apply list_elem_of_In; by eapply list_elem_of_lookup_2 | done].
  - apply bool_decide_eq_false_2.
    rewrite elem_of_list_to_set, list_elem_of_fmap. intros [r' [Hp Hin]].
    apply list_elem_of_In, filter_In in Hin as [Hin Ha'].
    apply list_elem_of_In, list_elem_of_lookup in Hin as [j Hj].
    assert (i = j) as <- by (eapply pids_unique; eauto).
    congruence.
Qed.

Lemma selected_pids_sub (store : list ProcRow) p :
  p ∈ selected_pids store -> p ∈ pids store.
Proof.
  unfold selected_pids, pids. rewrite elem_of_list_to_set, !list_elem_of_fmap.
  intros [r [-> Hr]]. exists r. split; [done|].
  apply list_elem_of_In. apply list_elem_of_In, filter_In in Hr. tauto.
Qed.

(** ** [find_sample] *)

Lemma find_sample_snoc (sample : list ProcSample) (s : ProcSample) (p : Z) :
  find_sample (sample ++ [s]) p =
  match find_sample sample p with
  | Some x => Some x
  | None => if bool_decide (s_pid s = p) then Some s else None
  end.
Proof.
  unfold find_sample. induction sample as [|x sample IH]; simpl; [done|].
  by destruct (bool_decide (s_pid x = p)).
Qed.

Lemma find_sample_None (sample : list ProcSample) (p : Z) :
  p ∉ map s_pid sample -> find_sample sample p = None.
Proof.
  unfold find_sample. induction sample as [|x sample IH]; simpl; [done|].
  rewrite not_elem_of_cons. intros [Hx Hs].
  rewrite bool_decide_eq_false_2 by congruence. by apply IH.
Qed.

Lemma find_sample_Some (sample : list ProcSample) (p : Z) (s : ProcSample) :
  find_sample sample p = Some s -> s_pid s = p /\ s ∈ sample.
Proof.
  unfold find_sample. intros Hf. apply find_some in Hf as [Hin Hp].
  apply bool_decide_eq_true_1 in Hp. split; [done | by apply list_elem_of_In].
Qed.

Lemma find_sample_snoc_ne (sample : list ProcSample) (s : ProcSample) (p : Z) :
  s_pid s <> p -> find_sample (sample ++ [s]) p = find_sample sample p.
Proof.
  intros Hne. rewrite find_sample_snoc.
  destruct (find_sample sample p); [done|]. by rewrite bool_decide_eq_false_2.
Qed.

Lemma find_sample_snoc_new (sample : list ProcSample) (s : ProcSample) :
  s_pid s ∉ map s_pid sample -> find_sample (sample ++ [s]) (s_pid s) = Some s.
Proof.
  intros Hn. rewrite find_sample_snoc, find_sample_None by done.
  by rewrite bool_decide_eq_true_2.
Qed.

Lemma pid_proc_row (b : bool) (s : ProcSample) : p_pid (proc_row b s) = s_pid s.
Proof. done. Qed.

Lemma active_proc_row (b : bool) (s : ProcSample) : p_active (proc_row b s) = b.
Proof. done. Qed.

#[export] Hint Rewrite pid_proc_row active_proc_row : sm_rw.

(** ** The closed form *)

Lemma closed_nil (store : list ProcRow) : reconcile_closed store [] = store.
Proof. unfold reconcile_closed. simpl. rewrite app_nil_r. apply map_id. Qed.

Lemma pid_closed_upd (sample : list ProcSample) r : p_pid (closed_upd sample r) = p_pid r.
Proof.
  unfold closed_upd. destruct (find_sample sample (p_pid r)) as [s|] eqn:Hf; [|done].
  by apply find_sample_Some in Hf as [Hp _].
Qed.

Lemma pids_closed (store : list ProcRow) (sample : list ProcSample) :
  pids (reconcile_closed store sample) = pids store ++ map s_pid (closed_news store sample).
Proof.
  unfold reconcile_closed, pids. rewrite map_app, !map_map. f_equal.
  apply map_ext, pid_closed_upd.
Qed.

Lemma closed_upd_snoc (sample : list ProcSample) (s : ProcSample) r :
  s_pid s ∉ map s_pid sample ->
  closed_upd (sample ++ [s]) r =
  if bool_decide (p_pid r = s_pid s) then proc_row (p_active r) s else closed_upd sample r.
Proof.
  intros Hn. unfold closed_upd. case_bool_decide as Hp.
  - by rewrite Hp, find_sample_snoc_new.
  - by rewrite find_sample_snoc_ne by congruence.
Qed.

Lemma closed_news_snoc (store : list ProcRow) (sample : list ProcSample) (s : ProcSample) :
  closed_news store (sample ++ [s]) =
  closed_news store sample ++ (if bool_decide (s_pid s ∈ pids store) then [] else [s]).
Proof.
  unfold closed_news. rewrite List.filter_app. simpl.
  by destruct (bool_decide (s_pid s ∈ pids store)).
Qed.

Lemma closed_snoc (store : list ProcRow) (sample : list ProcSample) (s : ProcSample) :
  s_pid s ∉ map s_pid sample ->
  reconcile_closed store (sample ++ [s]) =
  map (fun r => if bool_decide (p_pid r = s_pid s) then proc_row (p_active r) s
                else closed_upd sample r) store ++
  map (proc_row false) (closed_news store sample) ++
  (if bool_decide (s_pid s ∈ pids store) then [] else [proc_row false s]).
Proof.
  intros Hn. unfold reconcile_closed. rewrite closed_news_snoc, map_app.
  f_equal; [apply map_ext; intros r; by apply closed_upd_snoc|].
  f_equal. by destruct (bool_decide _).
Qed.

Lemma elem_pids (store : list ProcRow) i r : store !! i = Some r -> p_pid r ∈ pids store.
Proof.
  intros Hr. unfold pids. apply list_elem_of_In, in_map, list_elem_of_In.
  by eapply list_elem_of_lookup_2.
Qed.

Lemma in_pids (store : list ProcRow) r : In r store -> p_pid r ∈ pids store.
Proof. intros Hr. unfold pids. by apply list_elem_of_In, in_map. Qed.

Lemma news_fresh (store : list ProcRow) (sample : list ProcSample) (s : ProcSample) :
  s_pid s ∉ map s_pid sample -> s_pid s ∉ map s_pid (closed_news store sample).
Proof.
  intros Hn Hin. apply Hn. apply list_elem_of_In in Hin. apply list_elem_of_In.
  apply in_map_iff in Hin as [x [<- Hx]]. apply filter_In in Hx as [Hx _].
  by apply in_map.
Qed.

(** One iteration of the code's loop on the closed form. *)
Lemma closed_step_code (store : list ProcRow) (sample : list ProcSample) (s : ProcSample) :
  NoDup (pids store) -> s_pid s ∉ map s_pid sample ->
  update_or_append (existing_index store) (reconcile_closed store sample)
    (proc_row (bool_decide (s_pid s ∈ selected_pids store)) s) =
  reconcile_closed store (sample ++ [s]).
Proof.
  intros Hnd Hn. rewrite closed_snoc by done. unfold update_or_append, reconcile_closed.
  rewrite pid_proc_row.
  destruct (existing_index store !! s_pid s) as [i|] eqn:He.
  - destruct (existing_index_sound _ _ _ He) as [r [Hr Hp]].
    pose proof (elem_pids _ _ _ Hr) as Hk. rewrite Hp in Hk.
    rewrite (bool_decide_eq_true_2 (s_pid s ∈ pids store)) by done. rewrite app_nil_r.
    assert (Hsel : bool_decide (s_pid s ∈ selected_pids store) = p_active r).
    { rewrite <- Hp. by apply (selected_pids_spec store i r). }
    rewrite Hsel.
    assert (Hi : i < length (map (closed_upd sample) store)).
    { rewrite length_map. by eapply lookup_lt_Some. }
    rewrite insert_app_l by exact Hi. f_equal. apply list_eq. intros j.
    destruct (decide (i = j)) as [<-|Hij].
    + rewrite list_lookup_insert_eq by exact Hi.
      rewrite list_lookup_fmap, Hr. simpl. by rewrite bool_decide_eq_true_2.
    + rewrite list_lookup_insert_ne by done. rewrite !list_lookup_fmap.
      destruct (store !! j) as [r'|] eqn:Hr'; [|done]. simpl.
      rewrite bool_decide_eq_false_2; [done|].
      intros Hp'. apply Hij. eapply pids_unique; eauto. congruence.
  - assert (Hk : s_pid s ∉ pids store).
    { intros Hk. apply existing_index_complete in Hk. rewrite He in Hk. by destruct Hk. }
    rewrite (bool_decide_eq_false_2 (s_pid s ∈ pids store)) by done.
    rewrite (bool_decide_eq_false_2 (s_pid s ∈ selected_pids store))
      by (intros Hs; apply Hk; by apply selected_pids_sub).
    rewrite <- app_assoc. f_equal. apply map_ext_in. intros r Hr.
    rewrite bool_decide_eq_false_2; [done|]. intros Hp. apply Hk. rewrite <- Hp.
    by apply in_pids.
Qed.

(** One upsert of the contract on the closed form. *)
Lemma closed_step_spec (store : list ProcRow) (sample : list ProcSample) (s : ProcSample) :
  NoDup (pids store) -> s_pid s ∉ map s_pid sample ->
  upsert_spec (reconcile_closed store sample) s = reconcile_closed store (sample ++ [s]).
Proof.
  intros Hnd Hn. rewrite closed_snoc by done. unfold upsert_spec.
  rewrite pids_closed. pose proof (news_fresh store _ _ Hn) as Hnews.
  unfold reconcile_closed. destruct (bool_decide (s_pid s ∈ pids store)) eqn:Hk.
  - apply bool_decide_eq_true_1 in Hk.
    rewrite bool_decide_eq_true_2 by (apply elem_of_app; by left).
    simpl. rewrite app_nil_r, map_app, !map_map. f_equal.
    + apply map_ext. intros r. rewrite pid_closed_upd.
      case_bool_decide as Hp; [|done].
      unfold closed_upd. rewrite find_sample_None; [done|]. by rewrite Hp.
    + apply map_ext_in. intros x Hx.
      rewrite pid_proc_row. rewrite bool_decide_eq_false_2; [done|].
      intros Hp. apply Hnews. rewrite <- Hp. by apply list_elem_of_In, in_map.
  - apply bool_decide_eq_false_1 in Hk.
    rewrite bool_decide_eq_false_2.
    2: { rewrite elem_of_app. intros [H1|H2]; [done | apply Hnews, H2]. }
    rewrite <- app_assoc. f_equal. apply map_ext_in. intros r Hr.
    rewrite bool_decide_eq_false_2; [done|]. intros Hp. apply Hk. rewrite <- Hp.
    by apply in_pids.
Qed.

(** ** The loops *)

Lemma update_loop_closed (store : list ProcRow) (sample : list ProcSample) :
  NoDup (pids store) -> NoDup (map s_pid sample) ->
  fold_left (update_or_append (existing_index store)) (new_data (selected_pids store) sample) store
  = reconcile_closed store sample.
Proof.
  intros Hnd. induction sample as [|s sample IH] using rev_ind; intros Hns.
  - simpl. by rewrite closed_nil.
  - rewrite map_app in Hns. apply NoDup_app in Hns as [Hns1 [Hdis _]].
    unfold new_data. rewrite map_app, fold_left_app.
    fold (new_data (selected_pids store) sample). rewrite IH by done. simpl.
    apply closed_step_code; [done|]. intros Hin. apply (Hdis _ Hin). by left.
Qed.

Lemma upsert_loop_closed (store : list ProcRow) (sample : list ProcSample) :
  NoDup (pids store) -> NoDup (map s_pid sample) ->
  fold_left upsert_spec sample store = reconcile_closed store sample.
Proof.
  intros Hnd. induction sample as [|s sample IH] using rev_ind; intros Hns.
  - simpl. by rewrite closed_nil.
  - rewrite map_app in Hns. apply NoDup_app in Hns as [Hns1 [Hdis _]].
    rewrite fold_left_app, IH by done. simpl.
    apply closed_step_spec; [done|]. intros Hin. apply (Hdis _ Hin). by left.
Qed.

Lemma map_pid_new_data (selected : gset Z) (sample : list ProcSample) :
  map p_pid (new_data selected sample) = map s_pid sample.
Proof. unfold new_data. by rewrite map_map. Qed.

Lemma refresh_closed (store : list ProcRow) (sample : list ProcSample) :
  NoDup (pids store) -> NoDup (map s_pid sample) ->
  refresh_process_list store sample = evict_absent (map s_pid sample) (reconcile_closed store sample).
Proof.
  intros Hnd Hns. unfold refresh_process_list.
  rewrite update_loop_closed, delete_rows_filter by done.
  unfold evict_absent. apply filter_ext. intros r. apply bool_decide_ext.
  by rewrite elem_of_list_to_set, map_pid_new_data.
Qed.

Lemma nodup_map_inj {A B : Type} (f : A -> B) (l : list A) x y :
  NoDup (map f l) -> In x l -> In y l -> f x = f y -> x = y.
Proof.
  induction l as [|a l IH]; simpl; [done|]. intros Hnd Hx Hy Hf.
  apply NoDup_cons in Hnd as [Ha Hnd].
  destruct Hx as [<-|Hx], Hy as [<-|Hy]; auto.
  - exfalso. apply Ha. apply list_elem_of_In. rewrite Hf. by apply in_map.
  - exfalso. apply Ha. apply list_elem_of_In. rewrite <- Hf. by apply in_map.
Qed.

Lemma pids_filter (keep : list Z) (l : list ProcRow) :
  pids (List.filter (fun r => bool_decide (p_pid r ∈ keep)) l) =
  List.filter (fun p => bool_decide (p ∈ keep)) (pids l).
Proof.
  unfold pids. induction l as [|r l IH]; simpl; [done|].
  by destruct (bool_decide (p_pid r ∈ keep)); simpl; rewrite IH.
Qed.

Lemma nodup_map_filter {A B : Type} (f : A -> B) (g : A -> bool) (l : list A) :
  NoDup (map f l) -> NoDup (map f (List.filter g l)).
Proof.
  induction l as [|a l IH]; simpl; [done|]. intros Hnd.
  apply NoDup_cons in Hnd as [Ha Hnd]. destruct (g a); simpl; [|by apply IH].
  apply NoDup_cons. split; [|by apply IH].
  intros Hin. apply Ha. apply list_elem_of_In in Hin. apply list_elem_of_In.
  apply in_map_iff in Hin as [x [<- Hx]]. apply filter_In in Hx as [Hx _]. by apply in_map.
Qed.

Lemma in_news (store : list ProcRow) (sample : list ProcSample) s :
  In s (closed_news store sample) <-> In s sample /\ s_pid s ∉ pids store.
Proof.
  unfold closed_news. rewrite filter_In, negb_true_iff.
  split; intros [Hs Hp]; split; try done.
  - by apply bool_decide_eq_false_1 in Hp.
  - by apply bool_decide_eq_false_2.
Qed.

(** ** The reconciliation theorems *)

(** C1: a process that is in the store and in the new sample keeps its
    check box through [refresh_process_list], and its row carries the
    fields of the new sample (store and sample with distinct pids). *)
Theorem refresh_keeps_selection (store : list ProcRow) (sample : list ProcSample) r s :
  NoDup (pids store) -> NoDup (map s_pid sample) ->
  In r store -> In s sample -> s_pid s = p_pid r ->
  In (proc_row (p_active r) s) (refresh_process_list store sample).
Proof.
  intros Hnd Hns Hr Hs Hp. rewrite refresh_closed by done. unfold evict_absent.
  apply filter_In. split.
  - unfold reconcile_closed. apply in_or_app. left.
    replace (proc_row (p_active r) s) with (closed_upd sample r); [by apply in_map|].
    unfold closed_upd. destruct (find_sample sample (p_pid r)) as [s'|] eqn:Hf.
    + apply find_sample_Some in Hf as [Hp' Hs']. f_equal.
      eapply nodup_map_inj; [exact Hns | by apply list_elem_of_In | exact Hs | congruence].
    + exfalso. unfold find_sample in Hf. eapply find_none in Hf; [|exact Hs].
      by rewrite bool_decide_eq_true_2 in Hf.
  - apply bool_decide_eq_true_2. rewrite pid_proc_row. by apply list_elem_of_In, in_map.
Qed.

(** C1 witness: the spec's scenario, pid 2 stays checked. *)
Lemma refresh_keeps_selection_witness :
  NoDup (pids scenario_store) /\ NoDup (map s_pid (map example_sample [2; 3; 5]%Z)) /\
  In (proc_row true (example_sample 2)) (refresh_process_list scenario_store (map example_sample [2; 3; 5]%Z)).
Proof.
  split_and!; [vm_decide | vm_decide |].
  apply (refresh_keeps_selection scenario_store _ (example_proc 2 true "") (example_sample 2));
    [vm_decide | vm_decide | simpl; tauto | simpl; tauto | reflexivity].
Defined.

(** C2: refinement.  On a store and a sample with distinct pids,
    [refresh_process_list] computes exactly the contract of spec sections
    4.1-4.2: upsert every sampled process, then evict the absent ones. *)
Theorem refresh_process_list_refines (store : list ProcRow) (sample : list ProcSample) :
  NoDup (pids store) -> NoDup (map s_pid sample) ->
  refresh_process_list store sample = reconcile_spec store sample.
Proof.
  intros Hnd Hns. rewrite refresh_closed by done. unfold reconcile_spec.
  by rewrite upsert_loop_closed.
Qed.

(** C2 witness. *)
Lemma refresh_process_list_refines_witness :
  NoDup (pids scenario_store) /\ NoDup (map s_pid (map example_sample [2; 3; 5]%Z)) /\
  refresh_process_list scenario_store (map example_sample [2; 3; 5]%Z) =
  reconcile_spec scenario_store (map example_sample [2; 3; 5]%Z).
Proof.
  split_and!; [vm_decide | vm_decide |].
  apply refresh_process_list_refines; vm_decide.
Defined.

Lemma filter_true_on {A : Type} (g : A -> bool) (l : list A) :
  (forall x, In x l -> g x = true) -> List.filter g l = l.
Proof.
  induction l as [|a l IH]; simpl; intros Hg; [done|].
  rewrite Hg by auto. f_equal. apply IH. auto.
Qed.

(** C3: after a refresh the store holds exactly the sampled pids: first
    the pids it already had, in their old order, restricted to the
    sample; then the new pids, in sample order. *)
Theorem refresh_pids_order (store : list ProcRow) (sample : list ProcSample) :
  NoDup (pids store) -> NoDup (map s_pid sample) ->
  pids (refresh_process_list store sample) =
  List.filter (fun p => bool_decide (p ∈ map s_pid sample)) (pids store) ++
  List.filter (fun p => negb (bool_decide (p ∈ pids store))) (map s_pid sample).
Proof.
  intros Hnd Hns. rewrite refresh_closed by done. unfold evict_absent.
  rewrite pids_filter, pids_closed, List.filter_app. f_equal.
  assert (Hm : map s_pid (closed_news store sample) =
               List.filter (fun p => negb (bool_decide (p ∈ pids store))) (map s_pid sample)).
  { unfold closed_news. clear. induction sample as [|x sample IH]; simpl; [done|].
    by destruct (bool_decide (s_pid x ∈ pids store)); simpl; rewrite IH. }
  rewrite Hm. apply filter_true_on. intros p Hp. apply filter_In in Hp as [Hp _].
  by apply bool_decide_eq_true_2, list_elem_of_In.
Qed.

(** C3 witness: the spec's scenario ends with pids [2; 3; 5]. *)
Lemma refresh_pids_order_witness :
  NoDup (pids scenario_store) /\ NoDup (map s_pid (map example_sample [2; 3; 5]%Z)) /\
  pids (refresh_process_list scenario_store (map example_sample [2; 3; 5]%Z)) = [2; 3; 5]%Z.
Proof.
  split_and!; [vm_decide | vm_decide |].
  rewrite refresh_pids_order by vm_decide. vm_compute. reflexivity.
Defined.

(** A row the refresh adds for a pid the store did not have is an
    unchecked row built from a sampled process. *)
Theorem refresh_new_rows_unchecked (store : list ProcRow) (sample : list ProcSample) r :
  NoDup (pids store) -> NoDup (map s_pid sample) ->
  In r (refresh_process_list store sample) -> p_pid r ∉ pids store ->
  exists s, In s sample /\ r = proc_row false s.
Proof.
  intros Hnd Hns Hr Hp. rewrite refresh_closed in Hr by done.
  unfold evict_absent in Hr. apply filter_In in Hr as [Hr _].
  apply in_app_or in Hr as [Hr|Hr]; apply in_map_iff in Hr as [x [<- Hx]].
  - exfalso. apply Hp. rewrite pid_closed_upd. by apply in_pids.
  - apply in_news in Hx as [Hx _]. eauto.
Qed.

(** An instance: pid 5 of the scenario is added unchecked. *)
Lemma refresh_new_rows_unchecked_witness :
  NoDup (pids scenario_store) /\ NoDup (map s_pid (map example_sample [2; 3; 5]%Z)) /\
  In (proc_row false (example_sample 5)) (refresh_process_list scenario_store (map example_sample [2; 3; 5]%Z)) /\
  (5%Z ∉ pids scenario_store) /\
  exists s, In s (map example_sample [2; 3; 5]%Z) /\ proc_row false (example_sample 5) = proc_row false s.
Proof.
  assert (Hin : In (proc_row false (example_sample 5))
                  (refresh_process_list scenario_store (map example_sample [2; 3; 5]%Z))).
  { vm_compute. tauto. }
  split_and!; [vm_decide | vm_decide | exact Hin | vm_decide |].
  apply (refresh_new_rows_unchecked scenario_store); [vm_decide | vm_decide | exact Hin | vm_decide].
Defined.

(** A sample that lists a new pid twice leaves two rows with that pid
    in the store: the [existing] index is computed once, before the loop,
    so the second occurrence is appended again.  Spec section 4.2 says a
    repeated identity is last-write-wins. *)
Example refresh_duplicate_sample :
  pids (refresh_process_list [] [example_sample 5; example_sample 5]) = [5; 5]%Z.
Proof. vm_compute. reflexivity. Qed.
