(* ===== verification/Packages.v ===== *)
(** * Packages: the package page's list refresh and apt actions

    src/pages/packages.py keeps, besides the selection state of
    [Selection], a status label and a spinner ([show_progress], lines
    155-163).  This file models:

    - [refresh_packages] (lines 195-218): clear the store, run
      [dpkg-query], keep the lines with four tab-separated fields whose
      status contains "install ok installed", size [int(field or 0) //
      1024] (0 when [int] raises), an error row when the command fails,
      and the status label of the [finally] clause;
    - [show_upgradeable_packages] (lines 220-240): the same for
      [apt list --upgradable], one row per line that is not the
      "Listing..." header, named by the text before the first "/";
    - the actions on the selection (lines 289-328) and the install dialog
      (lines 263-275), each building an apt command and going through
      [_run_apt_action] (lines 165-183), [run_apt_command]
      (src/utils/apt.py) and [run_async_cmd] (src/utils/async_ops.py).

    A command's outcome is an input ([CmdResult]: its standard output, or
    the text of the exception [subprocess.run] raised).  The commands the
    page asks to run are outputs ([AptRequest]).

    Appending a row converts its values to the column types of line 84
    ([GObj]): a size that does not fit a 32-bit [int] raises
    [OverflowError] inside the [try], which the [except] clause reports
    ([append_rows], [refresh_error]).

    The theorems: a well-formed [dpkg-query] output with sizes below 2^41
    KiB is parsed back into exactly the rows it lists, and a larger size
    cuts the list at that entry with an error row; the label after a
    refresh is always "Ready."; a refresh keeps the anchor of the old
    list; the apt commands carry exactly the checked package names in
    store order.  The completion of an apt action, through the runner
    thread and the main loop, is in [Async]. *)

From stdpp Require Import base list.
From Stdlib Require Import ZArith NArith String Ascii Lia.
From S2P Require Import Prelude PyStr GObj Rows Filter Modifier Selection.

Local Open Scope string_scope.

(** The outcome of [subprocess.run(..., check=True)]: its standard output,
    or the text of the exception it raised. *)
Inductive CmdResult :=
| CmdOk (stdout : string)
| CmdFailed (error : string).

(** The package page: the selection state and the status bar. *)
Record PkgPageState := mkPkgPage {
  pkg_sel : PkgPage;
  status_text : string;
  spinner_active : bool;
  status_visible : bool
}.

(** A request to run an apt command, as [_run_apt_action] hands it to
    [run_apt_command]: the dialog text, the command, and the two messages
    of its completion callback. *)
Record AptRequest := mkApt {
  apt_prompt : string;
  apt_cmd : list string;
  apt_success : string;
  apt_error : option string
}.

(** One installed package as [dpkg-query] prints it with the format of
    line 201: ["${Package}\t${Status}\t${Version}\t${Installed-Size}\n"]. *)
Record DpkgEntry := mkDpkg {
  d_package : string;
  d_status : string;
  d_version : string;
  d_size : N
}.

Definition dpkg_format (e : DpkgEntry) : string :=
  join_fields "009"%char [d_package e; d_status e; d_version e; py_str_N (d_size e)].

Definition dpkg_output (es : list DpkgEntry) : string := join_lines (map dpkg_format es).

(** A field [dpkg-query] can print without breaking the format: no tab and
    no line boundary. *)
Definition field_ok (s : string) : bool :=
  str_avoids (fun c => Ascii.eqb c "009"%char || py_is_linebreak c) s.

(** The row [refresh_packages] should show for an entry, if any. *)
Definition expected_row (e : DpkgEntry) : option PkgRow :=
  if py_in "install ok installed" (d_status e)
  then Some (mkPkgRow false (d_package e) "package-x-generic" (d_version e) (Z.of_N (d_size e) / 1024) 0)
  else None.

(** Lines 155-163. *)
Definition show_progress (st : PkgPageState) (message : string) (is_active : bool) : PkgPageState :=
  if is_active then mkPkgPage (pkg_sel st) message true true
  else mkPkgPage (pkg_sel st) message false (status_visible st).

(** Replace the store, keeping anchor, flag and query (lines 199, 229:
    [self.pkg_store.clear()] touches nothing else). *)
Definition set_pkg_store (st : PkgPageState) (rows : list PkgRow) : PkgPageState :=
  let p := pkg_sel st in
  mkPkgPage (mkSel rows (anchor p) (suppress p) (query p))
            (status_text st) (spinner_active st) (status_visible st).

Definition TAB : ascii := "009"%char.

(** Line 209: [int(parts[3] or 0) // 1024], 0 on [ValueError]. *)
Definition pkg_size (field : string) : Z :=
  if String.eqb field "" then 0 / 1024
  else match py_int field with
       | Some n => n / 1024
       | None => 0
       end.

(** Lines 204-213, one line of [dpkg-query] output. *)
Definition dpkg_row (line : string) : option PkgRow :=
  match py_split_char TAB line with
  | [pkg_name; status; version; size] =>
      if py_in "install ok installed" status
      then Some (mkPkgRow false pkg_name "package-x-generic" version (pkg_size size) 0)
      else None
  | _ => None
  end.

(** Line 215: the row shown when the command fails. *)
Definition error_row (e : string) : PkgRow :=
  mkPkgRow false ("Error: " ++ e) "dialog-error" "" 0 0.

(** Line 84: [Gtk.ListStore(bool, str, str, str, int, int)]. *)
Definition pkg_store_types : list GType := [TBool; TString; TString; TString; TInt; TInt].

(** The list a row is appended as (lines 213, 215, 236, 239). *)
Definition pkg_values (r : PkgRow) : list GValue :=
  [VBool (k_active r); VString (k_name r); VString (k_icon r); VString (k_version r);
   VInt (k_size r); VInt (k_extra r)].

(** The loop of lines 204-213 appending the parsed rows in turn: the
    rows stored, and the text of the exception the first row that does
    not convert raises, which ends the loop. *)
Fixpoint append_rows (acc : list PkgRow) (rows : list PkgRow) : list PkgRow * option string :=
  match rows with
  | [] => (acc, None)
  | r :: rows =>
      match append_error (pkg_values r) with
      | Some e => (acc, Some e)
      | None => append_rows (acc ++ [r])%list rows
      end
  end.

(** The [except] clause of lines 214-216 after [rows] were stored. *)
Definition refresh_error (st : PkgPageState) (rows : list PkgRow) (e : string) : PkgPageState :=
  let st := set_pkg_store st (rows ++ [error_row e])%list in
  show_progress st ("Error loading packages: " ++ e) false.

(** [refresh_packages]: lines 195-218. *)
Definition refresh_packages (st : PkgPageState) (result : CmdResult) : PkgPageState :=
  let st := show_progress st "Scanning installed packages (via: dpkg-query)..." true in
  let st := set_pkg_store st [] in
  let st :=
    match result with
    | CmdOk out =>
        match append_rows [] (omap dpkg_row (py_splitlines out)) with
        | (rows, None) => set_pkg_store st rows
        | (rows, Some e) => refresh_error st rows e
        end
    | CmdFailed e => refresh_error st [] e
    end in
  show_progress st "Ready." false.

(** Lines 233-236, one line of [apt list --upgradable]. *)
Definition upgradable_row (line : string) : option PkgRow :=
  if negb (String.eqb line "") && negb (py_startswith line "Listing...")
  then match py_split_char "/"%char line with
       | pkg_name :: _ => Some (mkPkgRow false pkg_name "package-x-generic" "" 0 0)
       | [] => None
       end
  else None.

(** [show_upgradeable_packages]: lines 220-240 (the popover is not
    modelled).  Its rows have size 0, so appending them never raises. *)
Definition show_upgradeable_packages (st : PkgPageState) (result : CmdResult) : PkgPageState :=
  let st := show_progress st "Checking for updates (via: apt list)..." true in
  let st := set_pkg_store st [] in
  match result with
  | CmdOk out =>
      let st := set_pkg_store st (omap upgradable_row (py_splitlines out)) in
      show_progress st "Upgradeable packages listed." false
  | CmdFailed e =>
      let st := set_pkg_store st [error_row e] in
      show_progress st ("Error checking upgrades: " ++ e) false
  end.

(** Lines 290, 300, 310: [[r[1] for r in self.pkg_store if r[0]]]. *)
Definition selected_packages (st : PkgPageState) : list string :=
  map k_name (List.filter k_active (store (pkg_sel st))).

(** [_run_apt_action]: lines 165-183. *)
Definition run_apt_action (st : PkgPageState) (message : string) (command : list string)
           (success_message : string) (error_message : option string)
  : PkgPageState * option AptRequest :=
  (show_progress st message true, Some (mkApt message command success_message error_message)).

(** An action on the selection: nothing when no package is checked. *)
Definition selection_action (st : PkgPageState) (message : string) (prefix : list string)
           (success_message : string) : PkgPageState * option AptRequest :=
  let pkgs := selected_packages st in
  match pkgs with
  | [] => (st, None)
  | _ => run_apt_action st message (prefix ++ pkgs) success_message None
  end.

(** Lines 289-297. *)
Definition remove_selected_packages (st : PkgPageState) : PkgPageState * option AptRequest :=
  selection_action st "Removing selected packages (via: apt remove)"
    ["pkexec"; "apt"; "remove"; "-y"] "Selected packages removed.".

(** Lines 299-307. *)
Definition purge_selected_packages (st : PkgPageState) : PkgPageState * option AptRequest :=
  selection_action st "Purging selected packages & config files (via: apt purge)"
    ["pkexec"; "apt"; "purge"; "-y"] "Selected packages and configurations purged.".

(** Lines 309-317. *)
Definition reinstall_selected_packages (st : PkgPageState) : PkgPageState * option AptRequest :=
  selection_action st "Reinstalling selected packages (via: apt reinstall)"
    ["pkexec"; "apt"; "install"; "--reinstall"; "-y"] "Selected packages reinstalled.".

(** Lines 280-287. *)
Definition update_system (st : PkgPageState) : PkgPageState * option AptRequest :=
  run_apt_action st "Updating system and installing upgrades (via: apt update & upgrade)"
    ["pkexec"; "bash"; "-c"; "apt update && apt upgrade -y"] "System is fully up-to-date." None.

(** Lines 319-328. *)
Definition clean_packages (st : PkgPageState) : PkgPageState * option AptRequest :=
  run_apt_action st "Cleaning up unused dependencies and cache (via: apt autoremove)"
    ["pkexec"; "apt"; "autoremove"; "-y"] "Cleanup complete. System storage freed." None.

(** The install dialog's response handler (lines 263-275): [ok] is the
    OK button, [entry] the text typed. *)
Definition install_response (st : PkgPageState) (ok : bool) (entry : string)
  : PkgPageState * option AptRequest :=
  if ok then
    let text := py_strip entry in
    if String.eqb text "" then (st, None)
    else
      let packages := py_split text in
      run_apt_action st ("Installing package(s): " ++ concat " " packages ++ " (via: apt install)")
        (["pkexec"; "apt"; "install"; "-y"] ++ packages)
        ("Installation complete: " ++ concat " " packages ++ ".") None
  else (st, None).

(** What the install dialog answers (lines 241-262): its two buttons
    ("Cancel" is [CANCEL], "Install" is [OK]), Enter in the entry, which
    activates the default response [OK], or the window closed. *)
Inductive InstallAnswer := InstallCancel | InstallButton | InstallEnter | InstallClosed.

Definition install_dialog_answer (st : PkgPageState) (a : InstallAnswer) (entry : string)
  : PkgPageState * option AptRequest :=
  install_response st (match a with InstallButton | InstallEnter => true | _ => false end) entry.

(** [completion_callback] (lines 169-176) called with [success]: the status
    label, and the refresh it schedules. *)
Definition completion_callback (st : PkgPageState) (req : AptRequest) (success : bool) : PkgPageState :=
  if success then show_progress st (apt_success req) false
  else show_progress st (default "Action failed. Check logs." (apt_error req)) false.

(** The rest of an apt request in one step: [run_apt_command]'s dialog
    (apt.py lines 4-15) and, on Yes, [run_async_cmd] (async_ops.py lines
    6-18), whose thread runs the command, ignores its exit status and
    schedules [GLib.idle_add(callback)]: the callback runs with no
    argument, that is with [success=True].  [exit_status] is the
    command's exit status.  Returns the page after the callback and
    whether a refresh was scheduled.  [Async] models the thread and the
    main loop and proves that flow implements this summary. *)
Definition apt_dialog_response (st : PkgPageState) (req : AptRequest) (yes : bool)
           (exit_status : Z) : PkgPageState * bool :=
  if yes then (completion_callback st req true, true) else (st, false).

(** ** Worked examples *)

(** A package row with the given name and check box. *)
Definition example_pkg (name : string) (active : bool) : PkgRow :=
  mkPkgRow active name "package-x-generic" "1.0" 0 0.

(** A package page showing the given rows, "Ready.". *)
Definition example_pkg_page (rows : list PkgRow) (anc : option nat) : PkgPageState :=
  mkPkgPage (mkSel rows anc false "") "Ready." false true.

(** Three [dpkg-query] records, the second one not installed. *)
Definition example_dpkg : list DpkgEntry :=
  [mkDpkg "vim" "install ok installed" "2:9.0" 4096;
   mkDpkg "foo" "deinstall ok config-files" "1.0" 12;
   mkDpkg "bash" "install ok installed" "5.1" 1700].

(** ** Lemmas *)

Lemma append_rows_fit (acc rows : list PkgRow) :
  Forall (fun r => first_overflow (pkg_values r) = None) rows -> append_rows acc rows = ((acc ++ rows)%list, None).
Proof.
  intros H. revert acc. induction H as [|r rows Hr _ IH]; intros acc; simpl; [by rewrite app_nil_r|].
  unfold append_error. rewrite Hr. simpl. rewrite IH. by rewrite <- app_assoc.
Qed.

Lemma append_rows_prefix (acc rows1 : list PkgRow) (r : PkgRow) (rows2 : list PkgRow) :
  Forall (fun r => first_overflow (pkg_values r) = None) rows1 ->
  append_rows acc (rows1 ++ r :: rows2) = append_rows (acc ++ rows1)%list (r :: rows2).
Proof.
  intros H. revert acc. induction H as [|r1 rows1 Hr _ IH]; intros acc; simpl; [by rewrite app_nil_r|].
  unfold append_error at 1. rewrite Hr. simpl. rewrite IH. by rewrite <- app_assoc.
Qed.

Lemma refresh_packages_store (st : PkgPageState) (result : CmdResult) :
  store (pkg_sel (refresh_packages st result)) =
  match result with
  | CmdOk out =>
      let '(rows, err) := append_rows [] (omap dpkg_row (py_splitlines out)) in
      match err with None => rows | Some e => (rows ++ [error_row e])%list end
  | CmdFailed e => [error_row e]
  end.
Proof. destruct result; [|done]. simpl. by destruct (append_rows _ _) as [? []]. Qed.

Lemma dpkg_row_format (e : DpkgEntry) :
  field_ok (d_package e) = true -> field_ok (d_status e) = true -> field_ok (d_version e) = true ->
  dpkg_row (dpkg_format e) = expected_row e.
Proof.
  intros Hp Hs Hv. unfold dpkg_row, dpkg_format, expected_row.
  assert (Htab : forall f, field_ok f = true -> str_avoids (fun c => Ascii.eqb c TAB) f = true).
  { unfold field_ok, str_avoids. intros f. induction (list_ascii_of_string f) as [|c l IH]; [done|].
    simpl. rewrite !andb_true_iff, !negb_true_iff, orb_false_iff. intros [[H1 _] H2]. auto. }
  rewrite split_char_join; [|done|].
  - unfold pkg_size. destruct (String.eqb_spec (py_str_N (d_size e)) "").
    + by apply py_str_N_nonempty in e0.
    + by rewrite py_int_str_N.
  - repeat constructor; auto. apply py_str_N_avoids. intros c Hc. apply Ascii.eqb_neq.
    intros ->. discriminate.
Qed.

Lemma dpkg_lines_ok (es : list DpkgEntry) :
  Forall (fun e => field_ok (d_package e) = true /\ field_ok (d_status e) = true /\
                   field_ok (d_version e) = true) es ->
  Forall (fun l => str_avoids py_is_linebreak l = true) (map dpkg_format es).
Proof.
  assert (Hlb : forall f, field_ok f = true -> str_avoids py_is_linebreak f = true).
  { unfold field_ok, str_avoids. intros f. induction (list_ascii_of_string f) as [|c l IH]; [done|].
    simpl. rewrite !andb_true_iff, !negb_true_iff, orb_false_iff. intros [[_ H1] H2]. auto. }
  intros Hes. apply Forall_map. eapply Forall_impl; [exact Hes|]. intros e [Hp [Hs Hv]].
  apply join_fields_avoids; [done|]. repeat constructor; auto.
  apply py_str_N_avoids. intros c Hc. unfold py_is_linebreak, is_digit in *.
  apply andb_true_iff in Hc as [H1 H2]. rewrite Nat.leb_le in H1, H2.
  repeat (apply orb_false_iff; split); try apply andb_false_iff; try apply Nat.eqb_neq;
    rewrite ?Nat.leb_gt; lia.
Qed.

Lemma dpkg_rows_expected (es : list DpkgEntry) :
  Forall (fun e => field_ok (d_package e) = true /\ field_ok (d_status e) = true /\
                   field_ok (d_version e) = true) es ->
  omap dpkg_row (map dpkg_format es) = omap expected_row es.
Proof.
  induction 1 as [|e es [Hp [Hs Hv]] _ IH]; [done|].
  cbn [map]. rewrite !omap_cons_eq, dpkg_row_format by done.
  by destruct (expected_row e); rewrite IH.
Qed.

Lemma expected_rows_fit (es : list DpkgEntry) :
  Forall (fun e => (d_size e < 2 ^ 41)%N) es ->
  Forall (fun r => first_overflow (pkg_values r) = None) (omap expected_row es).
Proof.
  induction 1 as [|e es He _ IH]; [constructor|].
  rewrite omap_cons_eq. unfold expected_row. destruct (py_in _ _); [|done].
  constructor; [|done]. simpl.
  assert (Hfit : gint_fits (Z.of_N (d_size e) / 1024) = true).
  { apply gint_fits_spec. unfold G_MININT, G_MAXINT. apply N2Z.inj_lt in He.
    rewrite N2Z.inj_pow in He. split.
    - pose proof (Z.div_pos (Z.of_N (d_size e)) 1024). lia.
    - assert (Z.of_N (d_size e) / 1024 < 2 ^ 31)%Z; [apply Z.div_lt_upper_bound; simpl in *; lia|lia]. }
  by rewrite Hfit.
Qed.

(** ** Theorems *)

(** C14: round trip.  Whatever [dpkg-query] prints in the format of line
    201, for fields that contain no tab and no line boundary and sizes
    below 2^41 KiB (whose quotient by 1024 fits the [int] column),
    [refresh_packages] shows exactly the installed entries, in order, with
    the printed size divided by 1024 and everything else unchecked. *)
Theorem refresh_packages_parses (st : PkgPageState) (es : list DpkgEntry) :
  Forall (fun e => field_ok (d_package e) = true /\ field_ok (d_status e) = true /\
                   field_ok (d_version e) = true /\ (d_size e < 2 ^ 41)%N) es ->
  store (pkg_sel (refresh_packages st (CmdOk (dpkg_output es)))) = omap expected_row es.
Proof.
  intros Hes. rewrite refresh_packages_store. unfold dpkg_output.
  rewrite splitlines_join by (apply dpkg_lines_ok; eapply Forall_impl; [exact Hes|]; intros ? ?; cbv beta in *; tauto).
  rewrite dpkg_rows_expected by (eapply Forall_impl; [exact Hes|]; intros ? ?; cbv beta in *; tauto).
  rewrite append_rows_fit; [done|]. apply expected_rows_fit. eapply Forall_impl; [exact Hes|]; intros ? ?; cbv beta in *; tauto.
Qed.

(** C14 witness. *)
Lemma refresh_packages_parses_witness :
  Forall (fun e => field_ok (d_package e) = true /\ field_ok (d_status e) = true /\
                   field_ok (d_version e) = true /\ (d_size e < 2 ^ 41)%N) example_dpkg /\
  map k_name (store (pkg_sel (refresh_packages (example_pkg_page [] None) (CmdOk (dpkg_output example_dpkg)))))
    = ["vim"; "bash"] /\
  store (pkg_sel (refresh_packages (example_pkg_page [] None) (CmdOk (dpkg_output example_dpkg))))
    = omap expected_row example_dpkg.
Proof.
  assert (H : Forall (fun e => field_ok (d_package e) = true /\ field_ok (d_status e) = true /\
                   field_ok (d_version e) = true /\ (d_size e < 2 ^ 41)%N) example_dpkg) by vm_decide.
  split_and!; [exact H | vm_compute; reflexivity | apply refresh_packages_parses, H].
Defined.

(** Whatever [dpkg-query] does, [refresh_packages] ends with the
    label "Ready." and the spinner stopped: the [finally] clause
    overwrites the error message the [except] clause has just shown. *)
Theorem refresh_packages_status (st : PkgPageState) (result : CmdResult) :
  status_text (refresh_packages st result) = "Ready." /\
  spinner_active (refresh_packages st result) = false.
Proof. by destruct result. Qed.

(** [refresh_packages] replaces the rows but keeps the anchor (and the
    suppression flag): the anchor indexes the new list.  Spec section 3
    says the anchor is cleared when the store is cleared. *)
Theorem refresh_packages_keeps_anchor (st : PkgPageState) (result : CmdResult) :
  anchor (pkg_sel (refresh_packages st result)) = anchor (pkg_sel st) /\
  suppress (pkg_sel (refresh_packages st result)) = suppress (pkg_sel st).
Proof. destruct result; [simpl; destruct (append_rows _ _) as [? []]|]; done. Qed.

(** C15: an installed entry whose size is 2^41 KiB or more: its quotient by
    1024 does not fit the [int] column, [append] raises [OverflowError]
    inside the [try], and the [except] clause reports it.  The entries
    before it are listed, the ones after it are lost, and the label ends
    as "Ready." all the same. *)
Theorem refresh_packages_overflow (st : PkgPageState) (es1 es2 : list DpkgEntry) (e : DpkgEntry) :
  Forall (fun e => field_ok (d_package e) = true /\ field_ok (d_status e) = true /\
                   field_ok (d_version e) = true) (es1 ++ e :: es2) ->
  Forall (fun e => (d_size e < 2 ^ 41)%N) es1 ->
  py_in "install ok installed" (d_status e) = true -> (2 ^ 41 <= d_size e)%N ->
  store (pkg_sel (refresh_packages st (CmdOk (dpkg_output (es1 ++ e :: es2))))) =
    (omap expected_row es1 ++ [error_row (overflow_message (Z.of_N (d_size e) / 1024))])%list /\
  status_text (refresh_packages st (CmdOk (dpkg_output (es1 ++ e :: es2)))) = "Ready.".
Proof.
  intros Hok Hfit Hin Hbig. split; [|apply refresh_packages_status].
  rewrite refresh_packages_store. unfold dpkg_output.
  rewrite splitlines_join by (apply dpkg_lines_ok; exact Hok).
  rewrite dpkg_rows_expected by exact Hok. rewrite omap_app, omap_cons_eq.
  unfold expected_row at 2. rewrite Hin.
  rewrite (append_rows_prefix [] _ _ _ (expected_rows_fit es1 Hfit)).
  cbn [append_rows]. unfold append_error. simpl.
  assert (Hover : gint_fits (Z.of_N (d_size e) / 1024) = false).
  { apply not_true_iff_false. rewrite gint_fits_spec. unfold G_MAXINT.
    apply N2Z.inj_le in Hbig. rewrite N2Z.inj_pow in Hbig. simpl in Hbig.
    assert (2 ^ 31 <= Z.of_N (d_size e) / 1024)%Z; [apply Z.div_le_lower_bound; lia|lia]. }
  by rewrite Hover.
Qed.

(** C15 witness: an entry of 2^41 KiB between "vim" and "bash". *)
Lemma refresh_packages_overflow_witness :
  let es1 := [mkDpkg "vim" "install ok installed" "2:9.0" 4096] in
  let e := mkDpkg "huge" "install ok installed" "1" (2 ^ 41) in
  let es2 := [mkDpkg "bash" "install ok installed" "5.1" 1700] in
  store (pkg_sel (refresh_packages (example_pkg_page [] None) (CmdOk (dpkg_output (es1 ++ e :: es2))))) =
    (omap expected_row es1 ++ [error_row (overflow_message (Z.of_N (d_size e) / 1024))])%list /\
  status_text (refresh_packages (example_pkg_page [] None) (CmdOk (dpkg_output (es1 ++ e :: es2)))) = "Ready.".
Proof. apply refresh_packages_overflow; [vm_decide|vm_decide|reflexivity|vm_decide]. Defined.

(** The consequence.  A user checks the third of three packages; a
    refresh then lists a single package; a shift-click on it paints from
    the stale anchor (index 2, now past the end, so the anchor value falls
    back to [True]) and checks a package the user never clicked. *)
Example refresh_then_shift_click :
  let st0 := example_pkg_page [example_pkg "a" false; example_pkg "b" false; example_pkg "c" false] None in
  let p1 := on_package_toggled (pkg_sel st0) 2 in
  let st1 := mkPkgPage p1 (status_text st0) (spinner_active st0) (status_visible st0) in
  let st2 := refresh_packages st1 (CmdOk (dpkg_output [mkDpkg "z" "install ok installed" "1" 0])) in
  let p3 := fst (on_packages_tree_click (pkg_sel st2) shift_held 1100 (Some (0, 0))) in
  anchor (pkg_sel st2) = Some 2 /\ map k_name (List.filter k_active (store p3)) = ["z"].
Proof. vm_compute. split; reflexivity. Qed.

(** C16: "Remove Selected" asks for [pkexec apt remove -y] followed by
    exactly the checked package names, in store order, and shows the
    request's message with the spinner on; with nothing checked it does
    nothing at all. *)
Theorem remove_selected_command (st : PkgPageState) :
  match snd (remove_selected_packages st) with
  | None => List.filter k_active (store (pkg_sel st)) = [] /\ fst (remove_selected_packages st) = st
  | Some req =>
      apt_cmd req = (["pkexec"; "apt"; "remove"; "-y"] ++ map k_name (List.filter k_active (store (pkg_sel st))))%list /\
      status_text (fst (remove_selected_packages st)) = apt_prompt req /\
      spinner_active (fst (remove_selected_packages st)) = true
  end.
Proof.
  unfold remove_selected_packages, selection_action, selected_packages.
  destruct (List.filter k_active (store (pkg_sel st))) eqn:E; simpl; [done|].
  split_and!; reflexivity.
Qed.

(** Answering No in the apt confirmation dialog leaves the page
    showing the action's message with the spinner running: nothing resets
    the progress that [_run_apt_action] started before the dialog. *)
Theorem apt_declined_keeps_spinner (st : PkgPageState) (req : AptRequest) (exit_status : Z) :
  snd (remove_selected_packages st) = Some req ->
  let st1 := fst (apt_dialog_response (fst (remove_selected_packages st)) req false exit_status) in
  spinner_active st1 = true /\ status_text st1 = apt_prompt req.
Proof.
  unfold remove_selected_packages, selection_action.
  destruct (selected_packages st) eqn:E; simpl; [done|]. by intros [= <-].
Qed.

(** Declining the removal of a checked "vim" on the example page. *)
Lemma apt_declined_keeps_spinner_witness :
  let st := example_pkg_page [example_pkg "vim" true] None in
  snd (remove_selected_packages st) =
    Some (mkApt "Removing selected packages (via: apt remove)" ["pkexec"; "apt"; "remove"; "-y"; "vim"]
                "Selected packages removed." None) /\
  (let st1 := fst (apt_dialog_response (fst (remove_selected_packages st))
                  (mkApt "Removing selected packages (via: apt remove)" ["pkexec"; "apt"; "remove"; "-y"; "vim"]
                         "Selected packages removed." None) false 0) in
   spinner_active st1 = true /\ status_text st1 = "Removing selected packages (via: apt remove)").
Proof.
  split; [reflexivity|].
  apply (apt_declined_keeps_spinner (example_pkg_page [example_pkg "vim" true] None)). reflexivity.
Defined.

(** The row that reports a failed [dpkg-query] is an ordinary
    checkable row: checking it and pressing "Remove Selected" asks apt to
    remove a package named after the error message. *)
Example error_row_reaches_apt :
  let st1 := refresh_packages (example_pkg_page [] None) (CmdFailed "dpkg-query not found") in
  let st2 := mkPkgPage (on_package_toggled (pkg_sel st1) 0) (status_text st1)
                       (spinner_active st1) (status_visible st1) in
  option_map apt_cmd (snd (remove_selected_packages st2)) =
    Some ["pkexec"; "apt"; "remove"; "-y"; "Error: dpkg-query not found"].
Proof. vm_compute. reflexivity. Qed.

(** The install dialog asks for [pkexec apt install -y] followed by the
    whitespace-separated words of the stripped entry, and asks nothing for
    a blank entry or a cancelled dialog. *)
Theorem install_response_command (st : PkgPageState) (ok : bool) (entry : string) :
  match snd (install_response st ok entry) with
  | None => ok = false \/ py_strip entry = ""
  | Some req => ok = true /\ apt_cmd req = (["pkexec"; "apt"; "install"; "-y"] ++ py_split (py_strip entry))%list
  end.
Proof.
  unfold install_response. destruct ok; [|by left].
  destruct (String.eqb_spec (py_strip entry) ""); simpl; [by right | done].
Qed.
