(* ===== verification/PyRe.v ===== *)
(** * PyRe: the part of Python's [re] the repositories page uses

    [re.match(pattern, s)] with patterns built from single-character
    classes, concatenation, greedy and lazy stars and capturing groups.
    The matcher is the backtracking one of CPython's [sre]: written in
    continuation-passing style, a greedy star tries one more iteration
    before its continuation, a lazy star its continuation first, and the
    first success in that order is the match; an alternation tries its
    left branch first.  [re.match] anchors at the
    start of the string only.

    Captures are appended when a group closes; the patterns used here
    have no nested groups and no group under a star, so this is the order
    of the group numbers.  A star stops iterating when an iteration
    consumes nothing (as [sre] does); each iteration then consumes a
    character, so the fuel [S (String.length s)] of a star is never
    exhausted. *)

From stdpp Require Import base list.
From Stdlib Require Import String Ascii Lia.
From S2P Require Import Prelude PyStr.

Local Open Scope string_scope.

Inductive regex :=
| RChar (p : ascii -> bool)
| RSeq (r1 r2 : regex)
| RStar (greedy : bool) (r : regex)
| RGroup (r : regex)
| RAlt (r1 r2 : regex)
| REps.

(** A continuation gets the rest of the string and the captures so far. *)
Definition re_cont := string -> list string -> option (list string).

(** The text a group consumed: the first [length s - length s'] characters. *)
Definition consumed (s s' : string) : string :=
  substring 0 (String.length s - String.length s') s.

Section Star.
Variable m1 : string -> list string -> re_cont -> option (list string).
Variable greedy : bool.

(** Iterations of a star, at most [fuel] of them. *)
Fixpoint star_go (fuel : nat) (s : string) (cs : list string) (k : re_cont) : option (list string) :=
  match fuel with
  | O => None
  | S f =>
      let more := m1 s cs (fun s' cs' =>
                    if (String.length s' <? String.length s)%nat then star_go f s' cs' k else None) in
      if greedy then
        match more with Some x => Some x | None => k s cs end
      else
        match k s cs with Some x => Some x | None => more end
  end.
End Star.

Fixpoint re_m (r : regex) (s : string) (cs : list string) (k : re_cont) {struct r} : option (list string) :=
  match r with
  | REps => k s cs
  | RChar p =>
      match s with
      | String c t => if p c then k t cs else None
      | EmptyString => None
      end
  | RSeq r1 r2 => re_m r1 s cs (fun s' cs' => re_m r2 s' cs' k)
  | RGroup r1 => re_m r1 s cs (fun s' cs' => k s' (cs' ++ [consumed s s'])%list)
  | RStar g r1 => star_go (re_m r1) g (S (String.length s)) s cs k
  | RAlt r1 r2 =>
      match re_m r1 s cs k with
      | Some x => Some x
      | None => re_m r2 s cs k
      end
  end.

(** [re.match(r, s).groups()], [None] when there is no match. *)
Definition py_re_match (r : regex) (s : string) : option (list string) :=
  re_m r s [] (fun _ cs => Some cs).

(** [re.match(r, s)] with the captures and the text after the match:
    what [time.strptime] needs to reject "unconverted data". *)
Definition py_re_match_rest (r : regex) (s : string) : option (list string * string) :=
  match re_m r s [] (fun rest cs => Some (cs ++ [rest])%list) with
  | Some out =>
      match last out with
      | Some rest => Some (removelast out, rest)
      | None => None
      end
  | None => None
  end.

(** Pattern syntax. *)
Fixpoint re_lit (s : string) : regex :=
  match s with
  | EmptyString => REps
  | String c t => RSeq (RChar (Ascii.eqb c)) (re_lit t)
  end.

Fixpoint re_seq (rs : list regex) : regex :=
  match rs with
  | [] => REps
  | [r] => r
  | r :: rs' => RSeq r (re_seq rs')
  end.

(** [\s]: a whitespace character. *)
Definition re_ws : regex := RChar py_isspace.
(** [\s+]. *)
Definition re_ws_plus : regex := RSeq re_ws (RStar true re_ws).
(** [.]: any character but a newline. *)
Definition re_dot : regex := RChar (fun c => negb (Ascii.eqb c "010"%char)).
(** The lazy group [(.*?)] and the greedy group, a dot star in parentheses. *)
Definition re_lazy_group : regex := RGroup (RStar false re_dot).
Definition re_greedy_group : regex := RGroup (RStar true re_dot).

(** ** Lemmas *)

Lemma consumed_app (w t : string) : consumed (w ++ t) t = w.
Proof.
  unfold consumed. rewrite str_length_app.
  replace (String.length w + String.length t - String.length t)%nat with (String.length w) by lia.
  apply substring_app.
Qed.

Lemma re_m_seq (r1 r2 : regex) (s : string) (cs : list string) (k : re_cont) :
  re_m (RSeq r1 r2) s cs k = re_m r1 s cs (fun s' cs' => re_m r2 s' cs' k).
Proof. done. Qed.

Lemma re_m_lit (p : string) (R : regex) (s : string) (cs : list string) (k : re_cont) :
  re_m (RSeq (re_lit p) R) (p ++ s) cs k = re_m R s cs k.
Proof.
  induction p as [|c p IH]; [done|]. cbn [re_lit String.append].
  rewrite !re_m_seq. cbn [re_m]. rewrite Ascii.eqb_refl. rewrite <- IH. done.
Qed.

Lemma space_not_newline (c : ascii) : py_isspace c = false -> Ascii.eqb c "010"%char = false.
Proof. intros H. apply Ascii.eqb_neq. intros ->. discriminate. Qed.

Lemma lstrip_nonspace (c : ascii) (u : string) :
  py_lstrip (String c u) = String c u -> py_isspace c = false.
Proof.
  simpl. destruct (py_isspace c); [|done]. intros H.
  pose proof (py_lstrip_length u) as Hl. rewrite H in Hl. simpl in Hl. lia.
Qed.

(** [\s+] followed by [R] on one space and a string that does not start
    with whitespace: the space is consumed, nothing else. *)
Lemma re_m_ws_one (R : regex) (t : string) (cs : list string) (k : re_cont) :
  py_lstrip t = t -> re_m (RSeq re_ws_plus R) (String " " t) cs k = re_m R t cs k.
Proof.
  intros Ht. rewrite re_m_seq. cbn [re_m re_ws re_ws_plus py_isspace]. simpl (py_isspace " ").
  cbn [star_go]. destruct t as [|c u]; [done|].
  cbn [re_m]. by rewrite (lstrip_nonspace c u Ht).
Qed.

(** [\s+] fails on a string that starts with something else. *)
Lemma re_m_ws_fail (R : regex) (c : ascii) (u : string) (cs : list string) (k : re_cont) :
  py_isspace c = false -> re_m (RSeq re_ws_plus R) (String c u) cs k = None.
Proof. intros Hc. rewrite re_m_seq. cbn [re_m re_ws re_ws_plus]. by rewrite Hc. Qed.

Section Lazy.
Variable stop : ascii -> bool.

(** A lazy [.*?] in front of a continuation that fails on every character
    of [w] that is not a [stop] character stops right after [w], if the
    continuation succeeds there. *)
Lemma star_lazy_dot (K : re_cont) (w t : string) (cs : list string) (fuel : nat) (x : list string) :
  str_avoids (fun c => stop c || Ascii.eqb c "010"%char) w = true ->
  (forall c u cs', stop c = false -> K (String c u) cs' = None) ->
  String.length w < fuel -> K t cs = Some x ->
  star_go (re_m re_dot) false fuel (w ++ t) cs K = Some x.
Proof.
  intros Hw HK. revert fuel. induction w as [|c w IH]; intros [|f] Hf Ht; simpl in Hf; try lia.
  - simpl. by rewrite Ht.
  - rewrite str_avoids_cons in Hw. apply andb_true_iff in Hw as [Hc Hw].
    apply negb_true_iff, orb_false_iff in Hc as [Hs Hn].
    cbn [star_go String.append]. rewrite HK by done. cbn [re_m re_dot]. rewrite Hn. simpl negb.
    cbn iota. assert (Hlt : (String.length (w ++ t) <? String.length (String c (w ++ t)))%nat = true)
      by (apply Nat.ltb_lt; simpl; lia).
    rewrite Hlt. apply IH; [done | lia | done].
Qed.

Lemma re_m_lazy (R : regex) (w t : string) (cs : list string) (k : re_cont) (x : list string) :
  str_avoids (fun c => stop c || Ascii.eqb c "010"%char) w = true ->
  (forall c u cs', stop c = false -> re_m R (String c u) cs' k = None) ->
  re_m R t (cs ++ [w])%list k = Some x ->
  re_m (RSeq re_lazy_group R) (w ++ t) cs k = Some x.
Proof.
  intros Hw HR Ht. rewrite re_m_seq. cbn [re_m re_lazy_group].
  apply star_lazy_dot; [done | | rewrite str_length_app; lia | by rewrite consumed_app].
  intros c u cs' Hc. by apply HR.
Qed.
End Lazy.

(** A greedy [.*] takes everything up to the end of a line without
    newline. *)
Lemma star_greedy_dot (K : re_cont) (s : string) (cs : list string) (fuel : nat) (x : list string) :
  str_avoids (fun c => Ascii.eqb c "010"%char) s = true ->
  String.length s < fuel -> K "" cs = Some x ->
  star_go (re_m re_dot) true fuel s cs K = Some x.
Proof.
  intros Hs. revert fuel. induction s as [|c s IH]; intros [|f] Hf HK; simpl in Hf; try lia.
  - simpl. exact HK.
  - rewrite str_avoids_cons in Hs. apply andb_true_iff in Hs as [Hc Hs].
    apply negb_true_iff in Hc. cbn [star_go re_m re_dot]. rewrite Hc. simpl negb. cbn iota.
    assert (Hlt : (String.length s <? String.length (String c s))%nat = true)
      by (apply Nat.ltb_lt; simpl; lia).
    rewrite Hlt, IH; [done | done | lia | done].
Qed.

Lemma re_m_greedy_end (s : string) (cs : list string) (k : re_cont) (x : list string) :
  str_avoids (fun c => Ascii.eqb c "010"%char) s = true -> k "" (cs ++ [s])%list = Some x ->
  re_m re_greedy_group s cs k = Some x.
Proof.
  intros Hs Hk. cbn [re_m re_greedy_group]. apply star_greedy_dot; [done | lia |].
  unfold consumed. rewrite Nat.sub_0_r.
  pose proof (substring_app s "") as Hsub. rewrite str_app_nil_r in Hsub. by rewrite Hsub.
Qed.

(** ** Characters and alternatives *)

Lemma re_m_char_true (p : ascii -> bool) (c : ascii) (t : string) (cs : list string) (k : re_cont) :
  p c = true -> re_m (RChar p) (String c t) cs k = k t cs.
Proof. intros H. simpl. by rewrite H. Qed.

Lemma re_m_char_false (p : ascii -> bool) (c : ascii) (t : string) (cs : list string) (k : re_cont) :
  p c = false -> re_m (RChar p) (String c t) cs k = None.
Proof. intros H. simpl. by rewrite H. Qed.

Lemma re_m_alt_l (r1 r2 : regex) (s : string) (cs : list string) (k : re_cont) (x : list string) :
  re_m r1 s cs k = Some x -> re_m (RAlt r1 r2) s cs k = Some x.
Proof. intros H. simpl. by rewrite H. Qed.

Lemma re_m_alt_r (r1 r2 : regex) (s : string) (cs : list string) (k : re_cont) :
  re_m r1 s cs k = None -> re_m (RAlt r1 r2) s cs k = re_m r2 s cs k.
Proof. intros H. simpl. by rewrite H. Qed.

(** A two-character pattern on two characters. *)
Lemma re_m_two (p1 p2 : ascii -> bool) (c1 c2 : ascii) (rest : string) (cs : list string) (k : re_cont) :
  p1 c1 = true -> p2 c2 = true ->
  re_m (RSeq (RChar p1) (RChar p2)) (String c1 (String c2 rest)) cs k = k rest cs.
Proof. intros H1 H2. rewrite re_m_seq, re_m_char_true by done. by apply re_m_char_true. Qed.

Lemma re_m_seq_fail (p1 : ascii -> bool) (r2 : regex) (c1 : ascii) (t : string) (cs : list string) (k : re_cont) :
  p1 c1 = false -> re_m (RSeq (RChar p1) r2) (String c1 t) cs k = None.
Proof. intros H. rewrite re_m_seq. by apply re_m_char_false. Qed.

Lemma re_m_group (r : regex) (s : string) (cs : list string) (k : re_cont) :
  re_m (RGroup r) s cs k = re_m r s cs (fun s' cs' => k s' (cs' ++ [consumed s s'])%list).
Proof. done. Qed.

Lemma consumed_two (c1 c2 : ascii) (rest : string) :
  consumed (String c1 (String c2 rest)) rest = String c1 (String c2 "").
Proof. exact (consumed_app (String c1 (String c2 "")) rest). Qed.
