(* ===== verification/Services.v ===== *)
(** * Services: the systemd services page

    src/pages/services.py shows the output of
    [systemctl list-units --type=service --no-pager] in a four-column
    store (status, name, description, active) and runs
    [pkexec systemctl <action> <name>] on the selected row after a
    confirmation dialog.  Threads hand their results back with
    [GLib.idle_add]; the model applies each idle callback as a function of
    the page state, in the order the code schedules them.

    The state ([ServicesState]) is the store, the status label, the tree's
    selected row and the message dialogs the page has opened.  A command's
    outcome is an input ([RunOutcome]); the commands the page runs are
    outputs.

    Python clears the name bound by [except ... as e] when the clause
    ends, so a lambda scheduled with [idle_add] inside the clause that
    reads [e] raises [NameError] when the main loop runs it (lines 97 and
    180), unless the main loop runs it before the worker thread leaves the
    clause.  The model takes the usual order: such a callback changes
    nothing.

    Strings are Latin-1 text (characters 0-255); systemctl prints its
    failed-unit mark as "*" outside UTF-8 locales, which is the form used
    in the examples. *)

From stdpp Require Import base list.
From Stdlib Require Import String Ascii ZArith NArith Lia.
From S2P Require Import Prelude PyStr.

Local Open Scope string_scope.

(** One row of [service_store]: status, name, description, active. *)
Record ServiceRow := mkService {
  sv_status : string;
  sv_name : string;
  sv_desc : string;
  sv_active : bool
}.

Inductive MessageType := MsgInfo | MsgWarning | MsgQuestion | MsgError.

(** A message dialog opened by [_show_dialog]: title, secondary text, type. *)
Record Dialog := mkDialog {
  dlg_title : string;
  dlg_text : string;
  dlg_type : MessageType
}.

Record ServicesState := mkServices {
  service_store : list ServiceRow;
  svc_label : string;
  svc_selected : option nat;
  svc_dialogs : list Dialog
}.

(** The outcome of [subprocess.run(cmd, ..., check=True, timeout=10)]. *)
Inductive RunOutcome :=
| RunOk (stdout : string)
| RunCalledProcessError (returncode : Z) (stderr : string)
| RunFileNotFound
| RunOtherError (msg : string).

(** The confirmation dialog of [_run_service_action] (lines 138-145). *)
Record ServiceRequest := mkServiceRequest {
  sr_action : string;
  sr_service : string;
  sr_title : string
}.

Definition NL : string := String "010" "".

(** Lines 11-78: an empty store, "Ready.". *)
Definition services_init : ServicesState := mkServices [] "Ready." None [].

Definition set_label (st : ServicesState) (s : string) : ServicesState :=
  mkServices (service_store st) s (svc_selected st) (svc_dialogs st).

(** [_show_dialog] (lines 182-193). *)
Definition show_dialog (st : ServicesState) (title message : string) (ty : MessageType) : ServicesState :=
  mkServices (service_store st) (svc_label st) (svc_selected st)
             (svc_dialogs st ++ [mkDialog title message ty]).

(** [_load_services] (lines 80-84): the label, then the load thread. *)
Definition load_services (st : ServicesState) : ServicesState :=
  set_label st "Loading system services...".

(** Lines 110-120: one line of [systemctl] output. *)
Definition service_row (line : string) : option ServiceRow :=
  let parts := py_split_max 5 line in
  if (5 <=? length parts)%nat then
    let unit_name := default "" (parts !! 0%nat) in
    let active_status := default "" (parts !! 2%nat) in
    let description := if (4 <? length parts)%nat then default "" (parts !! 4%nat) else unit_name in
    let is_active := String.eqb active_status "active" in
    Some (mkService active_status unit_name description is_active)
  else None.

(** Lines 102-106: the lines kept, [lines[1:-1]] when there are more than
    two. *)
Definition service_lines (output : string) : list string :=
  let lines := py_splitlines output in
  if (2 <? length lines)%nat then removelast (tail lines) else lines.

(** [_process_service_output] (lines 99-122).  Clearing the store clears
    the tree's selection. *)
Definition process_service_output (st : ServicesState) (output : string) : ServicesState :=
  let rows := omap service_row (service_lines output) in
  mkServices rows ("Loaded " ++ py_str_N (N.of_nat (length rows)) ++ " services.") None (svc_dialogs st).

(** [_run_service_load_thread] (lines 86-97), with its idle callback. *)
Definition service_load_result (st : ServicesState) (o : RunOutcome) : ServicesState :=
  match o with
  | RunOk out => process_service_output st (py_strip out)
  | RunCalledProcessError rc err =>
      set_label st ("Error loading services (Code " ++ py_str_Z rc ++ "): " ++ py_strip err)
  | RunFileNotFound | RunOtherError _ => st
  end.

(** [_run_service_action] (lines 125-154) up to the dialog: a warning when
    no row is selected, else the confirmation request. *)
Definition run_service_action (st : ServicesState) (action : string)
  : ServicesState * option ServiceRequest :=
  match svc_selected st ≫= fun i => service_store st !! i with
  | None =>
      (show_dialog st "No Service Selected"
         "Please select a service from the list to perform an action." MsgWarning, None)
  | Some r =>
      let service_name := sv_name r in
      (st, Some (mkServiceRequest action service_name
                   ("Confirm Action: " ++ py_capitalize action ++ " " ++ service_name)))
  end.

(** [pkexec systemctl <action> <name>] (line 161). *)
Definition service_command (req : ServiceRequest) : list string :=
  ["pkexec"; "systemctl"; sr_action req; sr_service req].

(** [handle_response] (lines 147-151): on Yes, the label and the command
    the thread runs. *)
Definition service_dialog_response (st : ServicesState) (req : ServiceRequest) (yes : bool)
  : ServicesState * option (list string) :=
  if yes then
    (set_label st ("Requesting privilege to " ++ sr_action req ++ " " ++ sr_service req ++ "..."),
     Some (service_command req))
  else (st, None).

(** [_run_privileged_action_thread] (lines 157-180), with its idle
    callbacks in the order they are scheduled. *)
Definition privileged_action_result (st : ServicesState) (req : ServiceRequest) (o : RunOutcome)
  : ServicesState :=
  let action := sr_action req in
  let service_name := sr_service req in
  match o with
  | RunOk _ =>
      load_services (set_label st ("Successfully executed '" ++ action ++ "' on " ++ service_name ++ "."))
  | RunCalledProcessError _ err =>
      let error_msg := "Action '" ++ action ++ "' failed on " ++ service_name ++ "." ++ NL ++ NL ++
                       "Error Output:" ++ NL ++ py_strip err in
      let st := show_dialog st "Privileged Action Failed" error_msg MsgError in
      set_label st ("Action '" ++ action ++ "' on " ++ service_name ++ " failed.")
  | RunFileNotFound =>
      show_dialog st "System Error" "Dependency not found: systemctl or pkexec." MsgError
  | RunOtherError _ => st
  end.

(** The tree's selection: GTK selects only rows that exist. *)
Definition select_service (st : ServicesState) (i : nat) : ServicesState :=
  if (i <? length (service_store st))%nat
  then mkServices (service_store st) (svc_label st) (Some i) (svc_dialogs st)
  else st.

(** The events of the page. *)
Inductive ServiceEvent :=
| SvcSelect (i : nat)
| SvcLoad
| SvcLoaded (o : RunOutcome)
| SvcAction (action : string)
| SvcConfirm (req : ServiceRequest) (yes : bool)
| SvcActionDone (req : ServiceRequest) (o : RunOutcome).

Definition svc_step (st : ServicesState) (e : ServiceEvent) : ServicesState :=
  match e with
  | SvcSelect i => select_service st i
  | SvcLoad => load_services st
  | SvcLoaded o => service_load_result st o
  | SvcAction a => fst (run_service_action st a)
  | SvcConfirm req yes => fst (service_dialog_response st req yes)
  | SvcActionDone req o => privileged_action_result st req o
  end.

Inductive svc_reachable : ServicesState -> Prop :=
| svc_reach_init : svc_reachable services_init
| svc_reach_step st e : svc_reachable st -> svc_reachable (svc_step st e).

(** The selection names a row of the store. *)
Definition svc_sel_ok (st : ServicesState) : Prop :=
  match svc_selected st with
  | Some i => i < length (service_store st)
  | None => True
  end.

(** ** Worked examples *)

(** [systemctl list-units --type=service --no-pager] with one running and
    one failed unit, as printed outside a UTF-8 locale. *)
Definition example_systemctl : string :=
  "  UNIT           LOAD   ACTIVE SUB     DESCRIPTION" ++ NL ++
  "  cron.service   loaded active running Regular background program processing daemon" ++ NL ++
  "* foo.service    loaded failed failed  Foo Daemon" ++ NL ++
  NL ++
  "LOAD   = Reflects whether the unit definition was properly loaded." ++ NL ++
  "ACTIVE = The high-level unit activation state, i.e. generalization of SUB." ++ NL ++
  "SUB    = The low-level unit activation state, values depend on unit type." ++ NL ++
  NL ++
  "2 loaded units listed. Pass --all to see loaded but inactive units, too." ++ NL ++
  "To show all installed unit files use 'systemctl list-unit-files'." ++ NL.

(** The output when no unit matches. *)
Definition example_systemctl_empty : string :=
  "0 loaded units listed. Pass --all to see loaded but inactive units, too." ++ NL ++
  "To show all installed unit files use 'systemctl list-unit-files'." ++ NL.

(** ** Lemmas *)

Lemma set_label_store st s : service_store (set_label st s) = service_store st.
Proof. done. Qed.

Lemma svc_sel_ok_init : svc_sel_ok services_init.
Proof. done. Qed.

Lemma svc_sel_ok_same (st st' : ServicesState) :
  service_store st' = service_store st -> svc_selected st' = svc_selected st ->
  svc_sel_ok st -> svc_sel_ok st'.
Proof. unfold svc_sel_ok. by intros -> ->. Qed.

Lemma svc_sel_ok_step (st : ServicesState) (e : ServiceEvent) :
  svc_sel_ok st -> svc_sel_ok (svc_step st e).
Proof.
  intros H. destruct e as [i| |o|a|req yes|req o]; simpl.
  - unfold select_service. destruct (Nat.ltb_spec i (length (service_store st))); [done|exact H].
  - exact H.
  - destruct o; [done|exact H..].
  - unfold run_service_action. destruct (svc_selected st ≫= _); [exact H|]. exact H.
  - unfold service_dialog_response. by destruct yes.
  - by destruct o.
Qed.

Lemma svc_sel_ok_reachable (st : ServicesState) : svc_reachable st -> svc_sel_ok st.
Proof. induction 1; [apply svc_sel_ok_init | by apply svc_sel_ok_step]. Qed.

#[export] Hint Resolve svc_sel_ok_init svc_sel_ok_step svc_sel_ok_reachable : sm.

(** Five rounds of the split on a line of five words. *)
Lemma split_five_words (u l a s d rest : string) (fuel : nat) :
  word_ok u = true -> word_ok l = true -> word_ok a = true -> word_ok s = true ->
  word_ok d = true -> tail_ok rest = true ->
  exists tl, py_split_go (S (S (S (S (S (S fuel)))))) (Some 5)
                (u ++ " " ++ l ++ " " ++ a ++ " " ++ s ++ " " ++ d ++ rest) = ([u; l; a; s; d] ++ tl)%list.
Proof.
  intros Hu Hl Ha Hs Hd Hr.
  rewrite !py_split_go_word_sp by done. rewrite py_split_go_word by done.
  eexists. reflexivity.
Qed.

(** C19: a line of [systemctl] output that starts with five words gives the
    row (third word, first word, fifth word, "is the third word
    active"): the description is the fifth word alone, since
    [split(maxsplit=5)] leaves the rest of the description in a sixth
    field the code ignores. *)
Theorem service_row_words (u l a s d rest : string) :
  word_ok u = true -> word_ok l = true -> word_ok a = true -> word_ok s = true ->
  word_ok d = true -> tail_ok rest = true ->
  service_row (u ++ " " ++ l ++ " " ++ a ++ " " ++ s ++ " " ++ d ++ rest) =
  Some (mkService a u d (String.eqb a "active")).
Proof.
  intros Hu Hl Ha Hs Hd Hr. unfold service_row, py_split_max.
  set (line := (u ++ _)%string).
  assert (Hlen : 5 < String.length line).
  { unfold word_ok in *. subst line. destruct u, l, a, s; try discriminate.
    rewrite !str_length_app. simpl. lia. }
  rewrite (py_split_go_fuel (S (String.length line)) (S (S (S (S (S (S (String.length line)))))))
            (Some 5) line ltac:(lia) ltac:(lia)).
  destruct (split_five_words u l a s d rest (String.length line)) as [tl Htl]; [done..|].
  subst line. by rewrite Htl.
Qed.

(** C19 witness: the [cron] line of [example_systemctl]. *)
Lemma service_row_words_witness :
  word_ok "cron.service" = true /\ word_ok "loaded" = true /\ word_ok "active" = true /\
  word_ok "running" = true /\ word_ok "Regular" = true /\
  tail_ok " background program processing daemon" = true /\
  service_row ("cron.service" ++ " " ++ "loaded" ++ " " ++ "active" ++ " " ++ "running" ++ " " ++
               "Regular" ++ " background program processing daemon") =
  Some (mkService "active" "cron.service" "Regular" true).
Proof.
  split_and!; [reflexivity..|].
  apply (service_row_words "cron.service" "loaded" "active" "running" "Regular"
           " background program processing daemon"); reflexivity.
Defined.

(** [_process_service_output] drops only the first and the last line,
    so the legend and the unit count [systemctl] prints after the units
    become rows (and a failed unit's "*" mark is taken for its name); when
    no unit is listed, the two summary lines are not dropped at all.  The
    label counts these rows as services. *)
Example services_summary_rows :
  map sv_name (service_store (service_load_result services_init (RunOk example_systemctl)))
    = ["cron.service"; "*"; "LOAD"; "ACTIVE"; "SUB"; "2"] /\
  svc_label (service_load_result services_init (RunOk example_systemctl)) = "Loaded 6 services." /\
  map sv_name (service_store (service_load_result services_init (RunOk example_systemctl_empty)))
    = ["0"; "To"] /\
  svc_label (service_load_result services_init (RunOk example_systemctl_empty)) = "Loaded 2 services.".
Proof. vm_compute. split_and!; reflexivity. Qed.

(** Selecting the failed unit's row and confirming "Stop" runs
    [pkexec systemctl stop *]: the name column holds the failed-unit mark,
    which [systemctl] reads as a pattern matching every loaded unit. *)
Example failed_unit_stop_all :
  let st := service_load_result (load_services services_init) (RunOk example_systemctl) in
  let st := select_service st 1 in
  match snd (run_service_action st "stop") with
  | Some req => snd (service_dialog_response st req true) = Some ["pkexec"; "systemctl"; "stop"; "*"] /\
                sr_title req = "Confirm Action: Stop *"
  | None => False
  end.
Proof. vm_compute. split; reflexivity. Qed.

(** C20: on every reachable state of the page, an action button either
    opens the "No Service Selected" warning (nothing is selected) or asks
    to run [pkexec systemctl] on the name of a row of the store. *)
Theorem service_action_names_row (st : ServicesState) (action : string) :
  svc_reachable st ->
  match run_service_action st action with
  | (st', None) => svc_selected st = None /\
                   svc_dialogs st' = (svc_dialogs st ++
                     [mkDialog "No Service Selected"
                        "Please select a service from the list to perform an action." MsgWarning])%list
  | (st', Some req) => st' = st /\ sr_action req = action /\
                       exists r, r ∈ service_store st /\ sr_service req = sv_name r
  end.
Proof.
  intros Hr%svc_sel_ok_reachable. unfold svc_sel_ok in Hr. unfold run_service_action.
  destruct (svc_selected st) as [i|]; simpl; [|done].
  destruct (lookup_lt_is_Some_2 (service_store st) i Hr) as [r Hri]. rewrite Hri.
  split_and!; [done..|]. exists r. split; [by eapply list_elem_of_lookup_2 | done].
Qed.

(** C20 witness: the page after a load and a selection. *)
Lemma service_action_names_row_witness :
  svc_reachable (svc_step (svc_step (svc_step services_init SvcLoad)
                                    (SvcLoaded (RunOk example_systemctl))) (SvcSelect 0)) /\
  snd (run_service_action (svc_step (svc_step (svc_step services_init SvcLoad)
                                    (SvcLoaded (RunOk example_systemctl))) (SvcSelect 0)) "restart")
  = Some (mkServiceRequest "restart" "cron.service" "Confirm Action: Restart cron.service").
Proof.
  assert (H : svc_reachable (svc_step (svc_step (svc_step services_init SvcLoad)
                                    (SvcLoaded (RunOk example_systemctl))) (SvcSelect 0)))
    by apply svc_reach_step, svc_reach_step, svc_reach_step, svc_reach_init.
  split; [exact H|].
  pose proof (service_action_names_row _ "restart" H) as Hs. vm_compute. reflexivity.
Defined.

(** When the privileged command cannot start, or fails with anything
    but a non-zero exit status, the label keeps "Requesting privilege to
    ..." for good: [FileNotFoundError] only opens a dialog, and any other
    error schedules a callback that reads the cleared [e] and does
    nothing.  A load that fails that way likewise leaves "Loading system
    services...". *)
Theorem service_errors_keep_label (st : ServicesState) (req : ServiceRequest) (msg : string) :
  let st1 := fst (service_dialog_response st req true) in
  svc_label (privileged_action_result st1 req RunFileNotFound) =
    "Requesting privilege to " ++ sr_action req ++ " " ++ sr_service req ++ "..." /\
  privileged_action_result st1 req (RunOtherError msg) = st1 /\
  svc_label (service_load_result (load_services st) (RunOtherError msg)) = "Loading system services..." /\
  svc_label (service_load_result (load_services st) RunFileNotFound) = "Loading system services...".
Proof. done. Qed.
