(* ===== verification/Repositories.v ===== *)
(** * Repositories: the APT sources and Flatpak remotes page

    src/pages/repositories.py reads [/etc/apt/sources.list] and the files
    of [/etc/apt/sources.list.d] into [apt_store] (enabled, source,
    components, options), and the output of [flatpak remotes --all] into
    [flatpak_store] (name, URL, verified, homepage).  Toggling an APT
    source and the APT "Remove" button only open dialogs; removing a
    Flatpak remote runs [pkexec flatpak remote-delete <name>].

    The file system is an input: the main file's contents, and the
    directory as [NoDir] ([os.path.isdir] false), a listing error, or the
    listed files in [os.listdir] order with their contents.  A file that
    fails to read yields the lines read before the error, then the error
    text.  [for line in f] reads text-mode lines: "\n", "\r" and "\r\n"
    end a line ([file_lines]).

    [_load_all_repositories] sets the label and starts a thread that
    schedules [_load_apt_sources] and, once [flatpak] has run, the
    handling of its output; both are idle callbacks run in that order, the
    events [RepoAptLoaded] and [RepoFlatpakLoaded] of [repo_step]. *)

From stdpp Require Import base list.
From Stdlib Require Import String Ascii ZArith NArith Lia.
From S2P Require Import Prelude PyStr PyRe Services.

Local Open Scope string_scope.

(** One row of [apt_store]. *)
Record AptSource := mkAptSource {
  apt_enabled : bool;
  apt_source : string;
  apt_components : string;
  apt_options : string
}.

(** One row of [flatpak_store]. *)
Record FlatpakRow := mkFlatpak {
  fp_name : string;
  fp_url : string;
  fp_verified : string;
  fp_homepage : string
}.

Record RepoState := mkRepos {
  apt_store : list AptSource;
  flatpak_store : list FlatpakRow;
  repo_label : string;
  flatpak_selected : option nat;
  repo_dialogs : list Dialog
}.

(** The contents of a file: all of it, or what was read before an error. *)
Inductive FileRead :=
| FileOk (contents : string)
| FileError (read_before : string) (error : string).

(** [/etc/apt/sources.list.d] as the loader sees it. *)
Inductive DirListing :=
| NoDir
| DirListError (error : string)
| DirFiles (files : list (string * FileRead)).

(** The outcome of [subprocess.run(["flatpak", "remotes", "--all"], ...,
    check=False, timeout=10)]: return code, stdout, stderr; or an
    exception. *)
Inductive FlatpakOutcome :=
| FlatpakDone (returncode : Z) (stdout stderr : string)
| FlatpakExn (error : string).

(** The confirmation dialog of [_run_flatpak_action] (lines 295-302). *)
Record FlatpakRequest := mkFlatpakRequest {
  fr_action : string;
  fr_remote : string;
  fr_title : string
}.

(** Lines 14-48. *)
Definition repos_init : RepoState := mkRepos [] [] "Ready." None [].

Definition repo_set_label (st : RepoState) (s : string) : RepoState :=
  mkRepos (apt_store st) (flatpak_store st) s (flatpak_selected st) (repo_dialogs st).

(** [_show_dialog] (lines 338-351). *)
Definition repo_show_dialog (st : RepoState) (d : Dialog) : RepoState :=
  mkRepos (apt_store st) (flatpak_store st) (repo_label st) (flatpak_selected st)
          (repo_dialogs st ++ [d])%list.

(** Line 161: [deb], [\s+], an options list [\[(.*?)\]], [\s+], two lazy
    groups [(.*?)] each followed by [\s+], and a greedy group of the rest. *)
Definition apt_re_options : regex :=
  re_seq [re_lit "deb"; re_ws_plus; re_lit "["; re_lazy_group; re_lit "]"; re_ws_plus;
          re_lazy_group; re_ws_plus; re_lazy_group; re_ws_plus; re_greedy_group].

(** Line 169: the same without the options list. *)
Definition apt_re_plain : regex :=
  re_seq [re_lit "deb"; re_ws_plus; re_lazy_group; re_ws_plus; re_lazy_group; re_ws_plus;
          re_greedy_group].

(** [_parse_apt_line] (lines 154-177). *)
Definition parse_apt_line (line : string) : option AptSource :=
  let line := py_strip line in
  if String.eqb line "" || py_startswith line "#" || py_startswith line "deb-src" then None
  else
    match py_re_match apt_re_options line with
    | Some [options; uri; dist; components] =>
        Some (mkAptSource true (uri ++ " (" ++ dist ++ ")") (py_strip components) options)
    | _ =>
        match py_re_match apt_re_plain line with
        | Some [uri; dist; components] =>
            Some (mkAptSource true (uri ++ " (" ++ dist ++ ")") (py_strip components) "")
        | _ => Some (mkAptSource true ("[Unparsed] " ++ line) "" "")
        end
    end.

Definition apt_dir : string := "/etc/apt/sources.list.d".

(** The rows of the lines of a file. *)
Definition file_rows (fr : FileRead) : list AptSource :=
  match fr with
  | FileOk c | FileError c _ => omap parse_apt_line (file_lines c)
  end.

(** Lines 199-215: the rows of one file of the directory. *)
Definition dir_file_rows (entry : string * FileRead) : list AptSource :=
  let (filename, fr) := entry in
  if py_endswith filename ".list" || py_endswith filename ".sources" then
    let enabled := negb (py_endswith filename ".disabled") in
    let rows := map (fun p => mkAptSource (enabled && apt_enabled p) (filename ++ ": " ++ apt_source p)
                                          (apt_components p) (apt_options p)) (file_rows fr) in
    match fr with
    | FileOk _ => rows
    | FileError _ e => (rows ++ [mkAptSource enabled ("[Read Error] " ++ filename) e ""])%list
    end
  else [].

(** Lines 194-217. *)
Definition dir_rows (dir : DirListing) : list AptSource :=
  match dir with
  | NoDir => []
  | DirListError e => [mkAptSource true ("[Directory Error] " ++ apt_dir) e ""]
  | DirFiles fs => List.concat (map dir_file_rows fs)
  end.

(** [_load_apt_sources] (lines 179-226). *)
Definition load_apt_sources (st : RepoState) (main : FileRead) (dir : DirListing) : RepoState :=
  let sources := (file_rows main ++ dir_rows dir)%list in
  let store := match sources with
               | [] => [mkAptSource true "No APT sources found." "" ""]
               | _ => sources
               end in
  mkRepos store (flatpak_store st) "APT sources loaded. Flatpak data loading..."
          (flatpak_selected st) (repo_dialogs st).

(** Lines 246-258: a line of [flatpak remotes] output. *)
Definition flatpak_row (line : string) : option FlatpakRow :=
  match py_split line with
  | name :: _ :: _ :: url :: _ => Some (mkFlatpak name url "N/A" "")
  | _ => None
  end.

Definition py_len {A} (l : list A) : string := py_str_N (N.of_nat (length l)).

(** [_process_flatpak_output] (lines 228-260).  Clearing the store clears
    the tree's selection. *)
Definition process_flatpak_output (st : RepoState) (output : string) : RepoState :=
  let st := mkRepos (apt_store st) [] (repo_label st) None (repo_dialogs st) in
  let lines := py_splitlines output in
  let no_remotes :=
    match lines with
    | [] => true
    | [l] => py_in "Name" l
    | _ => false
    end in
  if no_remotes then
    if py_startswith (repo_label st) "APT sources loaded." then
      repo_set_label st ("Loaded " ++ py_len (apt_store st) ++ " APT sources. No Flatpak remotes found.")
    else repo_set_label st "No Flatpak remotes found."
  else
    let lines := match lines with
                 | l :: rest => if py_in "Name" l then rest else lines
                 | [] => []
                 end in
    let rows := omap flatpak_row lines in
    mkRepos (apt_store st) rows
      ("Loaded " ++ py_len (apt_store st) ++ " APT sources and " ++ py_len rows ++ " Flatpak remotes.")
      None (repo_dialogs st).

(** Lines 140-152, the idle callback of the flatpak half of the thread;
    the lambda of line 152 reads the cleared [e] and does nothing. *)
Definition flatpak_load_result (st : RepoState) (o : FlatpakOutcome) : RepoState :=
  match o with
  | FlatpakDone rc out err =>
      if (rc =? 0)%Z then process_flatpak_output st (py_strip out)
      else
        let error_msg := py_strip err in
        repo_set_label st
          (if String.eqb error_msg ""
           then "Flatpak load failed. (Code: " ++ py_str_Z rc ++ ")"
           else "Flatpak load failed. (Code: " ++ py_str_Z rc ++ "). Error: " ++ error_msg)
  | FlatpakExn _ => st
  end.

(** [_load_all_repositories] (lines 128-132). *)
Definition load_all_repositories (st : RepoState) : RepoState :=
  repo_set_label st "Loading repository information...".

(** Lines 272-280: the dialog for the row's [source_file] and the
    [action] line 270 chose. *)
Definition toggle_blocked_dialog (action source_file : string) : Dialog :=
  if py_startswith source_file "/etc/apt/sources.list.d/" then
    mkDialog "Action Blocked"
      ("Toggling APT sources (" ++ action ++ ") requires renaming files in /etc/apt/sources.list.d/ via 'pkexec'. Implementation is currently limited to view-only for security.")
      MsgWarning
  else
    mkDialog "Action Blocked" "Only sources in /etc/apt/sources.list.d/ can be toggled easily." MsgWarning.

(** The dialog of [_toggle_apt_source] (lines 265-280) for a row: line
    270 reads the Enabled column. *)
Definition toggle_dialog (r : AptSource) : Dialog :=
  let action := if apt_enabled r then "disable" else "enable" in
  toggle_blocked_dialog action (apt_source r).

(** [_toggle_apt_source] on the row at [path]. *)
Definition toggle_apt_source (st : RepoState) (path : nat) : RepoState :=
  match apt_store st !! path with
  | Some r => repo_show_dialog st (toggle_dialog r)
  | None => st
  end.

(** [_run_apt_action] (lines 332-336). *)
Definition repo_run_apt_action (st : RepoState) (action : string) : RepoState :=
  repo_show_dialog st (mkDialog "Action Blocked"
    ("APT actions like '" ++ action ++ "' require complex file manipulation in /etc/apt/ or using 'add-apt-repository' via 'pkexec'. Implementation is currently limited to view-only for security.")
    MsgWarning).

(** [_run_flatpak_action] (lines 282-311) up to the dialog. *)
Definition run_flatpak_action (st : RepoState) (action : string) : RepoState * option FlatpakRequest :=
  match flatpak_selected st ≫= fun i => flatpak_store st !! i with
  | None => (repo_show_dialog st (mkDialog "No Remote Selected" "Please select a Flatpak remote." MsgWarning), None)
  | Some r =>
      let remote_name := fp_name r in
      (st, Some (mkFlatpakRequest action remote_name
                   ("Confirm Flatpak Action: " ++ py_capitalize action ++ " " ++ remote_name)))
  end.

(** Line 317. *)
Definition flatpak_command (req : FlatpakRequest) : list string :=
  ["pkexec"; "flatpak"; "remote-" ++ fr_action req; fr_remote req].

(** [handle_response] (lines 304-308). *)
Definition flatpak_dialog_response (st : RepoState) (req : FlatpakRequest) (yes : bool)
  : RepoState * option (list string) :=
  if yes then
    (repo_set_label st ("Requesting privilege to " ++ fr_action req ++ " " ++ fr_remote req ++ "..."),
     Some (flatpak_command req))
  else (st, None).

(** [_run_privileged_flatpak_thread] (lines 313-330), with its idle
    callbacks; the lambda of line 330 reads the cleared [e]. *)
Definition privileged_flatpak_result (st : RepoState) (req : FlatpakRequest) (o : RunOutcome) : RepoState :=
  let action := fr_action req in
  let remote_name := fr_remote req in
  match o with
  | RunOk _ =>
      load_all_repositories
        (repo_set_label st ("Successfully executed '" ++ action ++ "' on " ++ remote_name ++ "."))
  | RunCalledProcessError _ err =>
      let error_msg := "Action '" ++ action ++ "' failed on " ++ remote_name ++ "." ++ NL ++ NL ++
                       "Error Output:" ++ NL ++ py_strip err in
      let st := repo_show_dialog st (mkDialog "Privileged Action Failed" error_msg MsgError) in
      repo_set_label st ("Action '" ++ action ++ "' on " ++ remote_name ++ " failed.")
  | RunFileNotFound | RunOtherError _ => st
  end.

(** The flatpak tree's selection. *)
Definition select_remote (st : RepoState) (i : nat) : RepoState :=
  if (i <? length (flatpak_store st))%nat
  then mkRepos (apt_store st) (flatpak_store st) (repo_label st) (Some i) (repo_dialogs st)
  else st.

Inductive RepoEvent :=
| RepoLoadAll
| RepoAptLoaded (main : FileRead) (dir : DirListing)
| RepoFlatpakLoaded (o : FlatpakOutcome)
| RepoToggle (path : nat)
| RepoAptAction (action : string)
| RepoSelectRemote (i : nat)
| RepoFlatpakAction (action : string)
| RepoFlatpakConfirm (req : FlatpakRequest) (yes : bool)
| RepoFlatpakDone (req : FlatpakRequest) (o : RunOutcome).

Definition repo_step (st : RepoState) (e : RepoEvent) : RepoState :=
  match e with
  | RepoLoadAll => load_all_repositories st
  | RepoAptLoaded main dir => load_apt_sources st main dir
  | RepoFlatpakLoaded o => flatpak_load_result st o
  | RepoToggle path => toggle_apt_source st path
  | RepoAptAction a => repo_run_apt_action st a
  | RepoSelectRemote i => select_remote st i
  | RepoFlatpakAction a => fst (run_flatpak_action st a)
  | RepoFlatpakConfirm req yes => fst (flatpak_dialog_response st req yes)
  | RepoFlatpakDone req o => privileged_flatpak_result st req o
  end.

Inductive repo_reachable : RepoState -> Prop :=
| repo_reach_init : repo_reachable repos_init
| repo_reach_step st e : repo_reachable st -> repo_reachable (repo_step st e).

(** ** Worked examples *)

Definition LF : string := String "010" "".

(** An Ubuntu 24.04 [sources.list.d]: the distribution's sources in the
    deb822 format, a one-line third-party source with a commented line, a
    disabled file and a backup. *)
Definition example_dir : DirListing :=
  DirFiles
    [("ubuntu.sources",
      FileOk ("Types: deb" ++ LF ++ "URIs: http://archive.ubuntu.com/ubuntu" ++ LF ++
              "Suites: noble noble-updates" ++ LF ++ "Components: main restricted" ++ LF ++
              "Signed-By: /usr/share/keyrings/ubuntu-archive-keyring.gpg" ++ LF));
     ("google-chrome.list",
      FileOk ("### THIS FILE IS AUTOMATICALLY CONFIGURED ###" ++ LF ++
              "deb [arch=amd64] https://dl.google.com/linux/chrome/deb/ stable main" ++ LF ++
              "# deb http://dl.google.com/linux/chrome/deb/ stable main" ++ LF));
     ("vscode.list.disabled", FileOk ("deb https://packages.microsoft.com/repos/code stable main" ++ LF));
     ("docker.list.save", FileOk ("deb https://download.docker.com/linux/ubuntu noble stable" ++ LF))].

(** Ubuntu 24.04 has no [/etc/apt/sources.list] entries of its own. *)
Definition example_main : FileRead :=
  FileOk ("# Ubuntu sources have moved to /etc/apt/sources.list.d/ubuntu.sources" ++ LF).

(** ** Lemmas *)

Lemma newline_space (c : ascii) : Ascii.eqb c "010"%char = true -> py_isspace c = true.
Proof. intros ->%Ascii.eqb_eq. reflexivity. Qed.

(** The options pattern needs a "[" after [deb] and the whitespace. *)
Lemma apt_re_options_no_bracket (uri rest : string) :
  word_ok uri = true -> py_startswith uri "[" = false ->
  py_re_match apt_re_options ("deb " ++ uri ++ rest) = None.
Proof.
  intros Hu Hb. unfold py_re_match, apt_re_options. cbn [re_seq].
  change ("deb " ++ uri ++ rest) with ("deb" ++ String " " (uri ++ rest)).
  rewrite re_m_lit, re_m_ws_one by (by apply py_lstrip_word).
  destruct uri as [|c u]; [done|]. rewrite re_m_seq. cbn [re_m re_lit String.append].
  destruct (Ascii.eqb_spec "[" c) as [<-|]; [|done]. done.
Qed.

(** The plain pattern on [deb uri dist components]. *)
Lemma apt_re_plain_words (uri dist comps : string) :
  word_ok uri = true -> word_ok dist = true -> py_lstrip comps = comps ->
  str_avoids (fun c => Ascii.eqb c "010"%char) comps = true ->
  py_re_match apt_re_plain ("deb " ++ uri ++ " " ++ dist ++ " " ++ comps) = Some [uri; dist; comps].
Proof.
  intros Hu Hd Hc Hn. unfold py_re_match, apt_re_plain. cbn [re_seq].
  change ("deb " ++ uri ++ " " ++ dist ++ " " ++ comps)
    with ("deb" ++ String " " (uri ++ String " " (dist ++ String " " comps))).
  rewrite re_m_lit, re_m_ws_one by (by apply py_lstrip_word).
  eapply (re_m_lazy py_isspace); [by apply word_ok_avoids, newline_space | by intros; apply re_m_ws_fail |].
  rewrite re_m_ws_one by (by apply py_lstrip_word).
  eapply (re_m_lazy py_isspace); [by apply word_ok_avoids, newline_space | by intros; apply re_m_ws_fail |].
  rewrite re_m_ws_one by done.
  by apply re_m_greedy_end.
Qed.

(** A line [deb URI SUITE COMPONENTS] with no options list is shown
    as the enabled source "URI (SUITE)" with its components. *)
Theorem parse_apt_line_plain (uri dist comps : string) :
  word_ok uri = true -> word_ok dist = true -> py_startswith uri "[" = false ->
  comps <> "" -> py_strip comps = comps ->
  str_avoids (fun c => Ascii.eqb c "010"%char) comps = true ->
  parse_apt_line ("deb " ++ uri ++ " " ++ dist ++ " " ++ comps) =
  Some (mkAptSource true (uri ++ " (" ++ dist ++ ")") comps "").
Proof.
  intros Hu Hd Hb Hne Hs Hn. destruct (py_strip_fixed comps Hs) as [Hl Hr].
  unfold parse_apt_line.
  assert (Hstrip : py_strip ("deb " ++ uri ++ " " ++ dist ++ " " ++ comps) =
                   ("deb " ++ uri ++ " " ++ dist ++ " " ++ comps)).
  { unfold py_strip. change (py_lstrip ("deb " ++ ?x)) with ("deb " ++ x).
    assert (HL : ("deb " ++ uri ++ " " ++ dist ++ " " ++ comps) =
                 (("deb " ++ uri ++ " " ++ dist ++ " ") ++ comps)) by (rewrite !str_app_assoc; done).
    rewrite HL, py_rstrip_app, Hr; [done|]. by rewrite Hr. }
  rewrite Hstrip.
  change (String.eqb ("deb " ++ ?x) "" || py_startswith ("deb " ++ ?x) "#" ||
          py_startswith ("deb " ++ ?x) "deb-src") with false.
  cbv iota. rewrite apt_re_options_no_bracket by done. rewrite apt_re_plain_words by done.
  by rewrite Hs.
Qed.

(** An instance: a line of Ubuntu's [sources.list]. *)
Lemma parse_apt_line_plain_witness :
  word_ok "http://archive.ubuntu.com/ubuntu" = true /\ word_ok "jammy" = true /\
  py_startswith "http://archive.ubuntu.com/ubuntu" "[" = false /\ "main restricted" <> "" /\
  py_strip "main restricted" = "main restricted" /\
  str_avoids (fun c => Ascii.eqb c "010"%char) "main restricted" = true /\
  parse_apt_line ("deb " ++ "http://archive.ubuntu.com/ubuntu" ++ " " ++ "jammy" ++ " " ++ "main restricted") =
  Some (mkAptSource true ("http://archive.ubuntu.com/ubuntu" ++ " (" ++ "jammy" ++ ")") "main restricted" "").
Proof.
  split_and!; [reflexivity | reflexivity | reflexivity | discriminate | reflexivity | reflexivity |].
  apply parse_apt_line_plain; [reflexivity | reflexivity | reflexivity | discriminate | reflexivity | reflexivity].
Defined.

Lemma parse_apt_line_enabled (line : string) (r : AptSource) :
  parse_apt_line line = Some r -> apt_enabled r = true.
Proof. unfold parse_apt_line. intros H. repeat case_match; simplify_eq; done. Qed.

Lemma file_rows_enabled (fr : FileRead) : Forall (fun r => apt_enabled r = true) (file_rows fr).
Proof.
  assert (H : forall ls, Forall (fun r => apt_enabled r = true) (omap parse_apt_line ls)).
  { induction ls as [|l ls IH]; [constructor|]. rewrite omap_cons_eq.
    destruct (parse_apt_line l) eqn:E; [|done]. constructor; [|done]. by eapply parse_apt_line_enabled. }
  destruct fr; apply H.
Qed.

(** A name ending in ".list" or ".sources" does not end in ".disabled". *)
Lemma listed_not_disabled (f : string) :
  py_endswith f ".list" || py_endswith f ".sources" = true -> py_endswith f ".disabled" = false.
Proof.
  intros H. destruct (py_endswith f ".disabled") eqn:Ed; [|done]. exfalso.
  apply orb_true_iff in H as [H|H].
  - pose proof (py_endswith_last f ".list" ".disabled" 4 8 H Ed eq_refl eq_refl). discriminate.
  - pose proof (py_endswith_last f ".sources" ".disabled" 7 8 H Ed eq_refl eq_refl). discriminate.
Qed.

Lemma dir_file_rows_enabled (e : string * FileRead) :
  Forall (fun r => apt_enabled r = true) (dir_file_rows e).
Proof.
  destruct e as [f fr]. unfold dir_file_rows.
  destruct (py_endswith f ".list" || py_endswith f ".sources") eqn:Hf; [|constructor].
  rewrite listed_not_disabled by done. simpl.
  assert (Hm : Forall (fun r => apt_enabled r = true)
                 (map (fun p => mkAptSource (apt_enabled p) (f ++ ": " ++ apt_source p)
                                  (apt_components p) (apt_options p)) (file_rows fr))).
  { apply Forall_map. eapply Forall_impl; [apply file_rows_enabled | done]. }
  destruct fr; [exact Hm|]. apply Forall_app; split; [exact Hm | by constructor].
Qed.

Lemma load_apt_sources_enabled (st : RepoState) (main : FileRead) (dir : DirListing) :
  Forall (fun r => apt_enabled r = true) (apt_store (load_apt_sources st main dir)).
Proof.
  unfold load_apt_sources. simpl.
  assert (Hs : Forall (fun r => apt_enabled r = true) (file_rows main ++ dir_rows dir)).
  { apply Forall_app; split; [apply file_rows_enabled|].
    destruct dir as [|e|fs]; simpl; [constructor | by constructor |].
    apply Forall_concat, Forall_map, Forall_forall. intros x _. apply dir_file_rows_enabled. }
  by destruct (file_rows main ++ dir_rows dir)%list; [constructor|].
Qed.

Lemma repo_step_store (st : RepoState) (e : RepoEvent) :
  (exists main dir, e = RepoAptLoaded main dir) \/ apt_store (repo_step st e) = apt_store st.
Proof.
  destruct e; simpl; eauto; right.
  - destruct o as [rc out err|]; [|done]. unfold flatpak_load_result.
    destruct (rc =? 0)%Z; [|done]. unfold process_flatpak_output.
    repeat case_match; done.
  - unfold toggle_apt_source. by destruct (apt_store st !! path).
  - unfold select_remote. by case_if.
  - unfold run_flatpak_action. by case_match.
  - by destruct yes.
  - by destruct o.
Qed.

(** C21: on every reachable state of the page, the Enabled column
    (column 0 of [apt_store], which the view does not draw) holds [True]
    on every row, so the toggle handler names the action "disable" for
    every row and the "enable" branch of line 270 is dead:
    [_parse_apt_line] returns [True] on every branch and drops
    commented-out lines, and the ".disabled" test only sees names that
    end in ".list" or ".sources". *)
Theorem apt_sources_always_enabled (st : RepoState) :
  repo_reachable st ->
  Forall (fun r => apt_enabled r = true) (apt_store st) /\
  (forall path r, apt_store st !! path = Some r ->
   toggle_apt_source st path = repo_show_dialog st (toggle_blocked_dialog "disable" (apt_source r))).
Proof.
  intros Hr. assert (Hen : Forall (fun r => apt_enabled r = true) (apt_store st)).
  { induction Hr as [|st e _ IH]; [constructor|].
    destruct (repo_step_store st e) as [[main [dir ->]] | ->]; [apply load_apt_sources_enabled | exact IH]. }
  split; [exact Hen|]. intros path r Hp. unfold toggle_apt_source, toggle_dialog. rewrite Hp.
  rewrite Forall_lookup in Hen. by rewrite (Hen _ _ Hp).
Qed.

(** C21 witness: the page after loading [example_main] and [example_dir]. *)
Lemma apt_sources_always_enabled_witness :
  repo_reachable (repo_step (repo_step repos_init RepoLoadAll) (RepoAptLoaded example_main example_dir)) /\
  Forall (fun r => apt_enabled r = true)
    (apt_store (repo_step (repo_step repos_init RepoLoadAll) (RepoAptLoaded example_main example_dir))).
Proof.
  assert (H : repo_reachable (repo_step (repo_step repos_init RepoLoadAll)
                                        (RepoAptLoaded example_main example_dir)))
    by apply repo_reach_step, repo_reach_step, repo_reach_init.
  split; [exact H | exact (proj1 (apt_sources_always_enabled _ H))].
Defined.

(** On a current Ubuntu layout, each field line of the deb822
    [ubuntu.sources] file is shown as its own "[Unparsed]" source, while
    files ending in ".disabled" (or anything but ".list" and ".sources")
    are not shown at all, so the ".disabled" test never applies. *)
Example load_apt_sources_ubuntu :
  map apt_source (apt_store (load_apt_sources repos_init example_main example_dir)) =
    ["ubuntu.sources: [Unparsed] Types: deb";
     "ubuntu.sources: [Unparsed] URIs: http://archive.ubuntu.com/ubuntu";
     "ubuntu.sources: [Unparsed] Suites: noble noble-updates";
     "ubuntu.sources: [Unparsed] Components: main restricted";
     "ubuntu.sources: [Unparsed] Signed-By: /usr/share/keyrings/ubuntu-archive-keyring.gpg";
     "google-chrome.list: https://dl.google.com/linux/chrome/deb/ (stable)"] /\
  repo_label (load_apt_sources repos_init example_main example_dir) =
    "APT sources loaded. Flatpak data loading...".
Proof. vm_compute. split; reflexivity. Qed.

Lemma startswith_head_ne (c d : ascii) (t p : string) :
  Ascii.eqb d c = false -> py_startswith (String c t) (String d p) = false.
Proof. simpl. by intros ->. Qed.

(** A row built from a file of the directory is named after the file. *)
Lemma dir_row_not_etc (f x : string) :
  py_startswith f "/" = false -> py_startswith (f ++ ": " ++ x) "/etc/apt/sources.list.d/" = false.
Proof.
  intros Hf. destruct f as [|c f]; [done|]. cbn [String.append]. apply startswith_head_ne.
  cbn [py_startswith] in Hf. by rewrite andb_true_r in Hf.
Qed.

(** C22: toggling a row that comes from a file of [sources.list.d] always
    answers "Only sources in /etc/apt/sources.list.d/ can be toggled
    easily.": such rows are named "<file>: ...", never
    "/etc/apt/sources.list.d/...", so the branch meant for them is dead. *)
Theorem toggle_dir_rows_blocked (entry : string * FileRead) (r : AptSource) :
  py_startswith (fst entry) "/" = false -> r ∈ dir_file_rows entry ->
  toggle_dialog r =
    mkDialog "Action Blocked" "Only sources in /etc/apt/sources.list.d/ can be toggled easily." MsgWarning.
Proof.
  destruct entry as [f fr]. simpl. intros Hf Hr. unfold toggle_dialog, toggle_blocked_dialog.
  enough (Hs : py_startswith (apt_source r) "/etc/apt/sources.list.d/" = false) by (by rewrite Hs).
  unfold dir_file_rows in Hr.
  destruct (py_endswith f ".list" || py_endswith f ".sources"); [|by apply elem_of_nil in Hr].
  assert (Hm : forall r', r' ∈ map (fun p => mkAptSource (negb (py_endswith f ".disabled") && apt_enabled p)
                                      (f ++ ": " ++ apt_source p) (apt_components p) (apt_options p))
                                   (file_rows fr) ->
                          py_startswith (apt_source r') "/etc/apt/sources.list.d/" = false).
  { intros r' (p & -> & _)%list_elem_of_fmap. by apply dir_row_not_etc. }
  destruct fr; [by apply Hm|].
  apply elem_of_app in Hr as [Hr|Hr%list_elem_of_singleton]; [by apply Hm | by subst r].
Qed.

(** C22 witness: the first row of [ubuntu.sources]. *)
Lemma toggle_dir_rows_blocked_witness :
  py_startswith "ubuntu.sources" "/" = false /\
  mkAptSource true "ubuntu.sources: [Unparsed] Types: deb" "" "" ∈
    dir_file_rows ("ubuntu.sources", FileOk "Types: deb") /\
  toggle_dialog (mkAptSource true "ubuntu.sources: [Unparsed] Types: deb" "" "") =
    mkDialog "Action Blocked" "Only sources in /etc/apt/sources.list.d/ can be toggled easily." MsgWarning.
Proof.
  assert (Hin : mkAptSource true "ubuntu.sources: [Unparsed] Types: deb" "" "" ∈
                dir_file_rows ("ubuntu.sources", FileOk "Types: deb")) by (vm_compute; constructor).
  split_and!; [reflexivity | exact Hin |].
  exact (toggle_dir_rows_blocked ("ubuntu.sources", FileOk "Types: deb") _ eq_refl Hin).
Defined.

(** [_process_flatpak_output] keeps only lines with at least four
    whitespace-separated fields, so the two columns [flatpak remotes]
    prints by default (name, options) give no remote at all; and when
    [flatpak] cannot be run, the callback reads the cleared [e] and the
    label keeps "Flatpak data loading...". *)
Example flatpak_default_columns :
  let st := load_apt_sources repos_init example_main example_dir in
  let st1 := flatpak_load_result st (FlatpakDone 0 ("flathub" ++ String "009" "system" ++ LF) "") in
  flatpak_store st1 = [] /\
  repo_label st1 = "Loaded 6 APT sources and 0 Flatpak remotes." /\
  repo_label (flatpak_load_result st (FlatpakExn "[Errno 2] No such file or directory: 'flatpak'")) =
    "APT sources loaded. Flatpak data loading...".
Proof. vm_compute. split_and!; reflexivity. Qed.
