(* ===== verification/Views.v ===== *)
(** * Views: the stores and tree views of the pages

    Each page declares its [Gtk.ListStore] with Python types and builds
    its [Gtk.TreeView] column by column in [__init__]:

    - src/pages/processes.py, lines 31-58: a filtered store of twelve
      columns, a check-box column, an icon column drawn by
      [render_icon_cell] (lines 84-96), and ten text columns with sort
      ids;
    - src/pages/packages.py, lines 84-118: a filtered store of six
      columns, check box, icon, name, version, size;
    - src/pages/services.py, lines 21-39: three text columns with sort
      ids over a four-column store;
    - src/pages/repositories.py, lines 55-61 and 88-95: two stores of four
      columns, all built by [_add_tree_column] (lines 116-123), which
      binds [text] for every renderer, the check box of the APT view
      included.

    The row records of the other files become the lists of values the
    code appends ([proc_values], [Packages.pkg_values], [service_values],
    [apt_values], [flatpak_values]).  The theorem: the rows the process
    refresh writes convert to the store's column types when the sample's
    integers fit a [gint].  The examples: the APT view's check boxes are
    bound to nothing and show every source unchecked, the Size (KB)
    column shows MiB, and the process view's headers do not sort. *)

From stdpp Require Import base list.
From Stdlib Require Import ZArith String Lia.
From Stdlib Require QArith_base.
From S2P Require Import Prelude PyStr GObj Rows Reconcile Packages Services Repositories.

Local Open Scope string_scope.

(** ** Processes (processes.py) *)

(** Line 31. *)
Definition proc_store_types : list GType :=
  [TBool; TInt; TString; TString; TDouble; TDouble; TInt; TString; TString; TString; TString; TString].

(** The list a row is written as (lines 134-136, 147, 150). *)
Definition proc_values (r : ProcRow) : list GValue :=
  [VBool (p_active r); VInt (p_pid r); VString (p_icon r); VString (p_name r);
   VDouble (p_cpu r); VDouble (p_mem r); VInt (p_threads r); VString (p_status r);
   VString (p_user r); VString (p_cmd r); VString (p_read r); VString (p_write r)].

(** Lines 52-53. *)
Definition proc_headers : list string :=
  ["PID"; "Name"; "CPU%"; "Memory%"; "Threads"; "Status"; "User"; "Command"; "Read (B)"; "Write (B)"].
Definition proc_header_indices : list nat := [1; 3; 4; 5; 6; 7; 8; 9; 10; 11].

(** Lines 38-58: the check box, the icon, and one text column per
    header. *)
Definition proc_columns : list TreeColumn :=
  [mkColumn "" RToggle [("active", 0)] None false NoCellFunc;
   mkColumn "" RPixbuf [] None false RenderIconCell] ++
  zip_with (fun h i => mkColumn h RText [("text", i)] (Some i) false NoCellFunc)
           proc_headers proc_header_indices.

(** Line 34: the view shows [process_filter]. *)
Definition proc_view_model : ViewModel := MFilter.

(** [render_icon_cell] (lines 84-96) for the icon name of column 2: the
    properties it sets, in order. *)
Definition render_icon_cell (icon_name : string) : list (string * GValue) :=
  if String.eqb icon_name ""
  then [("visible", VBool false); ("icon-name", VString "")]
  else [("visible", VBool true); ("icon-name", VString icon_name)].

(** A sampled process whose [int] columns fit: the pid (at most
    [pid_max], 2^22 on Linux) and the thread count. *)
Definition sample_fits (s : ProcSample) : bool := gint_fits (s_pid s) && gint_fits (s_threads s).

(** ** Packages (packages.py) *)

(** Lines 90-118. *)
Definition pkg_columns : list TreeColumn :=
  [mkColumn "" RToggle [("active", 0)] None false NoCellFunc;
   mkColumn "" RPixbuf [("icon-name", 2)] None false NoCellFunc;
   mkColumn "Package" RText [("text", 1)] None true NoCellFunc;
   mkColumn "Version" RText [("text", 3)] None false NoCellFunc;
   mkColumn "Size (KB)" RText [("text", 4)] None false NoCellFunc].

(** Line 86: the view shows [pkg_filter]. *)
Definition pkg_view_model : ViewModel := MFilter.

(** ** Services (services.py) *)

(** Line 21. *)
Definition service_store_types : list GType := [TString; TString; TString; TBool].

(** Line 120. *)
Definition service_values (r : ServiceRow) : list GValue :=
  [VString (sv_status r); VString (sv_name r); VString (sv_desc r); VBool (sv_active r)].

(** Lines 24-39. *)
Definition service_columns : list TreeColumn :=
  [mkColumn "Status" RText [("text", 0)] (Some 0) false NoCellFunc;
   mkColumn "Service Name" RText [("text", 1)] (Some 1) true NoCellFunc;
   mkColumn "Description" RText [("text", 2)] (Some 2) false NoCellFunc].

(** ** Repositories (repositories.py) *)

(** [_add_tree_column] (lines 116-123): [text=col_id] and the keyword
    attributes, in order; a keyword's value is the column it binds
    ([False] is column 0).  The [toggled] handler is [repo_step]'s. *)
Definition add_tree_column (title : string) (col_id : nat) (r : Renderer) (expand : bool)
           (kwargs : list (string * nat)) : TreeColumn :=
  mkColumn title r (("text", col_id) :: kwargs) (Some col_id) expand NoCellFunc.

(** Line 55. *)
Definition apt_store_types : list GType := [TBool; TString; TString; TString].

Definition apt_values (r : AptSource) : list GValue :=
  [VBool (apt_enabled r); VString (apt_source r); VString (apt_components r); VString (apt_options r)].

(** Lines 59-62. *)
Definition apt_columns : list TreeColumn :=
  [add_tree_column "Enabled" 0 RToggle false [];
   add_tree_column "Source File" 1 RText true [];
   add_tree_column "Components" 2 RText false [];
   add_tree_column "Options" 3 RText false []].

(** Line 88. *)
Definition flatpak_store_types : list GType := [TString; TString; TString; TString].

Definition flatpak_values (r : FlatpakRow) : list GValue :=
  [VString (fp_name r); VString (fp_url r); VString (fp_verified r); VString (fp_homepage r)].

(** Lines 92-96: [activatable=False] binds column 0. *)
Definition flatpak_columns : list TreeColumn :=
  [add_tree_column "Name" 0 RText false [];
   add_tree_column "URL" 1 RText true [];
   add_tree_column "Verified" 2 RText false [("activatable", 0)];
   add_tree_column "Homepage" 3 RText false []].

(** ** Lemmas *)

Lemma proc_row_typed (b : bool) (s : ProcSample) :
  sample_fits s = true -> row_typed proc_store_types (proc_values (proc_row b s)) = true.
Proof.
  unfold sample_fits. rewrite andb_true_iff. intros [Hp Ht].
  apply row_typed_spec. split; [done|]. simpl. by rewrite Hp, Ht.
Qed.

Lemma update_or_append_forall (P : ProcRow -> Prop) (existing : gmap.gmap Z nat) (st : list ProcRow) (row : ProcRow) :
  Forall P st -> P row -> Forall P (update_or_append existing st row).
Proof.
  intros Hst Hr. unfold update_or_append. destruct (existing !! p_pid row).
  - by apply Forall_insert.
  - apply Forall_app; auto.
Qed.

Lemma delete_rows_forall (P : ProcRow -> Prop) (idxs : list nat) (st : list ProcRow) :
  Forall P st -> Forall P (delete_rows idxs st).
Proof.
  unfold delete_rows. generalize (rev idxs). intros l. revert st.
  induction l as [|i l IH]; intros st H; simpl; [done|]. apply IH. by apply Forall_delete.
Qed.

Lemma fold_update_forall (P : ProcRow -> Prop) (existing : gmap.gmap Z nat) (rows st : list ProcRow) :
  Forall P st -> Forall P rows -> Forall P (fold_left (update_or_append existing) rows st).
Proof.
  intros Hst Hrows. revert st Hst.
  induction Hrows as [|r rows Hr _ IH]; intros st Hst; simpl; [done|].
  apply IH. by apply update_or_append_forall.
Qed.

(** Every row [refresh_process_list] leaves is a row of the old store
    or a row built from the sample. *)
Lemma refresh_process_list_forall (P : ProcRow -> Prop) (store : list ProcRow) (sample : list ProcSample) :
  Forall P store -> (forall b s, s ∈ sample -> P (proc_row b s)) ->
  Forall P (refresh_process_list store sample).
Proof.
  intros Hst Hs. unfold refresh_process_list. cbv zeta.
  apply delete_rows_forall, fold_update_forall; [done|].
  apply Forall_forall. intros r Hr. unfold new_data in Hr.
  apply list_elem_of_fmap in Hr as (s & -> & Hin). by apply Hs.
Qed.

Lemma checked_view_cells (ts : list GType) (cols : list TreeColumn) (row : list GValue) :
  forallb (column_ok ts) cols = true -> map typeof row = ts ->
  forall c p v pt, c ∈ cols -> renderer_prop (col_renderer c) p = Some pt ->
  cell_value c row p = Some v -> transformable (typeof v) pt = true.
Proof.
  rewrite forallb_forall. intros Hcols Hrow c p v pt Hc.
  apply (cell_value_typed ts); [|done]. apply Hcols. by apply list_elem_of_In.
Qed.

(** ** Theorems *)

(** C11: type invariant of the process store.  If every row of the
    store converts to the column types of line 31 and every sampled
    pid and thread count fits a [gint], every row [refresh_process_list]
    writes converts too: the timer's writes never raise
    [OverflowError]. *)
Theorem refresh_keeps_store_typed (store : list ProcRow) (sample : list ProcSample) :
  Forall (fun r => row_typed proc_store_types (proc_values r) = true) store ->
  Forall (fun s => sample_fits s = true) sample ->
  Forall (fun r => row_typed proc_store_types (proc_values r) = true) (refresh_process_list store sample).
Proof.
  intros Hst Hs. apply refresh_process_list_forall; [done|].
  intros b s Hin. apply proc_row_typed. rewrite Forall_forall in Hs. by apply Hs.
Qed.

(** The check boxes of the APT view show nothing of the store.
    [_add_tree_column] binds [text] to the toggle renderer, which has no
    such property, and never binds [active]: GTK drops the binding, and
    every source is drawn with the toggle's default, unchecked, whatever
    its [enabled] column holds.  The [activatable=False] keyword of the
    Flatpak "Verified" column is dropped the same way. *)
Example apt_checkbox_unbound (r : AptSource) (f : FlatpakRow) :
  connected_attrs (apt_columns !!! 0) = [] /\
  cell_value (apt_columns !!! 0) (apt_values r) "active" = None /\
  connected_attrs (flatpak_columns !!! 2) = [("text", 2)] /\
  cell_value (flatpak_columns !!! 2) (flatpak_values f) "activatable" = None.
Proof. split_and!; reflexivity. Qed.

(** The Size (KB) column shows [Installed-Size // 1024]:
    [dpkg-query] prints the installed size in KiB, so the column shows
    MiB, and a package of 900 KiB shows 0. *)
Example size_column_in_mib :
  col_title (pkg_columns !!! 4) = "Size (KB)" /\
  option_map (fun r => cell_value (pkg_columns !!! 4) (pkg_values r) "text")
    (expected_row (mkDpkg "libfoo" "install ok installed" "1" 900)) = Some (Some (VInt 0)).
Proof. split; reflexivity. Qed.

(** A process without a desktop icon is stored with the empty icon
    name (line 127), and [render_icon_cell] hides the renderer; any other
    name is drawn. *)
Example icon_cell_hidden :
  render_icon_cell (p_icon (example_proc 1 false "kworker")) = [("visible", VBool false); ("icon-name", VString "")] /\
  render_icon_cell "firefox" = [("visible", VBool true); ("icon-name", VString "firefox")].
Proof. split; reflexivity. Qed.

(** The ten sort ids of the process view are dead: its model is a
    [Gtk.TreeModelFilter], which is not sortable, so no header click
    sorts. *)
Example process_headers_do_not_sort :
  length (List.filter (fun c => bool_decide (is_Some (col_sort c))) proc_columns) = 10 /\
  Forall (fun c => header_sorts proc_view_model c = false) proc_columns.
Proof. split; [reflexivity | vm_decide]. Qed.

(** ** Witnesses *)

(** C11 witness: the spec's reconciliation scenario with pids 2, 3 and
    5 sampled. *)
Lemma refresh_keeps_store_typed_witness :
  Forall (fun r => row_typed proc_store_types (proc_values r) = true)
    (refresh_process_list scenario_store [example_sample 2; example_sample 3; example_sample 5]).
Proof.
  apply refresh_keeps_store_typed; vm_decide.
Defined.

