(* ===== verification/Async.v ===== *)
(** * Async: the command runner and the apt actions it completes

    src/utils/async_ops.py, [run_async_cmd] (lines 6-18), starts a daemon
    thread whose [target] runs the command with [subprocess.run], builds
    the text of its output (or of the exception [subprocess.run] raised,
    which it catches), logs it, and, if a callback was given, attaches it
    with [GLib.idle_add(callback)]: the callback runs later on the main
    loop, with no argument.  Nothing of the command's outcome reaches it.

    src/utils/apt.py, [run_apt_command] (lines 4-15), shows a modal
    Yes/No dialog and, on Yes, hands the command to [run_async_cmd].  The
    package page ([Packages]) passes its [completion_callback] (lines
    169-176), which shows the success message, since [success] defaults
    to [True], and attaches [GLib.timeout_add(100, self.refresh_packages)];
    both callbacks return [None], so each runs once.

    [AptWorld] composes the package page, its pending dialog, the main
    loop of [MainLoop] and the runner threads; [apt_step] is one event:
    a button of the page, the dialog's answer, a thread finishing with
    the command's outcome, a main-loop iteration (with the [dpkg-query]
    outcome a refresh would see), or time passing.  The theorems: the
    detailed flow refines the one-step [Packages.apt_dialog_response];
    whatever the command does, exit status or exception, the page reports
    success and then, 100 ms later, "Ready." over a fresh list, and the
    main loop and the threads are left empty. *)

From stdpp Require Import base list.
From Stdlib Require Import ZArith String Lia.
From S2P Require Import Prelude PyStr GObj Rows Selection Packages MainLoop.

Local Open Scope string_scope.

(** What [subprocess.run(cmd, capture_output=True, text=True)] did: the
    command exited, or the call raised (the command not found, ...). *)
Inductive RunResult :=
| RunExited (code : Z) (stdout stderr : string)
| RunRaised (msg : string).

(** The text [target] builds and logs (lines 10, 13). *)
Definition async_output (r : RunResult) : string :=
  match r with
  | RunExited _ out err => out ++ err
  | RunRaised msg => msg
  end.

(** A thread started by [run_async_cmd]: its command and its callback. *)
Record AsyncThread (Cb : Type) := mkAsync { as_cmd : list string; as_callback : option Cb }.
Arguments mkAsync {Cb}.
Arguments as_cmd {Cb}.
Arguments as_callback {Cb}.

(** [run_async_cmd(cmd, callback)]: [t.start()]. *)
Definition run_async_cmd {Cb} (ths : list (AsyncThread Cb)) (cmd : list string) (callback : option Cb)
  : list (AsyncThread Cb) :=
  ths ++ [mkAsync cmd callback].

(** The end of [target] (lines 15-16), whatever [r] was. *)
Definition async_finish {Cb} (r : RunResult) (th : AsyncThread Cb) (l : Loop Cb) : Loop Cb :=
  match as_callback th with
  | Some cb => add_source l Idle cb
  | None => l
  end.

(** ** The apt actions of the package page *)

(** The callbacks the package page attaches. *)
Inductive PkgCb := PkgCompletion (req : AptRequest) | PkgRefresh.

(** [completion_callback()] and [refresh_packages()] on the main loop;
    [env] is what [dpkg-query] gives when the refresh runs.  Both return
    [None]. *)
Definition pkg_run (env : CmdResult) (cb : PkgCb) (st : PkgPageState) : CbResult PkgPageState PkgCb :=
  match cb with
  | PkgCompletion req => mkResult (completion_callback st req true) false [(Timeout 100, PkgRefresh)]
  | PkgRefresh => mkResult (refresh_packages st env) false []
  end.

(** The buttons of the page that ask for an apt command. *)
Inductive PkgAction :=
| ARemove | APurge | AReinstall | AUpdate | AClean
| AInstall (a : InstallAnswer) (entry : string).  (* the install dialog answered *)

Definition pkg_action (a : PkgAction) (st : PkgPageState) : PkgPageState * option AptRequest :=
  match a with
  | ARemove => remove_selected_packages st
  | APurge => purge_selected_packages st
  | AReinstall => reinstall_selected_packages st
  | AUpdate => update_system st
  | AClean => clean_packages st
  | AInstall a entry => install_dialog_answer st a entry
  end.

Record AptWorld := mkAptWorld {
  aw_page : PkgPageState;
  aw_dialog : option AptRequest;
  aw_loop : Loop PkgCb;
  aw_threads : list (AsyncThread PkgCb)
}.

(** The events of the page: the buttons of the header and of the button
    row (lines 19-82, 119-129; Refresh and Show Upgradable Packages run
    [dpkg-query] or [apt list] at once, with the given outcome), the
    dialog's answer, a runner thread finishing, a main-loop iteration,
    time passing. *)
Inductive AptEvent :=
| AwRefresh (result : CmdResult)
| AwUpgradable (result : CmdResult)
| AwAction (a : PkgAction)
| AwAnswer (yes : bool)
| AwThreadDone (i : nat) (r : RunResult)
| AwIterate (env : CmdResult)
| AwAdvance (ms : nat).

(** One event.  The dialog is modal: while it is shown, the page's
    buttons do nothing. *)
Definition apt_step (w : AptWorld) (ev : AptEvent) : AptWorld :=
  match ev with
  | AwRefresh res =>
      match aw_dialog w with
      | Some _ => w
      | None => mkAptWorld (refresh_packages (aw_page w) res) None (aw_loop w) (aw_threads w)
      end
  | AwUpgradable res =>
      match aw_dialog w with
      | Some _ => w
      | None => mkAptWorld (show_upgradeable_packages (aw_page w) res) None (aw_loop w) (aw_threads w)
      end
  | AwAction a =>
      match aw_dialog w with
      | Some _ => w
      | None => let '(st, req) := pkg_action a (aw_page w) in mkAptWorld st req (aw_loop w) (aw_threads w)
      end
  | AwAnswer yes =>
      match aw_dialog w with
      | None => w
      | Some req =>
          mkAptWorld (aw_page w) None (aw_loop w)
            (if yes then run_async_cmd (aw_threads w) (apt_cmd req) (Some (PkgCompletion req))
             else aw_threads w)
      end
  | AwThreadDone i r =>
      match aw_threads w !! i with
      | None => w
      | Some th => mkAptWorld (aw_page w) (aw_dialog w) (async_finish r th (aw_loop w)) (delete i (aw_threads w))
      end
  | AwIterate env =>
      let '(st, l) := iterate pkg_run env (aw_page w, aw_loop w) in
      mkAptWorld st (aw_dialog w) l (aw_threads w)
  | AwAdvance ms => mkAptWorld (aw_page w) (aw_dialog w) (advance ms (aw_loop w)) (aw_threads w)
  end.

Definition apt_run (w : AptWorld) (evs : list AptEvent) : AptWorld := fold_left apt_step evs w.

(** A page at rest: no dialog, an empty main loop at time [t], no
    thread. *)
Definition apt_idle (st : PkgPageState) (t : nat) : AptWorld :=
  mkAptWorld st None (mkLoop t 0 []) [].

(** ** Lemmas *)

(** The flow of one answered request: the callback attached by the
    thread, the refresh it attaches. *)
Lemma apt_answer_yes (st : PkgPageState) (req : AptRequest) (t : nat) (r : RunResult) :
  apt_step (apt_step (mkAptWorld st (Some req) (mkLoop t 0 []) []) (AwAnswer true)) (AwThreadDone 0 r) =
  mkAptWorld st None (mkLoop t 1 [mkSource 0 Idle (PkgCompletion req) t]) [].
Proof. done. Qed.

Lemma apt_completion_iterate (st : PkgPageState) (req : AptRequest) (t : nat) (env : CmdResult) :
  apt_step (mkAptWorld st None (mkLoop t 1 [mkSource 0 Idle (PkgCompletion req) t]) []) (AwIterate env) =
  mkAptWorld (completion_callback st req true) None (mkLoop t 2 [mkSource 1 (Timeout 100) PkgRefresh (t + 100)]) [].
Proof.
  reflexivity.
Qed.

Lemma apt_advance (p : PkgPageState) (dlg : option AptRequest) (n i : nat) (srcs : list (Source PkgCb))
      (ths : list (AsyncThread PkgCb)) (ms : nat) :
  apt_step (mkAptWorld p dlg (mkLoop n i srcs) ths) (AwAdvance ms) = mkAptWorld p dlg (mkLoop (n + ms) i srcs) ths.
Proof. done. Qed.

(** Before its 100 ms are up, the refresh waits. *)
Lemma apt_refresh_waits (st : PkgPageState) (t d : nat) (env : CmdResult) :
  d < 100 ->
  apt_step (mkAptWorld st None (mkLoop (t + d) 2 [mkSource 1 (Timeout 100) PkgRefresh (t + 100)]) []) (AwIterate env) =
  mkAptWorld st None (mkLoop (t + d) 2 [mkSource 1 (Timeout 100) PkgRefresh (t + 100)]) [].
Proof.
  intros Hd. unfold apt_step, iterate, batch, is_ready. simpl.
  by replace (Nat.leb (t + 100) (t + d)) with false by (symmetry; apply Nat.leb_gt; lia).
Qed.

Lemma apt_refresh_runs (st : PkgPageState) (t : nat) (env : CmdResult) :
  apt_step (mkAptWorld st None (mkLoop (t + 100) 2 [mkSource 1 (Timeout 100) PkgRefresh (t + 100)]) []) (AwIterate env) =
  mkAptWorld (refresh_packages st env) None (mkLoop (t + 100) 2 []) [].
Proof.
  unfold apt_step, iterate, batch, is_ready. simpl. by rewrite Nat.leb_refl.
Qed.

Lemma apt_action_request (a : PkgAction) (st st1 : PkgPageState) (req : AptRequest) (t : nat) :
  pkg_action a st = (st1, Some req) ->
  apt_step (apt_idle st t) (AwAction a) = mkAptWorld st1 (Some req) (mkLoop t 0 []) [].
Proof. intros H. unfold apt_step. simpl. by rewrite H. Qed.

(** ** Theorems *)

(** C18: refinement.  The detailed flow, with the runner thread and the
    main loop, implements the one-step [Packages.apt_dialog_response],
    whatever the command's exit status or exception: on Yes, once the
    thread has finished and the main loop has run, the page is the one
    [apt_dialog_response] gives and exactly one refresh is attached, 100
    ms ahead; on No, the page is unchanged and nothing is started. *)
Theorem apt_flow_refines_dialog (st : PkgPageState) (req : AptRequest) (t : nat) (r : RunResult)
        (env : CmdResult) (exit_status : Z) :
  let w := mkAptWorld st (Some req) (mkLoop t 0 []) [] in
  let w1 := apt_run w [AwAnswer true; AwThreadDone 0 r; AwIterate env] in
  let w0 := apt_run w [AwAnswer false] in
  aw_page w1 = fst (apt_dialog_response st req true exit_status) /\
  (snd (apt_dialog_response st req true exit_status) = true <->
   map src_cb (sources (aw_loop w1)) = [PkgRefresh]) /\
  aw_threads w1 = [] /\
  aw_page w0 = fst (apt_dialog_response st req false exit_status) /\
  snd (apt_dialog_response st req false exit_status) = false /\
  sources (aw_loop w0) = [] /\ aw_threads w0 = [].
Proof.
  cbn zeta. unfold apt_run. cbn [fold_left].
  rewrite apt_answer_yes, apt_completion_iterate. split_and!; done.
Qed.

(** C17: the apt flow of every button.  Whatever the command does (an
    exit status of failure, or an exception such as [pkexec] missing),
    once its thread ends the page shows the request's success message
    with the spinner stopped, and keeps it for 100 ms; then the refresh
    replaces it with "Ready." over the list [dpkg-query] gives, and the
    main loop and the threads are left empty.  The error message of
    [completion_callback] is never shown. *)
Theorem apt_action_flow (a : PkgAction) (st st1 : PkgPageState) (req : AptRequest) (t d : nat)
        (r : RunResult) (env1 env2 env3 : CmdResult) :
  pkg_action a st = (st1, Some req) -> d < 100 ->
  let w1 := apt_run (apt_idle st t) [AwAction a; AwAnswer true; AwThreadDone 0 r; AwIterate env1;
                                     AwAdvance d; AwIterate env2] in
  let w2 := apt_run w1 [AwAdvance (100 - d); AwIterate env3] in
  status_text (aw_page w1) = apt_success req /\ spinner_active (aw_page w1) = false /\
  aw_page w2 = refresh_packages (aw_page w1) env3 /\
  status_text (aw_page w2) = "Ready." /\
  sources (aw_loop w2) = [] /\ aw_threads w2 = [].
Proof.
  intros Ha Hd. cbn zeta. unfold apt_run. cbn [fold_left].
  rewrite (apt_action_request a st st1 req t Ha), apt_answer_yes, apt_completion_iterate, apt_advance.
  rewrite apt_refresh_waits, apt_advance by exact Hd.
  replace (t + d + (100 - d)) with (t + 100) by lia. rewrite apt_refresh_runs.
  split_and!; try done; apply refresh_packages_status.
Qed.

(** Nothing keeps a second apt command from starting while the first
    runs: once the dialog is answered the buttons work again, so "Update"
    then "Clean", both confirmed, run two [pkexec] apt commands at once
    (the second then fails on the dpkg lock), and both completions report
    success. *)
Example apt_commands_overlap :
  let st := example_pkg_page [] None in
  let w := apt_run (apt_idle st 0) [AwAction AUpdate; AwAnswer true; AwAction AClean; AwAnswer true] in
  map as_cmd (aw_threads w) = [["pkexec"; "bash"; "-c"; "apt update && apt upgrade -y"];
                               ["pkexec"; "apt"; "autoremove"; "-y"]] /\
  let w' := apt_run w [AwThreadDone 1 (RunExited 100 "" "E: Could not get lock /var/lib/dpkg/lock-frontend");
                       AwThreadDone 0 (RunExited 0 "" ""); AwIterate (CmdOk "")] in
  status_text (aw_page w') = "System is fully up-to-date." /\ length (sources (aw_loop w')) = 2.
Proof. split; [reflexivity | cbn zeta; split; reflexivity]. Qed.

(** ** Witnesses *)

(** C17 witness: removing a checked "vim" whose [pkexec] is missing. *)
Lemma apt_action_flow_witness :
  let st := example_pkg_page [example_pkg "vim" true] None in
  let st1 := fst (remove_selected_packages st) in
  let req := mkApt "Removing selected packages (via: apt remove)" ["pkexec"; "apt"; "remove"; "-y"; "vim"]
                   "Selected packages removed." None in
  let w1 := apt_run (apt_idle st 0) [AwAction ARemove; AwAnswer true; AwThreadDone 0 (RunRaised "No such file or directory: 'pkexec'");
                                     AwIterate (CmdOk ""); AwAdvance 50; AwIterate (CmdOk "")] in
  let w2 := apt_run w1 [AwAdvance (100 - 50); AwIterate (CmdOk "")] in
  status_text (aw_page w1) = apt_success req /\ spinner_active (aw_page w1) = false /\
  aw_page w2 = refresh_packages (aw_page w1) (CmdOk "") /\
  status_text (aw_page w2) = "Ready." /\
  sources (aw_loop w2) = [] /\ aw_threads w2 = [].
Proof. apply (apt_action_flow ARemove _ (fst (remove_selected_packages (example_pkg_page [example_pkg "vim" true] None)))); [reflexivity | lia]. Defined.

(** C18 witness: the removal request of the example page, its command
    ending with exit status 100. *)
Lemma apt_flow_refines_dialog_witness :
  let st := fst (remove_selected_packages (example_pkg_page [example_pkg "vim" true] None)) in
  let req := mkApt "Removing selected packages (via: apt remove)" ["pkexec"; "apt"; "remove"; "-y"; "vim"]
                   "Selected packages removed." None in
  let w := mkAptWorld st (Some req) (mkLoop 0 0 []) [] in
  let w1 := apt_run w [AwAnswer true; AwThreadDone 0 (RunExited 100 "" "E: Unable to locate package");
                       AwIterate (CmdOk "")] in
  aw_page w1 = fst (apt_dialog_response st req true 100) /\
  map src_cb (sources (aw_loop w1)) = [PkgRefresh].
Proof.
  cbn zeta. pose proof (apt_flow_refines_dialog (fst (remove_selected_packages (example_pkg_page [example_pkg "vim" true] None)))
    (mkApt "Removing selected packages (via: apt remove)" ["pkexec"; "apt"; "remove"; "-y"; "vim"]
           "Selected packages removed." None) 0 (RunExited 100 "" "E: Unable to locate package") (CmdOk "") 100) as H.
  cbn zeta in H. destruct H as (H1 & H2 & _). split; [exact H1 | apply H2; reflexivity].
Defined.
