(* ===== verification/ProcTimer.v ===== *)
(** * ProcTimer: the process page's refresh timer

    src/pages/processes.py, line 82: [__init__] attaches
    [GLib.timeout_add_seconds(2, self.refresh_process_list)], and
    [refresh_process_list] (lines 110-156) returns [True] when it reaches
    its last line.  It does not always reach it: the store writes of
    lines 147 and 150 convert each value to its column type, and a pid or
    thread count outside the 32-bit [gint] raises [OverflowError]
    (GObj.v), which no [try] of the method catches.  The exception leaves
    the store as far as the loop got (an updated row keeps the columns
    written before the failing one, a failed [append] adds nothing) and
    reaches the GLib callback marshaller, which removes the timer.

    [refresh_checked] is the method with that exception path, its result
    a [PyOutcome]: the store when it returns, or the store at the point
    the exception propagates.  When every value fits it returns
    [Reconcile.refresh_process_list].  The seconds of
    [timeout_add_seconds] are counted as 2000 ms.

    The theorem: while the samples fit, after any number of ticks the
    timer is still attached, due two seconds later, and the store is the
    successive reconciliation of the samples; the first sample holding a
    value that does not fit removes the timer for good and leaves the
    store that failed tick produced. *)

From stdpp Require Import base list gmap.
From Stdlib Require Import ZArith Lia.
From Stdlib Require Import String.
From S2P Require Import Prelude GObj Rows Reconcile MainLoop Views.

(** What a Python call leaves: the state when it returns, or the state
    at the point an exception propagates out of it. *)
Inductive PyOutcome (A : Type) := Returned (a : A) | Raised (a : A).
Arguments Returned {A}.
Arguments Raised {A}.

(** The index of the first value whose conversion to [gint] raises. *)
Fixpoint first_overflow_col (vs : list GValue) : option nat :=
  match vs with
  | [] => None
  | VInt z :: vs => if gint_fits z then S <$> first_overflow_col vs else Some 0
  | _ :: vs => S <$> first_overflow_col vs
  end.

(** The row after [self.process_store[path][col] = val] for the columns
    [col < k] of [new]. *)
Definition write_prefix (k : nat) (old new : ProcRow) : ProcRow :=
  let pick {A} (i : nat) (f : ProcRow -> A) := if Nat.ltb i k then f new else f old in
  mkProcRow (pick 0 p_active) (pick 1 p_pid) (pick 2 p_icon) (pick 3 p_name)
            (pick 4 p_cpu) (pick 5 p_mem) (pick 6 p_threads) (pick 7 p_status)
            (pick 8 p_user) (pick 9 p_cmd) (pick 10 p_read) (pick 11 p_write).

(** Lines 146-147: [for col, val in enumerate(row)] writes the columns in
    order; the first value that does not fit raises after the columns
    before it are written. *)
Definition write_row (old new : ProcRow) : PyOutcome ProcRow :=
  match first_overflow_col (proc_values new) with
  | Some k => Raised (write_prefix k old new)
  | None => Returned new
  end.

(** Lines 141-150: the update-or-append loop with its exception path;
    [store[path]] out of range would raise [IndexError]. *)
Fixpoint apply_rows (existing : gmap Z nat) (st : list ProcRow) (rows : list ProcRow)
  : PyOutcome (list ProcRow) :=
  match rows with
  | [] => Returned st
  | row :: rows =>
      match existing !! p_pid row with
      | Some path =>
          match st !! path with
          | Some old =>
              match write_row old row with
              | Returned r => apply_rows existing (<[path := r]> st) rows
              | Raised r => Raised (<[path := r]> st)
              end
          | None => Raised st
          end
      | None =>
          match append_error (proc_values row) with
          | None => apply_rows existing (st ++ [row]) rows
          | Some _ => Raised st
          end
      end
  end.

(** [refresh_process_list] (lines 111-156) with its exception path. *)
Definition refresh_checked (store : list ProcRow) (sample : list ProcSample)
  : PyOutcome (list ProcRow) :=
  let rows := new_data (selected_pids store) sample in
  match apply_rows (existing_index store) store rows with
  | Returned st1 =>
      let new_pids : gset Z := list_to_set (map p_pid rows) in
      Returned (delete_rows (to_remove new_pids st1) st1)
  | Raised st => Raised st
  end.

(** The one callback of the page. *)
Inductive ProcCb := ProcRefresh.

(** [refresh_process_list()] on the main loop with [sample]: [True]
    when it returns (line 156), removed when it raises. *)
Definition proc_run (sample : list ProcSample) (cb : ProcCb) (store : list ProcRow)
  : CbResult (list ProcRow) ProcCb :=
  match refresh_checked store sample with
  | Returned st => mkResult st true []
  | Raised st => mkResult st false []
  end.

(** The main loop after [__init__] (line 82), at time [t]. *)
Definition proc_page_loop (t : nat) : Loop ProcCb := add_source (mkLoop t 0 []) (Timeout 2000) ProcRefresh.

(** Two seconds pass, then the main loop iterates, the sampler seeing
    [sample]. *)
Definition proc_tick (w : list ProcRow * Loop ProcCb) (sample : list ProcSample) : list ProcRow * Loop ProcCb :=
  iterate proc_run sample (w.1, advance 2000 w.2).

Definition proc_ticks (w : list ProcRow * Loop ProcCb) (samples : list (list ProcSample))
  : list ProcRow * Loop ProcCb :=
  fold_left proc_tick samples w.

(** The timer, due at [due]. *)
Definition proc_timer (due : nat) : Source ProcCb := mkSource 0 (Timeout 2000) ProcRefresh due.

(** A sampled process whose thread count, [2^31], does not fit a [gint]. *)
Definition overflow_sample : ProcSample :=
  mkSample 7 ""%string "big"%string (QArith_base.inject_Z 0) (QArith_base.inject_Z 0) (2 ^ 31)
           ""%string ""%string "big --x"%string ""%string ""%string.

(** ** Lemmas *)

Lemma first_overflow_col_None (vs : list GValue) :
  first_overflow_col vs = None <-> first_overflow vs = None.
Proof.
  induction vs as [|v vs IH]; [done|].
  destruct v; simpl; rewrite ?fmap_None; try done.
  destruct (gint_fits z); [by rewrite fmap_None|done].
Qed.

Lemma write_row_fits (old new : ProcRow) :
  first_overflow (proc_values new) = None -> write_row old new = Returned new.
Proof. unfold write_row. intros H. apply first_overflow_col_None in H. by rewrite H. Qed.

Lemma write_row_overflows (old new : ProcRow) :
  first_overflow (proc_values new) <> None -> exists r, write_row old new = Raised r.
Proof.
  unfold write_row. intros H. destruct (first_overflow_col _) eqn:E; [by eexists|].
  by apply first_overflow_col_None in E.
Qed.

Lemma proc_row_fits (b : bool) (s : ProcSample) :
  sample_fits s = true -> first_overflow (proc_values (proc_row b s)) = None.
Proof. intros H. exact (proj2 (proj1 (row_typed_spec _ _) (proc_row_typed b s H))). Qed.

Lemma proc_row_overflows (b : bool) (s : ProcSample) :
  sample_fits s = false -> first_overflow (proc_values (proc_row b s)) <> None.
Proof. unfold sample_fits. cbn. by destruct (gint_fits (s_pid s)), (gint_fits (s_threads s)). Qed.

(** Without an overflow the loop is the update-or-append fold of
    [Reconcile], as long as every index of [existing] is a row. *)
Lemma apply_rows_fold (existing : gmap Z nat) (st rows : list ProcRow) :
  (forall p i, existing !! p = Some i -> i < length st) ->
  Forall (fun r => first_overflow (proc_values r) = None) rows ->
  apply_rows existing st rows = Returned (fold_left (update_or_append existing) rows st).
Proof.
  intros Hex Hrows. revert st Hex. induction Hrows as [|row rows Hrow _ IH]; intros st Hex; [done|].
  cbn [apply_rows fold_left]. unfold update_or_append at 2.
  destruct (existing !! p_pid row) as [path|] eqn:Ep.
  - destruct (lookup_lt_is_Some_2 st path) as [old Hold]; [by eapply Hex|].
    rewrite Hold, write_row_fits by done. apply IH.
    intros p i Hi. rewrite length_insert. by eapply Hex.
  - rewrite (proj2 (append_error_None _) Hrow). apply IH.
    intros p i Hi. rewrite length_app. specialize (Hex _ _ Hi). lia.
Qed.

Lemma apply_rows_raises (existing : gmap Z nat) (st rows : list ProcRow) :
  Exists (fun r => first_overflow (proc_values r) <> None) rows ->
  exists st', apply_rows existing st rows = Raised st'.
Proof.
  intros Hex. revert st. induction Hex as [row rows Hrow|row rows _ IH]; intros st; cbn [apply_rows];
    destruct (existing !! p_pid row) as [path|]; try destruct (st !! path) as [old|]; try by eexists.
  - destruct (write_row_overflows old row Hrow) as [r ->]. by eexists.
  - destruct (append_error _) eqn:E; [by eexists|]. by apply append_error_None in E.
  - destruct (write_row old row); [apply IH|by eexists].
  - destruct (append_error _); [by eexists|apply IH].
Qed.

Lemma refresh_checked_fits (store : list ProcRow) (sample : list ProcSample) :
  Forall (fun s => sample_fits s = true) sample ->
  refresh_checked store sample = Returned (refresh_process_list store sample).
Proof.
  intros Hs. unfold refresh_checked, refresh_process_list. cbv zeta.
  rewrite apply_rows_fold; [done| |].
  - intros p i Hi. apply existing_index_sound in Hi as (r & Hr & _). by eapply lookup_lt_Some.
  - apply Forall_forall. intros r Hr. unfold new_data in Hr.
    apply list_elem_of_fmap in Hr as (s & -> & Hin). apply proc_row_fits.
    rewrite Forall_forall in Hs. by apply Hs.
Qed.

Lemma refresh_checked_raises (store : list ProcRow) (sample : list ProcSample) :
  Exists (fun s => sample_fits s = false) sample ->
  exists st, refresh_checked store sample = Raised st.
Proof.
  intros Hs. unfold refresh_checked. cbv zeta.
  destruct (apply_rows_raises (existing_index store) store (new_data (selected_pids store) sample))
    as [st ->]; [|by eexists].
  apply Exists_exists in Hs as (s & Hin & Hs). apply Exists_exists.
  eexists; split; [unfold new_data; by apply list_elem_of_fmap_2|]. by apply proc_row_overflows.
Qed.

(** One tick from the attached timer: the callback runs and, by its
    outcome, the timer is rescheduled or removed. *)
Lemma proc_tick_run (store : list ProcRow) (t : nat) (sample : list ProcSample) :
  proc_tick (store, mkLoop t 1 [proc_timer (t + 2000)]) sample =
  match refresh_checked store sample with
  | Returned st => (st, mkLoop (t + 2000) 1 [proc_timer (t + 2000 + 2000)])
  | Raised st => (st, mkLoop (t + 2000) 1 [])
  end.
Proof.
  unfold proc_tick, iterate, batch, is_ready. simpl. rewrite Nat.leb_refl. simpl.
  unfold dispatch, proc_run. simpl. by destruct (refresh_checked store sample).
Qed.

Lemma proc_ticks_timer (store : list ProcRow) (t : nat) (samples : list (list ProcSample)) :
  Forall (Forall (fun s => sample_fits s = true)) samples ->
  proc_ticks (store, mkLoop t 1 [proc_timer (t + 2000)]) samples =
  (fold_left refresh_process_list samples store,
   mkLoop (t + 2000 * length samples) 1 [proc_timer (t + 2000 * length samples + 2000)]).
Proof.
  intros Hs. revert store t. unfold proc_ticks.
  induction Hs as [|smp samples Hsmp _ IH]; intros store t; cbn [fold_left length].
  - by rewrite Nat.mul_0_r, Nat.add_0_r.
  - rewrite proc_tick_run, refresh_checked_fits by done. rewrite IH.
    by replace (t + 2000 + 2000 * length samples) with (t + 2000 * S (length samples)) by lia.
Qed.

(** Once the timer is removed, the ticks only move the clock. *)
Lemma proc_ticks_detached (st : list ProcRow) (t : nat) (samples : list (list ProcSample)) :
  proc_ticks (st, mkLoop t 1 []) samples = (st, mkLoop (t + 2000 * length samples) 1 []).
Proof.
  revert t. unfold proc_ticks. induction samples as [|smp samples IH]; intros t; cbn [fold_left length].
  - by rewrite Nat.mul_0_r, Nat.add_0_r.
  - change (proc_tick (st, mkLoop t 1 []) smp) with (st, @mkLoop ProcCb (t + 2000) 1 []).
    rewrite IH. by replace (t + 2000 + 2000 * length samples) with (t + 2000 * S (length samples)) by lia.
Qed.

(** A refresh that raises on a known process leaves its row half
    written: columns 0-5 (the name "big" included) from the new sample,
    the thread count and the command still the old ones. *)
Example proc_refresh_half_written :
  refresh_checked [proc_row true (example_sample 7)] [overflow_sample] =
    Raised [mkProcRow true 7 ""%string "big"%string (QArith_base.inject_Z 0) (QArith_base.inject_Z 0) 0
                      ""%string ""%string ""%string ""%string ""%string].
Proof. vm_compute. reflexivity. Qed.

(** ** Theorems *)

(** C12: liveness of the process timer, and how it ends.  From the page
    as [__init__] leaves it (an empty store, the timer attached at time
    [t]): while every sampled pid and thread count fits a [gint], after
    any number [n] of two-second ticks the timer is still attached, due
    at [t + 2000 (n + 1)], and the store is the successive reconciliation
    of the samples; the first sample that holds a value outside [gint]
    makes [refresh_process_list] raise, which removes the timer for good,
    and the store stays as that failed refresh left it. *)
Theorem proc_timer_live (t : nat) (samples : list (list ProcSample)) :
  let w := proc_ticks ([], proc_page_loop t) samples in
  (Forall (Forall (fun s => sample_fits s = true)) samples ->
   sources w.2 = [proc_timer (t + 2000 * length samples + 2000)] /\
   w.1 = fold_left refresh_process_list samples []) /\
  (forall pre bad post, samples = pre ++ bad :: post ->
   Forall (Forall (fun s => sample_fits s = true)) pre ->
   Exists (fun s => sample_fits s = false) bad ->
   sources w.2 = [] /\ refresh_checked (fold_left refresh_process_list pre []) bad = Raised w.1).
Proof.
  cbn zeta. unfold proc_page_loop, add_source. simpl.
  change (mkSource 0 (Timeout 2000) ProcRefresh (t + 2000)) with (proc_timer (t + 2000)).
  split.
  - intros Hs. by rewrite proc_ticks_timer.
  - intros pre bad post -> Hpre Hbad.
    destruct (refresh_checked_raises (fold_left refresh_process_list pre []) bad Hbad) as [st Hst].
    unfold proc_ticks. rewrite fold_left_app. fold (proc_ticks ([], mkLoop t 1 [proc_timer (t + 2000)]) pre).
    rewrite proc_ticks_timer by done. cbn [fold_left]. rewrite proc_tick_run, Hst.
    fold (proc_ticks (st, mkLoop (t + 2000 * length pre + 2000) 1 []) post).
    by rewrite proc_ticks_detached.
Qed.

(** ** Witnesses *)

(** C12 witness: a first tick that fits, then a sample with a thread
    count of [2^31]: the timer is gone. *)
Lemma proc_timer_live_witness :
  sources (proc_ticks ([], proc_page_loop 0) [[example_sample 1]; [example_sample 2; overflow_sample]]).2 = [].
Proof.
  exact (proj1 (proj2 (proc_timer_live 0 [[example_sample 1]; [example_sample 2; overflow_sample]])
                  [[example_sample 1]] [example_sample 2; overflow_sample] [] eq_refl
                  ltac:(vm_decide) ltac:(vm_decide))).
Defined.
