(* ===== verification/Helpers.v ===== *)
(** * Helpers: [human_readable_size]

    src/utils/helpers.py, [human_readable_size] (lines 5-36), used for the
    read and write columns of the process list.  The model is exact:

    - [float(size_bytes)] rounds the integer to 53 significant bits, ties
      to even, and raises [OverflowError] when the result reaches
      [2^1024] ([py_float_of_int], [None] for the error);
    - dividing by [1024.0] is exact on these values (a power of two, far
      from underflow), so after [i] rounds [size_float] is [v / 1024^i]
      with [v] the rounded integer ([hrs_loop] keeps the denominator);
    - [f"{x:.2f}"] rounds the exact binary value to hundredths, ties to
      even, as CPython's correctly rounded formatting does
      ([format_2f]).

    The loop runs while [size_float >= 1024] and [i < 8], so 8 rounds of
    fuel are the loop's own bound. *)

From stdpp Require Import base list.
From Stdlib Require Import String ZArith NArith Lia.
From S2P Require Import Prelude PyStr.

Local Open Scope string_scope.
Local Open Scope Z_scope.

(** [float(n)] for [n >= 0]: the nearest double, ties to even. *)
Definition py_float_of_int (n : Z) : option Z :=
  let v :=
    if n <? 2 ^ 53 then n
    else
      let e := Z.log2 n - 52 in
      let q := Z.shiftr n e in
      let r := n - Z.shiftl q e in
      let half := 2 ^ (e - 1) in
      let q' := if (half <? r) || ((r =? half) && Z.odd q) then q + 1 else q in
      Z.shiftl q' e in
  if v <? 2 ^ 1024 then Some v else None.

(** [units] (line 25). *)
Definition units : list string := ["B"; "KiB"; "MiB"; "GiB"; "TiB"; "PiB"; "EiB"; "ZiB"; "YiB"].

(** Lines 32-34: [size_float] is [v / den]. *)
Fixpoint hrs_loop (fuel : nat) (v den : Z) (i : nat) : Z * nat :=
  match fuel with
  | O => (den, i)
  | S f =>
      if (1024 * den <=? v) && (i <? length units - 1)%nat
      then hrs_loop f v (den * 1024) (S i)
      else (den, i)
  end.

(** [num / den] rounded to an integer, ties to even. *)
Definition round_half_even (num den : Z) : Z :=
  let q := num / den in
  let r := num mod den in
  if (den <? 2 * r) || ((2 * r =? den) && Z.odd q) then q + 1 else q.

(** Two digits, with a leading zero. *)
Definition two_digits (n : Z) : string :=
  (if n <? 10 then "0" else "") ++ py_str_N (Z.to_N n).

(** [f"{v / den:.2f}"] for [v >= 0]. *)
Definition format_2f (v den : Z) : string :=
  let m := round_half_even (100 * v) den in
  py_str_N (Z.to_N (m / 100)) ++ "." ++ two_digits (m mod 100).

(** [human_readable_size] (lines 5-36); [None] is the [OverflowError] of
    [float()]. *)
Definition human_readable_size (size_bytes : Z) : option string :=
  if size_bytes <? 0 then Some "0 B"
  else if size_bytes =? 0 then Some "0 B"
  else
    match py_float_of_int size_bytes with
    | None => None
    | Some v =>
        let (den, i) := hrs_loop (length units - 1) v 1 0 in
        Some (format_2f v den ++ " " ++ default "" (units !! i))
    end.

(** ** Lemmas *)

Lemma py_float_of_int_small (n : Z) : 0 <= n < 2 ^ 53 -> py_float_of_int n = Some n.
Proof.
  intros Hn. unfold py_float_of_int.
  destruct (Z.ltb_spec n (2 ^ 53)); [|lia].
  destruct (Z.ltb_spec n (2 ^ 1024)); [done|].
  assert (2 ^ 53 <= 2 ^ 1024) by (apply Z.pow_le_mono_r; lia). lia.
Qed.

Lemma pow1024_pos (j : nat) : 0 < 1024 ^ Z.of_nat j.
Proof. apply Z.pow_pos_nonneg; lia. Qed.

(** The loop on [k * 1024^i] stops after [i] rounds. *)
Lemma hrs_loop_pow (k : Z) (i j f : nat) :
  1 <= k < 1024 -> (j <= i <= 8)%nat -> (i - j <= f)%nat ->
  hrs_loop f (k * 1024 ^ Z.of_nat i) (1024 ^ Z.of_nat j) j = (1024 ^ Z.of_nat i, i).
Proof.
  intros Hk Hij. revert j Hij. induction f as [|f IH]; intros j Hij Hf.
  - simpl. by replace i with j by lia.
  - cbn [hrs_loop]. pose proof (pow1024_pos j) as Hp.
    destruct (Nat.eq_dec j i) as [->|Hne].
    + replace (1024 * 1024 ^ Z.of_nat i <=? k * 1024 ^ Z.of_nat i) with false; [done|].
      symmetry. apply Z.leb_gt. nia.
    + assert (Hpow : 1024 ^ Z.of_nat i = 1024 ^ Z.of_nat (S j) * 1024 ^ Z.of_nat (i - S j)).
      { rewrite <- Z.pow_add_r by lia. f_equal. lia. }
      assert (Hpow' : 1024 ^ Z.of_nat (S j) = 1024 ^ Z.of_nat j * 1024).
      { rewrite Nat2Z.inj_succ, Z.pow_succ_r by lia. lia. }
      replace (1024 * 1024 ^ Z.of_nat j <=? k * 1024 ^ Z.of_nat i) with true.
      2: { symmetry. apply Z.leb_le. rewrite Hpow, Hpow'. pose proof (pow1024_pos (i - S j)). nia. }
      replace ((j <? length units - 1)%nat) with true by (symmetry; apply Nat.ltb_lt; simpl; lia).
      simpl andb. cbv iota. rewrite <- Hpow'. apply IH; lia.
Qed.

Lemma round_half_even_exact (a d : Z) : 0 < d -> round_half_even (a * d) d = a.
Proof.
  intros Hd. unfold round_half_even. rewrite Z.div_mul, Z_mod_mult by lia.
  replace (d <? 2 * 0) with false by (symmetry; apply Z.ltb_ge; lia).
  replace (2 * 0 =? d) with false by (symmetry; apply Z.eqb_neq; lia). done.
Qed.

(** A size of [k] whole units ([1 <= k < 1024], below [2^53]
    bytes) is shown as "k.00" and the unit: the loop stops at that unit
    and the rounding is exact. *)
Theorem human_readable_size_exact (k : Z) (i : nat) (u : string) :
  1 <= k < 1024 -> (i <= 8)%nat -> k * 1024 ^ Z.of_nat i < 2 ^ 53 -> units !! i = Some u ->
  human_readable_size (k * 1024 ^ Z.of_nat i) = Some (py_str_N (Z.to_N k) ++ ".00 " ++ u).
Proof.
  intros Hk Hi Hlt Hu. pose proof (pow1024_pos i) as Hp. unfold human_readable_size.
  replace (k * 1024 ^ Z.of_nat i <? 0) with false by (symmetry; apply Z.ltb_ge; nia).
  replace (k * 1024 ^ Z.of_nat i =? 0) with false by (symmetry; apply Z.eqb_neq; nia).
  rewrite py_float_of_int_small by nia.
  assert (HL := hrs_loop_pow k i 0 (length units - 1) Hk ltac:(lia) ltac:(simpl; lia)).
  change (1024 ^ Z.of_nat 0) with 1 in HL. rewrite HL.
  rewrite Hu. unfold format_2f.
  replace (100 * (k * 1024 ^ Z.of_nat i)) with ((100 * k) * 1024 ^ Z.of_nat i) by ring.
  rewrite round_half_even_exact by done.
  replace (100 * k / 100) with k by (rewrite Z.mul_comm, Z.div_mul; lia).
  replace (100 * k mod 100) with 0 by (rewrite Z.mul_comm, Z_mod_mult; lia).
  by rewrite !str_app_assoc.
Qed.

Lemma py_float_of_int_pos (n v : Z) : 0 < n -> py_float_of_int n = Some v -> 1 <= v.
Proof.
  intros Hn. unfold py_float_of_int. cbv zeta.
  destruct (Z.ltb_spec n (2 ^ 53)) as [Hs|Hs].
  - destruct (n <? 2 ^ 1024); [intros [= <-]; lia | done].
  - set (e := Z.log2 n - 52). set (q := Z.shiftr n e).
    assert (He : 1 <= e).
    { assert (Hl : 53 <= Z.log2 n); [|unfold e; lia].
      rewrite <- (Z.log2_pow2 53) by lia. by apply Z.log2_le_mono. }
    assert (Hq : 1 <= q).
    { unfold q. rewrite Z.shiftr_div_pow2 by lia.
      apply Z.div_le_lower_bound; [apply Z.pow_pos_nonneg; lia|].
      rewrite Z.mul_1_r. transitivity (2 ^ Z.log2 n); [apply Z.pow_le_mono_r; lia|].
      apply Z.log2_spec; lia. }
    assert (Hp : 0 < 2 ^ e) by (apply Z.pow_pos_nonneg; lia).
    rewrite !Z.shiftl_mul_pow2 by lia.
    destruct (_ || _); destruct (_ <? 2 ^ 1024); try done; intros [= <-]; nia.
Qed.

(** The loop ends with [1 <= size_float], and [size_float < 1024] unless
    the units ran out. *)
Lemma hrs_loop_spec (f : nat) (v den : Z) (i : nat) :
  0 < den <= v -> (i <= 8)%nat -> (8 - i <= f)%nat ->
  let (den', i') := hrs_loop f v den i in
  0 < den' <= v /\ ((i' < 8)%nat -> v < 1024 * den') /\ (i <= i' <= 8)%nat.
Proof.
  revert den i. induction f as [|f IH]; intros den i Hd Hi Hf; cbn [hrs_loop].
  - split_and!; lia.
  - destruct (Z.leb_spec (1024 * den) v); destruct (Nat.ltb_spec i (length units - 1)); simpl in *.
    + specialize (IH (den * 1024) (S i) ltac:(lia) ltac:(lia) ltac:(lia)).
      destruct (hrs_loop f v (den * 1024) (S i)) as [d' i']. split_and!; lia.
    + split_and!; lia.
    + split_and!; lia.
    + split_and!; lia.
Qed.

Lemma round_half_even_bounds (num den : Z) :
  0 < den -> num / den <= round_half_even num den <= num / den + 1.
Proof. intros Hd. unfold round_half_even. case_match; lia. Qed.

(** Below the last unit, the number shown is between 1.00 and 1024.00
    (hundredths between 100 and 102400): "1024.00" does occur, when
    rounding carries a value just below the next unit up to it. *)
Lemma format_2f_range (n v : Z) :
  0 < n -> py_float_of_int n = Some v ->
  let (den, i) := hrs_loop 8 v 1 0 in
  (i < 8)%nat -> 100 <= round_half_even (100 * v) den <= 102400.
Proof.
  intros Hn Hv.
  assert (Hv1 : 1 <= v) by (eapply py_float_of_int_pos; eauto).
  pose proof (hrs_loop_spec 8 v 1 0 ltac:(lia) ltac:(lia) ltac:(lia)) as Hs.
  destruct (hrs_loop 8 v 1 0) as [den i]. intros Hi.
  destruct Hs as [Hd [Hlt _]]. specialize (Hlt Hi).
  pose proof (round_half_even_bounds (100 * v) den ltac:(lia)) as [Hlo Hhi].
  split.
  - assert (100 <= 100 * v / den); [|lia]. apply Z.div_le_lower_bound; lia.
  - assert (100 * v / den < 102400); [|lia]. apply Z.div_lt_upper_bound; lia.
Qed.

(** An instance: 3 MiB. *)
Lemma human_readable_size_exact_witness :
  (1 <= 3 < 1024) /\ (2 <= 8)%nat /\ 3 * 1024 ^ Z.of_nat 2 < 2 ^ 53 /\ units !! 2%nat = Some "MiB" /\
  human_readable_size (3 * 1024 ^ Z.of_nat 2) = Some (py_str_N (Z.to_N 3) ++ ".00 " ++ "MiB").
Proof.
  assert (H1 : 1 <= 3 < 1024) by lia. assert (H2 : (2 <= 8)%nat) by lia.
  assert (H3 : 3 * 1024 ^ Z.of_nat 2 < 2 ^ 53) by (vm_compute; reflexivity).
  assert (H4 : units !! 2%nat = Some "MiB") by reflexivity.
  refine (conj H1 (conj H2 (conj H3 (conj H4 _)))).
  exact (human_readable_size_exact 3 2 "MiB" H1 H2 H3 H4).
Defined.
