(* ===== verification/Icons.v ===== *)
(** * Icons: the desktop icon map and the icon of a process

    src/utils/icons.py, [build_desktop_icon_map] (lines 4-33), reads the
    [.desktop] files of [/usr/share/applications] and
    [~/.local/share/applications] and maps the base name of each file's
    first [Exec=] command to its first [Icon=] value (or to the file's
    name without extension), a later file overriding an earlier one; then
    adds defaults for [python], [bash] and [sh].  The files are an input:
    the list of paths in [glob] order with their contents, [None] for a
    file that cannot be opened.  The map is a stdpp [gmap] on strings.

    src/pages/processes.py, [icon_for_process] (lines 158-179), picks the
    executable, command or name of a process, looks its base name up in
    the map and otherwise guesses the base name with ".exe" removed.  The
    [IndexError] of [split()[0]] on a base name with no word is the
    [None] of the result. *)

From stdpp Require Import base list gmap strings.
From Stdlib Require Import String Ascii Lia.
From S2P Require Import Prelude PyStr.

Local Open Scope string_scope.

(** The part of [s] after the last "/" ([os.path.basename]). *)
Fixpoint basename_go (cur s : string) : string :=
  match s with
  | EmptyString => cur
  | String c t => if Ascii.eqb c "/"%char then basename_go "" t else basename_go (cur ++ String c "") t
  end.

Definition py_basename (s : string) : string := basename_go "" s.

(** [os.path.splitext(b)[0]] for a base name: the text before the last
    ".", unless every character before that dot is a dot. *)
Fixpoint splitext_go (seen_other : bool) (before cur : string) (s : string) : string :=
  match s with
  | EmptyString => before
  | String c t =>
      if Ascii.eqb c "."%char && seen_other
      then splitext_go true (before ++ cur) "." t
      else splitext_go (seen_other || negb (Ascii.eqb c "."%char)) before (cur ++ String c "") t
  end.

Definition py_splitext_root (b : string) : string :=
  match b with
  | EmptyString => EmptyString
  | String c t =>
      let r := splitext_go (negb (Ascii.eqb c "."%char)) "" (String c "") t in
      if String.eqb r "" then b else r
  end.

(** [s.split('=', 1)[1]]: the text after the first "=" ([None] when there
    is none, the [IndexError]). *)
Fixpoint after_eq (s : string) : option string :=
  match s with
  | EmptyString => None
  | String c t => if Ascii.eqb c "="%char then Some t else after_eq t
  end.

(** Python truthiness of an optional string. *)
Definition truthy (o : option string) : bool :=
  match o with Some s => negb (String.eqb s "") | None => false end.

(** Lines 12-20: the first [Icon=] and [Exec=] values of a file. *)
Fixpoint desktop_scan (lines : list string) (icon exec_cmd : option string)
  : option string * option string :=
  match lines with
  | [] => (icon, exec_cmd)
  | ln :: rest =>
      let icon := if py_startswith (py_strip ln) "Icon=" && bool_decide (icon = None)
                  then option_map py_strip (after_eq ln) else icon in
      let exec_cmd := if py_startswith (py_strip ln) "Exec=" && bool_decide (exec_cmd = None)
                      then option_map py_strip (after_eq ln) else exec_cmd in
      if truthy icon && truthy exec_cmd then (icon, exec_cmd)
      else desktop_scan rest icon exec_cmd
  end.

(** Lines 10-27: one [.desktop] file added to the map. *)
Definition add_desktop_file (mapping : gmap string string) (entry : string * option string)
  : gmap string string :=
  let (p, contents) := entry in
  match contents with
  | None => mapping
  | Some c =>
      let (icon, exec_cmd) := desktop_scan (file_lines c) None None in
      match exec_cmd with
      | Some e =>
          if negb (String.eqb e "") then
            match py_split e with
            | exe :: _ =>
                let exe_base := py_basename exe in
                match icon with
                | Some i => if negb (String.eqb i "") then <[exe_base := i]> mapping
                            else <[exe_base := py_splitext_root (py_basename p)]> mapping
                | None => <[exe_base := py_splitext_root (py_basename p)]> mapping
                end
            | [] => mapping
            end
          else mapping
      | None => mapping
      end
  end.

(** [dict.setdefault]. *)
Definition setdefault (k v : string) (m : gmap string string) : gmap string string :=
  match m !! k with Some _ => m | None => <[k := v]> m end.

(** [build_desktop_icon_map] (lines 4-33). *)
Definition build_desktop_icon_map (files : list (string * option string)) : gmap string string :=
  let mapping := fold_left add_desktop_file files ∅ in
  setdefault "sh" "utilities-terminal"
    (setdefault "bash" "utilities-terminal" (setdefault "python" "python3" mapping)).

(** The fields of [p.info] that [icon_for_process] reads. *)
Record ProcIconInfo := mkIconInfo {
  ii_exe : option string;
  ii_cmdline : option (list string);
  ii_name : option string
}.

(** [s.replace(old, "")]: every non-overlapping occurrence, left to right. *)
Fixpoint py_remove_all_go (fuel : nat) (old s : string) : string :=
  match fuel with
  | O => s
  | S f =>
      match s with
      | EmptyString => EmptyString
      | String c t =>
          if py_startswith s old
          then py_remove_all_go f old (substring (String.length old) (String.length s - String.length old) s)
          else String c (py_remove_all_go f old t)
      end
  end.

Definition py_remove_all (old s : string) : string := py_remove_all_go (S (String.length s)) old s.

(** [icon_for_process] (lines 158-179): [Some None] is "no icon", [None]
    the [IndexError]. *)
Definition icon_for_process (mapping : gmap string string) (pinfo : ProcIconInfo) : option (option string) :=
  let first := match ii_cmdline pinfo with
               | Some (a :: _) => Some a
               | _ => None
               end in
  let exe := if truthy (ii_exe pinfo) then ii_exe pinfo
             else if truthy first then first else ii_name pinfo in
  match exe with
  | Some e =>
      if String.eqb e "" then Some None
      else
        match py_split (py_basename e) with
        | [] => None
        | base :: _ =>
            match mapping !! base with
            | Some icon => if negb (String.eqb icon "") then Some (Some icon)
                           else let guess := py_remove_all ".exe" base in
                                Some (if String.eqb guess "" then None else Some guess)
            | None => let guess := py_remove_all ".exe" base in
                      Some (if String.eqb guess "" then None else Some guess)
            end
        end
  | None => Some None
  end.
