(* ===== verification/ProcActions.v ===== *)
(** * ProcActions: building the process sample, and the kill actions

    src/pages/processes.py, the loop of [refresh_process_list] over
    [psutil.process_iter] (lines 114-138) builds one row per process from
    [p.info]; any exception drops that process ([except Exception:
    pass]).  [sample_of_info] is that body: [None] is a dropped process.
    The [ProcSample] it returns is the input of the reconciler of
    [Reconcile].

    [kill_selected_processes] and [force_kill_selected] (lines 181-189)
    collect the checked pids, in store order, and ask for confirmation
    ([confirm_kill], lines 191-211); on Yes each pid is signalled with
    [os.kill], falling back to [pkexec kill -SIG PID] on
    [PermissionError], and the list is refreshed.  [send_signal] (lines
    213-224) does the same without a dialog and without the refresh.  The
    outcome of [os.kill] and of [pkexec] for each pid is an input
    ([kill_outcome]); the commands run are outputs. *)

From stdpp Require Import base list gmap strings.
From Stdlib Require Import String ZArith NArith Lia.
From S2P Require Import Prelude PyStr Rows Filter Modifier Selection Reconcile Helpers Icons.
From Stdlib Require QArith_base.

Local Open Scope string_scope.

(** [p.info] with the attributes asked for on line 114; [None] is the
    value psutil puts for an attribute it cannot read. *)
Record PsInfo := mkPsInfo {
  i_pid : Z;
  i_name : option string;
  i_cpu : option QArith_base.Q;
  i_mem : option QArith_base.Q;
  i_threads : option Z;
  i_status : option string;
  i_user : option string;
  i_cmdline : option (list string);
  i_io : option (Z * Z);
  i_exe : option string
}.

(** [x or d] on an optional string. *)
Definition or_str (o : option string) (d : string) : string :=
  match o with Some s => if String.eqb s "" then d else s | None => d end.

(** Words joined by a space ([" ".join]). *)
Fixpoint join_space (ws : list string) : string :=
  match ws with
  | [] => ""
  | [w] => w
  | w :: ws' => w ++ " " ++ join_space ws'
  end.

(** Lines 116-136: the sample of one process, [None] when the body
    raises. *)
Definition sample_of_info (mapping : gmap string string) (i : PsInfo) : option ProcSample :=
  let cmd := or_str (Some (join_space (default [] (i_cmdline i)))) (or_str (i_name i) "") in
  let read_b := match i_io i with Some (r, _) => r | None => 0%Z end in
  let write_b := match i_io i with Some (_, w) => w | None => 0%Z end in
  let pid := i_pid i in
  let name := or_str (i_name i) "<unknown>" in
  match icon_for_process mapping (mkIconInfo (i_exe i) (i_cmdline i) (i_name i)) with
  | None => None
  | Some icon_name =>
      let icon_name_for_store := default "" icon_name in
      match human_readable_size read_b, human_readable_size write_b with
      | Some read_str, Some write_str =>
          Some (mkSample pid icon_name_for_store name
                  (default (QArith_base.inject_Z 0) (i_cpu i)) (default (QArith_base.inject_Z 0) (i_mem i))
                  (default 0%Z (i_threads i)) (or_str (i_status i) "") (or_str (i_user i) "")
                  cmd read_str write_str)
      | _, _ => None
      end
  end.

(** Lines 113-138: the sample the reconciler merges. *)
Definition process_sample (mapping : gmap string string) (infos : list PsInfo) : list ProcSample :=
  omap (sample_of_info mapping) infos.

(** [signal.SIGTERM] and [signal.SIGKILL]. *)
Definition SIGTERM : N := 15.
Definition SIGKILL : N := 9.

(** The confirmation dialog of [confirm_kill] (line 195) and what it
    kills. *)
Record KillRequest := mkKill {
  kill_pids : list Z;
  kill_sig : N;
  kill_text : string
}.

Definition confirm_kill (pids : list Z) (sig : N) (title : string) : KillRequest :=
  mkKill pids sig (title ++ " " ++ py_str_N (N.of_nat (length pids)) ++ " process(es)?").

(** Lines 181-184. *)
Definition kill_selected_processes (st : ProcPage) : option KillRequest :=
  match checked_pids st with
  | [] => None
  | pids => Some (confirm_kill pids SIGTERM "Kill")
  end.

(** Lines 186-189. *)
Definition force_kill_selected (st : ProcPage) : option KillRequest :=
  match checked_pids st with
  | [] => None
  | pids => Some (confirm_kill pids SIGKILL "FORCE KILL (SIGKILL)")
  end.

(** What [os.kill(p, sig)] does. *)
Inductive KillOutcome :=
| KillDone
| KillPermissionError
| KillOtherError.

(** [pkexec kill -SIG PID] (lines 204, 220). *)
Definition pkexec_kill (sig : N) (p : Z) : list string :=
  ["pkexec"; "kill"; "-" ++ py_str_N sig; py_str_Z p].

(** The loop of lines 199-208 (and 214-224): the commands run through
    [pkexec], for the pids whose [os.kill] raised [PermissionError]. *)
Definition kill_commands (kill_outcome : Z -> KillOutcome) (sig : N) (pids : list Z) : list (list string) :=
  omap (fun p => match kill_outcome p with
                 | KillPermissionError => Some (pkexec_kill sig p)
                 | _ => None
                 end) pids.

(** [resp] of [confirm_kill] (lines 196-209): the [pkexec] commands, and
    whether the list is refreshed. *)
Definition confirm_kill_response (req : KillRequest) (yes : bool) (kill_outcome : Z -> KillOutcome)
  : list (list string) * bool :=
  if yes then (kill_commands kill_outcome (kill_sig req) (kill_pids req), true) else ([], false).

(** [send_signal] (lines 213-224). *)
Definition send_signal (st : ProcPage) (sig : N) (kill_outcome : Z -> KillOutcome) : list (list string) :=
  kill_commands kill_outcome sig (checked_pids st).

(** [signal.SIGSTOP] and [signal.SIGCONT] on Linux. *)
Definition SIGSTOP : N := 19.
Definition SIGCONT : N := 18.

(** The "Suspend Selected" and "Resume Selected" buttons (lines 69-70). *)
Definition suspend_selected (st : ProcPage) (kill_outcome : Z -> KillOutcome) : list (list string) :=
  send_signal st SIGSTOP kill_outcome.
Definition resume_selected (st : ProcPage) (kill_outcome : Z -> KillOutcome) : list (list string) :=
  send_signal st SIGCONT kill_outcome.

(** ** Lemmas *)

(** Every command run through [pkexec] kills one of the given pids with
    the given signal. *)
Lemma kill_commands_targets (kill_outcome : Z -> KillOutcome) (sig : N) (pids : list Z) :
  Forall (fun cmd => exists p, p ∈ pids /\ kill_outcome p = KillPermissionError /\ cmd = pkexec_kill sig p)
         (kill_commands kill_outcome sig pids).
Proof.
  induction pids as [|p pids IH]; [constructor|]. unfold kill_commands. rewrite omap_cons_eq.
  assert (Hw : Forall (fun cmd => exists q, q ∈ p :: pids /\ kill_outcome q = KillPermissionError /\
                                            cmd = pkexec_kill sig q) (kill_commands kill_outcome sig pids)).
  { eapply Forall_impl; [exact IH|]. intros cmd (q & Hq & Ho & ->). exists q. split_and!; [by right | done..]. }
  destruct (kill_outcome p) eqn:E; try exact Hw.
  constructor; [|exact Hw]. exists p. split_and!; [by left | done..].
Qed.

Lemma sample_of_info_pid (mapping : gmap string string) (i : PsInfo) (s : ProcSample) :
  sample_of_info mapping i = Some s -> s_pid s = i_pid i /\ s_name s <> "".
Proof.
  unfold sample_of_info, or_str. intros H. repeat case_match; simplify_eq; simpl; split; try done.
  all: by apply String.eqb_neq.
Qed.

(** Checked rows hidden by the search filter are killed too.  A
    shift-click on the second visible row of [hidden_row_page] paints the
    hidden "zsh" row between anchor and target; "Kill" then asks "Kill 3
    process(es)?" and signals all three pids, escalating through [pkexec]
    for the one it may not signal. *)
Example kill_after_filtered_range :
  let st1 := fst (on_process_tree_click hidden_row_page shift_held 1100 (Some (1, 0))) in
  filter_view (proc_visible_func (query st1)) (store st1) = [0; 2] /\
  option_map kill_pids (kill_selected_processes st1) = Some [10; 11; 12]%Z /\
  option_map kill_text (kill_selected_processes st1) = Some "Kill 3 process(es)?" /\
  option_map (fun req => confirm_kill_response req true
                            (fun p => if (p =? 11)%Z then KillPermissionError else KillDone))
             (kill_selected_processes st1) =
    Some ([["pkexec"; "kill"; "-15"; "11"]], true).
Proof. vm_compute. split_and!; reflexivity. Qed.
