(* ===== verification/Backups.v ===== *)
(** * Backups: the rsync backups page

    src/pages/backups.py keeps three entries (source, destination, name
    prefix), a status label, a progress bar and the list of backups found
    in the destination.  "Create Backup" checks the source, creates the
    destination and schedules [_execute_rsync], which runs
    [rsync -a SOURCE/ DEST/PREFIX_TIMESTAMP] and refreshes the list;
    each row of the list has a rename and a delete button.

    The file system and the clock are inputs: [FsEnv] (the home directory,
    other users' homes, which paths exist and are directories), the local
    time of the backup ([DateTime]), the directory listing of the
    destination ([DestListing]: each entry's name, whether it is a
    directory, its modification time, that time as [time.localtime]
    formats it, and the output of [du -sh]) and the outcome of each
    command ([ProcOutcome]).  The commands run and the renames made are
    outputs.

    [time.strftime] and [time.strptime] are modelled for the formats the
    code uses: [%Y] prints the year without padding (glibc), the other
    fields on two digits; [strptime] matches the regular expression
    CPython's [_strptime] builds for "%Y%m%d_%H%M%S" (with [PyRe]),
    rejects unconverted text, and rejects dates [datetime.date] rejects. *)

From stdpp Require Import base list.
From Stdlib Require Import String Ascii ZArith NArith Lia Sorted Permutation.
From S2P Require Import Prelude PyStr PyRe Icons.

Local Open Scope string_scope.

(** A broken-down local time, as [time.localtime] gives it. *)
Record DateTime := mkDT {
  dt_year : Z;
  dt_month : Z;
  dt_day : Z;
  dt_hour : Z;
  dt_min : Z;
  dt_sec : Z
}.

(** What the page reads from the file system. *)
Record FsEnv := mkFsEnv {
  fs_home : string;
  fs_user_home : string -> option string;
  fs_exists : string -> bool;
  fs_isdir : string -> bool
}.

(** One entry of [os.listdir(destination_root)]. *)
Record BackupEntry := mkEntry {
  be_name : string;
  be_isdir : bool;
  be_mtime : Z;
  be_mtime_text : option string;
  be_du : option string
}.

Inductive DestListing :=
| DestMissing
| DestUnreadable (error : string)
| DestEntries (entries : list BackupEntry).

(** The outcome of [subprocess.run(..., check=True)]. *)
Inductive ProcOutcome :=
| POk
| PFailed (returncode : Z) (stdout stderr : string)
| PNotFound (error : string)
| PError (error : string).

(** One row of [backup_list]: name, time, size, and the path its buttons
    act on. *)
Record BackupRow := mkBackupRow {
  br_name : string;
  br_time : string;
  br_size : string;
  br_path : string
}.

Inductive BackupListing :=
| ListMessage (msg : string)
| ListRows (rows : list BackupRow).

Record BackupsState := mkBackups {
  source_text : string;
  dest_text : string;
  prefix_text : string;
  status_text : string;
  status_error : bool;
  status_visible : bool;
  busy : bool;
  progress_text : string;
  listing : BackupListing
}.

(** [os.path.expanduser]. *)
Definition py_expanduser (env : FsEnv) (path : string) : string :=
  match path with
  | String "~" rest =>
      let name := match py_split_char "/" rest with n :: _ => n | [] => "" end in
      let tail := substring (String.length name) (String.length rest - String.length name) rest in
      let userhome := if String.eqb name "" then Some (fs_home env) else fs_user_home env name in
      match userhome with
      | None => path
      | Some uh =>
          let r := py_rstrip_char "/" uh ++ tail in
          if String.eqb r "" then "/" else r
      end
  | _ => path
  end.

(** [os.path.join(a, b)]. *)
Definition os_path_join (a b : string) : string :=
  if py_startswith b "/" then b
  else if String.eqb a "" || py_endswith a "/" then a ++ b
  else a ++ "/" ++ b.

(** Two digits, zero-padded. *)
Definition pad2 (n : Z) : string :=
  (if (n <? 10)%Z then "0" else "") ++ py_str_Z n.

(** [time.strftime("%Y%m%d_%H%M%S", t)] (line 258). *)
Definition strftime_compact (t : DateTime) : string :=
  py_str_Z (dt_year t) ++ pad2 (dt_month t) ++ pad2 (dt_day t) ++ "_" ++
  pad2 (dt_hour t) ++ pad2 (dt_min t) ++ pad2 (dt_sec t).

(** [time.strftime("%Y-%m-%d %H:%M:%S", t)] (lines 488, 492). *)
Definition strftime_display (t : DateTime) : string :=
  py_str_Z (dt_year t) ++ "-" ++ pad2 (dt_month t) ++ "-" ++ pad2 (dt_day t) ++ " " ++
  pad2 (dt_hour t) ++ ":" ++ pad2 (dt_min t) ++ ":" ++ pad2 (dt_sec t).

(** The regular expression of [_strptime] for "%Y%m%d_%H%M%S". *)
Definition re_digit : regex := RChar is_digit.
Definition re_ch (c : ascii) : regex := RChar (Ascii.eqb c).
Definition re_range (lo hi : ascii) : regex :=
  RChar (fun c => (nat_of_ascii lo <=? nat_of_ascii c)%nat && (nat_of_ascii c <=? nat_of_ascii hi)%nat).

Definition re_Y : regex := RGroup (re_seq [re_digit; re_digit; re_digit; re_digit]).
Definition re_mon : regex :=
  RGroup (RAlt (RSeq (re_ch "1") (re_range "0" "2"))
          (RAlt (RSeq (re_ch "0") (re_range "1" "9")) (re_range "1" "9"))).
Definition re_d : regex :=
  RGroup (RAlt (RSeq (re_ch "3") (re_range "0" "1"))
          (RAlt (RSeq (re_range "1" "2") re_digit)
          (RAlt (RSeq (re_ch "0") (re_range "1" "9"))
          (RAlt (re_range "1" "9") (RSeq (re_ch " ") (re_range "1" "9")))))).
Definition re_H : regex :=
  RGroup (RAlt (RSeq (re_ch "2") (re_range "0" "3"))
          (RAlt (RSeq (re_range "0" "1") re_digit) re_digit)).
Definition re_M : regex := RGroup (RAlt (RSeq (re_range "0" "5") re_digit) re_digit).
Definition re_S : regex :=
  RGroup (RAlt (RSeq (re_ch "6") (re_range "0" "1"))
          (RAlt (RSeq (re_range "0" "5") re_digit) re_digit)).

Definition strptime_re : regex := re_seq [re_Y; re_mon; re_d; re_ch "_"; re_H; re_M; re_S].

Definition is_leap (y : Z) : bool :=
  (Z.eqb (y mod 4) 0 && negb (Z.eqb (y mod 100) 0)) || Z.eqb (y mod 400) 0.

Definition days_in_month (y m : Z) : Z :=
  if (m =? 2)%Z then (if is_leap y then 29 else 28)
  else if (m =? 4)%Z || (m =? 6)%Z || (m =? 9)%Z || (m =? 11)%Z then 30 else 31.

(** [time.strptime(s, "%Y%m%d_%H%M%S")], [None] for its [ValueError]. *)
Definition strptime_compact (s : string) : option DateTime :=
  match py_re_match_rest strptime_re s with
  | Some ([y; m; d; h; mi; se], rest) =>
      if negb (String.eqb rest "") then None
      else
        match py_int y, py_int m, py_int d, py_int h, py_int mi, py_int se with
        | Some y, Some m, Some d, Some h, Some mi, Some se =>
            if (1 <=? y)%Z && (d <=? days_in_month y m)%Z then Some (mkDT y m d h mi se) else None
        | _, _, _, _, _, _ => None
        end
  | _ => None
  end.

(** Lines 486-494: the time shown for a backup named [name], from its
    modification time ([None] when [getmtime] raises) or its name. *)
Definition backup_time_text (name : string) (mtime_text : option string) : string :=
  match mtime_text with
  | None => "Unknown"
  | Some mt =>
      if (16 <? String.length name)%nat &&
         bool_decide (String.get (String.length name - 16) name = Some "_"%char)
      then match strptime_compact (substring (String.length name - 15) 15 name) with
           | Some t => strftime_display t
           | None => "Unknown"
           end
      else mt
  end.

(** Lines 497-510: [du -sh p] and its first word. *)
Definition backup_size_text (du : option string) : string :=
  match du with
  | Some out => match py_split out with w :: _ => w | [] => "Size Unknown" end
  | None => "Size Unknown"
  end.

(** Python's [sorted(..., key=getmtime, reverse=True)]: newest first,
    entries with equal times in listing order. *)
Fixpoint insert_desc (e : BackupEntry) (l : list BackupEntry) : list BackupEntry :=
  match l with
  | [] => [e]
  | x :: l' => if (be_mtime e <=? be_mtime x)%Z then x :: insert_desc e l' else e :: l
  end.

Definition sort_by_mtime_desc (l : list BackupEntry) : list BackupEntry :=
  fold_left (fun acc e => insert_desc e acc) l [].

(** [update_status_message] (lines 150-153). *)
Definition update_status_message (st : BackupsState) (message : string) (is_error : bool) : BackupsState :=
  mkBackups (source_text st) (dest_text st) (prefix_text st) message is_error (status_visible st)
            (busy st) (progress_text st) (listing st).

(** [set_ui_busy] (lines 156-178). *)
Definition set_ui_busy (st : BackupsState) (is_busy : bool) (message : string) : BackupsState :=
  if is_busy then
    mkBackups (source_text st) (dest_text st) (prefix_text st) (status_text st) (status_error st)
              false true message (listing st)
  else
    let st := mkBackups (source_text st) (dest_text st) (prefix_text st) (status_text st)
                        (status_error st) (status_visible st) false (progress_text st) (listing st) in
    let st := update_status_message st ("Current destination: " ++ dest_text st) false in
    mkBackups (source_text st) (dest_text st) (prefix_text st) (status_text st) (status_error st)
              true (busy st) (progress_text st) (listing st).

Definition set_listing (st : BackupsState) (l : BackupListing) : BackupsState :=
  mkBackups (source_text st) (dest_text st) (prefix_text st) (status_text st) (status_error st)
            (status_visible st) (busy st) (progress_text st) l.

(** The entry a folder chooser fills in (lines 46, 67). *)
Inductive FolderTarget := SourceEntry | DestinationEntry.

(** The text of the entry a chooser fills in. *)
Definition folder_target_text (st : BackupsState) (target : FolderTarget) : string :=
  match target with SourceEntry => source_text st | DestinationEntry => dest_text st end.

(** [open_folder_chooser] (lines 180-213): the folder the dialog opens
    on, the entry's text when it is a directory, the home directory
    otherwise (a failing [set_current_folder] is only logged). *)
Definition chooser_start_path (env : FsEnv) (st : BackupsState) (target : FolderTarget) : string :=
  let current := folder_target_text st target in
  if fs_isdir env current then current else py_expanduser env "~".

(** [on_folder_chosen] (lines 215-228): [path] is [gfile.get_path()],
    [None] when there is no file or no path.  Neither the list nor the
    status label is refreshed. *)
Definition on_folder_chosen (st : BackupsState) (target : FolderTarget) (accepted : bool)
           (path : option string) : BackupsState :=
  match accepted, path with
  | true, Some p =>
      if String.eqb p "" then st
      else match target with
           | SourceEntry =>
               mkBackups p (dest_text st) (prefix_text st) (status_text st) (status_error st)
                         (status_visible st) (busy st) (progress_text st) (listing st)
           | DestinationEntry =>
               mkBackups (source_text st) p (prefix_text st) (status_text st) (status_error st)
                         (status_visible st) (busy st) (progress_text st) (listing st)
           end
  | _, _ => st
  end.

(** The row of one directory of the destination (lines 482-560). *)
Definition backup_row (dest : string) (e : BackupEntry) : BackupRow :=
  let p := os_path_join dest (be_name e) in
  let name := py_basename p in
  mkBackupRow name (backup_time_text name (be_mtime_text e)) (backup_size_text (be_du e)) p.

(** [refresh_backups] (lines 448-562). *)
Definition refresh_backups (env : FsEnv) (st : BackupsState) (dl : DestListing) : BackupsState :=
  let st := set_listing st (ListRows []) in
  let destination_root := py_expanduser env (dest_text st) in
  match dl with
  | DestMissing =>
      let st := set_listing st (ListMessage ("Backup root directory not found: " ++ destination_root ++
                                             ". Please set a valid destination.")) in
      update_status_message st ("Destination folder '" ++ destination_root ++ "' not found.") true
  | DestUnreadable e =>
      update_status_message st ("Error reading destination directory: " ++ e) true
  | DestEntries es =>
      let dirs := sort_by_mtime_desc (List.filter be_isdir es) in
      match dirs with
      | [] => set_listing st (ListMessage ("No Rsync backups found in " ++ destination_root ++ "."))
      | _ => set_listing st (ListRows (map (backup_row destination_root) dirs))
      end
  end.

(** Lines 14-147: the page as it opens ([DEFAULT_SOURCE_DIR] and
    [DEFAULT_DESTINATION_DIR] are expanded once, when the class is
    defined). *)
Definition backups_init (env : FsEnv) (dl : DestListing) : BackupsState :=
  let st := mkBackups (py_expanduser env "~") (py_expanduser env "~/RsyncBackups") "manual"
                      "" false true false "Waiting..." (ListRows []) in
  let st := update_status_message st ("Current destination: " ++ dest_text st) false in
  refresh_backups env st dl.

(** The arguments [create_backup] hands to [_execute_rsync]. *)
Record RsyncJob := mkRsyncJob {
  job_source : string;
  job_dest : string;
  job_prefix : string
}.

(** [create_backup] (lines 234-253); [makedirs] is the error of
    [os.makedirs], if any. *)
Definition create_backup (env : FsEnv) (st : BackupsState) (makedirs : option string)
  : BackupsState * option RsyncJob :=
  let source_dir := py_expanduser env (source_text st) in
  let destination_root := py_expanduser env (dest_text st) in
  let name_prefix := let p := py_strip (prefix_text st) in if String.eqb p "" then "manual" else p in
  if negb (fs_isdir env source_dir) then
    (update_status_message st ("Error: Source directory not found: " ++ source_dir) true, None)
  else
    match makedirs with
    | Some e => (update_status_message st ("Error: Could not create destination directory: " ++ e) true, None)
    | None => (set_ui_busy st true "Creating backup (This may take a moment)...",
               Some (mkRsyncJob source_dir destination_root name_prefix))
    end.

(** The name and the command of [_execute_rsync] (lines 258-268). *)
Definition backup_target_name (job : RsyncJob) (now : DateTime) : string :=
  job_prefix job ++ "_" ++ strftime_compact now.

Definition rsync_command (job : RsyncJob) (now : DateTime) : list string :=
  ["rsync"; "-a"; py_rstrip_char "/" (job_source job) ++ "/";
   os_path_join (job_dest job) (backup_target_name job now)].

(** [e.stderr.strip() or e.stdout.strip()]. *)
Definition output_text (out err : string) : string :=
  let e := py_strip err in if String.eqb e "" then py_strip out else e.

(** [_execute_rsync] (lines 255-296): the page after the command, and the
    command. *)
Definition execute_rsync (env : FsEnv) (st : BackupsState) (job : RsyncJob) (now : DateTime)
           (o : ProcOutcome) (dl : DestListing) : BackupsState * list string :=
  let target_name := backup_target_name job now in
  let cmd := rsync_command job now in
  let st' :=
    match o with
    | POk =>
        let st := set_ui_busy st false "" in
        let st := update_status_message st ("Backup '" ++ target_name ++ "' created successfully in " ++
                                            job_dest job ++ ".") false in
        refresh_backups env st dl
    | PFailed rc out err =>
        let st := set_ui_busy st false "" in
        update_status_message st ("Rsync failed (Code " ++ py_str_Z rc ++ "): " ++ output_text out err) true
    | PNotFound _ =>
        let st := set_ui_busy st false "" in
        update_status_message st "Error: rsync command not found. Ensure rsync is installed." true
    | PError e =>
        let st := set_ui_busy st false "" in
        update_status_message st ("An unexpected error occurred: " ++ e) true
    end in
  (st', cmd).

(** [rename_backup] (lines 298-317): the page, and the rename made. *)
Definition rename_backup (env : FsEnv) (st : BackupsState) (old_path new_name : string)
           (rename_error : option string) (dl : DestListing) : BackupsState * option (string * string) :=
  let destination_root := py_expanduser env (dest_text st) in
  let old_name := py_basename old_path in
  let new_path := os_path_join destination_root new_name in
  if fs_exists env new_path then
    (update_status_message st ("Error: A backup named '" ++ new_name ++
                               "' already exists in the destination folder.") true, None)
  else
    match rename_error with
    | Some e => (update_status_message st ("Failed to rename backup: " ++ e) true, None)
    | None =>
        let st := update_status_message st ("Backup '" ++ old_name ++ "' renamed to '" ++ new_name ++ "'.") false in
        (refresh_backups env st dl, Some (old_path, new_path))
    end.

(** The rename dialog's response (lines 386-394). *)
Definition rename_dialog_response (env : FsEnv) (st : BackupsState) (backup_path : string) (ok : bool)
           (entry_text : string) (rename_error : option string) (dl : DestListing)
  : BackupsState * option (string * string) :=
  let old_name := py_basename backup_path in
  if ok then
    let new_name := py_strip entry_text in
    if negb (String.eqb new_name "") && negb (String.eqb new_name old_name)
    then rename_backup env st backup_path new_name rename_error dl
    else if String.eqb new_name old_name then (update_status_message st "Name not changed." false, None)
    else (st, None)
  else (st, None).

(** The dialogs of [show_rename_dialog] and
    [show_delete_confirmation_dialog] (lines 347-437): title, label (in
    Pango markup, [use_markup=True]), the text the entry starts with,
    and the label of the button that answers OK. *)
Record BackupDialog := mkBackupDialog {
  bd_title : string;
  bd_markup : string;
  bd_entry : option string;
  bd_ok_label : string
}.

Definition show_rename_dialog (backup_path : string) : BackupDialog :=
  let old_name := py_basename backup_path in
  mkBackupDialog "Rename Backup" ("Enter new name for: <b>" ++ old_name ++ "</b>") (Some old_name) "Rename".

Definition show_delete_confirmation_dialog (backup_path : string) : BackupDialog :=
  let backup_name := py_basename backup_path in
  mkBackupDialog "Confirm Deletion"
    ("Are you sure you want to permanently delete backup: <b>" ++ backup_name ++ "</b>?") None "Delete".

(** Text that Pango reads as itself inside markup: no "&" and no "<",
    the characters [GLib.markup_escape_text] would have escaped and the
    code does not. *)
Definition markup_plain (s : string) : bool :=
  str_avoids (fun c => Ascii.eqb c "&" || Ascii.eqb c "<") s.

(** [delete_backup] and [_execute_delete] (lines 319-346). *)
Definition delete_backup (st : BackupsState) (path : string) : BackupsState :=
  set_ui_busy st true ("Deleting backup: " ++ py_basename path ++ "...").

(** The delete confirmation's response (lines 436-440). *)
Definition delete_dialog_response (st : BackupsState) (backup_path : string) (ok : bool) : BackupsState :=
  if ok then delete_backup st backup_path else st.

Definition execute_delete (env : FsEnv) (st : BackupsState) (path : string) (o : ProcOutcome)
           (dl : DestListing) : BackupsState * list string :=
  let cmd := ["rm"; "-rf"; path] in
  let st' :=
    match o with
    | POk =>
        let st := set_ui_busy st false "" in
        let st := update_status_message st ("Backup '" ++ py_basename path ++ "' deleted successfully.") false in
        refresh_backups env st dl
    | PFailed _ _ _ =>
        (* [subprocess.run(command, check=True)] captures nothing, so
           [e.stderr] is [None] and [e.stderr.strip()] raises
           [AttributeError] inside the handler: the callback stops right
           after [set_ui_busy(False)]. *)
        set_ui_busy st false ""
    | PNotFound e | PError e =>
        let st := set_ui_busy st false "" in
        update_status_message st ("An unexpected error occurred during deletion: " ++ e) true
    end in
  (st', cmd).

(** The times [time.localtime] gives for which the round trip holds: a
    four-digit year and the fields in their ranges. *)
Definition dt_valid (t : DateTime) : bool :=
  (1000 <=? dt_year t)%Z && (dt_year t <? 10000)%Z &&
  (1 <=? dt_month t)%Z && (dt_month t <=? 12)%Z &&
  (1 <=? dt_day t)%Z && (dt_day t <=? days_in_month (dt_year t) (dt_month t))%Z &&
  (0 <=? dt_hour t)%Z && (dt_hour t <=? 23)%Z && (0 <=? dt_min t)%Z && (dt_min t <=? 59)%Z &&
  (0 <=? dt_sec t)%Z && (dt_sec t <=? 59)%Z.

(** Newest first: the order of [sorted(..., reverse=True)] on [getmtime]. *)
Definition newer_first (a b : BackupEntry) : Prop := (be_mtime b <= be_mtime a)%Z.

(** A worked example: the home directory "/home/u", where every path is
    a directory and nothing else exists, a local time, and a destination
    holding two backups and a file. *)
Definition example_env : FsEnv := mkFsEnv "/home/u" (fun _ => None) (fun _ => false) (fun _ => true).
Definition example_now : DateTime := mkDT 2024 2 29 13 5 9.
Definition example_entries : list BackupEntry :=
  [mkEntry "manual_20240101_080000" true 100 (Some "2024-01-01 08:00:05") (Some "12K	x");
   mkEntry "notes.txt" false 300 (Some "2024-03-01 00:00:00") None;
   mkEntry "weekly" true 200 (Some "2024-02-01 10:00:00") None].

(** ** Lemmas *)

(** *** Digits and character classes *)

Lemma ascii_eqb_nat (a b : ascii) : Ascii.eqb a b = (nat_of_ascii a =? nat_of_ascii b)%nat.
Proof.
  destruct (Ascii.eqb_spec a b) as [->|Hne]; [by rewrite Nat.eqb_refl|].
  symmetry. apply Nat.eqb_neq. intros H. apply Hne.
  by rewrite <- (ascii_nat_embedding a), <- (ascii_nat_embedding b), H.
Qed.

Lemma nat_of_dig (q : N) : (q < 10)%N -> nat_of_ascii (dig q) = (48 + N.to_nat q)%nat.
Proof. intros Hq. unfold dig. rewrite nat_of_ascii_of_N by lia. lia. Qed.

(** Evaluate [nat_of_ascii] on character literals and on digits, then
    decide the comparisons. *)
Ltac dig_bool :=
  lazymatch goal with
  | |- (_ && _)%bool = true => apply andb_true_iff; split; dig_bool
  | |- (_ && _)%bool = false => apply andb_false_iff; first [left; dig_bool | right; dig_bool]
  | |- Nat.leb _ _ = true => apply Nat.leb_le; lia
  | |- Nat.leb _ _ = false => apply Nat.leb_gt; lia
  | |- Nat.eqb _ _ = true => apply Nat.eqb_eq; lia
  | |- Nat.eqb _ _ = false => apply Nat.eqb_neq; lia
  end.

Ltac dig_arith :=
  unfold re_range, re_ch, re_digit, is_digit;
  rewrite ?ascii_eqb_nat;
  repeat match goal with
  | |- context [nat_of_ascii (Ascii.Ascii ?a ?b ?c ?d ?e ?f ?g ?h)] =>
      let n := eval vm_compute in (nat_of_ascii (Ascii.Ascii a b c d e f g h)) in
      change (nat_of_ascii (Ascii.Ascii a b c d e f g h)) with n
  | |- context [nat_of_ascii (dig ?q)] => rewrite (nat_of_dig q) by lia
  end;
  dig_bool.

Lemma pad2_digits (v : Z) :
  (0 <= v < 100)%Z -> pad2 v = String (dig (Z.to_N v / 10)) (String (dig (Z.to_N v mod 10)) "").
Proof.
  intros Hv. unfold pad2, py_str_Z.
  replace (v <? 0)%Z with false by (symmetry; apply Z.ltb_ge; lia).
  destruct (Z.ltb_spec v 10).
  - rewrite py_str_N_one by lia. rewrite N.div_small, N.mod_small by lia. reflexivity.
  - rewrite py_str_N_two by lia. reflexivity.
Qed.

Lemma year_digits (y : Z) :
  (1000 <= y < 10000)%Z ->
  py_str_Z y = String (dig (Z.to_N y / 1000)) (String (dig (Z.to_N y / 100 mod 10))
                 (String (dig (Z.to_N y / 10 mod 10)) (String (dig (Z.to_N y mod 10)) ""))).
Proof.
  intros Hy. unfold py_str_Z.
  replace (y <? 0)%Z with false by (symmetry; apply Z.ltb_ge; lia).
  apply py_str_N_four. lia.
Qed.

Lemma pad2_split (v : Z) :
  (0 <= v < 100)%Z ->
  exists q r : N, pad2 v = String (dig q) (String (dig r) "") /\ Z.to_N v = (10 * q + r)%N /\ (r < 10)%N.
Proof.
  intros Hv. rewrite pad2_digits by done. exists (Z.to_N v / 10)%N, (Z.to_N v mod 10)%N.
  split; [done|]. split; [exact (N.div_mod _ 10 ltac:(discriminate)) | apply N.mod_lt; discriminate].
Qed.

Lemma year_split (y : Z) :
  (1000 <= y < 10000)%Z ->
  exists a b c d : N, py_str_Z y = String (dig a) (String (dig b) (String (dig c) (String (dig d) ""))) /\
    Z.to_N y = (1000 * a + 100 * b + 10 * c + d)%N /\ (a < 10)%N /\ (b < 10)%N /\ (c < 10)%N /\ (d < 10)%N.
Proof.
  intros Hy. rewrite year_digits by done.
  set (n := Z.to_N y). assert (Hn : (1000 <= n < 10000)%N) by (subst n; lia). clearbody n.
  exists (n / 1000)%N, (n / 100 mod 10)%N, (n / 10 mod 10)%N, (n mod 10)%N. split; [done|].
  pose proof (N.div_mod n 10 ltac:(lia)). pose proof (N.div_mod (n / 10) 10 ltac:(lia)).
  pose proof (N.div_mod (n / 100) 10 ltac:(lia)).
  rewrite !N.Div0.div_div in *. change (10 * 10)%N with 100%N in *. change (100 * 10)%N with 1000%N in *.
  pose proof (N.mod_lt n 10 ltac:(lia)). pose proof (N.mod_lt (n / 10) 10 ltac:(lia)).
  pose proof (N.mod_lt (n / 100) 10 ltac:(lia)).
  assert (Ha : (n / 1000 < 10)%N) by (apply N.Div0.div_lt_upper_bound; lia).
  set (a := (n / 1000)%N) in *. set (b := (n / 100 mod 10)%N) in *. set (c := (n / 10 mod 10)%N) in *.
  set (d := (n mod 10)%N) in *. set (n1 := (n / 10)%N) in *. set (n2 := (n / 100)%N) in *.
  clearbody a b c d n1 n2. split_and!; lia.
Qed.

(** *** [int()] on the fields *)

Lemma is_digit_dig (q : N) : (q < 10)%N -> is_digit (dig q) = true.
Proof. apply is_digit_of. Qed.

Lemma digit_value_dig (q : N) : (q < 10)%N -> digit_value (dig q) = Z.of_N q.
Proof. apply digit_value_of. Qed.

Lemma dig_not_sign (q : N) : (q < 10)%N ->
  Ascii.eqb (dig q) "-"%char = false /\ Ascii.eqb (dig q) "+"%char = false.
Proof. intros Hq. split; dig_arith. Qed.

(** [int()] of a string of digits with the first one a digit. *)
Lemma py_int_digits (q : N) (t : string) :
  (q < 10)%N -> forallb is_digit (list_ascii_of_string t) = true ->
  py_int (String (dig q) t) = Some (str_fold (Z.of_N q) t).
Proof.
  intros Hq Ht. unfold py_int. rewrite strip_no_space.
  2: { simpl. rewrite is_digit_not_space by (by apply is_digit_dig). simpl.
       clear -Ht. induction (list_ascii_of_string t) as [|c l IH]; [done|].
       simpl in *. apply andb_true_iff in Ht as [Hc Hl]. by rewrite is_digit_not_space, IH. }
  destruct (dig_not_sign q Hq) as [-> ->]. cbv iota. unfold parse_digits. rewrite is_digit_dig by done.
  rewrite digit_value_dig by done. by apply digits_go_all.
Qed.

Lemma py_int_pad2 (v : Z) : (0 <= v < 100)%Z -> py_int (pad2 v) = Some v.
Proof.
  intros Hv. destruct (pad2_split v Hv) as (q & r & -> & Hqr & Hr).
  assert (Hq : (q < 10)%N) by lia.
  rewrite py_int_digits; [| exact Hq | cbn [list_ascii_of_string forallb]; by rewrite is_digit_dig].
  cbn [str_fold]. rewrite digit_value_dig by done. f_equal. lia.
Qed.

Lemma py_int_year (y : Z) : (1000 <= y < 10000)%Z -> py_int (py_str_Z y) = Some y.
Proof.
  intros Hy. destruct (year_split y Hy) as (a & b & c & d & -> & Hn & Ha & Hb & Hc & Hd).
  rewrite py_int_digits; [| exact Ha | cbn [list_ascii_of_string forallb]; by rewrite !is_digit_dig].
  cbn [str_fold]. rewrite !digit_value_dig by done. f_equal. lia.
Qed.

(** *** The fields of the [_strptime] expression *)

Lemma str_app_two (a b : ascii) (t : string) : (String a (String b "") ++ t)%string = String a (String b t).
Proof. done. Qed.

Lemma str_app_four (a b c d : ascii) (t : string) :
  (String a (String b (String c (String d ""))) ++ t)%string = String a (String b (String c (String d t))).
Proof. done. Qed.

Section Fields.
Context (rest : string) (cs : list string) (k : re_cont) (x : list string).

Lemma re_M_pad2 (v : Z) :
  (0 <= v <= 59)%Z -> k rest (cs ++ [pad2 v])%list = Some x -> re_m re_M (pad2 v ++ rest) cs k = Some x.
Proof.
  intros Hv Hk. destruct (pad2_split v ltac:(lia)) as (q & r & Hp & Hqr & Hr). rewrite Hp in *.
  rewrite str_app_two. unfold re_M, re_range, re_digit. rewrite re_m_group. apply re_m_alt_l.
  rewrite re_m_two by dig_arith. by rewrite <- str_app_two, consumed_app.
Qed.

Lemma re_S_pad2 (v : Z) :
  (0 <= v <= 59)%Z -> k rest (cs ++ [pad2 v])%list = Some x -> re_m re_S (pad2 v ++ rest) cs k = Some x.
Proof.
  intros Hv Hk. destruct (pad2_split v ltac:(lia)) as (q & r & Hp & Hqr & Hr). rewrite Hp in *.
  rewrite str_app_two. unfold re_S, re_range, re_digit, re_ch. rewrite re_m_group.
  rewrite re_m_alt_r by (apply re_m_seq_fail; dig_arith). apply re_m_alt_l.
  rewrite re_m_two by dig_arith. by rewrite <- str_app_two, consumed_app.
Qed.

Lemma re_H_pad2 (v : Z) :
  (0 <= v <= 23)%Z -> k rest (cs ++ [pad2 v])%list = Some x -> re_m re_H (pad2 v ++ rest) cs k = Some x.
Proof.
  intros Hv Hk. destruct (pad2_split v ltac:(lia)) as (q & r & Hp & Hqr & Hr). rewrite Hp in *.
  rewrite str_app_two. unfold re_H, re_range, re_digit, re_ch. rewrite re_m_group.
  destruct (N.eq_dec q 2) as [->|Hq].
  - apply re_m_alt_l. rewrite re_m_two by dig_arith. by rewrite <- str_app_two, consumed_app.
  - rewrite re_m_alt_r by (apply re_m_seq_fail; dig_arith). apply re_m_alt_l.
    rewrite re_m_two by dig_arith. by rewrite <- str_app_two, consumed_app.
Qed.

Lemma re_month_pad2 (v : Z) :
  (1 <= v <= 12)%Z -> k rest (cs ++ [pad2 v])%list = Some x -> re_m re_mon (pad2 v ++ rest) cs k = Some x.
Proof.
  intros Hv Hk. destruct (pad2_split v ltac:(lia)) as (q & r & Hp & Hqr & Hr). rewrite Hp in *.
  rewrite str_app_two. unfold re_mon, re_range, re_digit, re_ch. rewrite re_m_group.
  destruct (N.eq_dec q 1) as [->|Hq].
  - apply re_m_alt_l. rewrite re_m_two by dig_arith. by rewrite <- str_app_two, consumed_app.
  - rewrite re_m_alt_r by (apply re_m_seq_fail; dig_arith). apply re_m_alt_l.
    rewrite re_m_two by dig_arith. by rewrite <- str_app_two, consumed_app.
Qed.

Lemma re_day_pad2 (v : Z) :
  (1 <= v <= 31)%Z -> k rest (cs ++ [pad2 v])%list = Some x -> re_m re_d (pad2 v ++ rest) cs k = Some x.
Proof.
  intros Hv Hk. destruct (pad2_split v ltac:(lia)) as (q & r & Hp & Hqr & Hr). rewrite Hp in *.
  rewrite str_app_two. unfold re_d, re_range, re_digit, re_ch. rewrite re_m_group.
  destruct (N.eq_dec q 3) as [->|H3].
  - apply re_m_alt_l. rewrite re_m_two by dig_arith. by rewrite <- str_app_two, consumed_app.
  - rewrite re_m_alt_r by (apply re_m_seq_fail; dig_arith).
    destruct (N.eq_dec q 0) as [->|H0].
    + rewrite re_m_alt_r by (apply re_m_seq_fail; dig_arith). apply re_m_alt_l.
      rewrite re_m_two by dig_arith. by rewrite <- str_app_two, consumed_app.
    + apply re_m_alt_l. rewrite re_m_two by dig_arith. by rewrite <- str_app_two, consumed_app.
Qed.

Lemma re_Y_year (y : Z) :
  (1000 <= y < 10000)%Z -> k rest (cs ++ [py_str_Z y])%list = Some x ->
  re_m re_Y (py_str_Z y ++ rest) cs k = Some x.
Proof.
  intros Hy Hk. destruct (year_split y Hy) as (a & b & c & d & Hp & Hn & Ha & Hb & Hc & Hd).
  rewrite Hp in *. rewrite str_app_four. unfold re_Y, re_digit. cbn [re_seq]. rewrite re_m_group.
  rewrite re_m_seq, re_m_char_true by dig_arith. rewrite re_m_seq, re_m_char_true by dig_arith.
  rewrite re_m_two by dig_arith.
  rewrite <- str_app_four. by rewrite consumed_app.
Qed.
End Fields.

(** *** The round trip *)

Lemma str_app_one (a : ascii) (t : string) : (String a "" ++ t)%string = String a t.
Proof. done. Qed.

Lemma days_in_month_le (y m : Z) : (days_in_month y m <= 31)%Z.
Proof. unfold days_in_month. repeat case_match; lia. Qed.

Lemma dt_valid_spec (t : DateTime) :
  dt_valid t = true <->
  (1000 <= dt_year t < 10000 /\ 1 <= dt_month t <= 12 /\ 1 <= dt_day t <= days_in_month (dt_year t) (dt_month t) /\
   0 <= dt_hour t <= 23 /\ 0 <= dt_min t <= 59 /\ 0 <= dt_sec t <= 59)%Z.
Proof. unfold dt_valid. rewrite !andb_true_iff, !Z.leb_le, !Z.ltb_lt. tauto. Qed.

Lemma pad2_length (v : Z) : (0 <= v < 100)%Z -> String.length (pad2 v) = 2.
Proof. intros Hv. by destruct (pad2_split v Hv) as (q & r & -> & _). Qed.

Lemma year_length (y : Z) : (1000 <= y < 10000)%Z -> String.length (py_str_Z y) = 4.
Proof. intros Hy. by destruct (year_split y Hy) as (a & b & c & d & -> & _). Qed.

Lemma strftime_compact_length (t : DateTime) : dt_valid t = true -> String.length (strftime_compact t) = 15.
Proof.
  intros (Hy & Hm & Hd & Hh & Hmi & Hs)%dt_valid_spec. pose proof (days_in_month_le (dt_year t) (dt_month t)).
  unfold strftime_compact. rewrite !str_length_app, year_length, !pad2_length by lia. done.
Qed.

(** The expression of [_strptime] splits a formatted time into its six
    fields, with nothing left over. *)
Lemma strptime_re_compact (t : DateTime) :
  dt_valid t = true ->
  re_m strptime_re (strftime_compact t) [] (fun rest cs => Some (cs ++ [rest])%list) =
  Some [py_str_Z (dt_year t); pad2 (dt_month t); pad2 (dt_day t); pad2 (dt_hour t); pad2 (dt_min t);
        pad2 (dt_sec t); ""].
Proof.
  intros (Hy & Hm & Hd & Hh & Hmi & Hs)%dt_valid_spec. pose proof (days_in_month_le (dt_year t) (dt_month t)).
  unfold strftime_compact, strptime_re. cbn [re_seq].
  rewrite <- (str_app_nil_r (pad2 (dt_sec t))) at 1.
  rewrite re_m_seq. apply re_Y_year; [lia|]. cbv beta.
  rewrite re_m_seq. apply re_month_pad2; [lia|]. cbv beta.
  rewrite re_m_seq. apply re_day_pad2; [lia|]. cbv beta.
  rewrite re_m_seq, str_app_one. unfold re_ch. rewrite re_m_char_true by done.
  rewrite re_m_seq. apply re_H_pad2; [lia|]. cbv beta.
  rewrite re_m_seq. apply re_M_pad2; [lia|]. cbv beta.
  apply re_S_pad2; [lia|]. done.
Qed.

Lemma strptime_compact_strftime (t : DateTime) :
  dt_valid t = true -> strptime_compact (strftime_compact t) = Some t.
Proof.
  intros Hv. pose proof Hv as (Hy & Hm & Hd & Hh & Hmi & Hs)%dt_valid_spec.
  pose proof (days_in_month_le (dt_year t) (dt_month t)).
  unfold strptime_compact, py_re_match_rest. rewrite strptime_re_compact by done. cbn [last removelast].
  rewrite py_int_year, !py_int_pad2 by lia.
  replace ((1 <=? dt_year t)%Z && (dt_day t <=? days_in_month (dt_year t) (dt_month t))%Z) with true
    by (symmetry; apply andb_true_iff; split; apply Z.leb_le; lia).
  by destruct t.
Qed.

(** A name ending in "_" and a formatted time shows that time. *)
Lemma backup_time_text_stamp (prefix : string) (t : DateTime) (mt : string) :
  prefix <> "" -> dt_valid t = true ->
  backup_time_text (prefix ++ "_" ++ strftime_compact t) (Some mt) = strftime_display t.
Proof.
  intros Hp Hv. unfold backup_time_text. pose proof (strftime_compact_length t Hv) as Hc.
  assert (Hl : String.length prefix <> 0) by (by destruct prefix).
  rewrite !str_length_app, Hc. cbn [String.length].
  replace (String.length prefix + (1 + 15) - 16) with (String.length prefix + 0) by lia.
  replace (String.length prefix + (1 + 15) - 15) with (String.length prefix + 1) by lia.
  rewrite get_app_r, substring_app_r.
  replace (16 <? String.length prefix + (1 + 15))%nat with true by (symmetry; apply Nat.ltb_lt; lia).
  change (substring 1 15 ("_" ++ strftime_compact t)) with (substring 0 15 (strftime_compact t)).
  rewrite <- Hc, substring_full, strptime_compact_strftime by done. done.
Qed.

(** *** Base names *)

Lemma dig_not_slash (q : N) : (q < 10)%N -> Ascii.eqb "/" (dig q) = false.
Proof. intros Hq. dig_arith. Qed.

Lemma strftime_compact_no_slash (t : DateTime) :
  dt_valid t = true -> str_avoids (Ascii.eqb "/") (strftime_compact t) = true.
Proof.
  intros (Hy & Hm & Hd & Hh & Hmi & Hs)%dt_valid_spec. pose proof (days_in_month_le (dt_year t) (dt_month t)).
  unfold strftime_compact. rewrite !str_avoids_app.
  destruct (year_split (dt_year t)) as (a & b & c & d & -> & _ & Ha & Hb & Hc & Hd'); [lia|].
  repeat match goal with
  | |- context [pad2 ?v] => let q := fresh "q" in let r := fresh "r" in
      destruct (pad2_split v ltac:(lia)) as (q & r & -> & ? & ?)
  end.
  rewrite !str_avoids_cons, !dig_not_slash by lia. done.
Qed.

Lemma basename_go_avoids (cur w : string) :
  str_avoids (Ascii.eqb "/") w = true -> basename_go cur w = (cur ++ w)%string.
Proof.
  revert cur. induction w as [|c w IH]; intros cur Hw; simpl.
  - by rewrite str_app_nil_r.
  - rewrite str_avoids_cons in Hw. apply andb_true_iff in Hw as [Hc Hw].
    rewrite Ascii.eqb_sym. apply negb_true_iff in Hc. rewrite Hc, IH by done. by rewrite str_app_assoc.
Qed.

Lemma basename_go_slash (cur a w : string) : basename_go cur (a ++ String "/" w) = basename_go "" w.
Proof.
  revert cur. induction a as [|c a IH]; intros cur; [done|]. simpl. by case_match.
Qed.

(** [os.path.basename(os.path.join(d, n))] is [n] when [n] is a
    non-empty name without a slash. *)
Lemma py_basename_join (dest name : string) :
  name <> "" -> str_avoids (Ascii.eqb "/") name = true -> py_basename (os_path_join dest name) = name.
Proof.
  intros Hne Hn. unfold os_path_join, py_basename.
  destruct name as [|c n]; [done|]. pose proof Hn as Hc. rewrite str_avoids_cons in Hc.
  apply andb_true_iff in Hc as [Hc _]. apply negb_true_iff in Hc.
  change (py_startswith (String c n) "/") with (Ascii.eqb "/" c && py_startswith n "")%bool.
  rewrite Hc. cbn [andb].
  destruct (String.eqb dest "") eqn:E1; simpl.
  - apply String.eqb_eq in E1. subst. by apply basename_go_avoids.
  - destruct (py_endswith dest "/") eqn:E2.
    + rewrite (py_endswith_app dest "/" E2), str_app_assoc, str_app_one, basename_go_slash.
      by apply basename_go_avoids.
    + rewrite str_app_one, basename_go_slash. by apply basename_go_avoids.
Qed.

(** *** Sorting by modification time *)

Lemma insert_desc_perm (e : BackupEntry) (l : list BackupEntry) : Permutation (insert_desc e l) (e :: l).
Proof.
  induction l as [|x l IH]; simpl; [done|]. case_if; [|done].
  by rewrite IH, perm_swap.
Qed.

Lemma insert_desc_sorted (e : BackupEntry) (l : list BackupEntry) :
  Sorted newer_first l -> Sorted newer_first (insert_desc e l).
Proof.
  unfold newer_first. induction l as [|x l IH]; simpl; intros Hs; [by repeat constructor|].
  destruct (Z.leb_spec (be_mtime e) (be_mtime x)).
  - invc Hs. constructor; [by apply IH|].
    destruct l as [|y l]; simpl; [by constructor|]. case_if; constructor; [by invc H3|lia].
  - constructor; [done|]. constructor. lia.
Qed.

Lemma sort_by_mtime_desc_spec (l : list BackupEntry) :
  Permutation (sort_by_mtime_desc l) l /\ Sorted newer_first (sort_by_mtime_desc l).
Proof.
  unfold sort_by_mtime_desc.
  enough (H : forall acc, Sorted newer_first acc ->
            Permutation (fold_left (fun acc e => insert_desc e acc) l acc) (l ++ acc) /\
            Sorted newer_first (fold_left (fun acc e => insert_desc e acc) l acc)).
  { destruct (H [] ltac:(constructor)) as [Hp Hs]. by rewrite app_nil_r in Hp. }
  induction l as [|e l IH]; intros acc Hacc; simpl; [done|].
  destruct (IH (insert_desc e acc) (insert_desc_sorted e acc Hacc)) as [Hp Hs]. split; [|done].
  by rewrite Hp, insert_desc_perm, Permutation_middle.
Qed.

(** *** What the handlers keep *)

(** [refresh_backups] changes only the listing and the status label. *)
Lemma refresh_backups_keeps (env : FsEnv) (st : BackupsState) (dl : DestListing) :
  let st' := refresh_backups env st dl in
  source_text st' = source_text st /\ dest_text st' = dest_text st /\ prefix_text st' = prefix_text st /\
  busy st' = busy st /\ status_visible st' = status_visible st.
Proof. unfold refresh_backups. by repeat case_match. Qed.

Lemma refresh_source_text env st dl : source_text (refresh_backups env st dl) = source_text st.
Proof. apply refresh_backups_keeps. Qed.
Lemma refresh_dest_text env st dl : dest_text (refresh_backups env st dl) = dest_text st.
Proof. apply refresh_backups_keeps. Qed.
Lemma refresh_prefix_text env st dl : prefix_text (refresh_backups env st dl) = prefix_text st.
Proof. apply refresh_backups_keeps. Qed.
Lemma refresh_busy env st dl : busy (refresh_backups env st dl) = busy st.
Proof. apply refresh_backups_keeps. Qed.
Lemma refresh_status_visible env st dl : status_visible (refresh_backups env st dl) = status_visible st.
Proof. apply refresh_backups_keeps. Qed.

Create Rewrite HintDb backups_rw.
#[export] Hint Rewrite refresh_source_text refresh_dest_text refresh_prefix_text refresh_busy
  refresh_status_visible : backups_rw.

(** *** Paths *)

Lemma py_expanduser_abs (env : FsEnv) (u : string) : py_expanduser env (String "/" u) = String "/" u.
Proof. done. Qed.

(** The folder chooser opens on a directory whenever the home directory
    is one. *)
Lemma chooser_start_dir (env : FsEnv) (st : BackupsState) (target : FolderTarget) :
  fs_isdir env (py_expanduser env "~") = true -> fs_isdir env (chooser_start_path env st target) = true.
Proof. unfold chooser_start_path. by destruct (fs_isdir env (folder_target_text st target)) eqn:E. Qed.

Lemma py_expanduser_home (env : FsEnv) (u : string) :
  fs_home env = String "/" u -> py_rstrip_char "/" (String "/" u) = String "/" u ->
  py_expanduser env "~" = String "/" u /\ py_expanduser env "~/RsyncBackups" = String "/" (u ++ "/RsyncBackups").
Proof. intros Hh Hr. unfold py_expanduser. simpl. rewrite Hh, Hr. by rewrite str_app_nil_r. Qed.

Lemma py_endswith_rsync (h : string) : py_endswith (h ++ "/RsyncBackups") "/" = false.
Proof.
  unfold py_endswith. rewrite str_length_app. cbn [String.length].
  replace (String.length h + 13 - 1) with (String.length h + 12) by lia.
  by rewrite substring_app_r, andb_false_r.
Qed.

(** ** Properties of the backups page *)

(** C23: the name [_execute_rsync] gives a backup is read back by
    [refresh_backups]: the row of that directory, wherever the
    destination is, shows the name and, parsed from the name through
    [time.strptime], the very local time of the backup, formatted as
    "%Y-%m-%d %H:%M:%S" (the prefix is not empty and has no slash, as
    [create_backup] makes it unless the user types one). *)
Theorem new_backup_row_shows_time (job : RsyncJob) (now : DateTime) (dest : string) (m : Z) (mt : string)
        (du : option string) :
  job_prefix job <> "" -> str_avoids (Ascii.eqb "/") (job_prefix job) = true -> dt_valid now = true ->
  let row := backup_row dest (mkEntry (backup_target_name job now) true m (Some mt) du) in
  br_name row = backup_target_name job now /\ br_time row = strftime_display now.
Proof.
  intros Hp Hs Hv. unfold backup_row. cbn [be_name be_mtime_text br_name br_time].
  rewrite py_basename_join.
  - split; [done|]. by apply backup_time_text_stamp.
  - unfold backup_target_name. by destruct (job_prefix job).
  - unfold backup_target_name. rewrite !str_avoids_app, Hs, strftime_compact_no_slash by done. done.
Qed.

(** C24: with the page's defaults the backup is written inside the tree
    it copies.  [backups_init] expands "~" and "~/RsyncBackups"; Create
    Backup then runs rsync from the home directory into a directory below
    it, so every backup also copies all the earlier backups. *)
Theorem default_backup_nested (env : FsEnv) (dl : DestListing) (now : DateTime) (u : string) :
  fs_home env = String "/" u -> py_rstrip_char "/" (String "/" u) = String "/" u ->
  fs_isdir env (String "/" u) = true ->
  let job := mkRsyncJob (String "/" u) (String "/" u ++ "/RsyncBackups") "manual" in
  snd (create_backup env (backups_init env dl) None) = Some job /\
  rsync_command job now =
    ["rsync"; "-a"; String "/" u ++ "/"; (String "/" u ++ "/") ++ "RsyncBackups/manual_" ++ strftime_compact now].
Proof.
  intros Hh Hr Hd. destruct (py_expanduser_home env u Hh Hr) as [E1 E2].
  unfold backups_init. rewrite E1, E2.
  split.
  - unfold create_backup. autorewrite with backups_rw. cbn [source_text dest_text prefix_text update_status_message].
    rewrite py_expanduser_abs. change (String "/" u ++ "/RsyncBackups") with (String "/" (u ++ "/RsyncBackups")).
    rewrite py_expanduser_abs, Hd. done.
  - unfold rsync_command, os_path_join. cbn [job_source job_dest job_prefix]. rewrite Hr.
    rewrite py_endswith_rsync. unfold backup_target_name. cbn [job_prefix].
    rewrite !str_app_assoc. by destruct u.
Qed.

(** C25: the list [refresh_backups] shows is every directory of the
    destination (files left out), newest first, one row each built by
    [backup_row]; when there is none it shows a message, not rows. *)
Theorem refresh_rows_newest_first (env : FsEnv) (st : BackupsState) (es : list BackupEntry)
        (rows : list BackupRow) :
  listing (refresh_backups env st (DestEntries es)) = ListRows rows ->
  exists dirs, Permutation dirs (List.filter be_isdir es) /\ Sorted newer_first dirs /\ dirs <> [] /\
    rows = map (backup_row (py_expanduser env (dest_text st))) dirs.
Proof.
  unfold refresh_backups. cbn [dest_text set_listing].
  destruct (sort_by_mtime_desc_spec (List.filter be_isdir es)) as [Hp Hs].
  destruct (sort_by_mtime_desc (List.filter be_isdir es)) as [|d ds] eqn:E; [discriminate|].
  intros H. injection H as <-. exists (d :: ds). done.
Qed.

(** C26: every job the page runs ends with the page idle: whatever rsync
    or rm does, [_execute_rsync] and [_execute_delete] leave the buttons
    sensitive, the progress bar hidden and the status label shown. *)
Theorem jobs_end_idle (env : FsEnv) (st : BackupsState) (job : RsyncJob) (now : DateTime) (o : ProcOutcome)
        (dl : DestListing) (path : string) (o' : ProcOutcome) (dl' : DestListing) :
  let st1 := fst (execute_rsync env st job now o dl) in
  let st2 := fst (execute_delete env st path o' dl') in
  busy st1 = false /\ status_visible st1 = true /\ busy st2 = false /\ status_visible st2 = true.
Proof.
  unfold execute_rsync, execute_delete.
  destruct o, o'; cbn [fst]; autorewrite with backups_rw; done.
Qed.

(** A failed rsync is reported as an error, whatever the failure;
    a failed rm is not: [e.stderr] is [None] because the output is not
    captured, the handler raises, and the label goes back to "Current
    destination: ..." in the normal style, the list not refreshed. *)
Theorem failed_delete_unreported (env : FsEnv) (st : BackupsState) (job : RsyncJob) (now : DateTime)
        (dl : DestListing) (path : string) (rc : Z) (out err : string) :
  (forall o, o <> POk -> status_error (fst (execute_rsync env st job now o dl)) = true) /\
  let st' := fst (execute_delete env st path (PFailed rc out err) dl) in
  status_error st' = false /\ status_text st' = "Current destination: " ++ dest_text st /\
  listing st' = listing st.
Proof.
  split; [|done]. intros [] Ho; done.
Qed.

(** C27: renaming a backup to an absolute name moves it out of the
    destination: [os.path.join] drops the destination when the new name
    starts with a slash, so the directory is renamed to the typed path
    itself. *)
Theorem rename_absolute_escapes (env : FsEnv) (st : BackupsState) (path entry : string) (dl : DestListing) :
  py_startswith (py_strip entry) "/" = true -> py_strip entry <> py_basename path ->
  fs_exists env (py_strip entry) = false ->
  snd (rename_dialog_response env st path true entry None dl) = Some (path, py_strip entry).
Proof.
  intros Hs Hne He. unfold rename_dialog_response, rename_backup, os_path_join.
  rewrite Hs, He. destruct (py_strip entry) as [|c n]; [discriminate|].
  rewrite (proj2 (String.eqb_neq _ _) Hne). done.
Qed.

(** Confirming the rename dialog as it opens, the entry still holding
    the backup's own name, renames nothing and says "Name not changed.". *)
Lemma rename_dialog_unchanged (env : FsEnv) (st : BackupsState) (path : string) (err : option string)
      (dl : DestListing) :
  py_strip (py_basename path) = py_basename path ->
  rename_dialog_response env st path true (default "" (bd_entry (show_rename_dialog path))) err dl =
    (update_status_message st "Name not changed." false, None).
Proof.
  intros Hs. unfold rename_dialog_response, show_rename_dialog. simpl. rewrite Hs, String.eqb_refl.
  by rewrite andb_false_r.
Qed.

(** A backup made with the prefix "R&D": its name is not plain markup,
    yet both dialogs paste it between <b> tags, so Pango cannot parse
    the label and the confirmation shows no name. *)
Example delete_dialog_markup_unescaped :
  let path := "/home/u/RsyncBackups/R&D_20240101_120000" in
  markup_plain (py_basename path) = false /\
  bd_markup (show_delete_confirmation_dialog path) =
    "Are you sure you want to permanently delete backup: <b>R&D_20240101_120000</b>?".
Proof. split; reflexivity. Qed.

(** ** Witnesses *)

Lemma new_backup_row_shows_time_witness :
  let row := backup_row "/home/u/RsyncBackups"
               (mkEntry (backup_target_name (mkRsyncJob "/home/u" "/home/u/RsyncBackups" "manual") example_now)
                        true 0 (Some "x") None) in
  br_name row = "manual_20240229_130509" /\ br_time row = "2024-02-29 13:05:09".
Proof.
  exact (new_backup_row_shows_time (mkRsyncJob "/home/u" "/home/u/RsyncBackups" "manual") example_now
           "/home/u/RsyncBackups" 0 "x" None ltac:(discriminate) eq_refl eq_refl).
Defined.

Lemma default_backup_nested_witness :
  let job := mkRsyncJob "/home/u" "/home/u/RsyncBackups" "manual" in
  snd (create_backup example_env (backups_init example_env DestMissing) None) = Some job /\
  rsync_command job example_now =
    ["rsync"; "-a"; "/home/u/"; "/home/u/RsyncBackups/manual_20240229_130509"].
Proof. exact (default_backup_nested example_env DestMissing example_now "home/u" eq_refl eq_refl eq_refl). Defined.

Lemma refresh_rows_newest_first_witness :
  exists rows, listing (refresh_backups example_env (backups_init example_env DestMissing)
                                        (DestEntries example_entries)) = ListRows rows /\
  exists dirs, Permutation dirs (List.filter be_isdir example_entries) /\ Sorted newer_first dirs /\ dirs <> [] /\
    rows = map (backup_row "/home/u/RsyncBackups") dirs.
Proof.
  eexists. split; [vm_compute; reflexivity|].
  apply (refresh_rows_newest_first example_env (backups_init example_env DestMissing)). vm_compute. reflexivity.
Defined.

Lemma rename_absolute_escapes_witness :
  snd (rename_dialog_response example_env (backups_init example_env DestMissing)
         "/home/u/RsyncBackups/manual_20240229_130509" true " /tmp/x " None DestMissing) =
  Some ("/home/u/RsyncBackups/manual_20240229_130509", "/tmp/x").
Proof.
  exact (rename_absolute_escapes example_env (backups_init example_env DestMissing)
           "/home/u/RsyncBackups/manual_20240229_130509" " /tmp/x " DestMissing eq_refl
           ltac:(vm_compute; discriminate) eq_refl).
Defined.
