(* ===== verification/Resources.v ===== *)
(** * Resources: the resources page

    src/pages/resources.py, [ResourcesPage].  The page keeps, for every
    metric ("CPU Total", one "CPU Core N" per logical CPU, "RAM", "Disk
    ROOT", "Network Sent", "Network Recv"), a history of its last
    [max_history] = 120 values ([metric_history]), a scale per metric
    ([max_for_metric]), the last network byte counters, and the texts of
    the summary cards and of the core labels.  A one-second GLib timer
    runs [update_resources], which samples [psutil], appends one value to
    every history, trims it to its last 120 entries and relabels the
    cards; the two drawing functions turn a history into the points of a
    line chart.

    The [psutil] readings of one tick are an input ([ResSample]); [None]
    is a call that raised (or, for the network counters, the [None]
    [psutil.net_io_counters()] returns on a host without interfaces).
    [update_resources] returns the state and whether the timer goes on:
    an exception escaping the callback stops it, and the values pushed
    before the exception stay.  Percentages and speeds are rationals: the
    float arithmetic the properties depend on (subtracting two byte
    counters below 2^53 and dividing by 1024 twice) is exact on doubles;
    the average of the CPU percentages and the factor 1.2 are not, and
    are modelled by their exact values. *)

From stdpp Require Import base list gmap strings.
From Stdlib Require Import String Ascii ZArith QArith_base Qround Qminmax Qfield Lqa Lia.
From S2P Require Import Prelude PyStr Helpers.

Local Open Scope string_scope.

(** Python's [l[-n:]]. *)
Definition py_last {A} (n : nat) (l : list A) : list A := drop (length l - n) l.

Fixpoint zeros (n : nat) : string :=
  match n with O => "" | S k => String "0"%char (zeros k) end.

(** [f"{q:.Nf}"] with [N = d]: the exact value rounded to [d] decimals,
    ties to even, the sign kept even when the rounded value is zero. *)
Definition py_format_fixed (d : nat) (q : Q) : string :=
  let p := (10 ^ Z.of_nat d)%Z in
  let m := round_half_even (Z.abs (Qnum q) * p) (Zpos (Qden q)) in
  let frac := py_str_N (Z.to_N (m mod p)) in
  (if (Qnum q <? 0)%Z then "-" else "") ++ py_str_N (Z.to_N (m / p)) ++
  match d with O => "" | _ => "." ++ zeros (d - String.length frac) ++ frac end.

(** The metric keys (lines 17, 22, 62, 379, 407). *)
Definition core_key (i : nat) : string := "CPU Core " ++ py_str_N (N.of_nat (S i)).
Definition disk_key (root : string) : string := "Disk " ++ root.

(** The markup of a summary card's big label (lines 117, 373, 396, 412, 425). *)
Definition big_markup (s : string) : string := "<span font_desc='Sans 28'><b>" ++ s ++ "</b></span>".

Record ResState := mkRes {
  res_metrics : list string;
  metric_history : gmap string (list Q);
  max_history : nat;
  max_for_metric : gmap string Q;
  last_bytes_sent : Z;
  last_bytes_recv : Z;
  disk_root : string;
  summary_markup : gmap string string;
  core_labels : list string
}.

(** [{m: v for m in ks}]: one insertion per key, in order. *)
Definition dict_from_keys {A} (ks : list string) (v : A) : gmap string A :=
  fold_left (fun h k => <[k := v]> h) ks ∅.

(** [make_card(title, metric_key, color)] (lines 104-131) as it touches
    the page's state: the card's big label, showing "0%", registered under
    [metric_key]. *)
Definition make_card (metric_key : string) (labels : gmap string string) : gmap string string :=
  <[metric_key := big_markup "0%"]> labels.

(** The label of core [i] before the first update (line 66). *)
Definition core_initial_label (i : nat) : string := "Core " ++ py_str_N (N.of_nat (S i)) ++ ": 0.0%".

(** The cell of core [i]'s label and sparkline in [cores_grid] (lines
    58-82: [cols = 3], [r = i // cols; c = i % cols]): column, row. *)
Definition core_grid_cell (i : nat) : nat * nat := (i mod 3, i / 3)%nat.

(** [ResourcesPage.__init__] (lines 5-102): the byte counters read once
    ([getattr(nic, ..., 0)]), the logical CPU count and the mount points
    of [psutil.disk_partitions]. *)
Definition res_init (sent recv : Z) (cpu_count : nat) (mounts : list string) : ResState :=
  let root := match mounts with m :: _ => m | [] => "/" end in
  let metrics := (["CPU Total"] ++ map core_key (seq 0 cpu_count) ++ ["RAM"] ++ [disk_key root] ++
                  ["Network Sent"; "Network Recv"])%list in
  let maxes := dict_from_keys (List.filter (fun m => negb (py_in "Network" m)) metrics) 100%Q in
  mkRes metrics (dict_from_keys metrics []) 120
        (<["Network Recv" := 1%Q]> (<["Network Sent" := 1%Q]> maxes)) sent recv root
        (make_card "Network Sent" (make_card (disk_key root) (make_card "RAM" (make_card "CPU Total" ∅))))
        (map core_initial_label (seq 0 cpu_count)).

(** [h.setdefault(k, []).append(v)] then [h[k] = h[k][-n:]]. *)
Definition hist_push (k : string) (v : Q) (n : nat) (h : gmap string (list Q)) : gmap string (list Q) :=
  <[k := py_last n (default [] (h !! k) ++ [v])%list]> h.

(** [if k in self.summary_labels: ....set_markup(s)]. *)
Definition set_markup (k s : string) (m : gmap string string) : gmap string string :=
  match m !! k with Some _ => <[k := s]> m | None => m end.

(** The loop of lines 378-386 over [enumerate(cpu_percs)]. *)
Fixpoint push_cores (i : nat) (ps : list Q) (n : nat) (h : gmap string (list Q)) : gmap string (list Q) :=
  match ps with
  | [] => h
  | p :: ps' => push_cores (S i) ps' n (hist_push (core_key i) p n h)
  end.

Fixpoint core_label_updates (i : nat) (ps : list Q) (labels : list string) : list string :=
  match ps with
  | [] => labels
  | p :: ps' =>
      core_label_updates (S i) ps'
        (<[i := "Core " ++ py_str_N (N.of_nat (S i)) ++ ": " ++ py_format_fixed 1 p ++ "%"]> labels)
  end.

Definition set_last_sent (st : ResState) (c : Z) : ResState :=
  mkRes (res_metrics st) (metric_history st) (max_history st) (max_for_metric st) c (last_bytes_recv st)
        (disk_root st) (summary_markup st) (core_labels st).
Definition set_last_recv (st : ResState) (c : Z) : ResState :=
  mkRes (res_metrics st) (metric_history st) (max_history st) (max_for_metric st) (last_bytes_sent st) c
        (disk_root st) (summary_markup st) (core_labels st).
Definition set_max (st : ResState) (k : string) (v : Q) : ResState :=
  mkRes (res_metrics st) (metric_history st) (max_history st) (<[k := v]> (max_for_metric st))
        (last_bytes_sent st) (last_bytes_recv st) (disk_root st) (summary_markup st) (core_labels st).
Definition set_views (st : ResState) (h : gmap string (list Q)) (sm : gmap string string)
           (cl : list string) : ResState :=
  mkRes (res_metrics st) h (max_history st) (max_for_metric st) (last_bytes_sent st) (last_bytes_recv st)
        (disk_root st) sm cl.

(** The speed [get_metric_values] returns: bytes since the last reading,
    in MiB. *)
Definition speed_of (c last : Z) : Q := (inject_Z (c - last) / inject_Z 1024 / inject_Z 1024)%Q.

(** The network branch of [get_metric_values] (lines 351-359): the state
    after it and the speed in MB/s, [None] when it raises (no counters:
    [AttributeError]; no scale: [KeyError], after the counter is
    stored). *)
Definition net_speed (st : ResState) (sent : bool) (counter : option Z) : ResState * option Q :=
  let metric := if sent then "Network Sent" else "Network Recv" in
  match counter with
  | None => (st, None)
  | Some curr =>
      let last := if sent then last_bytes_sent st else last_bytes_recv st in
      let st := if sent then set_last_sent st curr else set_last_recv st curr in
      let speed := speed_of curr last in
      match max_for_metric st !! metric with
      | None => (st, None)
      | Some mx => if Qle_bool speed mx then (st, Some speed) else (set_max st metric (speed * (6 # 5))%Q, Some speed)
      end
  end.

(** What [psutil] gives on one tick. *)
Record ResSample := mkResSample {
  rs_cpu : option (list Q);
  rs_cpu_count : option nat;
  rs_ram : option Q;
  rs_disk : option Q;
  rs_sent : option Z;
  rs_recv : option Z
}.

Definition q_sum (l : list Q) : Q := fold_right Qplus 0%Q l.

(** Lines 363-366: [psutil.cpu_percent(percpu=True)], or one zero per CPU
    ([cpu_count(logical=True) or 1]) when it raises. *)
Definition cpu_percs (smp : ResSample) : list Q :=
  match rs_cpu smp with
  | Some l => l
  | None => repeat 0%Q (match rs_cpu_count smp with Some (S k) => S k | _ => 1%nat end)
  end.

(** Line 367: [sum(cpu_percs) / max(1, len(cpu_percs))]. *)
Definition cpu_total (cpu : list Q) : Q := (q_sum cpu / inject_Z (Z.of_nat (Nat.max 1 (length cpu))))%Q.

(** [update_resources] (lines 362-432): the state, and whether the timer
    is kept ([return True]; an exception removes it). *)
Definition update_resources (st : ResState) (smp : ResSample) : ResState * bool :=
  let cpu := cpu_percs smp in
  let total := cpu_total cpu in
  let n := max_history st in
  let h := hist_push "CPU Total" total n (metric_history st) in
  let sm := set_markup "CPU Total" (big_markup (py_format_fixed 0 total ++ "%")) (summary_markup st) in
  let h := push_cores 0 cpu n h in
  let cl := core_label_updates 0 cpu (core_labels st) in
  let ram := default 0%Q (rs_ram smp) in
  let h := hist_push "RAM" ram n h in
  let sm := set_markup "RAM" (big_markup (py_format_fixed 0 ram ++ "%")) sm in
  let usage := default 0%Q (rs_disk smp) in
  let dk := disk_key (disk_root st) in
  let h := hist_push dk usage n h in
  let sm := set_markup dk (big_markup (py_format_fixed 0 usage ++ "%")) sm in
  let st := set_views st h sm cl in
  match net_speed st true (rs_sent smp) with
  | (st, None) => (st, false)
  | (st, Some sent) =>
      match net_speed st false (rs_recv smp) with
      | (st, None) => (st, false)
      | (st, Some recv) =>
          let h := hist_push "Network Recv" recv n (hist_push "Network Sent" sent n (metric_history st)) in
          let sm := set_markup "Network Sent" (big_markup (py_format_fixed 2 sent ++ " MB/s"))
                               (summary_markup st) in
          (set_views st h sm (core_labels st), true)
      end
  end.

(** The page over time: the state and whether its timer still runs. *)
Inductive res_reachable : ResState * bool -> Prop :=
| res_reach_init sent recv cpu_count mounts : res_reachable (res_init sent recv cpu_count mounts, true)
| res_reach_step st smp : res_reachable (st, true) -> res_reachable (update_resources st smp).

(** A run of the timer: the updates applied while it is kept. *)
Fixpoint res_run (st : ResState) (smps : list ResSample) : ResState * bool :=
  match smps with
  | [] => (st, true)
  | smp :: smps' =>
      let (st', alive) := update_resources st smp in
      if alive then res_run st' smps' else (st', false)
  end.

(** ** The charts *)

(** The points of a line chart: [x_margin + i * draw_w / max(1, n - 1)]
    and [y_margin_top + draw_h - (min(v, max_v) / max_v) * draw_h]. *)
Definition chart_points (x_margin y_top y_bottom w h : Q) (values : list Q) (max_v : Q) : list (Q * Q) :=
  let draw_w := (w - x_margin)%Q in
  let draw_h := (h - y_top - y_bottom)%Q in
  imap (fun i v => ((x_margin + inject_Z (Z.of_nat i) * draw_w / inject_Z (Z.of_nat (Nat.max 1 (length values - 1))))%Q,
                    (y_top + draw_h - (Qmin v max_v / max_v) * draw_h)%Q)) values.

(** [make_sparkline_draw] (lines 132-195): the points of the line of
    [metric] in a [w] by [h] area, margins 25, 5 and 5. *)
Definition sparkline_draw (st : ResState) (metric : string) (w h : Q) : list (Q * Q) :=
  let values := py_last (max_history st) (default [] (metric_history st !! metric)) in
  let max_v := default 100%Q (max_for_metric st !! metric) in
  chart_points 25 5 5 w h values max_v.

(** [max(l or [0])]. *)
Definition q_max_or0 (l : list Q) : Q :=
  match l with [] => 0%Q | x :: xs => fold_left Qmax xs x end.

(** Lines 207-220: the scale step and the top of the network chart. *)
Definition net_scale (sent recv : list Q) : Q * Q :=
  let absolute_max := Qmax (Qmax (q_max_or0 sent) (q_max_or0 recv)) (1 # 100) in
  let step := if negb (Qle_bool absolute_max 5) then 5%Q
              else if negb (Qle_bool absolute_max 1) then 1%Q
              else if negb (Qle_bool absolute_max (1 # 10)) then (1 # 5)%Q
              else (1 # 20)%Q in
  (step, (inject_Z (Qfloor (absolute_max / step)) + 1) * step)%Q.

(** Lines 238-259: the labels of the four lower grid lines; the top line
    ([i = 0]) gets none. *)
Definition network_axis_labels (max_v : Q) : list string :=
  map (fun i : Z => py_format_fixed (if Qle_bool 1 max_v then 1 else 2) (max_v * inject_Z (4 - i) / inject_Z 4)%Q)
      [1; 2; 3; 4]%Z.

(** [make_network_draw] (lines 197-331): the received and the sent line,
    margins 45, 10 and 15, none when both histories have fewer than two
    values. *)
Definition network_draw (st : ResState) (w h : Q) : option (list (Q * Q) * list (Q * Q)) :=
  let sent := py_last (max_history st) (default [] (metric_history st !! "Network Sent")) in
  let recv := py_last (max_history st) (default [] (metric_history st !! "Network Recv")) in
  let max_v := snd (net_scale sent recv) in
  if (length sent <? 2)%nat && (length recv <? 2)%nat then None
  else Some (chart_points 45 10 15 w h recv max_v, chart_points 45 10 15 w h sent max_v).

(** Two ticks of a two-CPU host: one with its network counters (3 MiB
    sent since the page opened with counters 1000 and 2000), one on a
    host without network interfaces. *)
Definition example_page : ResState := res_init 1000 2000 2 ["/"].
Definition example_sample : ResSample :=
  mkResSample (Some [25%Q; (3 # 4)%Q]) None (Some (41 # 2)%Q) (Some 50%Q) (Some (1000 + 3 * 1048576)%Z) (Some 2000%Z).
Definition example_reset : ResSample :=
  mkResSample (Some [25%Q; (3 # 4)%Q]) None (Some (41 # 2)%Q) (Some 50%Q) (Some 0%Z) (Some 2000%Z).
Definition example_no_nic : ResSample :=
  mkResSample (Some [25%Q; (3 # 4)%Q]) None (Some (41 # 2)%Q) (Some 50%Q) None None.

(** The two network keys, which the CPU, RAM and disk part of an update does not write. *)
Definition net_key (k : string) : Prop := k = "Network Sent" \/ k = "Network Recv".

(** Every history holds at most [n] values. *)
Definition hist_bounded (n : nat) (h : gmap string (list Q)) : Prop := map_Forall (fun _ l => length l <= n)%nat h.

(** ** Lemmas *)

Local Open Scope nat_scope.

(** *** Slices *)

Lemma py_last_length {A} (n : nat) (l : list A) : length (py_last n l) = Nat.min n (length l).
Proof. unfold py_last. rewrite length_drop. lia. Qed.

Lemma py_last_short {A} (n : nat) (l : list A) : length l <= n -> py_last n l = l.
Proof. intros H. unfold py_last. by replace (length l - n) with 0 by lia. Qed.

Lemma py_last_app_long {A} (n : nat) (a c : list A) : n <= length c -> py_last n (a ++ c) = py_last n c.
Proof.
  intros H. unfold py_last. rewrite length_app, drop_app_ge by lia. f_equal. lia.
Qed.

(** Trimming before appending changes nothing: the window of the trimmed
    history is the window of the whole history. *)
Lemma py_last_idem_app {A} (n : nat) (l m : list A) : py_last n (py_last n l ++ m) = py_last n (l ++ m).
Proof.
  destruct (decide (n <= length l)) as [Hle|Hlt].
  - rewrite <- (take_drop (length l - n) l) at 2. rewrite <- app_assoc, (py_last_app_long n (take _ l)); [done|].
    rewrite length_app, length_drop. lia.
  - by rewrite (py_last_short n l) by lia.
Qed.

Lemma py_last_subseteq {A} (n : nat) (l : list A) : py_last n l ⊆ l.
Proof. apply subseteq_drop. Qed.

(** *** What an update touches *)

Lemma net_speed_keeps (st : ResState) (sent : bool) (c : option Z) :
  let st' := fst (net_speed st sent c) in
  metric_history st' = metric_history st /\ max_history st' = max_history st /\
  summary_markup st' = summary_markup st /\ core_labels st' = core_labels st /\ disk_root st' = disk_root st.
Proof. unfold net_speed. destruct sent, c; repeat case_match; done. Qed.

Section Preserve.
(** A property of the histories that every push keeps is kept by every
    update. *)
Context (P : nat -> gmap string (list Q) -> Prop).
Context (HP : forall k v n h, P n h -> P n (hist_push k v n h)).

Lemma push_cores_preserves (i : nat) (ps : list Q) (n : nat) (h : gmap string (list Q)) :
  P n h -> P n (push_cores i ps n h).
Proof. revert i h. induction ps as [|p ps IH]; intros i h Hh; [done|]. apply IH, HP, Hh. Qed.

Lemma update_resources_preserves (st : ResState) (smp : ResSample) :
  P (max_history st) (metric_history st) ->
  P (max_history (fst (update_resources st smp))) (metric_history (fst (update_resources st smp))).
Proof.
  intros H. unfold update_resources.
  set (st1 := set_views st _ _ _).
  assert (H1 : P (max_history st1) (metric_history st1)).
  { subst st1. cbn [max_history metric_history set_views]. apply HP, HP, push_cores_preserves, HP, H. }
  destruct (net_speed_keeps st1 true (rs_sent smp)) as (Eh1 & En1 & _).
  destruct (net_speed st1 true (rs_sent smp)) as [st2 [sent|]] eqn:E1; cbn [fst] in *; [|by rewrite Eh1, En1].
  destruct (net_speed_keeps st2 false (rs_recv smp)) as (Eh2 & En2 & _).
  destruct (net_speed st2 false (rs_recv smp)) as [st3 [recv|]] eqn:E2; cbn [fst] in *;
    [|by rewrite Eh2, En2, Eh1, En1].
  cbn [max_history metric_history set_views]. rewrite En2, En1, Eh2, Eh1. apply HP, HP, H1.
Qed.
End Preserve.

Lemma hist_push_bounded (k : string) (v : Q) (n : nat) (h : gmap string (list Q)) :
  hist_bounded n h -> hist_bounded n (hist_push k v n h).
Proof. intros H. apply map_Forall_insert_2; [rewrite py_last_length; lia|done]. Qed.

Lemma update_resources_max_history (st : ResState) (smp : ResSample) :
  max_history (fst (update_resources st smp)) = max_history st.
Proof. by apply (update_resources_preserves (fun n _ => n = max_history st)). Qed.

Lemma update_resources_bounded (st : ResState) (smp : ResSample) :
  hist_bounded (max_history st) (metric_history st) ->
  hist_bounded (max_history st) (metric_history (fst (update_resources st smp))).
Proof.
  intros H. rewrite <- (update_resources_max_history st smp) at 1.
  apply (update_resources_preserves hist_bounded); [apply hist_push_bounded|done].
Qed.

(** *** Keys *)

Lemma core_key_head (i : nat) : exists t, core_key i = String "C" t.
Proof. by eexists. Qed.

Lemma hist_push_other (k k' : string) (v : Q) (n : nat) (h : gmap string (list Q)) :
  k <> k' -> hist_push k v n h !! k' = h !! k'.
Proof. intros Hne. unfold hist_push. by rewrite lookup_insert_ne. Qed.

Lemma push_cores_other (i : nat) (ps : list Q) (n : nat) (h : gmap string (list Q)) (k : string) :
  (forall j, core_key j <> k) -> push_cores i ps n h !! k = h !! k.
Proof.
  intros Hk. revert i h. induction ps as [|p ps IH]; intros i h; [done|]. simpl. by rewrite IH, hist_push_other.
Qed.

Lemma net_speed_max_keys (st : ResState) (sent : bool) (c : option Z) (k : string) :
  is_Some (max_for_metric st !! k) -> is_Some (max_for_metric (fst (net_speed st sent c)) !! k).
Proof.
  intros H. unfold net_speed. destruct c as [c|]; [|done].
  destruct sent; simpl; (case_match; [|done]); case_if; simpl; try done;
    (match goal with |- is_Some (<[?m := _]> _ !! k) => destruct (decide (m = k)) as [->|Hne] end;
     [by rewrite lookup_insert_eq | by rewrite lookup_insert_ne]).
Qed.

Lemma update_resources_max_keys (st : ResState) (smp : ResSample) (k : string) :
  is_Some (max_for_metric st !! k) -> is_Some (max_for_metric (fst (update_resources st smp)) !! k).
Proof.
  intros H. unfold update_resources. set (st1 := set_views st _ _ _).
  pose proof (net_speed_max_keys st1 true (rs_sent smp) k H) as H2.
  destruct (net_speed st1 true (rs_sent smp)) as [st2 [sent|]]; [|done]. simpl in H2.
  pose proof (net_speed_max_keys st2 false (rs_recv smp) k H2) as H3.
  by destruct (net_speed st2 false (rs_recv smp)) as [st3 [recv|]].
Qed.

Lemma net_speed_some (st : ResState) (sent : bool) (c : Z) :
  is_Some (max_for_metric st !! (if sent then "Network Sent" else "Network Recv")) ->
  snd (net_speed st sent (Some c)) = Some (speed_of c (if sent then last_bytes_sent st else last_bytes_recv st)) /\
  (if sent then last_bytes_sent else last_bytes_recv) (fst (net_speed st sent (Some c))) = c.
Proof.
  intros [mx Hmx]. unfold net_speed, speed_of. destruct sent; simpl; rewrite Hmx; by case_if.
Qed.

Lemma net_speed_other_counter (st : ResState) (sent : bool) (c : option Z) :
  (if sent then last_bytes_recv else last_bytes_sent) (fst (net_speed st sent c)) =
  (if sent then last_bytes_recv else last_bytes_sent) st.
Proof. unfold net_speed. destruct sent, c; repeat case_match; done. Qed.

Lemma net_key_other (k r : string) (i : nat) :
  net_key k -> "CPU Total" <> k /\ "RAM" <> k /\ disk_key r <> k /\ core_key i <> k.
Proof. by intros [-> | ->]; split_and!. Qed.

(** A tick with both network counters, on a page whose scales are there,
    keeps the timer, stores both counters and appends the sent speed to
    its history. *)
Lemma update_resources_net (st : ResState) (smp : ResSample) (cs cr : Z) :
  is_Some (max_for_metric st !! "Network Sent") -> is_Some (max_for_metric st !! "Network Recv") ->
  rs_sent smp = Some cs -> rs_recv smp = Some cr ->
  let st' := fst (update_resources st smp) in
  snd (update_resources st smp) = true /\ last_bytes_sent st' = cs /\ last_bytes_recv st' = cr /\
  metric_history st' !! "Network Sent" =
    Some (py_last (max_history st) (default [] (metric_history st !! "Network Sent") ++
                                    [speed_of cs (last_bytes_sent st)])%list).
Proof.
  intros Hs Hr Es Er. unfold update_resources. rewrite Es, Er. set (st1 := set_views st _ _ _).
  destruct (net_speed_some st1 true cs Hs) as [S1 C1].
  pose proof (net_speed_keeps st1 true (Some cs)) as (H1 & _).
  pose proof (net_speed_max_keys st1 true (Some cs) _ Hr) as Hr2.
  pose proof (net_speed_other_counter st1 true (Some cs)) as O1.
  destruct (net_speed st1 true (Some cs)) as [st2 o2]. cbn [fst snd] in *. subst o2.
  destruct (net_speed_some st2 false cr Hr2) as [S2 C2].
  pose proof (net_speed_keeps st2 false (Some cr)) as (H2 & _).
  pose proof (net_speed_other_counter st2 false (Some cr)) as O2.
  destruct (net_speed st2 false (Some cr)) as [st3 o3]. cbn [fst snd] in *. subst o3.
  cbn [fst snd set_views last_bytes_sent last_bytes_recv metric_history]. split_and!; [done|congruence|done|].
  rewrite hist_push_other by done. unfold hist_push at 1. rewrite lookup_insert_eq, H2, H1.
  destruct (net_key_other "Network Sent" (disk_root st) 0 ltac:(by left)) as (N1 & N2 & N3 & _).
  subst st1. cbn [metric_history set_views]. rewrite !hist_push_other, push_cores_other, hist_push_other by done.
  done.
Qed.

(** *** The page as it opens *)

Lemma dict_from_keys_lookup {A} (ks : list string) (v : A) (k : string) :
  dict_from_keys ks v !! k = if decide (k ∈ ks) then Some v else None.
Proof.
  unfold dict_from_keys.
  enough (H : forall h : gmap string A, fold_left (fun h k => <[k := v]> h) ks h !! k = if decide (k ∈ ks) then Some v else h !! k).
  { rewrite H. by case_decide. }
  induction ks as [|k' ks IH]; intros h; cbn [fold_left]; [by rewrite decide_False by set_solver|].
  rewrite IH. destruct (decide (k = k')) as [->|Hne].
  - rewrite lookup_insert_eq. by repeat case_decide; set_solver.
  - rewrite lookup_insert_ne by done. repeat case_decide; set_solver.
Qed.

Lemma res_init_history (sent recv : Z) (cpus : nat) (mounts : list string) (k : string) (l : list Q) :
  metric_history (res_init sent recv cpus mounts) !! k = Some l -> l = [].
Proof. cbn [res_init metric_history]. rewrite dict_from_keys_lookup. case_decide; congruence. Qed.

Lemma res_init_net (sent recv : Z) (cpus : nat) (mounts : list string) (k : string) :
  net_key k ->
  metric_history (res_init sent recv cpus mounts) !! k = Some [] /\
  max_for_metric (res_init sent recv cpus mounts) !! k = Some 1%Q.
Proof.
  intros Hk. cbn [res_init metric_history max_for_metric]. rewrite dict_from_keys_lookup.
  rewrite decide_True by (destruct Hk as [-> | ->]; set_solver). split; [done|].
  by destruct Hk as [-> | ->]; [rewrite lookup_insert_ne, lookup_insert_eq by done|rewrite lookup_insert_eq].
Qed.

(** *** Invariants of the running page *)

Lemma update_resources_keys (st : ResState) (smp : ResSample) :
  is_Some (max_for_metric st !! "Network Sent") /\ is_Some (max_for_metric st !! "Network Recv") ->
  let st' := fst (update_resources st smp) in
  is_Some (max_for_metric st' !! "Network Sent") /\ is_Some (max_for_metric st' !! "Network Recv").
Proof. intros [Hs Hr]. split; by apply update_resources_max_keys. Qed.

Lemma res_reachable_invariant (P : ResState -> Prop) :
  (forall sent recv cpus mounts, P (res_init sent recv cpus mounts)) ->
  (forall st smp, P st -> P (fst (update_resources st smp))) ->
  forall st alive, res_reachable (st, alive) -> P st.
Proof.
  intros Hi Hs st alive H. remember (st, alive) as p eqn:Ep. revert st alive Ep.
  induction H as [|st0 smp H IH]; intros st alive Ep; simplify_eq; [done|].
  destruct (update_resources st0 smp) as [st' b] eqn:E. simplify_eq.
  replace st with (fst (update_resources st0 smp)) by (by rewrite E). apply Hs, (IH st0 true eq_refl).
Qed.

Lemma reachable_net_keys (st : ResState) (alive : bool) :
  res_reachable (st, alive) ->
  is_Some (max_for_metric st !! "Network Sent") /\ is_Some (max_for_metric st !! "Network Recv").
Proof.
  apply (res_reachable_invariant
           (fun st => is_Some (max_for_metric st !! "Network Sent") /\ is_Some (max_for_metric st !! "Network Recv")));
    [|intros st0 smp H; by apply update_resources_keys].
  intros. split; eexists; apply res_init_net; [by left|by right].
Qed.

(** The histories after an update, on the keys other than the network
    ones: the pushes of lines 368-414, which happen whatever the network
    readings do. *)
Lemma update_resources_other (st : ResState) (smp : ResSample) (k : string) :
  ~ net_key k ->
  metric_history (fst (update_resources st smp)) !! k =
  hist_push (disk_key (disk_root st)) (default 0%Q (rs_disk smp)) (max_history st)
    (hist_push "RAM" (default 0%Q (rs_ram smp)) (max_history st)
       (push_cores 0 (cpu_percs smp) (max_history st)
          (hist_push "CPU Total" (cpu_total (cpu_percs smp)) (max_history st) (metric_history st)))) !! k.
Proof.
  intros Hk. unfold update_resources. set (st1 := set_views st _ _ _).
  pose proof (net_speed_keeps st1 true (rs_sent smp)) as (H1 & _).
  destruct (net_speed st1 true (rs_sent smp)) as [st2 [sent|]]; cbn [fst] in *; [|by rewrite H1].
  pose proof (net_speed_keeps st2 false (rs_recv smp)) as (H2 & _).
  destruct (net_speed st2 false (rs_recv smp)) as [st3 [recv|]]; cbn [fst] in *; [|by rewrite H2, H1].
  cbn [metric_history set_views]. rewrite !hist_push_other by (intros <-; apply Hk; first [by left | by right]).
  by rewrite H2, H1.
Qed.

Lemma update_resources_ram (st : ResState) (smp : ResSample) (l : list Q) :
  metric_history st !! "RAM" = Some l ->
  metric_history (fst (update_resources st smp)) !! "RAM" =
  Some (py_last (max_history st) (l ++ [default 0%Q (rs_ram smp)])%list).
Proof.
  intros Hl. rewrite update_resources_other by (by intros [? | ?]).
  rewrite hist_push_other by done. unfold hist_push at 1. rewrite lookup_insert_eq.
  by rewrite push_cores_other, hist_push_other, Hl.
Qed.

Lemma res_init_in (sent recv : Z) (cpus : nat) (mounts : list string) (k : string) :
  k ∈ res_metrics (res_init sent recv cpus mounts) ->
  metric_history (res_init sent recv cpus mounts) !! k = Some [].
Proof. intros Hk. cbn [res_init metric_history]. rewrite dict_from_keys_lookup. by rewrite decide_True. Qed.

Lemma update_resources_alive (st : ResState) (smp : ResSample) :
  is_Some (max_for_metric st !! "Network Sent") -> is_Some (max_for_metric st !! "Network Recv") ->
  is_Some (rs_sent smp) -> is_Some (rs_recv smp) -> snd (update_resources st smp) = true.
Proof. intros Hs Hr [cs Es] [cr Er]. by apply (update_resources_net st smp cs cr). Qed.

(** A run of ticks that all have their network counters: the timer is
    kept and the RAM history is the window of every value read. *)
Lemma res_run_ram (smps : list ResSample) (st : ResState) (l0 : list Q) :
  is_Some (max_for_metric st !! "Network Sent") -> is_Some (max_for_metric st !! "Network Recv") ->
  max_history st = 120 -> metric_history st !! "RAM" = Some (py_last 120 l0) ->
  Forall (fun s => is_Some (rs_sent s) /\ is_Some (rs_recv s)) smps ->
  snd (res_run st smps) = true /\
  metric_history (fst (res_run st smps)) !! "RAM" = Some (py_last 120 (l0 ++ map (fun s => default 0%Q (rs_ram s)) smps)%list).
Proof.
  revert st l0. induction smps as [|smp smps IH]; intros st l0 Hs Hr Hn Hl Hf; simpl.
  - by rewrite app_nil_r.
  - apply Forall_cons in Hf as [[Hcs Hcr] Hf].
    pose proof (update_resources_alive st smp Hs Hr Hcs Hcr) as Ha.
    pose proof (update_resources_ram st smp _ Hl) as Hram. rewrite Hn, py_last_idem_app in Hram.
    pose proof (update_resources_max_history st smp) as Hn'. rewrite Hn in Hn'.
    destruct (update_resources_keys st smp (conj Hs Hr)) as [Hs' Hr'].
    destruct (update_resources st smp) as [st' b]. cbn [fst snd] in *. subst b.
    rewrite cons_middle, app_assoc. by apply IH.
Qed.

(** *** Sums of speeds *)

Lemma q_sum_snoc (l : list Q) (s : Q) : (q_sum (l ++ [s]) == q_sum l + s)%Q.
Proof. induction l as [|x l IH]; simpl; [ring|]. rewrite IH. ring. Qed.

Lemma speed_of_bytes (c last : Z) : (speed_of c last * inject_Z 1048576 == inject_Z (c - last))%Q.
Proof. unfold speed_of. field. Qed.

Lemma list_last_cons (c : Z) (cs : list Z) (d : Z) : List.last (c :: cs) d = List.last cs c.
Proof.
  revert c d. induction cs as [|c' cs IH]; intros c d; [done|].
  change (List.last (c :: c' :: cs) d) with (List.last (c' :: cs) d). by rewrite !IH.
Qed.

(** A run whose ticks all read the network counters, short enough for
    the window to keep every value: the sent speeds add up to the bytes
    counted between the first and the last reading. *)
Lemma res_run_sent (smps : list ResSample) (st : ResState) (l : list Q) (cs : list Z) :
  is_Some (max_for_metric st !! "Network Sent") -> is_Some (max_for_metric st !! "Network Recv") ->
  max_history st = 120 -> metric_history st !! "Network Sent" = Some l ->
  length l + length smps <= 120 -> map rs_sent smps = map Some cs -> Forall (fun s => is_Some (rs_recv s)) smps ->
  let r := res_run st smps in
  snd r = true /\ last_bytes_sent (fst r) = List.last cs (last_bytes_sent st) /\
  exists l', metric_history (fst r) !! "Network Sent" = Some l' /\
    (q_sum l' * inject_Z 1048576 == q_sum l * inject_Z 1048576 + inject_Z (last_bytes_sent (fst r) - last_bytes_sent st))%Q.
Proof.
  revert st l cs. induction smps as [|smp smps IH]; intros st l cs Hs Hr Hn Hl Hlen Hcs Hf; simpl.
  - destruct cs; [|done]. split_and!; [done..|]. exists l. split; [done|].
    rewrite Z.sub_diag. change (inject_Z 0) with 0%Q. ring.
  - destruct cs as [|c cs]; [done|]. injection Hcs as Ec Hcs. apply Forall_cons in Hf as [[cr Er] Hf].
    destruct (update_resources_net st smp c cr Hs Hr Ec Er) as (Ha & Hc & _ & Hh). rewrite Hl, Hn in Hh. change (default [] (Some l)) with l in Hh.
    rewrite py_last_short in Hh by (rewrite length_app; simpl in Hlen; simpl; lia).
    pose proof (update_resources_max_history st smp) as Hn'. rewrite Hn in Hn'.
    destruct (update_resources_keys st smp (conj Hs Hr)) as [Hs' Hr'].
    destruct (update_resources st smp) as [st' b]. cbn [fst snd] in *. subst b.
    destruct (IH st' _ cs Hs' Hr' Hn' Hh ltac:(rewrite length_app; simpl in *; lia) Hcs Hf)
      as (Ha' & Hc' & l' & Hl' & Hsum).
    rewrite Hc in Hc', Hsum. rewrite Hc' in Hsum |- *. rewrite list_last_cons.
    split_and!; [done..|]. exists l'. split; [done|].
    rewrite Hsum, q_sum_snoc.
    replace (List.last cs c - last_bytes_sent st)%Z with ((c - last_bytes_sent st) + (List.last cs c - c))%Z by lia.
    rewrite inject_Z_plus, <- (speed_of_bytes c (last_bytes_sent st)). ring.
Qed.

Lemma reachable_max_history (p : ResState * bool) : res_reachable p -> max_history (fst p) = 120.
Proof.
  destruct p as [st alive]. apply (res_reachable_invariant (fun st => max_history st = 120)); [done|].
  intros st0 smp H. by rewrite update_resources_max_history.
Qed.

(** *** Chart geometry *)

Lemma fold_Qmax_ge (xs : list Q) (acc : Q) :
  (acc <= fold_left Qmax xs acc)%Q /\ Forall (fun x => x <= fold_left Qmax xs acc)%Q xs.
Proof.
  revert acc. induction xs as [|x xs IH]; intros acc; simpl; [split; [apply Qle_refl|constructor]|].
  destruct (IH (Qmax acc x)) as [H1 H2]. split; [|constructor; [|done]].
  - eapply Qle_trans; [apply Q.le_max_l|exact H1].
  - eapply Qle_trans; [apply Q.le_max_r|exact H1].
Qed.

Lemma q_max_or0_ge (l : list Q) (v : Q) : v ∈ l -> (v <= q_max_or0 l)%Q.
Proof.
  destruct l as [|x xs]; [by intros ?%not_elem_of_nil|]. intros Hv. simpl.
  destruct (fold_Qmax_ge xs x) as [H1 H2]. apply elem_of_cons in Hv as [->|Hv]; [done|].
  rewrite Forall_forall in H2. by apply H2.
Qed.

(** The top of the network chart lies above its largest value, by at most
    one scale step. *)
Lemma net_scale_spec (sent recv : list Q) :
  let a := Qmax (Qmax (q_max_or0 sent) (q_max_or0 recv)) (1 # 100) in
  (0 < fst (net_scale sent recv))%Q /\ (a < snd (net_scale sent recv) <= a + fst (net_scale sent recv))%Q.
Proof.
  intros a. unfold net_scale. fold a.
  assert (Ha : (1 # 100 <= a)%Q) by apply Q.le_max_r.
  set (step := if negb (Qle_bool a 5) then _ else _).
  assert (Hs : (0 < step)%Q) by (subst step; repeat case_if; reflexivity).
  cbn [fst snd]. pose proof (Qlt_floor (a / step)) as Hf. pose proof (Qfloor_le (a / step)) as Hf'.
  rewrite inject_Z_plus in Hf. change (inject_Z 1) with 1%Q in Hf. set (F := inject_Z (Qfloor (a / step))) in *.
  assert (Hq : (a == a / step * step)%Q) by (field; intros E; rewrite E in Hs; discriminate).
  set (X := (a / step)%Q) in *. clearbody F X step.
  split; [done|]. split; nra.
Qed.

Lemma chart_points_lookup (xm yt yb w h : Q) (values : list Q) (max_v : Q) (i : nat) (p : Q * Q) :
  chart_points xm yt yb w h values max_v !! i = Some p ->
  exists v, values !! i = Some v /\ snd p = (yt + (h - yt - yb) - (Qmin v max_v / max_v) * (h - yt - yb))%Q.
Proof.
  unfold chart_points. rewrite list_lookup_imap. destruct (values !! i) eqn:E; [|done].
  intros [= <-]. by eexists.
Qed.

(** A value between 0 and the scale is drawn between the top and the
    bottom margin. *)
Lemma core_grid_cell_inj (i j : nat) : core_grid_cell i = core_grid_cell j -> i = j.
Proof.
  intros H.
  assert (Hm : fst (core_grid_cell i) = fst (core_grid_cell j)) by now rewrite H.
  assert (Hd : snd (core_grid_cell i) = snd (core_grid_cell j)) by now rewrite H.
  unfold core_grid_cell in Hm, Hd. cbn [fst snd] in Hm, Hd.
  rewrite (Nat.div_mod_eq i 3), (Nat.div_mod_eq j 3), Hm, Hd. reflexivity.
Qed.

Lemma chart_y_in_frame (yt yb h v m : Q) :
  (0 < m -> yt + yb <= h -> 0 <= v ->
   yt <= yt + (h - yt - yb) - (Qmin v m / m) * (h - yt - yb) <= h - yb)%Q.
Proof.
  intros Hm Hh Hv. pose proof (Q.le_min_r v m) as Hmin. assert (Hmin0 : (0 <= Qmin v m)%Q) by (by apply Q.min_glb; [|apply Qlt_le_weak]).
  assert (Ht : (Qmin v m == Qmin v m / m * m)%Q) by (field; intros E; rewrite E in Hm; discriminate).
  set (T := (Qmin v m / m)%Q) in *. set (M := Qmin v m) in *. clearbody T M.
  assert (HT0 : (0 <= T)%Q) by nra. assert (HT1 : (T <= 1)%Q) by nra. split; nra.
Qed.

(** A negative value is drawn below the bottom margin, outside the
    chart. *)
Lemma chart_y_negative (yt yb h v m : Q) :
  (0 < m -> yt + yb < h -> v < 0 -> h - yb < yt + (h - yt - yb) - (Qmin v m / m) * (h - yt - yb))%Q.
Proof.
  intros Hm Hh Hv. assert (Hmin : (Qmin v m == v)%Q) by (apply Q.min_l; apply Qlt_le_weak, (Qlt_trans _ 0); done).
  assert (Ht : (Qmin v m == Qmin v m / m * m)%Q) by (field; intros E; rewrite E in Hm; discriminate).
  set (T := (Qmin v m / m)%Q) in *. set (M := Qmin v m) in *. clearbody T M.
  assert (HT : (T < 0)%Q) by nra. nra.
Qed.

(** ** Properties of the resources page *)

(** C28: on every state the page reaches, whether or not its timer still
    runs, every metric history holds at most 120 values: the slice
    [[-self.max_history:]] after each append bounds the memory the page
    keeps, whatever the number of CPUs or the readings. *)
Theorem history_window_bounded (p : ResState * bool) :
  res_reachable p -> max_history (fst p) = 120 /\ hist_bounded 120 (metric_history (fst p)).
Proof.
  intros H. pose proof (reachable_max_history _ H) as Hn. split; [done|]. rewrite <- Hn.
  destruct p as [st alive]. cbn [fst] in *. revert H. apply (res_reachable_invariant (fun st => hist_bounded (max_history st) (metric_history st))).
  - intros sent recv cpus mounts k l Hl. apply res_init_history in Hl as ->. simpl. lia.
  - intros st0 smp Hb. rewrite update_resources_max_history. by apply update_resources_bounded.
Qed.

(** C29: on a host that reports its network counters the timer is never
    removed, and after any run of ticks the RAM chart holds exactly the
    last 120 readings (0 for a reading that raised), in order: the
    trimmed history is the window of the unbounded log of readings. *)
Theorem ram_history_window (sent recv : Z) (cpus : nat) (mounts : list string) (smps : list ResSample) :
  Forall (fun s => is_Some (rs_sent s) /\ is_Some (rs_recv s)) smps ->
  let r := res_run (res_init sent recv cpus mounts) smps in
  snd r = true /\
  metric_history (fst r) !! "RAM" = Some (py_last 120 (map (fun s => default 0%Q (rs_ram s)) smps)).
Proof.
  intros Hf. apply (res_run_ram smps _ []); [| |done| |done].
  - eexists. apply (res_init_net _ _ _ _ _ ltac:(by left)).
  - eexists. apply (res_init_net _ _ _ _ _ ltac:(by right)).
  - apply res_init_in. cbn [res_init res_metrics]. set_solver.
Qed.

(** C30: during the first two minutes the values of the "Network Sent"
    chart add up, in MiB, to the bytes the interfaces sent since the page
    opened: each value is the difference of two successive readings of
    the counter, and the page stores the last reading. *)
Theorem network_sent_total (sent recv : Z) (cpus : nat) (mounts : list string) (smps : list ResSample)
        (cs : list Z) :
  length smps <= 120 -> map rs_sent smps = map Some cs -> Forall (fun s => is_Some (rs_recv s)) smps ->
  let r := res_run (res_init sent recv cpus mounts) smps in
  snd r = true /\ last_bytes_sent (fst r) = List.last cs sent /\
  exists l, metric_history (fst r) !! "Network Sent" = Some l /\
    (q_sum l * inject_Z 1048576 == inject_Z (List.last cs sent - sent))%Q.
Proof.
  intros Hlen Hcs Hf.
  destruct (res_init_net sent recv cpus mounts "Network Sent" ltac:(by left)) as [Hh Hm].
  destruct (res_init_net sent recv cpus mounts "Network Recv" ltac:(by right)) as [_ Hm'].
  destruct (res_run_sent smps (res_init sent recv cpus mounts) [] cs ltac:(by eexists) ltac:(by eexists)
              eq_refl Hh ltac:(simpl; lia) Hcs Hf) as (Ha & Hc & l & Hl & Hsum).
  cbn [last_bytes_sent res_init] in Hc, Hsum. split_and!; [done..|]. exists l. split; [done|].
  rewrite Hsum, Hc. simpl. ring.
Qed.

(** C31: on a host without network interfaces [psutil.net_io_counters()]
    is [None] and [getattr(None, "bytes_sent")] raises in the first tick:
    the timer is removed, after the CPU, RAM and disk values of that tick
    were pushed, and the network history is left as it was; the page
    never updates again. *)
Theorem no_nic_stops_timer (st : ResState) (smp : ResSample) (l : list Q) :
  res_reachable (st, true) -> rs_sent smp = None -> metric_history st !! "RAM" = Some l ->
  snd (update_resources st smp) = false /\
  metric_history (fst (update_resources st smp)) !! "RAM" = Some (py_last 120 (l ++ [default 0%Q (rs_ram smp)])) /\
  metric_history (fst (update_resources st smp)) !! "Network Sent" = metric_history st !! "Network Sent".
Proof.
  intros Hr Hs Hl. pose proof (reachable_max_history _ Hr) as Hn. cbn [fst] in Hn.
  rewrite update_resources_ram with (l := l), Hn by done.
  unfold update_resources. rewrite Hs. cbn [net_speed fst snd metric_history set_views].
  split_and!; [done..|].
  destruct (net_key_other "Network Sent" (disk_root st) 0 ltac:(by left)) as (N1 & N2 & N3 & _).
  by rewrite !hist_push_other, push_cores_other, hist_push_other.
Qed.

(** C32: the top of the network chart ([max_v]) lies strictly above every
    value of both lines, so [min(v, max_v)] never clips a line, and at
    most one scale step above the largest value (or 0.01). *)
Theorem network_scale_covers (sent recv : list Q) :
  (forall v, v ∈ (sent ++ recv)%list -> v < snd (net_scale sent recv))%Q /\
  (snd (net_scale sent recv) <= Qmax (Qmax (q_max_or0 sent) (q_max_or0 recv)) (1 # 100) + fst (net_scale sent recv))%Q.
Proof.
  destruct (net_scale_spec sent recv) as (_ & Hlt & Hle). split; [|done].
  intros v Hv. eapply Qle_lt_trans; [|exact Hlt].
  eapply Qle_trans; [|apply Q.le_max_l]. apply elem_of_app in Hv as [Hv|Hv].
  - eapply Qle_trans; [apply q_max_or0_ge, Hv|apply Q.le_max_l].
  - eapply Qle_trans; [apply q_max_or0_ge, Hv|apply Q.le_max_r].
Qed.

(** A byte counter that goes back (an interface re-created, a counter
    reset) gives a negative speed, and the Network card draws it below
    its chart. *)
(** The core widgets of a machine with [n] logical CPUs occupy [n]
    distinct cells of the grid, in three columns and [ceil(n / 3)] rows,
    labelled "Core 1: 0.0%" to "Core n: 0.0%" until the first update. *)
Theorem core_grid_layout (n : nat) :
  NoDup (map core_grid_cell (seq 0 n)) /\
  Forall (fun c => (c.1 < 3 /\ c.2 < (n + 2) / 3)%nat) (map core_grid_cell (seq 0 n)) /\
  core_labels (res_init 0 0 n []) = map core_initial_label (seq 0 n).
Proof.
  split_and!; [|apply Forall_forall; intros c Hc|done].
  - apply NoDup_ListNoDup, Finite.Injective_map_NoDup; [exact core_grid_cell_inj | apply seq_NoDup].
  - apply list_elem_of_In, in_map_iff in Hc as (i & <- & Hi). apply in_seq in Hi.
    unfold core_grid_cell; cbn [fst snd]. split; [apply Nat.mod_upper_bound; lia|].
    apply Nat.div_lt_upper_bound; [lia|]. pose proof (Nat.div_mod (n + 2) 3). pose proof (Nat.mod_upper_bound (n + 2) 3). lia.
Qed.

Example counter_reset_below_chart :
  let st := fst (update_resources example_page example_reset) in
  map (fun p => Qle_bool (snd p) 45) (sparkline_draw st "Network Sent" 200 50) = [false].
Proof. vm_compute. reflexivity. Qed.

(** The network chart labels four of its five grid lines: the top line,
    the chart's maximum, has no label, although the comment of line 254
    says every line from the maximum down to 0 is labelled. *)
Example network_axis_labels_skip_top : network_axis_labels 1 = ["0.8"; "0.5"; "0.2"; "0.0"].
Proof. vm_compute. reflexivity. Qed.

(** ** Witnesses *)

Lemma history_window_bounded_witness :
  max_history (fst (update_resources example_page example_sample)) = 120 /\
  hist_bounded 120 (metric_history (fst (update_resources example_page example_sample))).
Proof. exact (history_window_bounded _ (res_reach_step _ example_sample (res_reach_init 1000 2000 2 ["/"]))). Defined.

Lemma ram_history_window_witness :
  let r := res_run example_page [example_sample; example_sample] in
  snd r = true /\ metric_history (fst r) !! "RAM" = Some (py_last 120 [(41 # 2)%Q; (41 # 2)%Q]).
Proof.
  exact (ram_history_window 1000 2000 2 ["/"] [example_sample; example_sample]
           ltac:(repeat constructor; eexists; reflexivity)).
Defined.

Lemma network_sent_total_witness :
  let r := res_run example_page [example_sample] in
  snd r = true /\ last_bytes_sent (fst r) = (1000 + 3 * 1048576)%Z /\
  exists l, metric_history (fst r) !! "Network Sent" = Some l /\
    (q_sum l * inject_Z 1048576 == inject_Z (1000 + 3 * 1048576 - 1000))%Q.
Proof.
  exact (network_sent_total 1000 2000 2 ["/"] [example_sample] [(1000 + 3 * 1048576)%Z] ltac:(simpl; lia)
           eq_refl ltac:(repeat constructor; eexists; reflexivity)).
Defined.

Lemma no_nic_stops_timer_witness :
  snd (update_resources example_page example_no_nic) = false /\
  metric_history (fst (update_resources example_page example_no_nic)) !! "RAM" = Some (py_last 120 [(41 # 2)%Q]) /\
  metric_history (fst (update_resources example_page example_no_nic)) !! "Network Sent" =
    metric_history example_page !! "Network Sent".
Proof.
  exact (no_nic_stops_timer example_page example_no_nic [] (res_reach_init 1000 2000 2 ["/"]) eq_refl
           ltac:(vm_compute; reflexivity)).
Defined.
