(* ===== verification/Storage.v ===== *)
(** * Storage: the storage page and its launcher threads

    src/pages/storage.py, [StoragePage].  The page has one status label.
    [__init__] schedules [_check_tool_availability] as a GLib idle
    callback, which looks the analyzer up with [which] ([baobab], then
    [gnome-disk-usage-analyzer]).  Each time the page is mapped (its tab
    shown) and a command was found, [_on_page_mapped] starts a thread
    that asks [pgrep -f] whether the analyzer runs and, if not, starts
    it with [Popen]; the thread reports through idle callbacks that set
    the label.

    The state keeps what the code shares between the main loop and the
    threads: the label, [analyzer_command], the GLib idle queue (oldest
    first), the live threads with their program counter, and the number
    of analyzer processes running.  A thread is two atomic steps, the
    [pgrep] check and the launch, so that the interleavings of two
    threads are explicit steps of [storage_step].  The [which], [pgrep]
    and [Popen] outcomes are inputs; [pgrep] is modelled as finding
    exactly the running analyzers when it works. *)

From stdpp Require Import base list.
From Stdlib Require Import String Lia.
From S2P Require Import Prelude PyStr.

Local Open Scope string_scope.

(** [ANALYZER_COMMANDS] (line 15). *)
Definition ANALYZER_COMMANDS : list string := ["baobab"; "gnome-disk-usage-analyzer"].

(** [analyzer_command]: [None] before the check, the command found, or
    [False] after a failed check. *)
Inductive AnalyzerCmd := CmdPending | CmdFound (c : string) | CmdMissing.

(** A callback in the GLib idle queue: the availability check, a
    [lambda: label.set_text(s)], or the lambda of line 128, whose [e] is
    unbound when it runs. *)
Inductive StorageCb := CbCheckTool | CbSetText (s : string) | CbNameError.

(** Where a launcher thread is: before [_is_analyzer_running], or past it
    and about to launch. *)
Inductive ThreadPc := AtCheck | AtLaunch.

Record StorageThread := mkThread { th_cmd : string; th_pc : ThreadPc }.

Record StorageState := mkStorage {
  sto_status : string;
  sto_cmd : AnalyzerCmd;
  sto_idle : list StorageCb;
  sto_threads : list StorageThread;
  sto_running : nat;
  sto_launches : nat
}.

(** What [subprocess.Popen([command])] does. *)
Inductive PopenOutcome := PopenOk | PopenNotFound | PopenError.

(** [__init__] (lines 17-51), with [running] analyzers already open. *)
Definition storage_init (running : nat) : StorageState :=
  mkStorage "Loading..." CmdPending [CbCheckTool] [] running 0.

Definition set_status (st : StorageState) (s : string) : StorageState :=
  mkStorage s (sto_cmd st) (sto_idle st) (sto_threads st) (sto_running st) (sto_launches st).

Definition schedule (st : StorageState) (cb : StorageCb) : StorageState :=
  mkStorage (sto_status st) (sto_cmd st) (sto_idle st ++ [cb])%list (sto_threads st) (sto_running st)
            (sto_launches st).

(** [_check_tool_availability] (lines 64-83): [which c] succeeds for the
    commands [which_ok] accepts. *)
Definition check_tool_availability (which_ok : string -> bool) (st : StorageState) : StorageState :=
  match List.find which_ok ANALYZER_COMMANDS with
  | Some c =>
      mkStorage ("Ready to check and launch '" ++ c ++ "'.") (CmdFound c) (sto_idle st) (sto_threads st)
                (sto_running st) (sto_launches st)
  | None =>
      mkStorage "Error: Disk Usage Analyzer (baobab) not found. Please ensure it is installed." CmdMissing
                (sto_idle st) (sto_threads st) (sto_running st) (sto_launches st)
  end.

(** [_on_page_mapped] (lines 53-61). *)
Definition on_page_mapped (st : StorageState) : StorageState :=
  match sto_cmd st with
  | CmdFound c =>
      mkStorage ("Checking if '" ++ c ++ "' is already open...") (sto_cmd st) (sto_idle st)
                (sto_threads st ++ [mkThread c AtCheck])%list (sto_running st) (sto_launches st)
  | _ => st
  end.

(** [_is_analyzer_running] (lines 85-99): [pgrep] finds a running
    analyzer, or raises and the answer is [False]. *)
Definition is_analyzer_running (pgrep_ok : bool) (st : StorageState) : bool :=
  pgrep_ok && (0 <? sto_running st)%nat.

Definition set_threads (st : StorageState) (ths : list StorageThread) : StorageState :=
  mkStorage (sto_status st) (sto_cmd st) (sto_idle st) ths (sto_running st) (sto_launches st).

(** [_run_tool_thread] (lines 114-128) for [command]. *)
Definition run_tool_thread (command : string) (o : PopenOutcome) (st : StorageState) : StorageState :=
  let st := schedule st (CbSetText ("Launching '" ++ command ++ "' in external window...")) in
  match o with
  | PopenOk =>
      let st := mkStorage (sto_status st) (sto_cmd st) (sto_idle st) (sto_threads st) (S (sto_running st))
                          (S (sto_launches st)) in
      schedule st (CbSetText "Opened in external application.")
  | PopenNotFound => schedule st (CbSetText ("Launch Failed: Command '" ++ command ++ "' not found."))
  | PopenError => schedule st CbNameError
  end.

(** One atomic step of the thread [i] of [_launch_or_update_thread]
    (lines 101-112). *)
Definition thread_step (i : nat) (pgrep_ok : bool) (o : PopenOutcome) (st : StorageState) : StorageState :=
  match sto_threads st !! i with
  | None => st
  | Some th =>
      let rest := delete i (sto_threads st) in
      match th_pc th with
      | AtCheck =>
          if is_analyzer_running pgrep_ok st
          then schedule (set_threads st rest) (CbSetText "Disk Analyzer is already open in external application.")
          else set_threads st (<[i := mkThread (th_cmd th) AtLaunch]> (sto_threads st))
      | AtLaunch => run_tool_thread (th_cmd th) o (set_threads st rest)
      end
  end.

(** The main loop runs the oldest idle callback; each one returns a false
    value (or raises), so it is removed. *)
Definition run_idle (which_ok : string -> bool) (st : StorageState) : StorageState :=
  match sto_idle st with
  | [] => st
  | cb :: rest =>
      let st := mkStorage (sto_status st) (sto_cmd st) rest (sto_threads st) (sto_running st) (sto_launches st) in
      match cb with
      | CbCheckTool => check_tool_availability which_ok st
      | CbSetText s => set_status st s
      | CbNameError => st
      end
  end.

Inductive StorageEvent :=
| SMap                                           (* the tab is shown *)
| SIdle (which_ok : string -> bool)              (* the main loop runs an idle callback *)
| SThread (i : nat) (pgrep_ok : bool) (o : PopenOutcome)  (* thread [i] takes a step *)
| SClose.                                        (* the user closes an analyzer window *)

Definition storage_step (st : StorageState) (ev : StorageEvent) : StorageState :=
  match ev with
  | SMap => on_page_mapped st
  | SIdle w => run_idle w st
  | SThread i p o => thread_step i p o st
  | SClose => mkStorage (sto_status st) (sto_cmd st) (sto_idle st) (sto_threads st) (pred (sto_running st))
                        (sto_launches st)
  end.

Definition storage_run (st : StorageState) (evs : list StorageEvent) : StorageState :=
  fold_left storage_step evs st.

(** Every interleaving of the events. *)
Inductive storage_reachable : StorageState -> Prop :=
| sto_reach_init r : storage_reachable (storage_init r)
| sto_reach_step st ev : storage_reachable st -> storage_reachable (storage_step st ev).

(** The schedules in which a thread finishes before the tab is shown
    again, and [pgrep] works. *)
Definition serial_event (st : StorageState) (ev : StorageEvent) : Prop :=
  match ev with
  | SMap => sto_threads st = []
  | SThread _ p _ => p = true
  | _ => True
  end.

Inductive serial_reachable : StorageState -> Prop :=
| ser_reach_init r : serial_reachable (storage_init r)
| ser_reach_step st ev : serial_reachable st -> serial_event st ev -> serial_reachable (storage_step st ev).

(** What the serial schedules keep: at most one thread, a thread past its
    check only while no analyzer runs, and at most one analyzer once the
    page has launched one. *)
Definition serial_inv (st : StorageState) : Prop :=
  (length (sto_threads st) <= 1)%nat /\
  (forall th, th ∈ sto_threads st -> th_pc th = AtLaunch -> sto_running st = 0) /\
  (sto_launches st = 0 \/ sto_running st <= 1)%nat.

(** A race of two launcher threads: the tab is shown twice before either
    thread has run, both [pgrep] checks see no analyzer, both launch. *)
Definition race_events : list StorageEvent :=
  [SIdle (fun _ => true); SMap; SMap; SThread 0 true PopenOk; SThread 1 true PopenOk;
   SThread 0 true PopenOk; SThread 0 true PopenOk].

(** ** Lemmas *)

Lemma run_idle_keeps (w : string -> bool) (st : StorageState) :
  sto_threads (run_idle w st) = sto_threads st /\ sto_running (run_idle w st) = sto_running st /\
  sto_launches (run_idle w st) = sto_launches st.
Proof.
  unfold run_idle, check_tool_availability, set_status. destruct (sto_idle st) as [|[] rest]; [done| |done..].
  by case_match.
Qed.

Lemma storage_run_reachable (st : StorageState) (evs : list StorageEvent) :
  storage_reachable st -> storage_reachable (storage_run st evs).
Proof.
  revert st. induction evs as [|ev evs IH]; intros st H; [done|]. apply IH. by constructor.
Qed.

Lemma serial_inv_init (r : nat) : serial_inv (storage_init r).
Proof. split_and!; [simpl; lia|by intros ? ?%not_elem_of_nil|by left]. Qed.

Lemma serial_inv_step (st : StorageState) (ev : StorageEvent) :
  serial_inv st -> serial_event st ev -> serial_inv (storage_step st ev).
Proof.
  intros Hinv Hev. pose proof Hinv as (Hlen & Hl & Hone). destruct ev as [|w|i p o|]; simpl in Hev |- *.
  - unfold on_page_mapped. case_match; [exact Hinv| |exact Hinv]. unfold serial_inv; simpl. rewrite Hev.
    split_and!; [simpl; lia| |done]. intros th [->|[]%not_elem_of_nil]%elem_of_cons. done.
  - destruct (run_idle_keeps w st) as (E1 & E2 & E3). unfold serial_inv. rewrite E1, E2, E3. done.
  - subst p. unfold thread_step. destruct (sto_threads st !! i) as [th|] eqn:Ei; [|done].
    assert (Hth : sto_threads st = [th] /\ i = 0).
    { destruct (sto_threads st) as [|t0 [|t1 ts]]; simpl in Hlen; [done| |lia].
      destruct i as [|i]; [by injection Ei as ->|by destruct i]. }
    destruct Hth as [Eth ->]. rewrite Eth. cbn [delete]. destruct (th_pc th) eqn:Epc.
    + unfold is_analyzer_running. destruct (0 <? sto_running st)%nat eqn:Er; cbn [andb].
      * unfold serial_inv; simpl. split_and!; [lia|by intros ? ?%not_elem_of_nil|done].
      * apply Nat.ltb_ge in Er. unfold serial_inv; simpl. split_and!; [done|intros; lia|right; lia].
    + assert (Hr : sto_running st = 0) by (apply (Hl th); [rewrite Eth; by left|done]).
      unfold run_tool_thread, schedule, set_threads, serial_inv; destruct o; simpl;
        (split_and!; [lia|by intros ? ?%not_elem_of_nil|right; lia]).
  - unfold serial_inv; simpl. split_and!; [done| |lia].
    intros th Hth Hpc. by rewrite (Hl th Hth Hpc).
Qed.

(** ** Properties of the storage page *)

(** C33: in the schedules where each launcher thread finishes before the
    tab is shown again and [pgrep] works, the page never starts an
    analyzer while one runs: once it has launched one, at most one
    analyzer runs. *)
Theorem serial_single_instance (st : StorageState) :
  serial_reachable st -> sto_launches st = 0 \/ (sto_running st <= 1)%nat.
Proof.
  intros H. enough (Hi : serial_inv st) by apply Hi.
  induction H; [apply serial_inv_init|by apply serial_inv_step].
Qed.

(** The class promises that only one instance runs, but the check
    and the launch are separate steps of each thread: showing the tab
    twice before the threads run makes both [pgrep] checks see no
    analyzer, and both threads launch one. *)
Example race_two_instances :
  storage_reachable (storage_run (storage_init 0) race_events) /\
  sto_running (storage_run (storage_init 0) race_events) = 2 /\
  sto_launches (storage_run (storage_init 0) race_events) = 2.
Proof. split; [apply storage_run_reachable; constructor|]. vm_compute. split; reflexivity. Qed.

(** ** Witnesses *)

Lemma serial_single_instance_witness :
  sto_launches (storage_step (storage_init 0) (SIdle (fun _ => true))) = 0 \/
  (sto_running (storage_step (storage_init 0) (SIdle (fun _ => true))) <= 1)%nat.
Proof. exact (serial_single_instance _ (ser_reach_step _ (SIdle (fun _ => true)) (ser_reach_init 0) I)). Defined.
