(* ===== verification/App.v ===== *)
(** * App: the application shell, the sidebar and the page stack

    src/app.py, [SystemManager.on_activate] (lines 53-145), and
    src/ui/sidebar.py, [create_sidebar_button].  The window holds a
    sidebar of buttons and a [Gtk.Stack] of the seven pages, added in the
    order of the [self.pages] dict; each button's [clicked] handler calls
    [stack.set_visible_child_name(name)].  The stack shows its first
    child, the packages page, when the window is presented; making
    another child visible maps it, which is when the storage page runs
    [_on_page_mapped] ([Storage]).  The key controller of the window
    drives the shift state of [Modifier].

    [AppState] composes the three pieces of state the shell connects: the
    visible page, the storage page and the shift state.  The other pages
    do not react to being shown. *)

From stdpp Require Import base list strings.
From Stdlib Require Import String Ascii ZArith Lia.
From S2P Require Import Prelude PyStr Modifier Storage.

Local Open Scope string_scope.

(** The keys of [self.pages] (lines 84-92), in the order the stack gets
    them (lines 95-96). *)
Definition page_names : list string :=
  ["packages"; "backups"; "resources"; "processes"; "storage"; "repositories"; "services"].

(** The children of the stack: name and title ([name.capitalize()]). *)
Definition stack_children : list (string * string) := map (fun n => (n, py_capitalize n)) page_names.

Record SidebarItem := mkItem { item_title : string; item_name : string; item_icon : string }.

(** [sidebar_items_top] and [sidebar_items_bottom] (lines 99-111). *)
Definition sidebar_items_top : list SidebarItem :=
  [mkItem "Packages" "packages" "package-x-generic-symbolic";
   mkItem "Backups" "backups" "backups-app-symbolic";
   mkItem "Resources" "resources" "gnome-system-monitor-symbolic";
   mkItem "Processes" "processes" "format-unordered-list-symbolic";
   mkItem "Storage" "storage" "drive-harddisk-symbolic"].
Definition sidebar_items_bottom : list SidebarItem :=
  [mkItem "Repositories" "repositories" "network-server-symbolic";
   mkItem "Services" "services" "org.gnome.Settings-online-accounts-symbolic"].

(** What the sidebar box holds, top to bottom (lines 113-142). *)
Inductive SidebarEntry := SButton (it : SidebarItem) | SSeparator | SHeader (text : string).

Definition sidebar_layout : list SidebarEntry :=
  (map SButton sidebar_items_top ++ [SSeparator; SHeader "Advanced"] ++ map SButton sidebar_items_bottom)%list.

(** The items of the two loops (lines 114-116 and 140-142), in the order
    their buttons are appended. *)
Definition sidebar_buttons : list SidebarItem := (sidebar_items_top ++ sidebar_items_bottom)%list.

(** What a sidebar button shows before its title. *)
Inductive SidebarIcon := IconLabel (text : string) | IconImage (icon_name : string).

(** The test of sidebar.py line 9 on a Latin-1 string.
    [icon_name[0] in "\U0001F300-\U0001F6FF"] is a substring test on
    that three-character string, not a range: a Latin-1 character passes
    it only when it is "-".  [encode('utf-8').startswith(b'\xf0')] and
    [ord(ch) > 10000] hold of no Latin-1 character. *)
Definition is_text_icon (icon_name : string) : bool :=
  match icon_name with
  | EmptyString => false
  | String c _ => (1 <? String.length icon_name)%nat && Ascii.eqb c "-"
  end.

(** [create_sidebar_button] (sidebar.py lines 3-22): the icon or label,
    the title, and the page its [clicked] handler shows.
    [Gtk.Image.new_from_icon_name] does not raise on a string, so the
    ["applications-system"] fallback of line 16 is never used. *)
Record SidebarButton := mkSidebarButton { sb_icon : SidebarIcon; sb_title : string; sb_target : string }.

Definition create_sidebar_button (it : SidebarItem) : SidebarButton :=
  mkSidebarButton (if is_text_icon (item_icon it) then IconLabel (item_icon it) else IconImage (item_icon it))
                  (item_title it) (item_name it).

(** Lines 114-116 and 140-142: [create_sidebar_button(title, name, icon,
    self.stack)] for each item, in the order the buttons are appended to
    the sidebar box. *)
Definition sidebar_widgets : list SidebarButton :=
  (map create_sidebar_button sidebar_items_top ++ map create_sidebar_button sidebar_items_bottom)%list.

Record AppState := mkApp {
  visible : string;
  app_storage : StorageState;
  app_shift : ShiftState
}.

(** The window as presented (lines 53-145): the first page visible, the
    storage page as its [__init__] leaves it, no shift key held. *)
Definition app_init (running : nat) : AppState := mkApp "packages" (storage_init running) shift_init.

(** [stack.set_visible_child_name(name)]: a name that is not a child, or
    the child already shown, changes nothing; otherwise the child is
    shown and mapped. *)
Definition show_page (st : AppState) (name : string) : AppState :=
  if String.eqb name (visible st) || negb (existsb (String.eqb name) page_names) then st
  else mkApp name (if String.eqb name "storage" then on_page_mapped (app_storage st) else app_storage st)
             (app_shift st).

Inductive AppEvent :=
| AClick (k : nat)            (* the [k]-th sidebar button is clicked *)
| AKey (e : KeyEvent)         (* the window's key controller *)
| AStorage (ev : StorageEvent).  (* the storage page's main loop and threads *)

(** A click runs the handler sidebar.py line 21 connected to the
    [k]-th button, [stack.set_visible_child_name(stack_name)]; the storage
    page's own steps, except mapping, which only showing it does. *)
Definition app_step (st : AppState) (ev : AppEvent) : AppState :=
  match ev with
  | AClick k => match sidebar_widgets !! k with Some b => show_page st (sb_target b) | None => st end
  | AKey e => mkApp (visible st) (app_storage st) (key_step (app_shift st) e)
  | AStorage SMap => st
  | AStorage ev => mkApp (visible st) (storage_step (app_storage st) ev) (app_shift st)
  end.

Definition app_run (st : AppState) (evs : list AppEvent) : AppState := fold_left app_step evs st.

Inductive app_reachable : AppState -> Prop :=
| app_reach_init r : app_reachable (app_init r)
| app_reach_step st ev : app_reachable st -> app_reachable (app_step st ev).

(** Storage, Packages, Storage within a moment: two launcher threads
    started by the sidebar alone, which then both pass their check. *)
Definition app_race_events : list AppEvent :=
  [AStorage (SIdle (fun _ => true)); AClick 4; AClick 0; AClick 4;
   AStorage (SThread 0 true PopenOk); AStorage (SThread 1 true PopenOk);
   AStorage (SThread 0 true PopenOk); AStorage (SThread 0 true PopenOk)].

(** ** Lemmas *)

Lemma app_run_reachable (st : AppState) (evs : list AppEvent) :
  app_reachable st -> app_reachable (app_run st evs).
Proof. revert st. induction evs as [|ev evs IH]; intros st H; [done|]. apply IH. by constructor. Qed.

Lemma sidebar_targets_pages (b : SidebarButton) : b ∈ sidebar_widgets -> sb_target b ∈ page_names.
Proof.
  assert (H : Forall (fun b => sb_target b ∈ page_names) sidebar_widgets) by vm_decide.
  rewrite Forall_forall in H. apply H.
Qed.

(** ** Properties of the shell *)

(** The sidebar has one button per page of the stack, in the order
    of the stack, each titled as the stack titles its page
    ([name.capitalize()]), with the "Advanced" header before the last
    two. *)
Example sidebar_matches_stack :
  map item_name sidebar_buttons = page_names /\ NoDup page_names /\
  map item_title sidebar_buttons = map snd stack_children /\
  sidebar_layout !! 5 = Some SSeparator /\ sidebar_layout !! 6 = Some (SHeader "Advanced").
Proof. split_and!; [reflexivity|vm_decide|vm_compute; reflexivity|reflexivity|reflexivity]. Qed.

(** A click on a sidebar button shows the page its handler names,
    whatever was shown; it maps the storage page, and so runs its
    [_on_page_mapped], exactly when it switches to Storage from another
    page; the shift state is untouched. *)
Lemma sidebar_click_spec (st : AppState) (k : nat) (b : SidebarButton) :
  sidebar_widgets !! k = Some b ->
  let st' := app_step st (AClick k) in
  visible st' = sb_target b /\
  app_storage st' = (if String.eqb (sb_target b) "storage" && negb (String.eqb (visible st) "storage")
                     then on_page_mapped (app_storage st) else app_storage st) /\
  app_shift st' = app_shift st.
Proof.
  intros Hk. cbn [app_step]. rewrite Hk. unfold show_page.
  assert (Hin : existsb (String.eqb (sb_target b)) page_names = true).
  { apply existsb_exists. exists (sb_target b). rewrite String.eqb_refl. split; [|done].
    apply list_elem_of_In, sidebar_targets_pages. by eapply list_elem_of_lookup_2. }
  rewrite Hin. destruct (String.eqb_spec (sb_target b) (visible st)) as [E|E]; simpl.
  - rewrite E. destruct (String.eqb (visible st) "storage"); done.
  - destruct (String.eqb_spec (sb_target b) "storage") as [Es|]; [|done].
    destruct (String.eqb_spec (visible st) "storage"); [congruence|done].
Qed.

(** The storage page's promise of a single analyzer fails through
    the sidebar alone: Storage, Packages, Storage before the first
    thread runs starts two launcher threads, both checks see no
    analyzer, and two analyzers are started. *)
Example app_race_two_instances :
  app_reachable (app_run (app_init 0) app_race_events) /\
  sto_running (app_storage (app_run (app_init 0) app_race_events)) = 2 /\
  visible (app_run (app_init 0) app_race_events) = "storage".
Proof. split; [apply app_run_reachable; constructor|]. vm_compute. split; reflexivity. Qed.

(** The seven sidebar buttons show their icons as images, and each
    clicks to its own page; the emoji test of line 9 would instead show
    as text any icon name of two or more characters starting with "-",
    the middle character of the string meant as a range. *)
Example sidebar_buttons_images :
  sidebar_widgets =
    map (fun it => mkSidebarButton (IconImage (item_icon it)) (item_title it) (item_name it)) sidebar_buttons /\
  sb_icon (create_sidebar_button (mkItem "Odd" "odd" "-x")) = IconLabel "-x".
Proof. split; reflexivity. Qed.

