(* ===== verification/Activation.v ===== *)
(** * Activation: the main loop [on_activate] leaves, and the pages' timers on it

    src/app.py, [SystemManager.on_activate] (lines 84-92), builds the
    seven pages in the order of [self.pages].  Four constructors attach
    work to the GLib main loop ([MainLoop]): the resources page a
    one-second timeout (resources.py line 102), the process page a
    two-second one (processes.py line 82), the storage, repositories and
    services pages an idle loader each (storage.py line 48,
    repositories.py line 48, services.py line 78).  main.py then calls
    [app.run], which iterates the loop.

    The callbacks run the pages' own models: [Resources.update_resources]
    with the readings of the moment, [refresh_process_list] with its
    exception path ([ProcTimer.proc_run]) with the process sample of the
    moment, and the three loaders, which start their work and return
    [False] (what that work does is modelled in Storage.v,
    Repositories.v and Services.v).  [ActState] holds the two pages'
    states and the trace of the callbacks dispatched.

    Once the loaders are gone, nothing is ready between two timer due
    times, so [app.run] iterates once a second ([activation_run]).

    The theorem [activation_schedule]: on a host whose readings have
    their network counters and whose process samples fit a [gint], for
    any number of two-second periods the loaders run once, in page
    order, then every period runs the resources tick, the resources tick
    again and the process tick; both timers stay attached; the resources
    page's state is [res_run] over every reading, and the process store
    the reconciliation of the samples of the even seconds. *)

From stdpp Require Import base list gmap strings.
From Stdlib Require Import String ZArith QArith_base Lia.
From S2P Require Import Prelude MainLoop Rows Reconcile Views ProcTimer Resources App.

Local Open Scope string_scope.

(** The callbacks the pages' constructors attach. *)
Inductive AppCb := ResourcesTick | ProcessesTick | StorageCheck | ReposLoad | ServicesLoad.

(** What each page's [__init__] attaches: resources.py line 102
    ([timeout_add_seconds(1, ...)]), processes.py line 82
    ([timeout_add_seconds(2, ...)]), storage.py line 48,
    repositories.py line 48 and services.py line 78 ([idle_add]); the
    package and backup pages attach nothing. *)
Definition page_sources (name : string) : list (Timing * AppCb) :=
  if String.eqb name "resources" then [(Timeout 1000, ResourcesTick)]
  else if String.eqb name "processes" then [(Timeout 2000, ProcessesTick)]
  else if String.eqb name "storage" then [(Idle, StorageCheck)]
  else if String.eqb name "repositories" then [(Idle, ReposLoad)]
  else if String.eqb name "services" then [(Idle, ServicesLoad)]
  else [].

(** The main loop when [on_activate] (lines 84-92) has built the pages
    in the order of [self.pages], at time [t]. *)
Definition activation_loop (t : nat) : Loop AppCb :=
  add_sources (mkLoop t 0 []) (List.concat (map page_sources page_names)).

(** What [psutil] gives at one iteration: the resources page's readings
    and the process sample. *)
Record Readings := mkReadings { rd_res : ResSample; rd_procs : list ProcSample }.

(** The two pages' states and the callbacks dispatched so far. *)
Record ActState := mkAct { act_trace : list AppCb; act_res : ResState; act_procs : list ProcRow }.

(** [update_resources] (resources.py lines 362-432) as the one-second
    timer's callback: [True] keeps it, an exception removes it. *)
Definition resources_tick (rd : Readings) (st : ActState) : CbResult ActState AppCb :=
  let (res, keep) := update_resources (act_res st) (rd_res rd) in
  mkResult (mkAct (act_trace st ++ [ResourcesTick]) res (act_procs st)) keep [].

(** [refresh_process_list] (processes.py lines 111-156) as the
    two-second timer's callback. *)
Definition processes_tick (rd : Readings) (st : ActState) : CbResult ActState AppCb :=
  let r := proc_run (rd_procs rd) ProcRefresh (act_procs st) in
  mkResult (mkAct (act_trace st ++ [ProcessesTick]) (act_res st) (cb_state r)) (cb_keep r) [].

(** An idle loader: [_load_services] (services.py lines 80-84) starts its
    thread and returns [False], as [_check_tool_availability] does
    (storage.py lines 72 and 83) and [_load_all_repositories]
    (repositories.py line 132). *)
Definition loader_done (cb : AppCb) (st : ActState) : CbResult ActState AppCb :=
  mkResult (mkAct (act_trace st ++ [cb]) (act_res st) (act_procs st)) false [].

(** The callbacks as GLib dispatches them. *)
Definition app_cb_run (rd : Readings) (cb : AppCb) (st : ActState) : CbResult ActState AppCb :=
  match cb with
  | ResourcesTick => resources_tick rd st
  | ProcessesTick => processes_tick rd st
  | _ => loader_done cb st
  end.

(** [app.run()] (main.py): the iteration at activation, then one
    iteration a second, each with the readings of its moment. *)
Definition activation_run (st : ActState) (t : nat) (rd0 : Readings) (rds : list Readings)
  : ActState * Loop AppCb :=
  fold_left (fun w rd => iterate app_cb_run rd (w.1, advance 1000 w.2)) rds
            (iterate app_cb_run rd0 (st, activation_loop t)).

(** The two timers, due at [due]. *)
Definition srcR (due : nat) : Source AppCb := mkSource 0 (Timeout 1000) ResourcesTick due.
Definition srcP (due : nat) : Source AppCb := mkSource 1 (Timeout 2000) ProcessesTick due.

(** The loop at an even second [t] after activation: both timers
    attached, due one and two seconds later. *)
Definition steady_loop (t : nat) : Loop AppCb := mkLoop t 5 [srcR (t + 1000); srcP (t + 2000)].

(** Readings whose network counters are there. *)
Definition has_counters (smp : ResSample) : Prop := is_Some (rs_sent smp) /\ is_Some (rs_recv smp).

#[export] Instance has_counters_dec (smp : ResSample) : Decision (has_counters smp).
Proof. unfold has_counters. apply _. Defined.

(** The readings of the seconds of [ps], two per period. *)
Definition period_readings (ps : list (Readings * Readings)) : list Readings :=
  List.concat (map (fun p => [p.1; p.2]) ps).

(** A period whose readings have their counters and whose even-second
    sample fits a [gint]. *)
Definition period_ok (p : Readings * Readings) : Prop :=
  has_counters (rd_res p.1) /\ has_counters (rd_res p.2) /\
  Forall (fun s => sample_fits s = true) (rd_procs p.2).

#[export] Instance period_ok_dec (p : Readings * Readings) : Decision (period_ok p).
Proof. unfold period_ok. apply _. Defined.

(** A resources page whose network maxima are set, as [__init__] sets them. *)
Definition net_maxima (res : ResState) : Prop :=
  is_Some (max_for_metric res !! "Network Sent") /\ is_Some (max_for_metric res !! "Network Recv").

(** One second's readings: the resources page's example tick and a
    one-process sample. *)
Definition example_readings : Readings :=
  mkReadings Resources.example_sample [Reconcile.example_sample 1].

(** ** Lemmas *)

(** The iteration at activation runs the three loaders, in page order,
    and leaves the two timers. *)
Lemma activation_first (rd : Readings) (st : ActState) (t : nat) :
  iterate app_cb_run rd (st, activation_loop t) =
  (mkAct (act_trace st ++ [StorageCheck; ReposLoad; ServicesLoad]) (act_res st) (act_procs st), steady_loop t).
Proof.
  change (activation_loop t) with
    (mkLoop t 5 [srcR (t + 1000); srcP (t + 2000);
                 mkSource 2 Idle StorageCheck t; mkSource 3 Idle ReposLoad t; mkSource 4 Idle ServicesLoad t]).
  destruct st as [tr res procs]. unfold iterate, batch, is_ready, srcR, srcP. leb_cases.
  unfold dispatch. simpl. by rewrite <- !app_assoc.
Qed.

(** The odd second of a period: the resources tick alone. *)
Lemma second_odd (rd : Readings) (tr : list AppCb) (res res1 : ResState) (procs : list ProcRow) (t : nat) :
  update_resources res (rd_res rd) = (res1, true) ->
  iterate app_cb_run rd (mkAct tr res procs, advance 1000 (steady_loop t)) =
  (mkAct (tr ++ [ResourcesTick]) res1 procs, mkLoop (t + 1000) 5 [srcR (t + 2000); srcP (t + 2000)]).
Proof.
  intros Hr. unfold iterate, batch, is_ready, steady_loop, advance, srcR, srcP. leb_cases.
  unfold dispatch. simpl. unfold resources_tick. simpl. rewrite Hr. unfold after_dispatch. simpl.
  by replace (t + 1000 + 1000)%nat with (t + 2000)%nat by lia.
Qed.

(** The even second of a period: the resources tick, then the process
    tick, in one iteration. *)
Lemma second_even (rd : Readings) (tr : list AppCb) (res res1 : ResState) (procs : list ProcRow) (t : nat) :
  update_resources res (rd_res rd) = (res1, true) ->
  Forall (fun s => sample_fits s = true) (rd_procs rd) ->
  iterate app_cb_run rd (mkAct tr res procs, advance 1000 (mkLoop (t + 1000) 5 [srcR (t + 2000); srcP (t + 2000)])) =
  (mkAct (tr ++ [ResourcesTick; ProcessesTick]) res1 (refresh_process_list procs (rd_procs rd)),
   steady_loop (t + 2000)).
Proof.
  intros Hr Hs. unfold iterate, batch, is_ready, steady_loop, advance, srcR, srcP. leb_cases.
  unfold dispatch. simpl. unfold resources_tick. simpl. rewrite Hr. unfold after_dispatch. simpl.
  unfold processes_tick, proc_run. rewrite refresh_checked_fits by done. simpl.
  rewrite <- app_assoc. by replace (t + 1000 + 1000)%nat with (t + 2000)%nat by lia.
Qed.

Lemma tick_alive (res : ResState) (smp : ResSample) :
  net_maxima res -> has_counters smp -> update_resources res smp = (fst (update_resources res smp), true).
Proof.
  intros [Hs Hr] [Hc Hd]. pose proof (update_resources_alive res smp Hs Hr Hc Hd) as H.
  destruct (update_resources res smp); simpl in *. by subst.
Qed.

Lemma net_maxima_step (res : ResState) (smp : ResSample) :
  net_maxima res -> net_maxima (fst (update_resources res smp)).
Proof. intros [Hs Hr]. split; by apply update_resources_max_keys. Qed.

(** Any number of periods from the loop with both timers attached. *)
Lemma activation_periods (ps : list (Readings * Readings)) (tr : list AppCb) (res : ResState)
      (procs : list ProcRow) (t : nat) :
  net_maxima res -> Forall period_ok ps ->
  let w := fold_left (fun w rd => iterate app_cb_run rd (w.1, advance 1000 w.2)) (period_readings ps)
                     (mkAct tr res procs, steady_loop t) in
  act_trace w.1 = (tr ++ List.concat (repeat [ResourcesTick; ResourcesTick; ProcessesTick] (length ps)))%list /\
  res_run res (map rd_res (period_readings ps)) = (act_res w.1, true) /\
  act_procs w.1 = fold_left refresh_process_list (map (fun p => rd_procs p.2) ps) procs /\
  w.2 = steady_loop (t + 2000 * length ps).
Proof.
  revert tr res procs t. induction ps as [|[rd1 rd2] ps IH]; intros tr res procs t Hres Hps; cbn zeta.
  - cbn. by rewrite ?app_nil_r, ?Nat.add_0_r.
  - apply Forall_cons in Hps as [[Hc1 [Hc2 Hfit]] Hps]. cbn [fst snd] in *.
    pose proof (tick_alive res _ Hres Hc1) as E1.
    pose proof (net_maxima_step res (rd_res rd1) Hres) as Hm1.
    pose proof (tick_alive _ _ Hm1 Hc2) as E2.
    set (res1 := fst (update_resources res (rd_res rd1))) in *.
    set (res2 := fst (update_resources res1 (rd_res rd2))) in *.
    unfold period_readings. cbn [map List.concat]. rewrite fold_left_app, map_app. cbn [fold_left fst snd].
    rewrite (second_odd rd1 tr res res1 procs t E1). cbn [fst snd].
    rewrite (second_even rd2 _ res1 res2 procs t E2 Hfit). fold (period_readings ps).
    destruct (IH ((tr ++ [ResourcesTick]) ++ [ResourcesTick; ProcessesTick])%list res2
                 (refresh_process_list procs (rd_procs rd2)) (t + 2000)%nat (net_maxima_step _ _ Hm1) Hps)
      as (H1 & H2 & H3 & H4).
    split_and!.
    + rewrite H1. cbn [length repeat List.concat]. by rewrite <- !app_assoc.
    + cbn [map app res_run]. rewrite E1. cbn [res_run]. rewrite E2. exact H2.
    + exact H3.
    + rewrite H4. f_equal. cbn [length]. lia.
Qed.

(** ** Theorems *)

(** C13: the pages' work on the main loop after activation, and its
    composition with the pages' models.  From the pages as their
    constructors leave them (the resources page's [__init__] state, an
    empty process store) and the loop [on_activate] leaves at time [t],
    run by [app.run] for any number [n] of two-second periods whose
    readings have their network counters and whose process samples fit a
    [gint]: the three loaders run once, first, in page order (storage,
    repositories, services); every period then runs the resources tick
    (after one second), the resources tick and the process tick (after
    two, in that order); both timers are still attached, due one and two
    seconds after [t + 2000 n]; the resources page's state is [res_run]
    over every second's readings, with its timer kept, and the process
    store the reconciliation of the samples of the even seconds. *)
Theorem activation_schedule (t : nat) (sent recv : Z) (cpus : nat) (mounts : list string)
    (rd0 : Readings) (ps : list (Readings * Readings)) :
  Forall period_ok ps ->
  let w := activation_run (mkAct [] (res_init sent recv cpus mounts) []) t rd0 (period_readings ps) in
  act_trace w.1 = ([StorageCheck; ReposLoad; ServicesLoad] ++
                   List.concat (repeat [ResourcesTick; ResourcesTick; ProcessesTick] (length ps)))%list /\
  res_run (res_init sent recv cpus mounts) (map rd_res (period_readings ps)) = (act_res w.1, true) /\
  act_procs w.1 = fold_left refresh_process_list (map (fun p => rd_procs p.2) ps) [] /\
  sources w.2 = [srcR (t + 2000 * length ps + 1000); srcP (t + 2000 * length ps + 2000)].
Proof.
  intros Hps. cbn zeta. unfold activation_run. rewrite activation_first. cbn [act_trace act_res act_procs app].
  assert (Hm : net_maxima (res_init sent recv cpus mounts)).
  { split; eexists; apply (res_init_net sent recv cpus mounts); [left|right]; reflexivity. }
  destruct (activation_periods ps [StorageCheck; ReposLoad; ServicesLoad] _ [] t Hm Hps)
    as (H1 & H2 & H3 & H4). cbn zeta in *.
  split_and!; [exact H1 | exact H2 | exact H3 | by rewrite H4].
Qed.

(** ** Witnesses *)

(** C13 witness: one period of example readings. *)
Lemma activation_schedule_witness :
  Forall period_ok [(example_readings, example_readings)] /\
  act_trace (activation_run (mkAct [] (res_init 1000 2000 2 ["/"]) []) 0 example_readings
               (period_readings [(example_readings, example_readings)])).1 =
    ([StorageCheck; ReposLoad; ServicesLoad] ++
     List.concat (repeat [ResourcesTick; ResourcesTick; ProcessesTick] 1))%list.
Proof.
  split; [vm_decide|].
  exact (proj1 (activation_schedule 0 1000 2000 2 ["/"] example_readings
                  [(example_readings, example_readings)] ltac:(vm_decide))).
Defined.
